(** * Surveillance-report extraction and aggregation: a verified model

    A shallow embedding of the extraction-and-aggregation pipeline of the
    repository ([edengue_import.py], [cleaning_data/edengue_processing.py],
    [cleaning_data/fill_edengue_from_dmoss.py]) together with the properties
    its specification states about it.

    Python [str] values are sequences of Unicode code points; the character
    properties the scripts consult through [unicodedata], [str.upper],
    [str.strip], [str.isdigit] and the [re] classes [\s] and [\d] are the
    tables of the Unicode Character Database 14.0.0, the version bundled
    with CPython 3.11.  Floating-point cells are IEEE 754 binary64 values
    ([SpecFloat.spec_float]). *)

From Stdlib Require Import NArith ZArith List Bool Ascii String FMapPositive Lia Sorted DecimalN.
From Stdlib Require Import Floats.SpecFloat.
From stdpp Require Import gmap.
Import ListNotations.

Local Open Scope N_scope.

(** ** Unicode Character Database 14.0.0 *)

Module UCD.

(** [canon_table]: the canonical decomposition of every code point that has
    one, fully expanded ([unicodedata.normalize("NFD", c)] for the single
    character [c]); Hangul syllables are decomposed arithmetically below. *)

Definition canon_table_0 : list (N * list N) :=
 [
  (0xC0, [0x41; 0x300]); (0xC1, [0x41; 0x301]); (0xC2, [0x41; 0x302]); (0xC3, [0x41; 0x303]);
  (0xC4, [0x41; 0x308]); (0xC5, [0x41; 0x30A]); (0xC7, [0x43; 0x327]); (0xC8, [0x45; 0x300]);
  (0xC9, [0x45; 0x301]); (0xCA, [0x45; 0x302]); (0xCB, [0x45; 0x308]); (0xCC, [0x49; 0x300]);
  (0xCD, [0x49; 0x301]); (0xCE, [0x49; 0x302]); (0xCF, [0x49; 0x308]); (0xD1, [0x4E; 0x303]);
  (0xD2, [0x4F; 0x300]); (0xD3, [0x4F; 0x301]); (0xD4, [0x4F; 0x302]); (0xD5, [0x4F; 0x303]);
  (0xD6, [0x4F; 0x308]); (0xD9, [0x55; 0x300]); (0xDA, [0x55; 0x301]); (0xDB, [0x55; 0x302]);
  (0xDC, [0x55; 0x308]); (0xDD, [0x59; 0x301]); (0xE0, [0x61; 0x300]); (0xE1, [0x61; 0x301]);
  (0xE2, [0x61; 0x302]); (0xE3, [0x61; 0x303]); (0xE4, [0x61; 0x308]); (0xE5, [0x61; 0x30A]);
  (0xE7, [0x63; 0x327]); (0xE8, [0x65; 0x300]); (0xE9, [0x65; 0x301]); (0xEA, [0x65; 0x302]);
  (0xEB, [0x65; 0x308]); (0xEC, [0x69; 0x300]); (0xED, [0x69; 0x301]); (0xEE, [0x69; 0x302]);
  (0xEF, [0x69; 0x308]); (0xF1, [0x6E; 0x303]); (0xF2, [0x6F; 0x300]); (0xF3, [0x6F; 0x301]);
  (0xF4, [0x6F; 0x302]); (0xF5, [0x6F; 0x303]); (0xF6, [0x6F; 0x308]); (0xF9, [0x75; 0x300]);
  (0xFA, [0x75; 0x301]); (0xFB, [0x75; 0x302]); (0xFC, [0x75; 0x308]); (0xFD, [0x79; 0x301]);
  (0xFF, [0x79; 0x308]); (0x100, [0x41; 0x304]); (0x101, [0x61; 0x304]); (0x102, [0x41; 0x306]);
  (0x103, [0x61; 0x306]); (0x104, [0x41; 0x328]); (0x105, [0x61; 0x328]); (0x106, [0x43; 0x301]);
  (0x107, [0x63; 0x301]); (0x108, [0x43; 0x302]); (0x109, [0x63; 0x302]); (0x10A, [0x43; 0x307]);
  (0x10B, [0x63; 0x307]); (0x10C, [0x43; 0x30C]); (0x10D, [0x63; 0x30C]); (0x10E, [0x44; 0x30C]);
  (0x10F, [0x64; 0x30C]); (0x112, [0x45; 0x304]); (0x113, [0x65; 0x304]); (0x114, [0x45; 0x306]);
  (0x115, [0x65; 0x306]); (0x116, [0x45; 0x307]); (0x117, [0x65; 0x307]); (0x118, [0x45; 0x328]);
  (0x119, [0x65; 0x328]); (0x11A, [0x45; 0x30C]); (0x11B, [0x65; 0x30C]); (0x11C, [0x47; 0x302]);
  (0x11D, [0x67; 0x302]); (0x11E, [0x47; 0x306]); (0x11F, [0x67; 0x306]); (0x120, [0x47; 0x307]);
  (0x121, [0x67; 0x307]); (0x122, [0x47; 0x327]); (0x123, [0x67; 0x327]); (0x124, [0x48; 0x302]);
  (0x125, [0x68; 0x302]); (0x128, [0x49; 0x303]); (0x129, [0x69; 0x303]); (0x12A, [0x49; 0x304]);
  (0x12B, [0x69; 0x304]); (0x12C, [0x49; 0x306]); (0x12D, [0x69; 0x306]); (0x12E, [0x49; 0x328]);
  (0x12F, [0x69; 0x328]); (0x130, [0x49; 0x307]); (0x134, [0x4A; 0x302]); (0x135, [0x6A; 0x302]);
  (0x136, [0x4B; 0x327]); (0x137, [0x6B; 0x327]); (0x139, [0x4C; 0x301]); (0x13A, [0x6C; 0x301]);
  (0x13B, [0x4C; 0x327]); (0x13C, [0x6C; 0x327]); (0x13D, [0x4C; 0x30C]); (0x13E, [0x6C; 0x30C]);
  (0x143, [0x4E; 0x301]); (0x144, [0x6E; 0x301]); (0x145, [0x4E; 0x327]); (0x146, [0x6E; 0x327]);
  (0x147, [0x4E; 0x30C]); (0x148, [0x6E; 0x30C]); (0x14C, [0x4F; 0x304]); (0x14D, [0x6F; 0x304]);
  (0x14E, [0x4F; 0x306]); (0x14F, [0x6F; 0x306]); (0x150, [0x4F; 0x30B]); (0x151, [0x6F; 0x30B]);
  (0x154, [0x52; 0x301]); (0x155, [0x72; 0x301]); (0x156, [0x52; 0x327]); (0x157, [0x72; 0x327]);
  (0x158, [0x52; 0x30C]); (0x159, [0x72; 0x30C]); (0x15A, [0x53; 0x301]); (0x15B, [0x73; 0x301]);
  (0x15C, [0x53; 0x302]); (0x15D, [0x73; 0x302]); (0x15E, [0x53; 0x327]); (0x15F, [0x73; 0x327]);
  (0x160, [0x53; 0x30C]); (0x161, [0x73; 0x30C]); (0x162, [0x54; 0x327]); (0x163, [0x74; 0x327]);
  (0x164, [0x54; 0x30C]); (0x165, [0x74; 0x30C]); (0x168, [0x55; 0x303]); (0x169, [0x75; 0x303]);
  (0x16A, [0x55; 0x304]); (0x16B, [0x75; 0x304]); (0x16C, [0x55; 0x306]); (0x16D, [0x75; 0x306]);
  (0x16E, [0x55; 0x30A]); (0x16F, [0x75; 0x30A]); (0x170, [0x55; 0x30B]); (0x171, [0x75; 0x30B]);
  (0x172, [0x55; 0x328]); (0x173, [0x75; 0x328]); (0x174, [0x57; 0x302]); (0x175, [0x77; 0x302]);
  (0x176, [0x59; 0x302]); (0x177, [0x79; 0x302]); (0x178, [0x59; 0x308]); (0x179, [0x5A; 0x301]);
  (0x17A, [0x7A; 0x301]); (0x17B, [0x5A; 0x307]); (0x17C, [0x7A; 0x307]); (0x17D, [0x5A; 0x30C]);
  (0x17E, [0x7A; 0x30C]); (0x1A0, [0x4F; 0x31B]); (0x1A1, [0x6F; 0x31B]); (0x1AF, [0x55; 0x31B]);
  (0x1B0, [0x75; 0x31B]); (0x1CD, [0x41; 0x30C]); (0x1CE, [0x61; 0x30C]); (0x1CF, [0x49; 0x30C]);
  (0x1D0, [0x69; 0x30C]); (0x1D1, [0x4F; 0x30C]); (0x1D2, [0x6F; 0x30C]); (0x1D3, [0x55; 0x30C]);
  (0x1D4, [0x75; 0x30C]); (0x1D5, [0x55; 0x308; 0x304]); (0x1D6, [0x75; 0x308; 0x304]); (0x1D7, [0x55; 0x308; 0x301]);
  (0x1D8, [0x75; 0x308; 0x301]); (0x1D9, [0x55; 0x308; 0x30C]); (0x1DA, [0x75; 0x308; 0x30C]); (0x1DB, [0x55; 0x308; 0x300]);
  (0x1DC, [0x75; 0x308; 0x300]); (0x1DE, [0x41; 0x308; 0x304]); (0x1DF, [0x61; 0x308; 0x304]); (0x1E0, [0x41; 0x307; 0x304]);
  (0x1E1, [0x61; 0x307; 0x304]); (0x1E2, [0xC6; 0x304]); (0x1E3, [0xE6; 0x304]); (0x1E6, [0x47; 0x30C]);
  (0x1E7, [0x67; 0x30C]); (0x1E8, [0x4B; 0x30C]); (0x1E9, [0x6B; 0x30C]); (0x1EA, [0x4F; 0x328]);
  (0x1EB, [0x6F; 0x328]); (0x1EC, [0x4F; 0x328; 0x304]); (0x1ED, [0x6F; 0x328; 0x304]); (0x1EE, [0x1B7; 0x30C]);
  (0x1EF, [0x292; 0x30C]); (0x1F0, [0x6A; 0x30C]); (0x1F4, [0x47; 0x301]); (0x1F5, [0x67; 0x301]);
  (0x1F8, [0x4E; 0x300]); (0x1F9, [0x6E; 0x300]); (0x1FA, [0x41; 0x30A; 0x301]); (0x1FB, [0x61; 0x30A; 0x301]);
  (0x1FC, [0xC6; 0x301]); (0x1FD, [0xE6; 0x301]); (0x1FE, [0xD8; 0x301]); (0x1FF, [0xF8; 0x301]);
  (0x200, [0x41; 0x30F]); (0x201, [0x61; 0x30F]); (0x202, [0x41; 0x311]); (0x203, [0x61; 0x311]);
  (0x204, [0x45; 0x30F]); (0x205, [0x65; 0x30F]); (0x206, [0x45; 0x311]); (0x207, [0x65; 0x311]);
  (0x208, [0x49; 0x30F]); (0x209, [0x69; 0x30F]); (0x20A, [0x49; 0x311]); (0x20B, [0x69; 0x311]);
  (0x20C, [0x4F; 0x30F]); (0x20D, [0x6F; 0x30F]); (0x20E, [0x4F; 0x311]); (0x20F, [0x6F; 0x311]);
  (0x210, [0x52; 0x30F]); (0x211, [0x72; 0x30F]); (0x212, [0x52; 0x311]); (0x213, [0x72; 0x311]);
  (0x214, [0x55; 0x30F]); (0x215, [0x75; 0x30F]); (0x216, [0x55; 0x311]); (0x217, [0x75; 0x311]);
  (0x218, [0x53; 0x326]); (0x219, [0x73; 0x326]); (0x21A, [0x54; 0x326]); (0x21B, [0x74; 0x326]);
  (0x21E, [0x48; 0x30C]); (0x21F, [0x68; 0x30C]); (0x226, [0x41; 0x307]); (0x227, [0x61; 0x307]);
  (0x228, [0x45; 0x327]); (0x229, [0x65; 0x327]); (0x22A, [0x4F; 0x308; 0x304]); (0x22B, [0x6F; 0x308; 0x304]);
  (0x22C, [0x4F; 0x303; 0x304]); (0x22D, [0x6F; 0x303; 0x304]); (0x22E, [0x4F; 0x307]); (0x22F, [0x6F; 0x307]);
  (0x230, [0x4F; 0x307; 0x304]); (0x231, [0x6F; 0x307; 0x304]); (0x232, [0x59; 0x304]); (0x233, [0x79; 0x304]);
  (0x340, [0x300]); (0x341, [0x301]); (0x343, [0x313]); (0x344, [0x308; 0x301]);
  (0x374, [0x2B9]); (0x37E, [0x3B]); (0x385, [0xA8; 0x301]); (0x386, [0x391; 0x301]);
  (0x387, [0xB7]); (0x388, [0x395; 0x301]); (0x389, [0x397; 0x301]); (0x38A, [0x399; 0x301]);
  (0x38C, [0x39F; 0x301]); (0x38E, [0x3A5; 0x301]); (0x38F, [0x3A9; 0x301]); (0x390, [0x3B9; 0x308; 0x301]);
  (0x3AA, [0x399; 0x308]); (0x3AB, [0x3A5; 0x308]); (0x3AC, [0x3B1; 0x301]); (0x3AD, [0x3B5; 0x301]);
  (0x3AE, [0x3B7; 0x301]); (0x3AF, [0x3B9; 0x301]); (0x3B0, [0x3C5; 0x308; 0x301]); (0x3CA, [0x3B9; 0x308]);
  (0x3CB, [0x3C5; 0x308]); (0x3CC, [0x3BF; 0x301]); (0x3CD, [0x3C5; 0x301]); (0x3CE, [0x3C9; 0x301]);
  (0x3D3, [0x3D2; 0x301]); (0x3D4, [0x3D2; 0x308]); (0x400, [0x415; 0x300]); (0x401, [0x415; 0x308]);
  (0x403, [0x413; 0x301]); (0x407, [0x406; 0x308]); (0x40C, [0x41A; 0x301]); (0x40D, [0x418; 0x300]);
  (0x40E, [0x423; 0x306]); (0x419, [0x418; 0x306]); (0x439, [0x438; 0x306]); (0x450, [0x435; 0x300]);
  (0x451, [0x435; 0x308]); (0x453, [0x433; 0x301]); (0x457, [0x456; 0x308]); (0x45C, [0x43A; 0x301]);
  (0x45D, [0x438; 0x300]); (0x45E, [0x443; 0x306]); (0x476, [0x474; 0x30F]); (0x477, [0x475; 0x30F]);
  (0x4C1, [0x416; 0x306]); (0x4C2, [0x436; 0x306]); (0x4D0, [0x410; 0x306]); (0x4D1, [0x430; 0x306]);
  (0x4D2, [0x410; 0x308]); (0x4D3, [0x430; 0x308]); (0x4D6, [0x415; 0x306]); (0x4D7, [0x435; 0x306]);
  (0x4DA, [0x4D8; 0x308]); (0x4DB, [0x4D9; 0x308]); (0x4DC, [0x416; 0x308]); (0x4DD, [0x436; 0x308]);
  (0x4DE, [0x417; 0x308]); (0x4DF, [0x437; 0x308]); (0x4E2, [0x418; 0x304]); (0x4E3, [0x438; 0x304]);
  (0x4E4, [0x418; 0x308]); (0x4E5, [0x438; 0x308]); (0x4E6, [0x41E; 0x308]); (0x4E7, [0x43E; 0x308]);
  (0x4EA, [0x4E8; 0x308]); (0x4EB, [0x4E9; 0x308]); (0x4EC, [0x42D; 0x308]); (0x4ED, [0x44D; 0x308]);
  (0x4EE, [0x423; 0x304]); (0x4EF, [0x443; 0x304]); (0x4F0, [0x423; 0x308]); (0x4F1, [0x443; 0x308]);
  (0x4F2, [0x423; 0x30B]); (0x4F3, [0x443; 0x30B]); (0x4F4, [0x427; 0x308]); (0x4F5, [0x447; 0x308]);
  (0x4F8, [0x42B; 0x308]); (0x4F9, [0x44B; 0x308]); (0x622, [0x627; 0x653]); (0x623, [0x627; 0x654]);
  (0x624, [0x648; 0x654]); (0x625, [0x627; 0x655]); (0x626, [0x64A; 0x654]); (0x6C0, [0x6D5; 0x654]);
  (0x6C2, [0x6C1; 0x654]); (0x6D3, [0x6D2; 0x654]); (0x929, [0x928; 0x93C]); (0x931, [0x930; 0x93C]);
  (0x934, [0x933; 0x93C]); (0x958, [0x915; 0x93C]); (0x959, [0x916; 0x93C]); (0x95A, [0x917; 0x93C]);
  (0x95B, [0x91C; 0x93C]); (0x95C, [0x921; 0x93C]); (0x95D, [0x922; 0x93C]); (0x95E, [0x92B; 0x93C]);
  (0x95F, [0x92F; 0x93C]); (0x9CB, [0x9C7; 0x9BE]); (0x9CC, [0x9C7; 0x9D7]); (0x9DC, [0x9A1; 0x9BC]);
  (0x9DD, [0x9A2; 0x9BC]); (0x9DF, [0x9AF; 0x9BC]); (0xA33, [0xA32; 0xA3C]); (0xA36, [0xA38; 0xA3C]);
  (0xA59, [0xA16; 0xA3C]); (0xA5A, [0xA17; 0xA3C]); (0xA5B, [0xA1C; 0xA3C]); (0xA5E, [0xA2B; 0xA3C]);
  (0xB48, [0xB47; 0xB56]); (0xB4B, [0xB47; 0xB3E]); (0xB4C, [0xB47; 0xB57]); (0xB5C, [0xB21; 0xB3C]);
  (0xB5D, [0xB22; 0xB3C]); (0xB94, [0xB92; 0xBD7]); (0xBCA, [0xBC6; 0xBBE]); (0xBCB, [0xBC7; 0xBBE]);
  (0xBCC, [0xBC6; 0xBD7]); (0xC48, [0xC46; 0xC56]); (0xCC0, [0xCBF; 0xCD5]); (0xCC7, [0xCC6; 0xCD5]);
  (0xCC8, [0xCC6; 0xCD6]); (0xCCA, [0xCC6; 0xCC2]); (0xCCB, [0xCC6; 0xCC2; 0xCD5]); (0xD4A, [0xD46; 0xD3E]);
  (0xD4B, [0xD47; 0xD3E]); (0xD4C, [0xD46; 0xD57]); (0xDDA, [0xDD9; 0xDCA]); (0xDDC, [0xDD9; 0xDCF]);
  (0xDDD, [0xDD9; 0xDCF; 0xDCA]); (0xDDE, [0xDD9; 0xDDF]); (0xF43, [0xF42; 0xFB7]); (0xF4D, [0xF4C; 0xFB7]);
  (0xF52, [0xF51; 0xFB7]); (0xF57, [0xF56; 0xFB7]); (0xF5C, [0xF5B; 0xFB7]); (0xF69, [0xF40; 0xFB5]);
  (0xF73, [0xF71; 0xF72]); (0xF75, [0xF71; 0xF74]); (0xF76, [0xFB2; 0xF80]); (0xF78, [0xFB3; 0xF80]);
  (0xF81, [0xF71; 0xF80]); (0xF93, [0xF92; 0xFB7]); (0xF9D, [0xF9C; 0xFB7]); (0xFA2, [0xFA1; 0xFB7])
 ]%N.

Definition canon_table_1 : list (N * list N) :=
 [
  (0xFA7, [0xFA6; 0xFB7]); (0xFAC, [0xFAB; 0xFB7]); (0xFB9, [0xF90; 0xFB5]); (0x1026, [0x1025; 0x102E]);
  (0x1B06, [0x1B05; 0x1B35]); (0x1B08, [0x1B07; 0x1B35]); (0x1B0A, [0x1B09; 0x1B35]); (0x1B0C, [0x1B0B; 0x1B35]);
  (0x1B0E, [0x1B0D; 0x1B35]); (0x1B12, [0x1B11; 0x1B35]); (0x1B3B, [0x1B3A; 0x1B35]); (0x1B3D, [0x1B3C; 0x1B35]);
  (0x1B40, [0x1B3E; 0x1B35]); (0x1B41, [0x1B3F; 0x1B35]); (0x1B43, [0x1B42; 0x1B35]); (0x1E00, [0x41; 0x325]);
  (0x1E01, [0x61; 0x325]); (0x1E02, [0x42; 0x307]); (0x1E03, [0x62; 0x307]); (0x1E04, [0x42; 0x323]);
  (0x1E05, [0x62; 0x323]); (0x1E06, [0x42; 0x331]); (0x1E07, [0x62; 0x331]); (0x1E08, [0x43; 0x327; 0x301]);
  (0x1E09, [0x63; 0x327; 0x301]); (0x1E0A, [0x44; 0x307]); (0x1E0B, [0x64; 0x307]); (0x1E0C, [0x44; 0x323]);
  (0x1E0D, [0x64; 0x323]); (0x1E0E, [0x44; 0x331]); (0x1E0F, [0x64; 0x331]); (0x1E10, [0x44; 0x327]);
  (0x1E11, [0x64; 0x327]); (0x1E12, [0x44; 0x32D]); (0x1E13, [0x64; 0x32D]); (0x1E14, [0x45; 0x304; 0x300]);
  (0x1E15, [0x65; 0x304; 0x300]); (0x1E16, [0x45; 0x304; 0x301]); (0x1E17, [0x65; 0x304; 0x301]); (0x1E18, [0x45; 0x32D]);
  (0x1E19, [0x65; 0x32D]); (0x1E1A, [0x45; 0x330]); (0x1E1B, [0x65; 0x330]); (0x1E1C, [0x45; 0x327; 0x306]);
  (0x1E1D, [0x65; 0x327; 0x306]); (0x1E1E, [0x46; 0x307]); (0x1E1F, [0x66; 0x307]); (0x1E20, [0x47; 0x304]);
  (0x1E21, [0x67; 0x304]); (0x1E22, [0x48; 0x307]); (0x1E23, [0x68; 0x307]); (0x1E24, [0x48; 0x323]);
  (0x1E25, [0x68; 0x323]); (0x1E26, [0x48; 0x308]); (0x1E27, [0x68; 0x308]); (0x1E28, [0x48; 0x327]);
  (0x1E29, [0x68; 0x327]); (0x1E2A, [0x48; 0x32E]); (0x1E2B, [0x68; 0x32E]); (0x1E2C, [0x49; 0x330]);
  (0x1E2D, [0x69; 0x330]); (0x1E2E, [0x49; 0x308; 0x301]); (0x1E2F, [0x69; 0x308; 0x301]); (0x1E30, [0x4B; 0x301]);
  (0x1E31, [0x6B; 0x301]); (0x1E32, [0x4B; 0x323]); (0x1E33, [0x6B; 0x323]); (0x1E34, [0x4B; 0x331]);
  (0x1E35, [0x6B; 0x331]); (0x1E36, [0x4C; 0x323]); (0x1E37, [0x6C; 0x323]); (0x1E38, [0x4C; 0x323; 0x304]);
  (0x1E39, [0x6C; 0x323; 0x304]); (0x1E3A, [0x4C; 0x331]); (0x1E3B, [0x6C; 0x331]); (0x1E3C, [0x4C; 0x32D]);
  (0x1E3D, [0x6C; 0x32D]); (0x1E3E, [0x4D; 0x301]); (0x1E3F, [0x6D; 0x301]); (0x1E40, [0x4D; 0x307]);
  (0x1E41, [0x6D; 0x307]); (0x1E42, [0x4D; 0x323]); (0x1E43, [0x6D; 0x323]); (0x1E44, [0x4E; 0x307]);
  (0x1E45, [0x6E; 0x307]); (0x1E46, [0x4E; 0x323]); (0x1E47, [0x6E; 0x323]); (0x1E48, [0x4E; 0x331]);
  (0x1E49, [0x6E; 0x331]); (0x1E4A, [0x4E; 0x32D]); (0x1E4B, [0x6E; 0x32D]); (0x1E4C, [0x4F; 0x303; 0x301]);
  (0x1E4D, [0x6F; 0x303; 0x301]); (0x1E4E, [0x4F; 0x303; 0x308]); (0x1E4F, [0x6F; 0x303; 0x308]); (0x1E50, [0x4F; 0x304; 0x300]);
  (0x1E51, [0x6F; 0x304; 0x300]); (0x1E52, [0x4F; 0x304; 0x301]); (0x1E53, [0x6F; 0x304; 0x301]); (0x1E54, [0x50; 0x301]);
  (0x1E55, [0x70; 0x301]); (0x1E56, [0x50; 0x307]); (0x1E57, [0x70; 0x307]); (0x1E58, [0x52; 0x307]);
  (0x1E59, [0x72; 0x307]); (0x1E5A, [0x52; 0x323]); (0x1E5B, [0x72; 0x323]); (0x1E5C, [0x52; 0x323; 0x304]);
  (0x1E5D, [0x72; 0x323; 0x304]); (0x1E5E, [0x52; 0x331]); (0x1E5F, [0x72; 0x331]); (0x1E60, [0x53; 0x307]);
  (0x1E61, [0x73; 0x307]); (0x1E62, [0x53; 0x323]); (0x1E63, [0x73; 0x323]); (0x1E64, [0x53; 0x301; 0x307]);
  (0x1E65, [0x73; 0x301; 0x307]); (0x1E66, [0x53; 0x30C; 0x307]); (0x1E67, [0x73; 0x30C; 0x307]); (0x1E68, [0x53; 0x323; 0x307]);
  (0x1E69, [0x73; 0x323; 0x307]); (0x1E6A, [0x54; 0x307]); (0x1E6B, [0x74; 0x307]); (0x1E6C, [0x54; 0x323]);
  (0x1E6D, [0x74; 0x323]); (0x1E6E, [0x54; 0x331]); (0x1E6F, [0x74; 0x331]); (0x1E70, [0x54; 0x32D]);
  (0x1E71, [0x74; 0x32D]); (0x1E72, [0x55; 0x324]); (0x1E73, [0x75; 0x324]); (0x1E74, [0x55; 0x330]);
  (0x1E75, [0x75; 0x330]); (0x1E76, [0x55; 0x32D]); (0x1E77, [0x75; 0x32D]); (0x1E78, [0x55; 0x303; 0x301]);
  (0x1E79, [0x75; 0x303; 0x301]); (0x1E7A, [0x55; 0x304; 0x308]); (0x1E7B, [0x75; 0x304; 0x308]); (0x1E7C, [0x56; 0x303]);
  (0x1E7D, [0x76; 0x303]); (0x1E7E, [0x56; 0x323]); (0x1E7F, [0x76; 0x323]); (0x1E80, [0x57; 0x300]);
  (0x1E81, [0x77; 0x300]); (0x1E82, [0x57; 0x301]); (0x1E83, [0x77; 0x301]); (0x1E84, [0x57; 0x308]);
  (0x1E85, [0x77; 0x308]); (0x1E86, [0x57; 0x307]); (0x1E87, [0x77; 0x307]); (0x1E88, [0x57; 0x323]);
  (0x1E89, [0x77; 0x323]); (0x1E8A, [0x58; 0x307]); (0x1E8B, [0x78; 0x307]); (0x1E8C, [0x58; 0x308]);
  (0x1E8D, [0x78; 0x308]); (0x1E8E, [0x59; 0x307]); (0x1E8F, [0x79; 0x307]); (0x1E90, [0x5A; 0x302]);
  (0x1E91, [0x7A; 0x302]); (0x1E92, [0x5A; 0x323]); (0x1E93, [0x7A; 0x323]); (0x1E94, [0x5A; 0x331]);
  (0x1E95, [0x7A; 0x331]); (0x1E96, [0x68; 0x331]); (0x1E97, [0x74; 0x308]); (0x1E98, [0x77; 0x30A]);
  (0x1E99, [0x79; 0x30A]); (0x1E9B, [0x17F; 0x307]); (0x1EA0, [0x41; 0x323]); (0x1EA1, [0x61; 0x323]);
  (0x1EA2, [0x41; 0x309]); (0x1EA3, [0x61; 0x309]); (0x1EA4, [0x41; 0x302; 0x301]); (0x1EA5, [0x61; 0x302; 0x301]);
  (0x1EA6, [0x41; 0x302; 0x300]); (0x1EA7, [0x61; 0x302; 0x300]); (0x1EA8, [0x41; 0x302; 0x309]); (0x1EA9, [0x61; 0x302; 0x309]);
  (0x1EAA, [0x41; 0x302; 0x303]); (0x1EAB, [0x61; 0x302; 0x303]); (0x1EAC, [0x41; 0x323; 0x302]); (0x1EAD, [0x61; 0x323; 0x302]);
  (0x1EAE, [0x41; 0x306; 0x301]); (0x1EAF, [0x61; 0x306; 0x301]); (0x1EB0, [0x41; 0x306; 0x300]); (0x1EB1, [0x61; 0x306; 0x300]);
  (0x1EB2, [0x41; 0x306; 0x309]); (0x1EB3, [0x61; 0x306; 0x309]); (0x1EB4, [0x41; 0x306; 0x303]); (0x1EB5, [0x61; 0x306; 0x303]);
  (0x1EB6, [0x41; 0x323; 0x306]); (0x1EB7, [0x61; 0x323; 0x306]); (0x1EB8, [0x45; 0x323]); (0x1EB9, [0x65; 0x323]);
  (0x1EBA, [0x45; 0x309]); (0x1EBB, [0x65; 0x309]); (0x1EBC, [0x45; 0x303]); (0x1EBD, [0x65; 0x303]);
  (0x1EBE, [0x45; 0x302; 0x301]); (0x1EBF, [0x65; 0x302; 0x301]); (0x1EC0, [0x45; 0x302; 0x300]); (0x1EC1, [0x65; 0x302; 0x300]);
  (0x1EC2, [0x45; 0x302; 0x309]); (0x1EC3, [0x65; 0x302; 0x309]); (0x1EC4, [0x45; 0x302; 0x303]); (0x1EC5, [0x65; 0x302; 0x303]);
  (0x1EC6, [0x45; 0x323; 0x302]); (0x1EC7, [0x65; 0x323; 0x302]); (0x1EC8, [0x49; 0x309]); (0x1EC9, [0x69; 0x309]);
  (0x1ECA, [0x49; 0x323]); (0x1ECB, [0x69; 0x323]); (0x1ECC, [0x4F; 0x323]); (0x1ECD, [0x6F; 0x323]);
  (0x1ECE, [0x4F; 0x309]); (0x1ECF, [0x6F; 0x309]); (0x1ED0, [0x4F; 0x302; 0x301]); (0x1ED1, [0x6F; 0x302; 0x301]);
  (0x1ED2, [0x4F; 0x302; 0x300]); (0x1ED3, [0x6F; 0x302; 0x300]); (0x1ED4, [0x4F; 0x302; 0x309]); (0x1ED5, [0x6F; 0x302; 0x309]);
  (0x1ED6, [0x4F; 0x302; 0x303]); (0x1ED7, [0x6F; 0x302; 0x303]); (0x1ED8, [0x4F; 0x323; 0x302]); (0x1ED9, [0x6F; 0x323; 0x302]);
  (0x1EDA, [0x4F; 0x31B; 0x301]); (0x1EDB, [0x6F; 0x31B; 0x301]); (0x1EDC, [0x4F; 0x31B; 0x300]); (0x1EDD, [0x6F; 0x31B; 0x300]);
  (0x1EDE, [0x4F; 0x31B; 0x309]); (0x1EDF, [0x6F; 0x31B; 0x309]); (0x1EE0, [0x4F; 0x31B; 0x303]); (0x1EE1, [0x6F; 0x31B; 0x303]);
  (0x1EE2, [0x4F; 0x31B; 0x323]); (0x1EE3, [0x6F; 0x31B; 0x323]); (0x1EE4, [0x55; 0x323]); (0x1EE5, [0x75; 0x323]);
  (0x1EE6, [0x55; 0x309]); (0x1EE7, [0x75; 0x309]); (0x1EE8, [0x55; 0x31B; 0x301]); (0x1EE9, [0x75; 0x31B; 0x301]);
  (0x1EEA, [0x55; 0x31B; 0x300]); (0x1EEB, [0x75; 0x31B; 0x300]); (0x1EEC, [0x55; 0x31B; 0x309]); (0x1EED, [0x75; 0x31B; 0x309]);
  (0x1EEE, [0x55; 0x31B; 0x303]); (0x1EEF, [0x75; 0x31B; 0x303]); (0x1EF0, [0x55; 0x31B; 0x323]); (0x1EF1, [0x75; 0x31B; 0x323]);
  (0x1EF2, [0x59; 0x300]); (0x1EF3, [0x79; 0x300]); (0x1EF4, [0x59; 0x323]); (0x1EF5, [0x79; 0x323]);
  (0x1EF6, [0x59; 0x309]); (0x1EF7, [0x79; 0x309]); (0x1EF8, [0x59; 0x303]); (0x1EF9, [0x79; 0x303]);
  (0x1F00, [0x3B1; 0x313]); (0x1F01, [0x3B1; 0x314]); (0x1F02, [0x3B1; 0x313; 0x300]); (0x1F03, [0x3B1; 0x314; 0x300]);
  (0x1F04, [0x3B1; 0x313; 0x301]); (0x1F05, [0x3B1; 0x314; 0x301]); (0x1F06, [0x3B1; 0x313; 0x342]); (0x1F07, [0x3B1; 0x314; 0x342]);
  (0x1F08, [0x391; 0x313]); (0x1F09, [0x391; 0x314]); (0x1F0A, [0x391; 0x313; 0x300]); (0x1F0B, [0x391; 0x314; 0x300]);
  (0x1F0C, [0x391; 0x313; 0x301]); (0x1F0D, [0x391; 0x314; 0x301]); (0x1F0E, [0x391; 0x313; 0x342]); (0x1F0F, [0x391; 0x314; 0x342]);
  (0x1F10, [0x3B5; 0x313]); (0x1F11, [0x3B5; 0x314]); (0x1F12, [0x3B5; 0x313; 0x300]); (0x1F13, [0x3B5; 0x314; 0x300]);
  (0x1F14, [0x3B5; 0x313; 0x301]); (0x1F15, [0x3B5; 0x314; 0x301]); (0x1F18, [0x395; 0x313]); (0x1F19, [0x395; 0x314]);
  (0x1F1A, [0x395; 0x313; 0x300]); (0x1F1B, [0x395; 0x314; 0x300]); (0x1F1C, [0x395; 0x313; 0x301]); (0x1F1D, [0x395; 0x314; 0x301]);
  (0x1F20, [0x3B7; 0x313]); (0x1F21, [0x3B7; 0x314]); (0x1F22, [0x3B7; 0x313; 0x300]); (0x1F23, [0x3B7; 0x314; 0x300]);
  (0x1F24, [0x3B7; 0x313; 0x301]); (0x1F25, [0x3B7; 0x314; 0x301]); (0x1F26, [0x3B7; 0x313; 0x342]); (0x1F27, [0x3B7; 0x314; 0x342]);
  (0x1F28, [0x397; 0x313]); (0x1F29, [0x397; 0x314]); (0x1F2A, [0x397; 0x313; 0x300]); (0x1F2B, [0x397; 0x314; 0x300]);
  (0x1F2C, [0x397; 0x313; 0x301]); (0x1F2D, [0x397; 0x314; 0x301]); (0x1F2E, [0x397; 0x313; 0x342]); (0x1F2F, [0x397; 0x314; 0x342]);
  (0x1F30, [0x3B9; 0x313]); (0x1F31, [0x3B9; 0x314]); (0x1F32, [0x3B9; 0x313; 0x300]); (0x1F33, [0x3B9; 0x314; 0x300]);
  (0x1F34, [0x3B9; 0x313; 0x301]); (0x1F35, [0x3B9; 0x314; 0x301]); (0x1F36, [0x3B9; 0x313; 0x342]); (0x1F37, [0x3B9; 0x314; 0x342]);
  (0x1F38, [0x399; 0x313]); (0x1F39, [0x399; 0x314]); (0x1F3A, [0x399; 0x313; 0x300]); (0x1F3B, [0x399; 0x314; 0x300]);
  (0x1F3C, [0x399; 0x313; 0x301]); (0x1F3D, [0x399; 0x314; 0x301]); (0x1F3E, [0x399; 0x313; 0x342]); (0x1F3F, [0x399; 0x314; 0x342]);
  (0x1F40, [0x3BF; 0x313]); (0x1F41, [0x3BF; 0x314]); (0x1F42, [0x3BF; 0x313; 0x300]); (0x1F43, [0x3BF; 0x314; 0x300]);
  (0x1F44, [0x3BF; 0x313; 0x301]); (0x1F45, [0x3BF; 0x314; 0x301]); (0x1F48, [0x39F; 0x313]); (0x1F49, [0x39F; 0x314]);
  (0x1F4A, [0x39F; 0x313; 0x300]); (0x1F4B, [0x39F; 0x314; 0x300]); (0x1F4C, [0x39F; 0x313; 0x301]); (0x1F4D, [0x39F; 0x314; 0x301]);
  (0x1F50, [0x3C5; 0x313]); (0x1F51, [0x3C5; 0x314]); (0x1F52, [0x3C5; 0x313; 0x300]); (0x1F53, [0x3C5; 0x314; 0x300]);
  (0x1F54, [0x3C5; 0x313; 0x301]); (0x1F55, [0x3C5; 0x314; 0x301]); (0x1F56, [0x3C5; 0x313; 0x342]); (0x1F57, [0x3C5; 0x314; 0x342]);
  (0x1F59, [0x3A5; 0x314]); (0x1F5B, [0x3A5; 0x314; 0x300]); (0x1F5D, [0x3A5; 0x314; 0x301]); (0x1F5F, [0x3A5; 0x314; 0x342]);
  (0x1F60, [0x3C9; 0x313]); (0x1F61, [0x3C9; 0x314]); (0x1F62, [0x3C9; 0x313; 0x300]); (0x1F63, [0x3C9; 0x314; 0x300]);
  (0x1F64, [0x3C9; 0x313; 0x301]); (0x1F65, [0x3C9; 0x314; 0x301]); (0x1F66, [0x3C9; 0x313; 0x342]); (0x1F67, [0x3C9; 0x314; 0x342]);
  (0x1F68, [0x3A9; 0x313]); (0x1F69, [0x3A9; 0x314]); (0x1F6A, [0x3A9; 0x313; 0x300]); (0x1F6B, [0x3A9; 0x314; 0x300]);
  (0x1F6C, [0x3A9; 0x313; 0x301]); (0x1F6D, [0x3A9; 0x314; 0x301]); (0x1F6E, [0x3A9; 0x313; 0x342]); (0x1F6F, [0x3A9; 0x314; 0x342]);
  (0x1F70, [0x3B1; 0x300]); (0x1F71, [0x3B1; 0x301]); (0x1F72, [0x3B5; 0x300]); (0x1F73, [0x3B5; 0x301]);
  (0x1F74, [0x3B7; 0x300]); (0x1F75, [0x3B7; 0x301]); (0x1F76, [0x3B9; 0x300]); (0x1F77, [0x3B9; 0x301]);
  (0x1F78, [0x3BF; 0x300]); (0x1F79, [0x3BF; 0x301]); (0x1F7A, [0x3C5; 0x300]); (0x1F7B, [0x3C5; 0x301]);
  (0x1F7C, [0x3C9; 0x300]); (0x1F7D, [0x3C9; 0x301]); (0x1F80, [0x3B1; 0x313; 0x345]); (0x1F81, [0x3B1; 0x314; 0x345]);
  (0x1F82, [0x3B1; 0x313; 0x300; 0x345]); (0x1F83, [0x3B1; 0x314; 0x300; 0x345]); (0x1F84, [0x3B1; 0x313; 0x301; 0x345]); (0x1F85, [0x3B1; 0x314; 0x301; 0x345]);
  (0x1F86, [0x3B1; 0x313; 0x342; 0x345]); (0x1F87, [0x3B1; 0x314; 0x342; 0x345]); (0x1F88, [0x391; 0x313; 0x345]); (0x1F89, [0x391; 0x314; 0x345]);
  (0x1F8A, [0x391; 0x313; 0x300; 0x345]); (0x1F8B, [0x391; 0x314; 0x300; 0x345]); (0x1F8C, [0x391; 0x313; 0x301; 0x345]); (0x1F8D, [0x391; 0x314; 0x301; 0x345]);
  (0x1F8E, [0x391; 0x313; 0x342; 0x345]); (0x1F8F, [0x391; 0x314; 0x342; 0x345]); (0x1F90, [0x3B7; 0x313; 0x345]); (0x1F91, [0x3B7; 0x314; 0x345]);
  (0x1F92, [0x3B7; 0x313; 0x300; 0x345]); (0x1F93, [0x3B7; 0x314; 0x300; 0x345]); (0x1F94, [0x3B7; 0x313; 0x301; 0x345]); (0x1F95, [0x3B7; 0x314; 0x301; 0x345]);
  (0x1F96, [0x3B7; 0x313; 0x342; 0x345]); (0x1F97, [0x3B7; 0x314; 0x342; 0x345]); (0x1F98, [0x397; 0x313; 0x345]); (0x1F99, [0x397; 0x314; 0x345])
 ]%N.

Definition canon_table_2 : list (N * list N) :=
 [
  (0x1F9A, [0x397; 0x313; 0x300; 0x345]); (0x1F9B, [0x397; 0x314; 0x300; 0x345]); (0x1F9C, [0x397; 0x313; 0x301; 0x345]); (0x1F9D, [0x397; 0x314; 0x301; 0x345]);
  (0x1F9E, [0x397; 0x313; 0x342; 0x345]); (0x1F9F, [0x397; 0x314; 0x342; 0x345]); (0x1FA0, [0x3C9; 0x313; 0x345]); (0x1FA1, [0x3C9; 0x314; 0x345]);
  (0x1FA2, [0x3C9; 0x313; 0x300; 0x345]); (0x1FA3, [0x3C9; 0x314; 0x300; 0x345]); (0x1FA4, [0x3C9; 0x313; 0x301; 0x345]); (0x1FA5, [0x3C9; 0x314; 0x301; 0x345]);
  (0x1FA6, [0x3C9; 0x313; 0x342; 0x345]); (0x1FA7, [0x3C9; 0x314; 0x342; 0x345]); (0x1FA8, [0x3A9; 0x313; 0x345]); (0x1FA9, [0x3A9; 0x314; 0x345]);
  (0x1FAA, [0x3A9; 0x313; 0x300; 0x345]); (0x1FAB, [0x3A9; 0x314; 0x300; 0x345]); (0x1FAC, [0x3A9; 0x313; 0x301; 0x345]); (0x1FAD, [0x3A9; 0x314; 0x301; 0x345]);
  (0x1FAE, [0x3A9; 0x313; 0x342; 0x345]); (0x1FAF, [0x3A9; 0x314; 0x342; 0x345]); (0x1FB0, [0x3B1; 0x306]); (0x1FB1, [0x3B1; 0x304]);
  (0x1FB2, [0x3B1; 0x300; 0x345]); (0x1FB3, [0x3B1; 0x345]); (0x1FB4, [0x3B1; 0x301; 0x345]); (0x1FB6, [0x3B1; 0x342]);
  (0x1FB7, [0x3B1; 0x342; 0x345]); (0x1FB8, [0x391; 0x306]); (0x1FB9, [0x391; 0x304]); (0x1FBA, [0x391; 0x300]);
  (0x1FBB, [0x391; 0x301]); (0x1FBC, [0x391; 0x345]); (0x1FBE, [0x3B9]); (0x1FC1, [0xA8; 0x342]);
  (0x1FC2, [0x3B7; 0x300; 0x345]); (0x1FC3, [0x3B7; 0x345]); (0x1FC4, [0x3B7; 0x301; 0x345]); (0x1FC6, [0x3B7; 0x342]);
  (0x1FC7, [0x3B7; 0x342; 0x345]); (0x1FC8, [0x395; 0x300]); (0x1FC9, [0x395; 0x301]); (0x1FCA, [0x397; 0x300]);
  (0x1FCB, [0x397; 0x301]); (0x1FCC, [0x397; 0x345]); (0x1FCD, [0x1FBF; 0x300]); (0x1FCE, [0x1FBF; 0x301]);
  (0x1FCF, [0x1FBF; 0x342]); (0x1FD0, [0x3B9; 0x306]); (0x1FD1, [0x3B9; 0x304]); (0x1FD2, [0x3B9; 0x308; 0x300]);
  (0x1FD3, [0x3B9; 0x308; 0x301]); (0x1FD6, [0x3B9; 0x342]); (0x1FD7, [0x3B9; 0x308; 0x342]); (0x1FD8, [0x399; 0x306]);
  (0x1FD9, [0x399; 0x304]); (0x1FDA, [0x399; 0x300]); (0x1FDB, [0x399; 0x301]); (0x1FDD, [0x1FFE; 0x300]);
  (0x1FDE, [0x1FFE; 0x301]); (0x1FDF, [0x1FFE; 0x342]); (0x1FE0, [0x3C5; 0x306]); (0x1FE1, [0x3C5; 0x304]);
  (0x1FE2, [0x3C5; 0x308; 0x300]); (0x1FE3, [0x3C5; 0x308; 0x301]); (0x1FE4, [0x3C1; 0x313]); (0x1FE5, [0x3C1; 0x314]);
  (0x1FE6, [0x3C5; 0x342]); (0x1FE7, [0x3C5; 0x308; 0x342]); (0x1FE8, [0x3A5; 0x306]); (0x1FE9, [0x3A5; 0x304]);
  (0x1FEA, [0x3A5; 0x300]); (0x1FEB, [0x3A5; 0x301]); (0x1FEC, [0x3A1; 0x314]); (0x1FED, [0xA8; 0x300]);
  (0x1FEE, [0xA8; 0x301]); (0x1FEF, [0x60]); (0x1FF2, [0x3C9; 0x300; 0x345]); (0x1FF3, [0x3C9; 0x345]);
  (0x1FF4, [0x3C9; 0x301; 0x345]); (0x1FF6, [0x3C9; 0x342]); (0x1FF7, [0x3C9; 0x342; 0x345]); (0x1FF8, [0x39F; 0x300]);
  (0x1FF9, [0x39F; 0x301]); (0x1FFA, [0x3A9; 0x300]); (0x1FFB, [0x3A9; 0x301]); (0x1FFC, [0x3A9; 0x345]);
  (0x1FFD, [0xB4]); (0x2000, [0x2002]); (0x2001, [0x2003]); (0x2126, [0x3A9]);
  (0x212A, [0x4B]); (0x212B, [0x41; 0x30A]); (0x219A, [0x2190; 0x338]); (0x219B, [0x2192; 0x338]);
  (0x21AE, [0x2194; 0x338]); (0x21CD, [0x21D0; 0x338]); (0x21CE, [0x21D4; 0x338]); (0x21CF, [0x21D2; 0x338]);
  (0x2204, [0x2203; 0x338]); (0x2209, [0x2208; 0x338]); (0x220C, [0x220B; 0x338]); (0x2224, [0x2223; 0x338]);
  (0x2226, [0x2225; 0x338]); (0x2241, [0x223C; 0x338]); (0x2244, [0x2243; 0x338]); (0x2247, [0x2245; 0x338]);
  (0x2249, [0x2248; 0x338]); (0x2260, [0x3D; 0x338]); (0x2262, [0x2261; 0x338]); (0x226D, [0x224D; 0x338]);
  (0x226E, [0x3C; 0x338]); (0x226F, [0x3E; 0x338]); (0x2270, [0x2264; 0x338]); (0x2271, [0x2265; 0x338]);
  (0x2274, [0x2272; 0x338]); (0x2275, [0x2273; 0x338]); (0x2278, [0x2276; 0x338]); (0x2279, [0x2277; 0x338]);
  (0x2280, [0x227A; 0x338]); (0x2281, [0x227B; 0x338]); (0x2284, [0x2282; 0x338]); (0x2285, [0x2283; 0x338]);
  (0x2288, [0x2286; 0x338]); (0x2289, [0x2287; 0x338]); (0x22AC, [0x22A2; 0x338]); (0x22AD, [0x22A8; 0x338]);
  (0x22AE, [0x22A9; 0x338]); (0x22AF, [0x22AB; 0x338]); (0x22E0, [0x227C; 0x338]); (0x22E1, [0x227D; 0x338]);
  (0x22E2, [0x2291; 0x338]); (0x22E3, [0x2292; 0x338]); (0x22EA, [0x22B2; 0x338]); (0x22EB, [0x22B3; 0x338]);
  (0x22EC, [0x22B4; 0x338]); (0x22ED, [0x22B5; 0x338]); (0x2329, [0x3008]); (0x232A, [0x3009]);
  (0x2ADC, [0x2ADD; 0x338]); (0x304C, [0x304B; 0x3099]); (0x304E, [0x304D; 0x3099]); (0x3050, [0x304F; 0x3099]);
  (0x3052, [0x3051; 0x3099]); (0x3054, [0x3053; 0x3099]); (0x3056, [0x3055; 0x3099]); (0x3058, [0x3057; 0x3099]);
  (0x305A, [0x3059; 0x3099]); (0x305C, [0x305B; 0x3099]); (0x305E, [0x305D; 0x3099]); (0x3060, [0x305F; 0x3099]);
  (0x3062, [0x3061; 0x3099]); (0x3065, [0x3064; 0x3099]); (0x3067, [0x3066; 0x3099]); (0x3069, [0x3068; 0x3099]);
  (0x3070, [0x306F; 0x3099]); (0x3071, [0x306F; 0x309A]); (0x3073, [0x3072; 0x3099]); (0x3074, [0x3072; 0x309A]);
  (0x3076, [0x3075; 0x3099]); (0x3077, [0x3075; 0x309A]); (0x3079, [0x3078; 0x3099]); (0x307A, [0x3078; 0x309A]);
  (0x307C, [0x307B; 0x3099]); (0x307D, [0x307B; 0x309A]); (0x3094, [0x3046; 0x3099]); (0x309E, [0x309D; 0x3099]);
  (0x30AC, [0x30AB; 0x3099]); (0x30AE, [0x30AD; 0x3099]); (0x30B0, [0x30AF; 0x3099]); (0x30B2, [0x30B1; 0x3099]);
  (0x30B4, [0x30B3; 0x3099]); (0x30B6, [0x30B5; 0x3099]); (0x30B8, [0x30B7; 0x3099]); (0x30BA, [0x30B9; 0x3099]);
  (0x30BC, [0x30BB; 0x3099]); (0x30BE, [0x30BD; 0x3099]); (0x30C0, [0x30BF; 0x3099]); (0x30C2, [0x30C1; 0x3099]);
  (0x30C5, [0x30C4; 0x3099]); (0x30C7, [0x30C6; 0x3099]); (0x30C9, [0x30C8; 0x3099]); (0x30D0, [0x30CF; 0x3099]);
  (0x30D1, [0x30CF; 0x309A]); (0x30D3, [0x30D2; 0x3099]); (0x30D4, [0x30D2; 0x309A]); (0x30D6, [0x30D5; 0x3099]);
  (0x30D7, [0x30D5; 0x309A]); (0x30D9, [0x30D8; 0x3099]); (0x30DA, [0x30D8; 0x309A]); (0x30DC, [0x30DB; 0x3099]);
  (0x30DD, [0x30DB; 0x309A]); (0x30F4, [0x30A6; 0x3099]); (0x30F7, [0x30EF; 0x3099]); (0x30F8, [0x30F0; 0x3099]);
  (0x30F9, [0x30F1; 0x3099]); (0x30FA, [0x30F2; 0x3099]); (0x30FE, [0x30FD; 0x3099]); (0xF900, [0x8C48]);
  (0xF901, [0x66F4]); (0xF902, [0x8ECA]); (0xF903, [0x8CC8]); (0xF904, [0x6ED1]);
  (0xF905, [0x4E32]); (0xF906, [0x53E5]); (0xF907, [0x9F9C]); (0xF908, [0x9F9C]);
  (0xF909, [0x5951]); (0xF90A, [0x91D1]); (0xF90B, [0x5587]); (0xF90C, [0x5948]);
  (0xF90D, [0x61F6]); (0xF90E, [0x7669]); (0xF90F, [0x7F85]); (0xF910, [0x863F]);
  (0xF911, [0x87BA]); (0xF912, [0x88F8]); (0xF913, [0x908F]); (0xF914, [0x6A02]);
  (0xF915, [0x6D1B]); (0xF916, [0x70D9]); (0xF917, [0x73DE]); (0xF918, [0x843D]);
  (0xF919, [0x916A]); (0xF91A, [0x99F1]); (0xF91B, [0x4E82]); (0xF91C, [0x5375]);
  (0xF91D, [0x6B04]); (0xF91E, [0x721B]); (0xF91F, [0x862D]); (0xF920, [0x9E1E]);
  (0xF921, [0x5D50]); (0xF922, [0x6FEB]); (0xF923, [0x85CD]); (0xF924, [0x8964]);
  (0xF925, [0x62C9]); (0xF926, [0x81D8]); (0xF927, [0x881F]); (0xF928, [0x5ECA]);
  (0xF929, [0x6717]); (0xF92A, [0x6D6A]); (0xF92B, [0x72FC]); (0xF92C, [0x90CE]);
  (0xF92D, [0x4F86]); (0xF92E, [0x51B7]); (0xF92F, [0x52DE]); (0xF930, [0x64C4]);
  (0xF931, [0x6AD3]); (0xF932, [0x7210]); (0xF933, [0x76E7]); (0xF934, [0x8001]);
  (0xF935, [0x8606]); (0xF936, [0x865C]); (0xF937, [0x8DEF]); (0xF938, [0x9732]);
  (0xF939, [0x9B6F]); (0xF93A, [0x9DFA]); (0xF93B, [0x788C]); (0xF93C, [0x797F]);
  (0xF93D, [0x7DA0]); (0xF93E, [0x83C9]); (0xF93F, [0x9304]); (0xF940, [0x9E7F]);
  (0xF941, [0x8AD6]); (0xF942, [0x58DF]); (0xF943, [0x5F04]); (0xF944, [0x7C60]);
  (0xF945, [0x807E]); (0xF946, [0x7262]); (0xF947, [0x78CA]); (0xF948, [0x8CC2]);
  (0xF949, [0x96F7]); (0xF94A, [0x58D8]); (0xF94B, [0x5C62]); (0xF94C, [0x6A13]);
  (0xF94D, [0x6DDA]); (0xF94E, [0x6F0F]); (0xF94F, [0x7D2F]); (0xF950, [0x7E37]);
  (0xF951, [0x964B]); (0xF952, [0x52D2]); (0xF953, [0x808B]); (0xF954, [0x51DC]);
  (0xF955, [0x51CC]); (0xF956, [0x7A1C]); (0xF957, [0x7DBE]); (0xF958, [0x83F1]);
  (0xF959, [0x9675]); (0xF95A, [0x8B80]); (0xF95B, [0x62CF]); (0xF95C, [0x6A02]);
  (0xF95D, [0x8AFE]); (0xF95E, [0x4E39]); (0xF95F, [0x5BE7]); (0xF960, [0x6012]);
  (0xF961, [0x7387]); (0xF962, [0x7570]); (0xF963, [0x5317]); (0xF964, [0x78FB]);
  (0xF965, [0x4FBF]); (0xF966, [0x5FA9]); (0xF967, [0x4E0D]); (0xF968, [0x6CCC]);
  (0xF969, [0x6578]); (0xF96A, [0x7D22]); (0xF96B, [0x53C3]); (0xF96C, [0x585E]);
  (0xF96D, [0x7701]); (0xF96E, [0x8449]); (0xF96F, [0x8AAA]); (0xF970, [0x6BBA]);
  (0xF971, [0x8FB0]); (0xF972, [0x6C88]); (0xF973, [0x62FE]); (0xF974, [0x82E5]);
  (0xF975, [0x63A0]); (0xF976, [0x7565]); (0xF977, [0x4EAE]); (0xF978, [0x5169]);
  (0xF979, [0x51C9]); (0xF97A, [0x6881]); (0xF97B, [0x7CE7]); (0xF97C, [0x826F]);
  (0xF97D, [0x8AD2]); (0xF97E, [0x91CF]); (0xF97F, [0x52F5]); (0xF980, [0x5442]);
  (0xF981, [0x5973]); (0xF982, [0x5EEC]); (0xF983, [0x65C5]); (0xF984, [0x6FFE]);
  (0xF985, [0x792A]); (0xF986, [0x95AD]); (0xF987, [0x9A6A]); (0xF988, [0x9E97]);
  (0xF989, [0x9ECE]); (0xF98A, [0x529B]); (0xF98B, [0x66C6]); (0xF98C, [0x6B77]);
  (0xF98D, [0x8F62]); (0xF98E, [0x5E74]); (0xF98F, [0x6190]); (0xF990, [0x6200]);
  (0xF991, [0x649A]); (0xF992, [0x6F23]); (0xF993, [0x7149]); (0xF994, [0x7489]);
  (0xF995, [0x79CA]); (0xF996, [0x7DF4]); (0xF997, [0x806F]); (0xF998, [0x8F26]);
  (0xF999, [0x84EE]); (0xF99A, [0x9023]); (0xF99B, [0x934A]); (0xF99C, [0x5217]);
  (0xF99D, [0x52A3]); (0xF99E, [0x54BD]); (0xF99F, [0x70C8]); (0xF9A0, [0x88C2]);
  (0xF9A1, [0x8AAA]); (0xF9A2, [0x5EC9]); (0xF9A3, [0x5FF5]); (0xF9A4, [0x637B]);
  (0xF9A5, [0x6BAE]); (0xF9A6, [0x7C3E]); (0xF9A7, [0x7375]); (0xF9A8, [0x4EE4]);
  (0xF9A9, [0x56F9]); (0xF9AA, [0x5BE7]); (0xF9AB, [0x5DBA]); (0xF9AC, [0x601C]);
  (0xF9AD, [0x73B2]); (0xF9AE, [0x7469]); (0xF9AF, [0x7F9A]); (0xF9B0, [0x8046]);
  (0xF9B1, [0x9234]); (0xF9B2, [0x96F6]); (0xF9B3, [0x9748]); (0xF9B4, [0x9818]);
  (0xF9B5, [0x4F8B]); (0xF9B6, [0x79AE]); (0xF9B7, [0x91B4]); (0xF9B8, [0x96B8]);
  (0xF9B9, [0x60E1]); (0xF9BA, [0x4E86]); (0xF9BB, [0x50DA]); (0xF9BC, [0x5BEE]);
  (0xF9BD, [0x5C3F]); (0xF9BE, [0x6599]); (0xF9BF, [0x6A02]); (0xF9C0, [0x71CE]);
  (0xF9C1, [0x7642]); (0xF9C2, [0x84FC]); (0xF9C3, [0x907C]); (0xF9C4, [0x9F8D]);
  (0xF9C5, [0x6688]); (0xF9C6, [0x962E]); (0xF9C7, [0x5289]); (0xF9C8, [0x677B])
 ]%N.

Definition canon_table_3 : list (N * list N) :=
 [
  (0xF9C9, [0x67F3]); (0xF9CA, [0x6D41]); (0xF9CB, [0x6E9C]); (0xF9CC, [0x7409]);
  (0xF9CD, [0x7559]); (0xF9CE, [0x786B]); (0xF9CF, [0x7D10]); (0xF9D0, [0x985E]);
  (0xF9D1, [0x516D]); (0xF9D2, [0x622E]); (0xF9D3, [0x9678]); (0xF9D4, [0x502B]);
  (0xF9D5, [0x5D19]); (0xF9D6, [0x6DEA]); (0xF9D7, [0x8F2A]); (0xF9D8, [0x5F8B]);
  (0xF9D9, [0x6144]); (0xF9DA, [0x6817]); (0xF9DB, [0x7387]); (0xF9DC, [0x9686]);
  (0xF9DD, [0x5229]); (0xF9DE, [0x540F]); (0xF9DF, [0x5C65]); (0xF9E0, [0x6613]);
  (0xF9E1, [0x674E]); (0xF9E2, [0x68A8]); (0xF9E3, [0x6CE5]); (0xF9E4, [0x7406]);
  (0xF9E5, [0x75E2]); (0xF9E6, [0x7F79]); (0xF9E7, [0x88CF]); (0xF9E8, [0x88E1]);
  (0xF9E9, [0x91CC]); (0xF9EA, [0x96E2]); (0xF9EB, [0x533F]); (0xF9EC, [0x6EBA]);
  (0xF9ED, [0x541D]); (0xF9EE, [0x71D0]); (0xF9EF, [0x7498]); (0xF9F0, [0x85FA]);
  (0xF9F1, [0x96A3]); (0xF9F2, [0x9C57]); (0xF9F3, [0x9E9F]); (0xF9F4, [0x6797]);
  (0xF9F5, [0x6DCB]); (0xF9F6, [0x81E8]); (0xF9F7, [0x7ACB]); (0xF9F8, [0x7B20]);
  (0xF9F9, [0x7C92]); (0xF9FA, [0x72C0]); (0xF9FB, [0x7099]); (0xF9FC, [0x8B58]);
  (0xF9FD, [0x4EC0]); (0xF9FE, [0x8336]); (0xF9FF, [0x523A]); (0xFA00, [0x5207]);
  (0xFA01, [0x5EA6]); (0xFA02, [0x62D3]); (0xFA03, [0x7CD6]); (0xFA04, [0x5B85]);
  (0xFA05, [0x6D1E]); (0xFA06, [0x66B4]); (0xFA07, [0x8F3B]); (0xFA08, [0x884C]);
  (0xFA09, [0x964D]); (0xFA0A, [0x898B]); (0xFA0B, [0x5ED3]); (0xFA0C, [0x5140]);
  (0xFA0D, [0x55C0]); (0xFA10, [0x585A]); (0xFA12, [0x6674]); (0xFA15, [0x51DE]);
  (0xFA16, [0x732A]); (0xFA17, [0x76CA]); (0xFA18, [0x793C]); (0xFA19, [0x795E]);
  (0xFA1A, [0x7965]); (0xFA1B, [0x798F]); (0xFA1C, [0x9756]); (0xFA1D, [0x7CBE]);
  (0xFA1E, [0x7FBD]); (0xFA20, [0x8612]); (0xFA22, [0x8AF8]); (0xFA25, [0x9038]);
  (0xFA26, [0x90FD]); (0xFA2A, [0x98EF]); (0xFA2B, [0x98FC]); (0xFA2C, [0x9928]);
  (0xFA2D, [0x9DB4]); (0xFA2E, [0x90DE]); (0xFA2F, [0x96B7]); (0xFA30, [0x4FAE]);
  (0xFA31, [0x50E7]); (0xFA32, [0x514D]); (0xFA33, [0x52C9]); (0xFA34, [0x52E4]);
  (0xFA35, [0x5351]); (0xFA36, [0x559D]); (0xFA37, [0x5606]); (0xFA38, [0x5668]);
  (0xFA39, [0x5840]); (0xFA3A, [0x58A8]); (0xFA3B, [0x5C64]); (0xFA3C, [0x5C6E]);
  (0xFA3D, [0x6094]); (0xFA3E, [0x6168]); (0xFA3F, [0x618E]); (0xFA40, [0x61F2]);
  (0xFA41, [0x654F]); (0xFA42, [0x65E2]); (0xFA43, [0x6691]); (0xFA44, [0x6885]);
  (0xFA45, [0x6D77]); (0xFA46, [0x6E1A]); (0xFA47, [0x6F22]); (0xFA48, [0x716E]);
  (0xFA49, [0x722B]); (0xFA4A, [0x7422]); (0xFA4B, [0x7891]); (0xFA4C, [0x793E]);
  (0xFA4D, [0x7949]); (0xFA4E, [0x7948]); (0xFA4F, [0x7950]); (0xFA50, [0x7956]);
  (0xFA51, [0x795D]); (0xFA52, [0x798D]); (0xFA53, [0x798E]); (0xFA54, [0x7A40]);
  (0xFA55, [0x7A81]); (0xFA56, [0x7BC0]); (0xFA57, [0x7DF4]); (0xFA58, [0x7E09]);
  (0xFA59, [0x7E41]); (0xFA5A, [0x7F72]); (0xFA5B, [0x8005]); (0xFA5C, [0x81ED]);
  (0xFA5D, [0x8279]); (0xFA5E, [0x8279]); (0xFA5F, [0x8457]); (0xFA60, [0x8910]);
  (0xFA61, [0x8996]); (0xFA62, [0x8B01]); (0xFA63, [0x8B39]); (0xFA64, [0x8CD3]);
  (0xFA65, [0x8D08]); (0xFA66, [0x8FB6]); (0xFA67, [0x9038]); (0xFA68, [0x96E3]);
  (0xFA69, [0x97FF]); (0xFA6A, [0x983B]); (0xFA6B, [0x6075]); (0xFA6C, [0x242EE]);
  (0xFA6D, [0x8218]); (0xFA70, [0x4E26]); (0xFA71, [0x51B5]); (0xFA72, [0x5168]);
  (0xFA73, [0x4F80]); (0xFA74, [0x5145]); (0xFA75, [0x5180]); (0xFA76, [0x52C7]);
  (0xFA77, [0x52FA]); (0xFA78, [0x559D]); (0xFA79, [0x5555]); (0xFA7A, [0x5599]);
  (0xFA7B, [0x55E2]); (0xFA7C, [0x585A]); (0xFA7D, [0x58B3]); (0xFA7E, [0x5944]);
  (0xFA7F, [0x5954]); (0xFA80, [0x5A62]); (0xFA81, [0x5B28]); (0xFA82, [0x5ED2]);
  (0xFA83, [0x5ED9]); (0xFA84, [0x5F69]); (0xFA85, [0x5FAD]); (0xFA86, [0x60D8]);
  (0xFA87, [0x614E]); (0xFA88, [0x6108]); (0xFA89, [0x618E]); (0xFA8A, [0x6160]);
  (0xFA8B, [0x61F2]); (0xFA8C, [0x6234]); (0xFA8D, [0x63C4]); (0xFA8E, [0x641C]);
  (0xFA8F, [0x6452]); (0xFA90, [0x6556]); (0xFA91, [0x6674]); (0xFA92, [0x6717]);
  (0xFA93, [0x671B]); (0xFA94, [0x6756]); (0xFA95, [0x6B79]); (0xFA96, [0x6BBA]);
  (0xFA97, [0x6D41]); (0xFA98, [0x6EDB]); (0xFA99, [0x6ECB]); (0xFA9A, [0x6F22]);
  (0xFA9B, [0x701E]); (0xFA9C, [0x716E]); (0xFA9D, [0x77A7]); (0xFA9E, [0x7235]);
  (0xFA9F, [0x72AF]); (0xFAA0, [0x732A]); (0xFAA1, [0x7471]); (0xFAA2, [0x7506]);
  (0xFAA3, [0x753B]); (0xFAA4, [0x761D]); (0xFAA5, [0x761F]); (0xFAA6, [0x76CA]);
  (0xFAA7, [0x76DB]); (0xFAA8, [0x76F4]); (0xFAA9, [0x774A]); (0xFAAA, [0x7740]);
  (0xFAAB, [0x78CC]); (0xFAAC, [0x7AB1]); (0xFAAD, [0x7BC0]); (0xFAAE, [0x7C7B]);
  (0xFAAF, [0x7D5B]); (0xFAB0, [0x7DF4]); (0xFAB1, [0x7F3E]); (0xFAB2, [0x8005]);
  (0xFAB3, [0x8352]); (0xFAB4, [0x83EF]); (0xFAB5, [0x8779]); (0xFAB6, [0x8941]);
  (0xFAB7, [0x8986]); (0xFAB8, [0x8996]); (0xFAB9, [0x8ABF]); (0xFABA, [0x8AF8]);
  (0xFABB, [0x8ACB]); (0xFABC, [0x8B01]); (0xFABD, [0x8AFE]); (0xFABE, [0x8AED]);
  (0xFABF, [0x8B39]); (0xFAC0, [0x8B8A]); (0xFAC1, [0x8D08]); (0xFAC2, [0x8F38]);
  (0xFAC3, [0x9072]); (0xFAC4, [0x9199]); (0xFAC5, [0x9276]); (0xFAC6, [0x967C]);
  (0xFAC7, [0x96E3]); (0xFAC8, [0x9756]); (0xFAC9, [0x97DB]); (0xFACA, [0x97FF]);
  (0xFACB, [0x980B]); (0xFACC, [0x983B]); (0xFACD, [0x9B12]); (0xFACE, [0x9F9C]);
  (0xFACF, [0x2284A]); (0xFAD0, [0x22844]); (0xFAD1, [0x233D5]); (0xFAD2, [0x3B9D]);
  (0xFAD3, [0x4018]); (0xFAD4, [0x4039]); (0xFAD5, [0x25249]); (0xFAD6, [0x25CD0]);
  (0xFAD7, [0x27ED3]); (0xFAD8, [0x9F43]); (0xFAD9, [0x9F8E]); (0xFB1D, [0x5D9; 0x5B4]);
  (0xFB1F, [0x5F2; 0x5B7]); (0xFB2A, [0x5E9; 0x5C1]); (0xFB2B, [0x5E9; 0x5C2]); (0xFB2C, [0x5E9; 0x5BC; 0x5C1]);
  (0xFB2D, [0x5E9; 0x5BC; 0x5C2]); (0xFB2E, [0x5D0; 0x5B7]); (0xFB2F, [0x5D0; 0x5B8]); (0xFB30, [0x5D0; 0x5BC]);
  (0xFB31, [0x5D1; 0x5BC]); (0xFB32, [0x5D2; 0x5BC]); (0xFB33, [0x5D3; 0x5BC]); (0xFB34, [0x5D4; 0x5BC]);
  (0xFB35, [0x5D5; 0x5BC]); (0xFB36, [0x5D6; 0x5BC]); (0xFB38, [0x5D8; 0x5BC]); (0xFB39, [0x5D9; 0x5BC]);
  (0xFB3A, [0x5DA; 0x5BC]); (0xFB3B, [0x5DB; 0x5BC]); (0xFB3C, [0x5DC; 0x5BC]); (0xFB3E, [0x5DE; 0x5BC]);
  (0xFB40, [0x5E0; 0x5BC]); (0xFB41, [0x5E1; 0x5BC]); (0xFB43, [0x5E3; 0x5BC]); (0xFB44, [0x5E4; 0x5BC]);
  (0xFB46, [0x5E6; 0x5BC]); (0xFB47, [0x5E7; 0x5BC]); (0xFB48, [0x5E8; 0x5BC]); (0xFB49, [0x5E9; 0x5BC]);
  (0xFB4A, [0x5EA; 0x5BC]); (0xFB4B, [0x5D5; 0x5B9]); (0xFB4C, [0x5D1; 0x5BF]); (0xFB4D, [0x5DB; 0x5BF]);
  (0xFB4E, [0x5E4; 0x5BF]); (0x1109A, [0x11099; 0x110BA]); (0x1109C, [0x1109B; 0x110BA]); (0x110AB, [0x110A5; 0x110BA]);
  (0x1112E, [0x11131; 0x11127]); (0x1112F, [0x11132; 0x11127]); (0x1134B, [0x11347; 0x1133E]); (0x1134C, [0x11347; 0x11357]);
  (0x114BB, [0x114B9; 0x114BA]); (0x114BC, [0x114B9; 0x114B0]); (0x114BE, [0x114B9; 0x114BD]); (0x115BA, [0x115B8; 0x115AF]);
  (0x115BB, [0x115B9; 0x115AF]); (0x11938, [0x11935; 0x11930]); (0x1D15E, [0x1D157; 0x1D165]); (0x1D15F, [0x1D158; 0x1D165]);
  (0x1D160, [0x1D158; 0x1D165; 0x1D16E]); (0x1D161, [0x1D158; 0x1D165; 0x1D16F]); (0x1D162, [0x1D158; 0x1D165; 0x1D170]); (0x1D163, [0x1D158; 0x1D165; 0x1D171]);
  (0x1D164, [0x1D158; 0x1D165; 0x1D172]); (0x1D1BB, [0x1D1B9; 0x1D165]); (0x1D1BC, [0x1D1BA; 0x1D165]); (0x1D1BD, [0x1D1B9; 0x1D165; 0x1D16E]);
  (0x1D1BE, [0x1D1BA; 0x1D165; 0x1D16E]); (0x1D1BF, [0x1D1B9; 0x1D165; 0x1D16F]); (0x1D1C0, [0x1D1BA; 0x1D165; 0x1D16F]); (0x2F800, [0x4E3D]);
  (0x2F801, [0x4E38]); (0x2F802, [0x4E41]); (0x2F803, [0x20122]); (0x2F804, [0x4F60]);
  (0x2F805, [0x4FAE]); (0x2F806, [0x4FBB]); (0x2F807, [0x5002]); (0x2F808, [0x507A]);
  (0x2F809, [0x5099]); (0x2F80A, [0x50E7]); (0x2F80B, [0x50CF]); (0x2F80C, [0x349E]);
  (0x2F80D, [0x2063A]); (0x2F80E, [0x514D]); (0x2F80F, [0x5154]); (0x2F810, [0x5164]);
  (0x2F811, [0x5177]); (0x2F812, [0x2051C]); (0x2F813, [0x34B9]); (0x2F814, [0x5167]);
  (0x2F815, [0x518D]); (0x2F816, [0x2054B]); (0x2F817, [0x5197]); (0x2F818, [0x51A4]);
  (0x2F819, [0x4ECC]); (0x2F81A, [0x51AC]); (0x2F81B, [0x51B5]); (0x2F81C, [0x291DF]);
  (0x2F81D, [0x51F5]); (0x2F81E, [0x5203]); (0x2F81F, [0x34DF]); (0x2F820, [0x523B]);
  (0x2F821, [0x5246]); (0x2F822, [0x5272]); (0x2F823, [0x5277]); (0x2F824, [0x3515]);
  (0x2F825, [0x52C7]); (0x2F826, [0x52C9]); (0x2F827, [0x52E4]); (0x2F828, [0x52FA]);
  (0x2F829, [0x5305]); (0x2F82A, [0x5306]); (0x2F82B, [0x5317]); (0x2F82C, [0x5349]);
  (0x2F82D, [0x5351]); (0x2F82E, [0x535A]); (0x2F82F, [0x5373]); (0x2F830, [0x537D]);
  (0x2F831, [0x537F]); (0x2F832, [0x537F]); (0x2F833, [0x537F]); (0x2F834, [0x20A2C]);
  (0x2F835, [0x7070]); (0x2F836, [0x53CA]); (0x2F837, [0x53DF]); (0x2F838, [0x20B63]);
  (0x2F839, [0x53EB]); (0x2F83A, [0x53F1]); (0x2F83B, [0x5406]); (0x2F83C, [0x549E]);
  (0x2F83D, [0x5438]); (0x2F83E, [0x5448]); (0x2F83F, [0x5468]); (0x2F840, [0x54A2]);
  (0x2F841, [0x54F6]); (0x2F842, [0x5510]); (0x2F843, [0x5553]); (0x2F844, [0x5563]);
  (0x2F845, [0x5584]); (0x2F846, [0x5584]); (0x2F847, [0x5599]); (0x2F848, [0x55AB]);
  (0x2F849, [0x55B3]); (0x2F84A, [0x55C2]); (0x2F84B, [0x5716]); (0x2F84C, [0x5606]);
  (0x2F84D, [0x5717]); (0x2F84E, [0x5651]); (0x2F84F, [0x5674]); (0x2F850, [0x5207])
 ]%N.

Definition canon_table_4 : list (N * list N) :=
 [
  (0x2F851, [0x58EE]); (0x2F852, [0x57CE]); (0x2F853, [0x57F4]); (0x2F854, [0x580D]);
  (0x2F855, [0x578B]); (0x2F856, [0x5832]); (0x2F857, [0x5831]); (0x2F858, [0x58AC]);
  (0x2F859, [0x214E4]); (0x2F85A, [0x58F2]); (0x2F85B, [0x58F7]); (0x2F85C, [0x5906]);
  (0x2F85D, [0x591A]); (0x2F85E, [0x5922]); (0x2F85F, [0x5962]); (0x2F860, [0x216A8]);
  (0x2F861, [0x216EA]); (0x2F862, [0x59EC]); (0x2F863, [0x5A1B]); (0x2F864, [0x5A27]);
  (0x2F865, [0x59D8]); (0x2F866, [0x5A66]); (0x2F867, [0x36EE]); (0x2F868, [0x36FC]);
  (0x2F869, [0x5B08]); (0x2F86A, [0x5B3E]); (0x2F86B, [0x5B3E]); (0x2F86C, [0x219C8]);
  (0x2F86D, [0x5BC3]); (0x2F86E, [0x5BD8]); (0x2F86F, [0x5BE7]); (0x2F870, [0x5BF3]);
  (0x2F871, [0x21B18]); (0x2F872, [0x5BFF]); (0x2F873, [0x5C06]); (0x2F874, [0x5F53]);
  (0x2F875, [0x5C22]); (0x2F876, [0x3781]); (0x2F877, [0x5C60]); (0x2F878, [0x5C6E]);
  (0x2F879, [0x5CC0]); (0x2F87A, [0x5C8D]); (0x2F87B, [0x21DE4]); (0x2F87C, [0x5D43]);
  (0x2F87D, [0x21DE6]); (0x2F87E, [0x5D6E]); (0x2F87F, [0x5D6B]); (0x2F880, [0x5D7C]);
  (0x2F881, [0x5DE1]); (0x2F882, [0x5DE2]); (0x2F883, [0x382F]); (0x2F884, [0x5DFD]);
  (0x2F885, [0x5E28]); (0x2F886, [0x5E3D]); (0x2F887, [0x5E69]); (0x2F888, [0x3862]);
  (0x2F889, [0x22183]); (0x2F88A, [0x387C]); (0x2F88B, [0x5EB0]); (0x2F88C, [0x5EB3]);
  (0x2F88D, [0x5EB6]); (0x2F88E, [0x5ECA]); (0x2F88F, [0x2A392]); (0x2F890, [0x5EFE]);
  (0x2F891, [0x22331]); (0x2F892, [0x22331]); (0x2F893, [0x8201]); (0x2F894, [0x5F22]);
  (0x2F895, [0x5F22]); (0x2F896, [0x38C7]); (0x2F897, [0x232B8]); (0x2F898, [0x261DA]);
  (0x2F899, [0x5F62]); (0x2F89A, [0x5F6B]); (0x2F89B, [0x38E3]); (0x2F89C, [0x5F9A]);
  (0x2F89D, [0x5FCD]); (0x2F89E, [0x5FD7]); (0x2F89F, [0x5FF9]); (0x2F8A0, [0x6081]);
  (0x2F8A1, [0x393A]); (0x2F8A2, [0x391C]); (0x2F8A3, [0x6094]); (0x2F8A4, [0x226D4]);
  (0x2F8A5, [0x60C7]); (0x2F8A6, [0x6148]); (0x2F8A7, [0x614C]); (0x2F8A8, [0x614E]);
  (0x2F8A9, [0x614C]); (0x2F8AA, [0x617A]); (0x2F8AB, [0x618E]); (0x2F8AC, [0x61B2]);
  (0x2F8AD, [0x61A4]); (0x2F8AE, [0x61AF]); (0x2F8AF, [0x61DE]); (0x2F8B0, [0x61F2]);
  (0x2F8B1, [0x61F6]); (0x2F8B2, [0x6210]); (0x2F8B3, [0x621B]); (0x2F8B4, [0x625D]);
  (0x2F8B5, [0x62B1]); (0x2F8B6, [0x62D4]); (0x2F8B7, [0x6350]); (0x2F8B8, [0x22B0C]);
  (0x2F8B9, [0x633D]); (0x2F8BA, [0x62FC]); (0x2F8BB, [0x6368]); (0x2F8BC, [0x6383]);
  (0x2F8BD, [0x63E4]); (0x2F8BE, [0x22BF1]); (0x2F8BF, [0x6422]); (0x2F8C0, [0x63C5]);
  (0x2F8C1, [0x63A9]); (0x2F8C2, [0x3A2E]); (0x2F8C3, [0x6469]); (0x2F8C4, [0x647E]);
  (0x2F8C5, [0x649D]); (0x2F8C6, [0x6477]); (0x2F8C7, [0x3A6C]); (0x2F8C8, [0x654F]);
  (0x2F8C9, [0x656C]); (0x2F8CA, [0x2300A]); (0x2F8CB, [0x65E3]); (0x2F8CC, [0x66F8]);
  (0x2F8CD, [0x6649]); (0x2F8CE, [0x3B19]); (0x2F8CF, [0x6691]); (0x2F8D0, [0x3B08]);
  (0x2F8D1, [0x3AE4]); (0x2F8D2, [0x5192]); (0x2F8D3, [0x5195]); (0x2F8D4, [0x6700]);
  (0x2F8D5, [0x669C]); (0x2F8D6, [0x80AD]); (0x2F8D7, [0x43D9]); (0x2F8D8, [0x6717]);
  (0x2F8D9, [0x671B]); (0x2F8DA, [0x6721]); (0x2F8DB, [0x675E]); (0x2F8DC, [0x6753]);
  (0x2F8DD, [0x233C3]); (0x2F8DE, [0x3B49]); (0x2F8DF, [0x67FA]); (0x2F8E0, [0x6785]);
  (0x2F8E1, [0x6852]); (0x2F8E2, [0x6885]); (0x2F8E3, [0x2346D]); (0x2F8E4, [0x688E]);
  (0x2F8E5, [0x681F]); (0x2F8E6, [0x6914]); (0x2F8E7, [0x3B9D]); (0x2F8E8, [0x6942]);
  (0x2F8E9, [0x69A3]); (0x2F8EA, [0x69EA]); (0x2F8EB, [0x6AA8]); (0x2F8EC, [0x236A3]);
  (0x2F8ED, [0x6ADB]); (0x2F8EE, [0x3C18]); (0x2F8EF, [0x6B21]); (0x2F8F0, [0x238A7]);
  (0x2F8F1, [0x6B54]); (0x2F8F2, [0x3C4E]); (0x2F8F3, [0x6B72]); (0x2F8F4, [0x6B9F]);
  (0x2F8F5, [0x6BBA]); (0x2F8F6, [0x6BBB]); (0x2F8F7, [0x23A8D]); (0x2F8F8, [0x21D0B]);
  (0x2F8F9, [0x23AFA]); (0x2F8FA, [0x6C4E]); (0x2F8FB, [0x23CBC]); (0x2F8FC, [0x6CBF]);
  (0x2F8FD, [0x6CCD]); (0x2F8FE, [0x6C67]); (0x2F8FF, [0x6D16]); (0x2F900, [0x6D3E]);
  (0x2F901, [0x6D77]); (0x2F902, [0x6D41]); (0x2F903, [0x6D69]); (0x2F904, [0x6D78]);
  (0x2F905, [0x6D85]); (0x2F906, [0x23D1E]); (0x2F907, [0x6D34]); (0x2F908, [0x6E2F]);
  (0x2F909, [0x6E6E]); (0x2F90A, [0x3D33]); (0x2F90B, [0x6ECB]); (0x2F90C, [0x6EC7]);
  (0x2F90D, [0x23ED1]); (0x2F90E, [0x6DF9]); (0x2F90F, [0x6F6E]); (0x2F910, [0x23F5E]);
  (0x2F911, [0x23F8E]); (0x2F912, [0x6FC6]); (0x2F913, [0x7039]); (0x2F914, [0x701E]);
  (0x2F915, [0x701B]); (0x2F916, [0x3D96]); (0x2F917, [0x704A]); (0x2F918, [0x707D]);
  (0x2F919, [0x7077]); (0x2F91A, [0x70AD]); (0x2F91B, [0x20525]); (0x2F91C, [0x7145]);
  (0x2F91D, [0x24263]); (0x2F91E, [0x719C]); (0x2F91F, [0x243AB]); (0x2F920, [0x7228]);
  (0x2F921, [0x7235]); (0x2F922, [0x7250]); (0x2F923, [0x24608]); (0x2F924, [0x7280]);
  (0x2F925, [0x7295]); (0x2F926, [0x24735]); (0x2F927, [0x24814]); (0x2F928, [0x737A]);
  (0x2F929, [0x738B]); (0x2F92A, [0x3EAC]); (0x2F92B, [0x73A5]); (0x2F92C, [0x3EB8]);
  (0x2F92D, [0x3EB8]); (0x2F92E, [0x7447]); (0x2F92F, [0x745C]); (0x2F930, [0x7471]);
  (0x2F931, [0x7485]); (0x2F932, [0x74CA]); (0x2F933, [0x3F1B]); (0x2F934, [0x7524]);
  (0x2F935, [0x24C36]); (0x2F936, [0x753E]); (0x2F937, [0x24C92]); (0x2F938, [0x7570]);
  (0x2F939, [0x2219F]); (0x2F93A, [0x7610]); (0x2F93B, [0x24FA1]); (0x2F93C, [0x24FB8]);
  (0x2F93D, [0x25044]); (0x2F93E, [0x3FFC]); (0x2F93F, [0x4008]); (0x2F940, [0x76F4]);
  (0x2F941, [0x250F3]); (0x2F942, [0x250F2]); (0x2F943, [0x25119]); (0x2F944, [0x25133]);
  (0x2F945, [0x771E]); (0x2F946, [0x771F]); (0x2F947, [0x771F]); (0x2F948, [0x774A]);
  (0x2F949, [0x4039]); (0x2F94A, [0x778B]); (0x2F94B, [0x4046]); (0x2F94C, [0x4096]);
  (0x2F94D, [0x2541D]); (0x2F94E, [0x784E]); (0x2F94F, [0x788C]); (0x2F950, [0x78CC]);
  (0x2F951, [0x40E3]); (0x2F952, [0x25626]); (0x2F953, [0x7956]); (0x2F954, [0x2569A]);
  (0x2F955, [0x256C5]); (0x2F956, [0x798F]); (0x2F957, [0x79EB]); (0x2F958, [0x412F]);
  (0x2F959, [0x7A40]); (0x2F95A, [0x7A4A]); (0x2F95B, [0x7A4F]); (0x2F95C, [0x2597C]);
  (0x2F95D, [0x25AA7]); (0x2F95E, [0x25AA7]); (0x2F95F, [0x7AEE]); (0x2F960, [0x4202]);
  (0x2F961, [0x25BAB]); (0x2F962, [0x7BC6]); (0x2F963, [0x7BC9]); (0x2F964, [0x4227]);
  (0x2F965, [0x25C80]); (0x2F966, [0x7CD2]); (0x2F967, [0x42A0]); (0x2F968, [0x7CE8]);
  (0x2F969, [0x7CE3]); (0x2F96A, [0x7D00]); (0x2F96B, [0x25F86]); (0x2F96C, [0x7D63]);
  (0x2F96D, [0x4301]); (0x2F96E, [0x7DC7]); (0x2F96F, [0x7E02]); (0x2F970, [0x7E45]);
  (0x2F971, [0x4334]); (0x2F972, [0x26228]); (0x2F973, [0x26247]); (0x2F974, [0x4359]);
  (0x2F975, [0x262D9]); (0x2F976, [0x7F7A]); (0x2F977, [0x2633E]); (0x2F978, [0x7F95]);
  (0x2F979, [0x7FFA]); (0x2F97A, [0x8005]); (0x2F97B, [0x264DA]); (0x2F97C, [0x26523]);
  (0x2F97D, [0x8060]); (0x2F97E, [0x265A8]); (0x2F97F, [0x8070]); (0x2F980, [0x2335F]);
  (0x2F981, [0x43D5]); (0x2F982, [0x80B2]); (0x2F983, [0x8103]); (0x2F984, [0x440B]);
  (0x2F985, [0x813E]); (0x2F986, [0x5AB5]); (0x2F987, [0x267A7]); (0x2F988, [0x267B5]);
  (0x2F989, [0x23393]); (0x2F98A, [0x2339C]); (0x2F98B, [0x8201]); (0x2F98C, [0x8204]);
  (0x2F98D, [0x8F9E]); (0x2F98E, [0x446B]); (0x2F98F, [0x8291]); (0x2F990, [0x828B]);
  (0x2F991, [0x829D]); (0x2F992, [0x52B3]); (0x2F993, [0x82B1]); (0x2F994, [0x82B3]);
  (0x2F995, [0x82BD]); (0x2F996, [0x82E6]); (0x2F997, [0x26B3C]); (0x2F998, [0x82E5]);
  (0x2F999, [0x831D]); (0x2F99A, [0x8363]); (0x2F99B, [0x83AD]); (0x2F99C, [0x8323]);
  (0x2F99D, [0x83BD]); (0x2F99E, [0x83E7]); (0x2F99F, [0x8457]); (0x2F9A0, [0x8353]);
  (0x2F9A1, [0x83CA]); (0x2F9A2, [0x83CC]); (0x2F9A3, [0x83DC]); (0x2F9A4, [0x26C36]);
  (0x2F9A5, [0x26D6B]); (0x2F9A6, [0x26CD5]); (0x2F9A7, [0x452B]); (0x2F9A8, [0x84F1]);
  (0x2F9A9, [0x84F3]); (0x2F9AA, [0x8516]); (0x2F9AB, [0x273CA]); (0x2F9AC, [0x8564]);
  (0x2F9AD, [0x26F2C]); (0x2F9AE, [0x455D]); (0x2F9AF, [0x4561]); (0x2F9B0, [0x26FB1]);
  (0x2F9B1, [0x270D2]); (0x2F9B2, [0x456B]); (0x2F9B3, [0x8650]); (0x2F9B4, [0x865C]);
  (0x2F9B5, [0x8667]); (0x2F9B6, [0x8669]); (0x2F9B7, [0x86A9]); (0x2F9B8, [0x8688]);
  (0x2F9B9, [0x870E]); (0x2F9BA, [0x86E2]); (0x2F9BB, [0x8779]); (0x2F9BC, [0x8728]);
  (0x2F9BD, [0x876B]); (0x2F9BE, [0x8786]); (0x2F9BF, [0x45D7]); (0x2F9C0, [0x87E1]);
  (0x2F9C1, [0x8801]); (0x2F9C2, [0x45F9]); (0x2F9C3, [0x8860]); (0x2F9C4, [0x8863]);
  (0x2F9C5, [0x27667]); (0x2F9C6, [0x88D7]); (0x2F9C7, [0x88DE]); (0x2F9C8, [0x4635]);
  (0x2F9C9, [0x88FA]); (0x2F9CA, [0x34BB]); (0x2F9CB, [0x278AE]); (0x2F9CC, [0x27966]);
  (0x2F9CD, [0x46BE]); (0x2F9CE, [0x46C7]); (0x2F9CF, [0x8AA0]); (0x2F9D0, [0x8AED]);
  (0x2F9D1, [0x8B8A]); (0x2F9D2, [0x8C55]); (0x2F9D3, [0x27CA8]); (0x2F9D4, [0x8CAB]);
  (0x2F9D5, [0x8CC1]); (0x2F9D6, [0x8D1B]); (0x2F9D7, [0x8D77]); (0x2F9D8, [0x27F2F]);
  (0x2F9D9, [0x20804]); (0x2F9DA, [0x8DCB]); (0x2F9DB, [0x8DBC]); (0x2F9DC, [0x8DF0]);
  (0x2F9DD, [0x208DE]); (0x2F9DE, [0x8ED4]); (0x2F9DF, [0x8F38]); (0x2F9E0, [0x285D2])
 ]%N.

Definition canon_table_5 : list (N * list N) :=
 [
  (0x2F9E1, [0x285ED]); (0x2F9E2, [0x9094]); (0x2F9E3, [0x90F1]); (0x2F9E4, [0x9111]);
  (0x2F9E5, [0x2872E]); (0x2F9E6, [0x911B]); (0x2F9E7, [0x9238]); (0x2F9E8, [0x92D7]);
  (0x2F9E9, [0x92D8]); (0x2F9EA, [0x927C]); (0x2F9EB, [0x93F9]); (0x2F9EC, [0x9415]);
  (0x2F9ED, [0x28BFA]); (0x2F9EE, [0x958B]); (0x2F9EF, [0x4995]); (0x2F9F0, [0x95B7]);
  (0x2F9F1, [0x28D77]); (0x2F9F2, [0x49E6]); (0x2F9F3, [0x96C3]); (0x2F9F4, [0x5DB2]);
  (0x2F9F5, [0x9723]); (0x2F9F6, [0x29145]); (0x2F9F7, [0x2921A]); (0x2F9F8, [0x4A6E]);
  (0x2F9F9, [0x4A76]); (0x2F9FA, [0x97E0]); (0x2F9FB, [0x2940A]); (0x2F9FC, [0x4AB2]);
  (0x2F9FD, [0x29496]); (0x2F9FE, [0x980B]); (0x2F9FF, [0x980B]); (0x2FA00, [0x9829]);
  (0x2FA01, [0x295B6]); (0x2FA02, [0x98E2]); (0x2FA03, [0x4B33]); (0x2FA04, [0x9929]);
  (0x2FA05, [0x99A7]); (0x2FA06, [0x99C2]); (0x2FA07, [0x99FE]); (0x2FA08, [0x4BCE]);
  (0x2FA09, [0x29B30]); (0x2FA0A, [0x9B12]); (0x2FA0B, [0x9C40]); (0x2FA0C, [0x9CFD]);
  (0x2FA0D, [0x4CCE]); (0x2FA0E, [0x4CED]); (0x2FA0F, [0x9D67]); (0x2FA10, [0x2A0CE]);
  (0x2FA11, [0x4CF8]); (0x2FA12, [0x2A105]); (0x2FA13, [0x2A20E]); (0x2FA14, [0x2A291]);
  (0x2FA15, [0x9EBB]); (0x2FA16, [0x4D56]); (0x2FA17, [0x9EF9]); (0x2FA18, [0x9EFE]);
  (0x2FA19, [0x9F05]); (0x2FA1A, [0x9F0F]); (0x2FA1B, [0x9F16]); (0x2FA1C, [0x9F3B]);
  (0x2FA1D, [0x2A600])
 ]%N.

Definition canon_table : list (N * list N) :=
  canon_table_0 ++ canon_table_1 ++ canon_table_2 ++ canon_table_3 ++ canon_table_4 ++ canon_table_5.

(** [compat_table]: the fully expanded compatibility decomposition
    ([unicodedata.normalize("NFKD", c)]) of the code points where it differs
    from the canonical one. *)

Definition compat_table_0 : list (N * list N) :=
 [
  (0xA0, [0x20]); (0xA8, [0x20; 0x308]); (0xAA, [0x61]); (0xAF, [0x20; 0x304]);
  (0xB2, [0x32]); (0xB3, [0x33]); (0xB4, [0x20; 0x301]); (0xB5, [0x3BC]);
  (0xB8, [0x20; 0x327]); (0xB9, [0x31]); (0xBA, [0x6F]); (0xBC, [0x31; 0x2044; 0x34]);
  (0xBD, [0x31; 0x2044; 0x32]); (0xBE, [0x33; 0x2044; 0x34]); (0x132, [0x49; 0x4A]); (0x133, [0x69; 0x6A]);
  (0x13F, [0x4C; 0xB7]); (0x140, [0x6C; 0xB7]); (0x149, [0x2BC; 0x6E]); (0x17F, [0x73]);
  (0x1C4, [0x44; 0x5A; 0x30C]); (0x1C5, [0x44; 0x7A; 0x30C]); (0x1C6, [0x64; 0x7A; 0x30C]); (0x1C7, [0x4C; 0x4A]);
  (0x1C8, [0x4C; 0x6A]); (0x1C9, [0x6C; 0x6A]); (0x1CA, [0x4E; 0x4A]); (0x1CB, [0x4E; 0x6A]);
  (0x1CC, [0x6E; 0x6A]); (0x1F1, [0x44; 0x5A]); (0x1F2, [0x44; 0x7A]); (0x1F3, [0x64; 0x7A]);
  (0x2B0, [0x68]); (0x2B1, [0x266]); (0x2B2, [0x6A]); (0x2B3, [0x72]);
  (0x2B4, [0x279]); (0x2B5, [0x27B]); (0x2B6, [0x281]); (0x2B7, [0x77]);
  (0x2B8, [0x79]); (0x2D8, [0x20; 0x306]); (0x2D9, [0x20; 0x307]); (0x2DA, [0x20; 0x30A]);
  (0x2DB, [0x20; 0x328]); (0x2DC, [0x20; 0x303]); (0x2DD, [0x20; 0x30B]); (0x2E0, [0x263]);
  (0x2E1, [0x6C]); (0x2E2, [0x73]); (0x2E3, [0x78]); (0x2E4, [0x295]);
  (0x37A, [0x20; 0x345]); (0x384, [0x20; 0x301]); (0x385, [0x20; 0x308; 0x301]); (0x3D0, [0x3B2]);
  (0x3D1, [0x3B8]); (0x3D2, [0x3A5]); (0x3D3, [0x3A5; 0x301]); (0x3D4, [0x3A5; 0x308]);
  (0x3D5, [0x3C6]); (0x3D6, [0x3C0]); (0x3F0, [0x3BA]); (0x3F1, [0x3C1]);
  (0x3F2, [0x3C2]); (0x3F4, [0x398]); (0x3F5, [0x3B5]); (0x3F9, [0x3A3]);
  (0x587, [0x565; 0x582]); (0x675, [0x627; 0x674]); (0x676, [0x648; 0x674]); (0x677, [0x6C7; 0x674]);
  (0x678, [0x64A; 0x674]); (0xE33, [0xE4D; 0xE32]); (0xEB3, [0xECD; 0xEB2]); (0xEDC, [0xEAB; 0xE99]);
  (0xEDD, [0xEAB; 0xEA1]); (0xF0C, [0xF0B]); (0xF77, [0xFB2; 0xF71; 0xF80]); (0xF79, [0xFB3; 0xF71; 0xF80]);
  (0x10FC, [0x10DC]); (0x1D2C, [0x41]); (0x1D2D, [0xC6]); (0x1D2E, [0x42]);
  (0x1D30, [0x44]); (0x1D31, [0x45]); (0x1D32, [0x18E]); (0x1D33, [0x47]);
  (0x1D34, [0x48]); (0x1D35, [0x49]); (0x1D36, [0x4A]); (0x1D37, [0x4B]);
  (0x1D38, [0x4C]); (0x1D39, [0x4D]); (0x1D3A, [0x4E]); (0x1D3C, [0x4F]);
  (0x1D3D, [0x222]); (0x1D3E, [0x50]); (0x1D3F, [0x52]); (0x1D40, [0x54]);
  (0x1D41, [0x55]); (0x1D42, [0x57]); (0x1D43, [0x61]); (0x1D44, [0x250]);
  (0x1D45, [0x251]); (0x1D46, [0x1D02]); (0x1D47, [0x62]); (0x1D48, [0x64]);
  (0x1D49, [0x65]); (0x1D4A, [0x259]); (0x1D4B, [0x25B]); (0x1D4C, [0x25C]);
  (0x1D4D, [0x67]); (0x1D4F, [0x6B]); (0x1D50, [0x6D]); (0x1D51, [0x14B]);
  (0x1D52, [0x6F]); (0x1D53, [0x254]); (0x1D54, [0x1D16]); (0x1D55, [0x1D17]);
  (0x1D56, [0x70]); (0x1D57, [0x74]); (0x1D58, [0x75]); (0x1D59, [0x1D1D]);
  (0x1D5A, [0x26F]); (0x1D5B, [0x76]); (0x1D5C, [0x1D25]); (0x1D5D, [0x3B2]);
  (0x1D5E, [0x3B3]); (0x1D5F, [0x3B4]); (0x1D60, [0x3C6]); (0x1D61, [0x3C7]);
  (0x1D62, [0x69]); (0x1D63, [0x72]); (0x1D64, [0x75]); (0x1D65, [0x76]);
  (0x1D66, [0x3B2]); (0x1D67, [0x3B3]); (0x1D68, [0x3C1]); (0x1D69, [0x3C6]);
  (0x1D6A, [0x3C7]); (0x1D78, [0x43D]); (0x1D9B, [0x252]); (0x1D9C, [0x63]);
  (0x1D9D, [0x255]); (0x1D9E, [0xF0]); (0x1D9F, [0x25C]); (0x1DA0, [0x66]);
  (0x1DA1, [0x25F]); (0x1DA2, [0x261]); (0x1DA3, [0x265]); (0x1DA4, [0x268]);
  (0x1DA5, [0x269]); (0x1DA6, [0x26A]); (0x1DA7, [0x1D7B]); (0x1DA8, [0x29D]);
  (0x1DA9, [0x26D]); (0x1DAA, [0x1D85]); (0x1DAB, [0x29F]); (0x1DAC, [0x271]);
  (0x1DAD, [0x270]); (0x1DAE, [0x272]); (0x1DAF, [0x273]); (0x1DB0, [0x274]);
  (0x1DB1, [0x275]); (0x1DB2, [0x278]); (0x1DB3, [0x282]); (0x1DB4, [0x283]);
  (0x1DB5, [0x1AB]); (0x1DB6, [0x289]); (0x1DB7, [0x28A]); (0x1DB8, [0x1D1C]);
  (0x1DB9, [0x28B]); (0x1DBA, [0x28C]); (0x1DBB, [0x7A]); (0x1DBC, [0x290]);
  (0x1DBD, [0x291]); (0x1DBE, [0x292]); (0x1DBF, [0x3B8]); (0x1E9A, [0x61; 0x2BE]);
  (0x1E9B, [0x73; 0x307]); (0x1FBD, [0x20; 0x313]); (0x1FBF, [0x20; 0x313]); (0x1FC0, [0x20; 0x342]);
  (0x1FC1, [0x20; 0x308; 0x342]); (0x1FCD, [0x20; 0x313; 0x300]); (0x1FCE, [0x20; 0x313; 0x301]); (0x1FCF, [0x20; 0x313; 0x342]);
  (0x1FDD, [0x20; 0x314; 0x300]); (0x1FDE, [0x20; 0x314; 0x301]); (0x1FDF, [0x20; 0x314; 0x342]); (0x1FED, [0x20; 0x308; 0x300]);
  (0x1FEE, [0x20; 0x308; 0x301]); (0x1FFD, [0x20; 0x301]); (0x1FFE, [0x20; 0x314]); (0x2000, [0x20]);
  (0x2001, [0x20]); (0x2002, [0x20]); (0x2003, [0x20]); (0x2004, [0x20]);
  (0x2005, [0x20]); (0x2006, [0x20]); (0x2007, [0x20]); (0x2008, [0x20]);
  (0x2009, [0x20]); (0x200A, [0x20]); (0x2011, [0x2010]); (0x2017, [0x20; 0x333]);
  (0x2024, [0x2E]); (0x2025, [0x2E; 0x2E]); (0x2026, [0x2E; 0x2E; 0x2E]); (0x202F, [0x20]);
  (0x2033, [0x2032; 0x2032]); (0x2034, [0x2032; 0x2032; 0x2032]); (0x2036, [0x2035; 0x2035]); (0x2037, [0x2035; 0x2035; 0x2035]);
  (0x203C, [0x21; 0x21]); (0x203E, [0x20; 0x305]); (0x2047, [0x3F; 0x3F]); (0x2048, [0x3F; 0x21]);
  (0x2049, [0x21; 0x3F]); (0x2057, [0x2032; 0x2032; 0x2032; 0x2032]); (0x205F, [0x20]); (0x2070, [0x30]);
  (0x2071, [0x69]); (0x2074, [0x34]); (0x2075, [0x35]); (0x2076, [0x36]);
  (0x2077, [0x37]); (0x2078, [0x38]); (0x2079, [0x39]); (0x207A, [0x2B]);
  (0x207B, [0x2212]); (0x207C, [0x3D]); (0x207D, [0x28]); (0x207E, [0x29]);
  (0x207F, [0x6E]); (0x2080, [0x30]); (0x2081, [0x31]); (0x2082, [0x32]);
  (0x2083, [0x33]); (0x2084, [0x34]); (0x2085, [0x35]); (0x2086, [0x36]);
  (0x2087, [0x37]); (0x2088, [0x38]); (0x2089, [0x39]); (0x208A, [0x2B]);
  (0x208B, [0x2212]); (0x208C, [0x3D]); (0x208D, [0x28]); (0x208E, [0x29]);
  (0x2090, [0x61]); (0x2091, [0x65]); (0x2092, [0x6F]); (0x2093, [0x78]);
  (0x2094, [0x259]); (0x2095, [0x68]); (0x2096, [0x6B]); (0x2097, [0x6C]);
  (0x2098, [0x6D]); (0x2099, [0x6E]); (0x209A, [0x70]); (0x209B, [0x73]);
  (0x209C, [0x74]); (0x20A8, [0x52; 0x73]); (0x2100, [0x61; 0x2F; 0x63]); (0x2101, [0x61; 0x2F; 0x73]);
  (0x2102, [0x43]); (0x2103, [0xB0; 0x43]); (0x2105, [0x63; 0x2F; 0x6F]); (0x2106, [0x63; 0x2F; 0x75]);
  (0x2107, [0x190]); (0x2109, [0xB0; 0x46]); (0x210A, [0x67]); (0x210B, [0x48]);
  (0x210C, [0x48]); (0x210D, [0x48]); (0x210E, [0x68]); (0x210F, [0x127]);
  (0x2110, [0x49]); (0x2111, [0x49]); (0x2112, [0x4C]); (0x2113, [0x6C]);
  (0x2115, [0x4E]); (0x2116, [0x4E; 0x6F]); (0x2119, [0x50]); (0x211A, [0x51]);
  (0x211B, [0x52]); (0x211C, [0x52]); (0x211D, [0x52]); (0x2120, [0x53; 0x4D]);
  (0x2121, [0x54; 0x45; 0x4C]); (0x2122, [0x54; 0x4D]); (0x2124, [0x5A]); (0x2128, [0x5A]);
  (0x212C, [0x42]); (0x212D, [0x43]); (0x212F, [0x65]); (0x2130, [0x45]);
  (0x2131, [0x46]); (0x2133, [0x4D]); (0x2134, [0x6F]); (0x2135, [0x5D0]);
  (0x2136, [0x5D1]); (0x2137, [0x5D2]); (0x2138, [0x5D3]); (0x2139, [0x69]);
  (0x213B, [0x46; 0x41; 0x58]); (0x213C, [0x3C0]); (0x213D, [0x3B3]); (0x213E, [0x393]);
  (0x213F, [0x3A0]); (0x2140, [0x2211]); (0x2145, [0x44]); (0x2146, [0x64]);
  (0x2147, [0x65]); (0x2148, [0x69]); (0x2149, [0x6A]); (0x2150, [0x31; 0x2044; 0x37]);
  (0x2151, [0x31; 0x2044; 0x39]); (0x2152, [0x31; 0x2044; 0x31; 0x30]); (0x2153, [0x31; 0x2044; 0x33]); (0x2154, [0x32; 0x2044; 0x33]);
  (0x2155, [0x31; 0x2044; 0x35]); (0x2156, [0x32; 0x2044; 0x35]); (0x2157, [0x33; 0x2044; 0x35]); (0x2158, [0x34; 0x2044; 0x35]);
  (0x2159, [0x31; 0x2044; 0x36]); (0x215A, [0x35; 0x2044; 0x36]); (0x215B, [0x31; 0x2044; 0x38]); (0x215C, [0x33; 0x2044; 0x38]);
  (0x215D, [0x35; 0x2044; 0x38]); (0x215E, [0x37; 0x2044; 0x38]); (0x215F, [0x31; 0x2044]); (0x2160, [0x49]);
  (0x2161, [0x49; 0x49]); (0x2162, [0x49; 0x49; 0x49]); (0x2163, [0x49; 0x56]); (0x2164, [0x56]);
  (0x2165, [0x56; 0x49]); (0x2166, [0x56; 0x49; 0x49]); (0x2167, [0x56; 0x49; 0x49; 0x49]); (0x2168, [0x49; 0x58]);
  (0x2169, [0x58]); (0x216A, [0x58; 0x49]); (0x216B, [0x58; 0x49; 0x49]); (0x216C, [0x4C]);
  (0x216D, [0x43]); (0x216E, [0x44]); (0x216F, [0x4D]); (0x2170, [0x69]);
  (0x2171, [0x69; 0x69]); (0x2172, [0x69; 0x69; 0x69]); (0x2173, [0x69; 0x76]); (0x2174, [0x76]);
  (0x2175, [0x76; 0x69]); (0x2176, [0x76; 0x69; 0x69]); (0x2177, [0x76; 0x69; 0x69; 0x69]); (0x2178, [0x69; 0x78]);
  (0x2179, [0x78]); (0x217A, [0x78; 0x69]); (0x217B, [0x78; 0x69; 0x69]); (0x217C, [0x6C]);
  (0x217D, [0x63]); (0x217E, [0x64]); (0x217F, [0x6D]); (0x2189, [0x30; 0x2044; 0x33]);
  (0x222C, [0x222B; 0x222B]); (0x222D, [0x222B; 0x222B; 0x222B]); (0x222F, [0x222E; 0x222E]); (0x2230, [0x222E; 0x222E; 0x222E]);
  (0x2460, [0x31]); (0x2461, [0x32]); (0x2462, [0x33]); (0x2463, [0x34]);
  (0x2464, [0x35]); (0x2465, [0x36]); (0x2466, [0x37]); (0x2467, [0x38]);
  (0x2468, [0x39]); (0x2469, [0x31; 0x30]); (0x246A, [0x31; 0x31]); (0x246B, [0x31; 0x32]);
  (0x246C, [0x31; 0x33]); (0x246D, [0x31; 0x34]); (0x246E, [0x31; 0x35]); (0x246F, [0x31; 0x36]);
  (0x2470, [0x31; 0x37]); (0x2471, [0x31; 0x38]); (0x2472, [0x31; 0x39]); (0x2473, [0x32; 0x30]);
  (0x2474, [0x28; 0x31; 0x29]); (0x2475, [0x28; 0x32; 0x29]); (0x2476, [0x28; 0x33; 0x29]); (0x2477, [0x28; 0x34; 0x29]);
  (0x2478, [0x28; 0x35; 0x29]); (0x2479, [0x28; 0x36; 0x29]); (0x247A, [0x28; 0x37; 0x29]); (0x247B, [0x28; 0x38; 0x29])
 ]%N.

Definition compat_table_1 : list (N * list N) :=
 [
  (0x247C, [0x28; 0x39; 0x29]); (0x247D, [0x28; 0x31; 0x30; 0x29]); (0x247E, [0x28; 0x31; 0x31; 0x29]); (0x247F, [0x28; 0x31; 0x32; 0x29]);
  (0x2480, [0x28; 0x31; 0x33; 0x29]); (0x2481, [0x28; 0x31; 0x34; 0x29]); (0x2482, [0x28; 0x31; 0x35; 0x29]); (0x2483, [0x28; 0x31; 0x36; 0x29]);
  (0x2484, [0x28; 0x31; 0x37; 0x29]); (0x2485, [0x28; 0x31; 0x38; 0x29]); (0x2486, [0x28; 0x31; 0x39; 0x29]); (0x2487, [0x28; 0x32; 0x30; 0x29]);
  (0x2488, [0x31; 0x2E]); (0x2489, [0x32; 0x2E]); (0x248A, [0x33; 0x2E]); (0x248B, [0x34; 0x2E]);
  (0x248C, [0x35; 0x2E]); (0x248D, [0x36; 0x2E]); (0x248E, [0x37; 0x2E]); (0x248F, [0x38; 0x2E]);
  (0x2490, [0x39; 0x2E]); (0x2491, [0x31; 0x30; 0x2E]); (0x2492, [0x31; 0x31; 0x2E]); (0x2493, [0x31; 0x32; 0x2E]);
  (0x2494, [0x31; 0x33; 0x2E]); (0x2495, [0x31; 0x34; 0x2E]); (0x2496, [0x31; 0x35; 0x2E]); (0x2497, [0x31; 0x36; 0x2E]);
  (0x2498, [0x31; 0x37; 0x2E]); (0x2499, [0x31; 0x38; 0x2E]); (0x249A, [0x31; 0x39; 0x2E]); (0x249B, [0x32; 0x30; 0x2E]);
  (0x249C, [0x28; 0x61; 0x29]); (0x249D, [0x28; 0x62; 0x29]); (0x249E, [0x28; 0x63; 0x29]); (0x249F, [0x28; 0x64; 0x29]);
  (0x24A0, [0x28; 0x65; 0x29]); (0x24A1, [0x28; 0x66; 0x29]); (0x24A2, [0x28; 0x67; 0x29]); (0x24A3, [0x28; 0x68; 0x29]);
  (0x24A4, [0x28; 0x69; 0x29]); (0x24A5, [0x28; 0x6A; 0x29]); (0x24A6, [0x28; 0x6B; 0x29]); (0x24A7, [0x28; 0x6C; 0x29]);
  (0x24A8, [0x28; 0x6D; 0x29]); (0x24A9, [0x28; 0x6E; 0x29]); (0x24AA, [0x28; 0x6F; 0x29]); (0x24AB, [0x28; 0x70; 0x29]);
  (0x24AC, [0x28; 0x71; 0x29]); (0x24AD, [0x28; 0x72; 0x29]); (0x24AE, [0x28; 0x73; 0x29]); (0x24AF, [0x28; 0x74; 0x29]);
  (0x24B0, [0x28; 0x75; 0x29]); (0x24B1, [0x28; 0x76; 0x29]); (0x24B2, [0x28; 0x77; 0x29]); (0x24B3, [0x28; 0x78; 0x29]);
  (0x24B4, [0x28; 0x79; 0x29]); (0x24B5, [0x28; 0x7A; 0x29]); (0x24B6, [0x41]); (0x24B7, [0x42]);
  (0x24B8, [0x43]); (0x24B9, [0x44]); (0x24BA, [0x45]); (0x24BB, [0x46]);
  (0x24BC, [0x47]); (0x24BD, [0x48]); (0x24BE, [0x49]); (0x24BF, [0x4A]);
  (0x24C0, [0x4B]); (0x24C1, [0x4C]); (0x24C2, [0x4D]); (0x24C3, [0x4E]);
  (0x24C4, [0x4F]); (0x24C5, [0x50]); (0x24C6, [0x51]); (0x24C7, [0x52]);
  (0x24C8, [0x53]); (0x24C9, [0x54]); (0x24CA, [0x55]); (0x24CB, [0x56]);
  (0x24CC, [0x57]); (0x24CD, [0x58]); (0x24CE, [0x59]); (0x24CF, [0x5A]);
  (0x24D0, [0x61]); (0x24D1, [0x62]); (0x24D2, [0x63]); (0x24D3, [0x64]);
  (0x24D4, [0x65]); (0x24D5, [0x66]); (0x24D6, [0x67]); (0x24D7, [0x68]);
  (0x24D8, [0x69]); (0x24D9, [0x6A]); (0x24DA, [0x6B]); (0x24DB, [0x6C]);
  (0x24DC, [0x6D]); (0x24DD, [0x6E]); (0x24DE, [0x6F]); (0x24DF, [0x70]);
  (0x24E0, [0x71]); (0x24E1, [0x72]); (0x24E2, [0x73]); (0x24E3, [0x74]);
  (0x24E4, [0x75]); (0x24E5, [0x76]); (0x24E6, [0x77]); (0x24E7, [0x78]);
  (0x24E8, [0x79]); (0x24E9, [0x7A]); (0x24EA, [0x30]); (0x2A0C, [0x222B; 0x222B; 0x222B; 0x222B]);
  (0x2A74, [0x3A; 0x3A; 0x3D]); (0x2A75, [0x3D; 0x3D]); (0x2A76, [0x3D; 0x3D; 0x3D]); (0x2C7C, [0x6A]);
  (0x2C7D, [0x56]); (0x2D6F, [0x2D61]); (0x2E9F, [0x6BCD]); (0x2EF3, [0x9F9F]);
  (0x2F00, [0x4E00]); (0x2F01, [0x4E28]); (0x2F02, [0x4E36]); (0x2F03, [0x4E3F]);
  (0x2F04, [0x4E59]); (0x2F05, [0x4E85]); (0x2F06, [0x4E8C]); (0x2F07, [0x4EA0]);
  (0x2F08, [0x4EBA]); (0x2F09, [0x513F]); (0x2F0A, [0x5165]); (0x2F0B, [0x516B]);
  (0x2F0C, [0x5182]); (0x2F0D, [0x5196]); (0x2F0E, [0x51AB]); (0x2F0F, [0x51E0]);
  (0x2F10, [0x51F5]); (0x2F11, [0x5200]); (0x2F12, [0x529B]); (0x2F13, [0x52F9]);
  (0x2F14, [0x5315]); (0x2F15, [0x531A]); (0x2F16, [0x5338]); (0x2F17, [0x5341]);
  (0x2F18, [0x535C]); (0x2F19, [0x5369]); (0x2F1A, [0x5382]); (0x2F1B, [0x53B6]);
  (0x2F1C, [0x53C8]); (0x2F1D, [0x53E3]); (0x2F1E, [0x56D7]); (0x2F1F, [0x571F]);
  (0x2F20, [0x58EB]); (0x2F21, [0x5902]); (0x2F22, [0x590A]); (0x2F23, [0x5915]);
  (0x2F24, [0x5927]); (0x2F25, [0x5973]); (0x2F26, [0x5B50]); (0x2F27, [0x5B80]);
  (0x2F28, [0x5BF8]); (0x2F29, [0x5C0F]); (0x2F2A, [0x5C22]); (0x2F2B, [0x5C38]);
  (0x2F2C, [0x5C6E]); (0x2F2D, [0x5C71]); (0x2F2E, [0x5DDB]); (0x2F2F, [0x5DE5]);
  (0x2F30, [0x5DF1]); (0x2F31, [0x5DFE]); (0x2F32, [0x5E72]); (0x2F33, [0x5E7A]);
  (0x2F34, [0x5E7F]); (0x2F35, [0x5EF4]); (0x2F36, [0x5EFE]); (0x2F37, [0x5F0B]);
  (0x2F38, [0x5F13]); (0x2F39, [0x5F50]); (0x2F3A, [0x5F61]); (0x2F3B, [0x5F73]);
  (0x2F3C, [0x5FC3]); (0x2F3D, [0x6208]); (0x2F3E, [0x6236]); (0x2F3F, [0x624B]);
  (0x2F40, [0x652F]); (0x2F41, [0x6534]); (0x2F42, [0x6587]); (0x2F43, [0x6597]);
  (0x2F44, [0x65A4]); (0x2F45, [0x65B9]); (0x2F46, [0x65E0]); (0x2F47, [0x65E5]);
  (0x2F48, [0x66F0]); (0x2F49, [0x6708]); (0x2F4A, [0x6728]); (0x2F4B, [0x6B20]);
  (0x2F4C, [0x6B62]); (0x2F4D, [0x6B79]); (0x2F4E, [0x6BB3]); (0x2F4F, [0x6BCB]);
  (0x2F50, [0x6BD4]); (0x2F51, [0x6BDB]); (0x2F52, [0x6C0F]); (0x2F53, [0x6C14]);
  (0x2F54, [0x6C34]); (0x2F55, [0x706B]); (0x2F56, [0x722A]); (0x2F57, [0x7236]);
  (0x2F58, [0x723B]); (0x2F59, [0x723F]); (0x2F5A, [0x7247]); (0x2F5B, [0x7259]);
  (0x2F5C, [0x725B]); (0x2F5D, [0x72AC]); (0x2F5E, [0x7384]); (0x2F5F, [0x7389]);
  (0x2F60, [0x74DC]); (0x2F61, [0x74E6]); (0x2F62, [0x7518]); (0x2F63, [0x751F]);
  (0x2F64, [0x7528]); (0x2F65, [0x7530]); (0x2F66, [0x758B]); (0x2F67, [0x7592]);
  (0x2F68, [0x7676]); (0x2F69, [0x767D]); (0x2F6A, [0x76AE]); (0x2F6B, [0x76BF]);
  (0x2F6C, [0x76EE]); (0x2F6D, [0x77DB]); (0x2F6E, [0x77E2]); (0x2F6F, [0x77F3]);
  (0x2F70, [0x793A]); (0x2F71, [0x79B8]); (0x2F72, [0x79BE]); (0x2F73, [0x7A74]);
  (0x2F74, [0x7ACB]); (0x2F75, [0x7AF9]); (0x2F76, [0x7C73]); (0x2F77, [0x7CF8]);
  (0x2F78, [0x7F36]); (0x2F79, [0x7F51]); (0x2F7A, [0x7F8A]); (0x2F7B, [0x7FBD]);
  (0x2F7C, [0x8001]); (0x2F7D, [0x800C]); (0x2F7E, [0x8012]); (0x2F7F, [0x8033]);
  (0x2F80, [0x807F]); (0x2F81, [0x8089]); (0x2F82, [0x81E3]); (0x2F83, [0x81EA]);
  (0x2F84, [0x81F3]); (0x2F85, [0x81FC]); (0x2F86, [0x820C]); (0x2F87, [0x821B]);
  (0x2F88, [0x821F]); (0x2F89, [0x826E]); (0x2F8A, [0x8272]); (0x2F8B, [0x8278]);
  (0x2F8C, [0x864D]); (0x2F8D, [0x866B]); (0x2F8E, [0x8840]); (0x2F8F, [0x884C]);
  (0x2F90, [0x8863]); (0x2F91, [0x897E]); (0x2F92, [0x898B]); (0x2F93, [0x89D2]);
  (0x2F94, [0x8A00]); (0x2F95, [0x8C37]); (0x2F96, [0x8C46]); (0x2F97, [0x8C55]);
  (0x2F98, [0x8C78]); (0x2F99, [0x8C9D]); (0x2F9A, [0x8D64]); (0x2F9B, [0x8D70]);
  (0x2F9C, [0x8DB3]); (0x2F9D, [0x8EAB]); (0x2F9E, [0x8ECA]); (0x2F9F, [0x8F9B]);
  (0x2FA0, [0x8FB0]); (0x2FA1, [0x8FB5]); (0x2FA2, [0x9091]); (0x2FA3, [0x9149]);
  (0x2FA4, [0x91C6]); (0x2FA5, [0x91CC]); (0x2FA6, [0x91D1]); (0x2FA7, [0x9577]);
  (0x2FA8, [0x9580]); (0x2FA9, [0x961C]); (0x2FAA, [0x96B6]); (0x2FAB, [0x96B9]);
  (0x2FAC, [0x96E8]); (0x2FAD, [0x9751]); (0x2FAE, [0x975E]); (0x2FAF, [0x9762]);
  (0x2FB0, [0x9769]); (0x2FB1, [0x97CB]); (0x2FB2, [0x97ED]); (0x2FB3, [0x97F3]);
  (0x2FB4, [0x9801]); (0x2FB5, [0x98A8]); (0x2FB6, [0x98DB]); (0x2FB7, [0x98DF]);
  (0x2FB8, [0x9996]); (0x2FB9, [0x9999]); (0x2FBA, [0x99AC]); (0x2FBB, [0x9AA8]);
  (0x2FBC, [0x9AD8]); (0x2FBD, [0x9ADF]); (0x2FBE, [0x9B25]); (0x2FBF, [0x9B2F]);
  (0x2FC0, [0x9B32]); (0x2FC1, [0x9B3C]); (0x2FC2, [0x9B5A]); (0x2FC3, [0x9CE5]);
  (0x2FC4, [0x9E75]); (0x2FC5, [0x9E7F]); (0x2FC6, [0x9EA5]); (0x2FC7, [0x9EBB]);
  (0x2FC8, [0x9EC3]); (0x2FC9, [0x9ECD]); (0x2FCA, [0x9ED1]); (0x2FCB, [0x9EF9]);
  (0x2FCC, [0x9EFD]); (0x2FCD, [0x9F0E]); (0x2FCE, [0x9F13]); (0x2FCF, [0x9F20]);
  (0x2FD0, [0x9F3B]); (0x2FD1, [0x9F4A]); (0x2FD2, [0x9F52]); (0x2FD3, [0x9F8D]);
  (0x2FD4, [0x9F9C]); (0x2FD5, [0x9FA0]); (0x3000, [0x20]); (0x3036, [0x3012]);
  (0x3038, [0x5341]); (0x3039, [0x5344]); (0x303A, [0x5345]); (0x309B, [0x20; 0x3099]);
  (0x309C, [0x20; 0x309A]); (0x309F, [0x3088; 0x308A]); (0x30FF, [0x30B3; 0x30C8]); (0x3131, [0x1100]);
  (0x3132, [0x1101]); (0x3133, [0x11AA]); (0x3134, [0x1102]); (0x3135, [0x11AC]);
  (0x3136, [0x11AD]); (0x3137, [0x1103]); (0x3138, [0x1104]); (0x3139, [0x1105]);
  (0x313A, [0x11B0]); (0x313B, [0x11B1]); (0x313C, [0x11B2]); (0x313D, [0x11B3]);
  (0x313E, [0x11B4]); (0x313F, [0x11B5]); (0x3140, [0x111A]); (0x3141, [0x1106]);
  (0x3142, [0x1107]); (0x3143, [0x1108]); (0x3144, [0x1121]); (0x3145, [0x1109]);
  (0x3146, [0x110A]); (0x3147, [0x110B]); (0x3148, [0x110C]); (0x3149, [0x110D]);
  (0x314A, [0x110E]); (0x314B, [0x110F]); (0x314C, [0x1110]); (0x314D, [0x1111]);
  (0x314E, [0x1112]); (0x314F, [0x1161]); (0x3150, [0x1162]); (0x3151, [0x1163]);
  (0x3152, [0x1164]); (0x3153, [0x1165]); (0x3154, [0x1166]); (0x3155, [0x1167]);
  (0x3156, [0x1168]); (0x3157, [0x1169]); (0x3158, [0x116A]); (0x3159, [0x116B]);
  (0x315A, [0x116C]); (0x315B, [0x116D]); (0x315C, [0x116E]); (0x315D, [0x116F]);
  (0x315E, [0x1170]); (0x315F, [0x1171]); (0x3160, [0x1172]); (0x3161, [0x1173]);
  (0x3162, [0x1174]); (0x3163, [0x1175]); (0x3164, [0x1160]); (0x3165, [0x1114]);
  (0x3166, [0x1115]); (0x3167, [0x11C7]); (0x3168, [0x11C8]); (0x3169, [0x11CC])
 ]%N.

Definition compat_table_2 : list (N * list N) :=
 [
  (0x316A, [0x11CE]); (0x316B, [0x11D3]); (0x316C, [0x11D7]); (0x316D, [0x11D9]);
  (0x316E, [0x111C]); (0x316F, [0x11DD]); (0x3170, [0x11DF]); (0x3171, [0x111D]);
  (0x3172, [0x111E]); (0x3173, [0x1120]); (0x3174, [0x1122]); (0x3175, [0x1123]);
  (0x3176, [0x1127]); (0x3177, [0x1129]); (0x3178, [0x112B]); (0x3179, [0x112C]);
  (0x317A, [0x112D]); (0x317B, [0x112E]); (0x317C, [0x112F]); (0x317D, [0x1132]);
  (0x317E, [0x1136]); (0x317F, [0x1140]); (0x3180, [0x1147]); (0x3181, [0x114C]);
  (0x3182, [0x11F1]); (0x3183, [0x11F2]); (0x3184, [0x1157]); (0x3185, [0x1158]);
  (0x3186, [0x1159]); (0x3187, [0x1184]); (0x3188, [0x1185]); (0x3189, [0x1188]);
  (0x318A, [0x1191]); (0x318B, [0x1192]); (0x318C, [0x1194]); (0x318D, [0x119E]);
  (0x318E, [0x11A1]); (0x3192, [0x4E00]); (0x3193, [0x4E8C]); (0x3194, [0x4E09]);
  (0x3195, [0x56DB]); (0x3196, [0x4E0A]); (0x3197, [0x4E2D]); (0x3198, [0x4E0B]);
  (0x3199, [0x7532]); (0x319A, [0x4E59]); (0x319B, [0x4E19]); (0x319C, [0x4E01]);
  (0x319D, [0x5929]); (0x319E, [0x5730]); (0x319F, [0x4EBA]); (0x3200, [0x28; 0x1100; 0x29]);
  (0x3201, [0x28; 0x1102; 0x29]); (0x3202, [0x28; 0x1103; 0x29]); (0x3203, [0x28; 0x1105; 0x29]); (0x3204, [0x28; 0x1106; 0x29]);
  (0x3205, [0x28; 0x1107; 0x29]); (0x3206, [0x28; 0x1109; 0x29]); (0x3207, [0x28; 0x110B; 0x29]); (0x3208, [0x28; 0x110C; 0x29]);
  (0x3209, [0x28; 0x110E; 0x29]); (0x320A, [0x28; 0x110F; 0x29]); (0x320B, [0x28; 0x1110; 0x29]); (0x320C, [0x28; 0x1111; 0x29]);
  (0x320D, [0x28; 0x1112; 0x29]); (0x320E, [0x28; 0x1100; 0x1161; 0x29]); (0x320F, [0x28; 0x1102; 0x1161; 0x29]); (0x3210, [0x28; 0x1103; 0x1161; 0x29]);
  (0x3211, [0x28; 0x1105; 0x1161; 0x29]); (0x3212, [0x28; 0x1106; 0x1161; 0x29]); (0x3213, [0x28; 0x1107; 0x1161; 0x29]); (0x3214, [0x28; 0x1109; 0x1161; 0x29]);
  (0x3215, [0x28; 0x110B; 0x1161; 0x29]); (0x3216, [0x28; 0x110C; 0x1161; 0x29]); (0x3217, [0x28; 0x110E; 0x1161; 0x29]); (0x3218, [0x28; 0x110F; 0x1161; 0x29]);
  (0x3219, [0x28; 0x1110; 0x1161; 0x29]); (0x321A, [0x28; 0x1111; 0x1161; 0x29]); (0x321B, [0x28; 0x1112; 0x1161; 0x29]); (0x321C, [0x28; 0x110C; 0x116E; 0x29]);
  (0x321D, [0x28; 0x110B; 0x1169; 0x110C; 0x1165; 0x11AB; 0x29]); (0x321E, [0x28; 0x110B; 0x1169; 0x1112; 0x116E; 0x29]); (0x3220, [0x28; 0x4E00; 0x29]); (0x3221, [0x28; 0x4E8C; 0x29]);
  (0x3222, [0x28; 0x4E09; 0x29]); (0x3223, [0x28; 0x56DB; 0x29]); (0x3224, [0x28; 0x4E94; 0x29]); (0x3225, [0x28; 0x516D; 0x29]);
  (0x3226, [0x28; 0x4E03; 0x29]); (0x3227, [0x28; 0x516B; 0x29]); (0x3228, [0x28; 0x4E5D; 0x29]); (0x3229, [0x28; 0x5341; 0x29]);
  (0x322A, [0x28; 0x6708; 0x29]); (0x322B, [0x28; 0x706B; 0x29]); (0x322C, [0x28; 0x6C34; 0x29]); (0x322D, [0x28; 0x6728; 0x29]);
  (0x322E, [0x28; 0x91D1; 0x29]); (0x322F, [0x28; 0x571F; 0x29]); (0x3230, [0x28; 0x65E5; 0x29]); (0x3231, [0x28; 0x682A; 0x29]);
  (0x3232, [0x28; 0x6709; 0x29]); (0x3233, [0x28; 0x793E; 0x29]); (0x3234, [0x28; 0x540D; 0x29]); (0x3235, [0x28; 0x7279; 0x29]);
  (0x3236, [0x28; 0x8CA1; 0x29]); (0x3237, [0x28; 0x795D; 0x29]); (0x3238, [0x28; 0x52B4; 0x29]); (0x3239, [0x28; 0x4EE3; 0x29]);
  (0x323A, [0x28; 0x547C; 0x29]); (0x323B, [0x28; 0x5B66; 0x29]); (0x323C, [0x28; 0x76E3; 0x29]); (0x323D, [0x28; 0x4F01; 0x29]);
  (0x323E, [0x28; 0x8CC7; 0x29]); (0x323F, [0x28; 0x5354; 0x29]); (0x3240, [0x28; 0x796D; 0x29]); (0x3241, [0x28; 0x4F11; 0x29]);
  (0x3242, [0x28; 0x81EA; 0x29]); (0x3243, [0x28; 0x81F3; 0x29]); (0x3244, [0x554F]); (0x3245, [0x5E7C]);
  (0x3246, [0x6587]); (0x3247, [0x7B8F]); (0x3250, [0x50; 0x54; 0x45]); (0x3251, [0x32; 0x31]);
  (0x3252, [0x32; 0x32]); (0x3253, [0x32; 0x33]); (0x3254, [0x32; 0x34]); (0x3255, [0x32; 0x35]);
  (0x3256, [0x32; 0x36]); (0x3257, [0x32; 0x37]); (0x3258, [0x32; 0x38]); (0x3259, [0x32; 0x39]);
  (0x325A, [0x33; 0x30]); (0x325B, [0x33; 0x31]); (0x325C, [0x33; 0x32]); (0x325D, [0x33; 0x33]);
  (0x325E, [0x33; 0x34]); (0x325F, [0x33; 0x35]); (0x3260, [0x1100]); (0x3261, [0x1102]);
  (0x3262, [0x1103]); (0x3263, [0x1105]); (0x3264, [0x1106]); (0x3265, [0x1107]);
  (0x3266, [0x1109]); (0x3267, [0x110B]); (0x3268, [0x110C]); (0x3269, [0x110E]);
  (0x326A, [0x110F]); (0x326B, [0x1110]); (0x326C, [0x1111]); (0x326D, [0x1112]);
  (0x326E, [0x1100; 0x1161]); (0x326F, [0x1102; 0x1161]); (0x3270, [0x1103; 0x1161]); (0x3271, [0x1105; 0x1161]);
  (0x3272, [0x1106; 0x1161]); (0x3273, [0x1107; 0x1161]); (0x3274, [0x1109; 0x1161]); (0x3275, [0x110B; 0x1161]);
  (0x3276, [0x110C; 0x1161]); (0x3277, [0x110E; 0x1161]); (0x3278, [0x110F; 0x1161]); (0x3279, [0x1110; 0x1161]);
  (0x327A, [0x1111; 0x1161]); (0x327B, [0x1112; 0x1161]); (0x327C, [0x110E; 0x1161; 0x11B7; 0x1100; 0x1169]); (0x327D, [0x110C; 0x116E; 0x110B; 0x1174]);
  (0x327E, [0x110B; 0x116E]); (0x3280, [0x4E00]); (0x3281, [0x4E8C]); (0x3282, [0x4E09]);
  (0x3283, [0x56DB]); (0x3284, [0x4E94]); (0x3285, [0x516D]); (0x3286, [0x4E03]);
  (0x3287, [0x516B]); (0x3288, [0x4E5D]); (0x3289, [0x5341]); (0x328A, [0x6708]);
  (0x328B, [0x706B]); (0x328C, [0x6C34]); (0x328D, [0x6728]); (0x328E, [0x91D1]);
  (0x328F, [0x571F]); (0x3290, [0x65E5]); (0x3291, [0x682A]); (0x3292, [0x6709]);
  (0x3293, [0x793E]); (0x3294, [0x540D]); (0x3295, [0x7279]); (0x3296, [0x8CA1]);
  (0x3297, [0x795D]); (0x3298, [0x52B4]); (0x3299, [0x79D8]); (0x329A, [0x7537]);
  (0x329B, [0x5973]); (0x329C, [0x9069]); (0x329D, [0x512A]); (0x329E, [0x5370]);
  (0x329F, [0x6CE8]); (0x32A0, [0x9805]); (0x32A1, [0x4F11]); (0x32A2, [0x5199]);
  (0x32A3, [0x6B63]); (0x32A4, [0x4E0A]); (0x32A5, [0x4E2D]); (0x32A6, [0x4E0B]);
  (0x32A7, [0x5DE6]); (0x32A8, [0x53F3]); (0x32A9, [0x533B]); (0x32AA, [0x5B97]);
  (0x32AB, [0x5B66]); (0x32AC, [0x76E3]); (0x32AD, [0x4F01]); (0x32AE, [0x8CC7]);
  (0x32AF, [0x5354]); (0x32B0, [0x591C]); (0x32B1, [0x33; 0x36]); (0x32B2, [0x33; 0x37]);
  (0x32B3, [0x33; 0x38]); (0x32B4, [0x33; 0x39]); (0x32B5, [0x34; 0x30]); (0x32B6, [0x34; 0x31]);
  (0x32B7, [0x34; 0x32]); (0x32B8, [0x34; 0x33]); (0x32B9, [0x34; 0x34]); (0x32BA, [0x34; 0x35]);
  (0x32BB, [0x34; 0x36]); (0x32BC, [0x34; 0x37]); (0x32BD, [0x34; 0x38]); (0x32BE, [0x34; 0x39]);
  (0x32BF, [0x35; 0x30]); (0x32C0, [0x31; 0x6708]); (0x32C1, [0x32; 0x6708]); (0x32C2, [0x33; 0x6708]);
  (0x32C3, [0x34; 0x6708]); (0x32C4, [0x35; 0x6708]); (0x32C5, [0x36; 0x6708]); (0x32C6, [0x37; 0x6708]);
  (0x32C7, [0x38; 0x6708]); (0x32C8, [0x39; 0x6708]); (0x32C9, [0x31; 0x30; 0x6708]); (0x32CA, [0x31; 0x31; 0x6708]);
  (0x32CB, [0x31; 0x32; 0x6708]); (0x32CC, [0x48; 0x67]); (0x32CD, [0x65; 0x72; 0x67]); (0x32CE, [0x65; 0x56]);
  (0x32CF, [0x4C; 0x54; 0x44]); (0x32D0, [0x30A2]); (0x32D1, [0x30A4]); (0x32D2, [0x30A6]);
  (0x32D3, [0x30A8]); (0x32D4, [0x30AA]); (0x32D5, [0x30AB]); (0x32D6, [0x30AD]);
  (0x32D7, [0x30AF]); (0x32D8, [0x30B1]); (0x32D9, [0x30B3]); (0x32DA, [0x30B5]);
  (0x32DB, [0x30B7]); (0x32DC, [0x30B9]); (0x32DD, [0x30BB]); (0x32DE, [0x30BD]);
  (0x32DF, [0x30BF]); (0x32E0, [0x30C1]); (0x32E1, [0x30C4]); (0x32E2, [0x30C6]);
  (0x32E3, [0x30C8]); (0x32E4, [0x30CA]); (0x32E5, [0x30CB]); (0x32E6, [0x30CC]);
  (0x32E7, [0x30CD]); (0x32E8, [0x30CE]); (0x32E9, [0x30CF]); (0x32EA, [0x30D2]);
  (0x32EB, [0x30D5]); (0x32EC, [0x30D8]); (0x32ED, [0x30DB]); (0x32EE, [0x30DE]);
  (0x32EF, [0x30DF]); (0x32F0, [0x30E0]); (0x32F1, [0x30E1]); (0x32F2, [0x30E2]);
  (0x32F3, [0x30E4]); (0x32F4, [0x30E6]); (0x32F5, [0x30E8]); (0x32F6, [0x30E9]);
  (0x32F7, [0x30EA]); (0x32F8, [0x30EB]); (0x32F9, [0x30EC]); (0x32FA, [0x30ED]);
  (0x32FB, [0x30EF]); (0x32FC, [0x30F0]); (0x32FD, [0x30F1]); (0x32FE, [0x30F2]);
  (0x32FF, [0x4EE4; 0x548C]); (0x3300, [0x30A2; 0x30CF; 0x309A; 0x30FC; 0x30C8]); (0x3301, [0x30A2; 0x30EB; 0x30D5; 0x30A1]); (0x3302, [0x30A2; 0x30F3; 0x30D8; 0x309A; 0x30A2]);
  (0x3303, [0x30A2; 0x30FC; 0x30EB]); (0x3304, [0x30A4; 0x30CB; 0x30F3; 0x30AF; 0x3099]); (0x3305, [0x30A4; 0x30F3; 0x30C1]); (0x3306, [0x30A6; 0x30A9; 0x30F3]);
  (0x3307, [0x30A8; 0x30B9; 0x30AF; 0x30FC; 0x30C8; 0x3099]); (0x3308, [0x30A8; 0x30FC; 0x30AB; 0x30FC]); (0x3309, [0x30AA; 0x30F3; 0x30B9]); (0x330A, [0x30AA; 0x30FC; 0x30E0]);
  (0x330B, [0x30AB; 0x30A4; 0x30EA]); (0x330C, [0x30AB; 0x30E9; 0x30C3; 0x30C8]); (0x330D, [0x30AB; 0x30ED; 0x30EA; 0x30FC]); (0x330E, [0x30AB; 0x3099; 0x30ED; 0x30F3]);
  (0x330F, [0x30AB; 0x3099; 0x30F3; 0x30DE]); (0x3310, [0x30AD; 0x3099; 0x30AB; 0x3099]); (0x3311, [0x30AD; 0x3099; 0x30CB; 0x30FC]); (0x3312, [0x30AD; 0x30E5; 0x30EA; 0x30FC]);
  (0x3313, [0x30AD; 0x3099; 0x30EB; 0x30BF; 0x3099; 0x30FC]); (0x3314, [0x30AD; 0x30ED]); (0x3315, [0x30AD; 0x30ED; 0x30AF; 0x3099; 0x30E9; 0x30E0]); (0x3316, [0x30AD; 0x30ED; 0x30E1; 0x30FC; 0x30C8; 0x30EB]);
  (0x3317, [0x30AD; 0x30ED; 0x30EF; 0x30C3; 0x30C8]); (0x3318, [0x30AF; 0x3099; 0x30E9; 0x30E0]); (0x3319, [0x30AF; 0x3099; 0x30E9; 0x30E0; 0x30C8; 0x30F3]); (0x331A, [0x30AF; 0x30EB; 0x30BB; 0x3099; 0x30A4; 0x30ED]);
  (0x331B, [0x30AF; 0x30ED; 0x30FC; 0x30CD]); (0x331C, [0x30B1; 0x30FC; 0x30B9]); (0x331D, [0x30B3; 0x30EB; 0x30CA]); (0x331E, [0x30B3; 0x30FC; 0x30DB; 0x309A]);
  (0x331F, [0x30B5; 0x30A4; 0x30AF; 0x30EB]); (0x3320, [0x30B5; 0x30F3; 0x30C1; 0x30FC; 0x30E0]); (0x3321, [0x30B7; 0x30EA; 0x30F3; 0x30AF; 0x3099]); (0x3322, [0x30BB; 0x30F3; 0x30C1]);
  (0x3323, [0x30BB; 0x30F3; 0x30C8]); (0x3324, [0x30BF; 0x3099; 0x30FC; 0x30B9]); (0x3325, [0x30C6; 0x3099; 0x30B7]); (0x3326, [0x30C8; 0x3099; 0x30EB]);
  (0x3327, [0x30C8; 0x30F3]); (0x3328, [0x30CA; 0x30CE]); (0x3329, [0x30CE; 0x30C3; 0x30C8]); (0x332A, [0x30CF; 0x30A4; 0x30C4]);
  (0x332B, [0x30CF; 0x309A; 0x30FC; 0x30BB; 0x30F3; 0x30C8]); (0x332C, [0x30CF; 0x309A; 0x30FC; 0x30C4]); (0x332D, [0x30CF; 0x3099; 0x30FC; 0x30EC; 0x30EB]); (0x332E, [0x30D2; 0x309A; 0x30A2; 0x30B9; 0x30C8; 0x30EB]);
  (0x332F, [0x30D2; 0x309A; 0x30AF; 0x30EB]); (0x3330, [0x30D2; 0x309A; 0x30B3]); (0x3331, [0x30D2; 0x3099; 0x30EB]); (0x3332, [0x30D5; 0x30A1; 0x30E9; 0x30C3; 0x30C8; 0x3099]);
  (0x3333, [0x30D5; 0x30A3; 0x30FC; 0x30C8]); (0x3334, [0x30D5; 0x3099; 0x30C3; 0x30B7; 0x30A7; 0x30EB]); (0x3335, [0x30D5; 0x30E9; 0x30F3]); (0x3336, [0x30D8; 0x30AF; 0x30BF; 0x30FC; 0x30EB]);
  (0x3337, [0x30D8; 0x309A; 0x30BD]); (0x3338, [0x30D8; 0x309A; 0x30CB; 0x30D2]); (0x3339, [0x30D8; 0x30EB; 0x30C4]); (0x333A, [0x30D8; 0x309A; 0x30F3; 0x30B9]);
  (0x333B, [0x30D8; 0x309A; 0x30FC; 0x30B7; 0x3099]); (0x333C, [0x30D8; 0x3099; 0x30FC; 0x30BF]); (0x333D, [0x30DB; 0x309A; 0x30A4; 0x30F3; 0x30C8]); (0x333E, [0x30DB; 0x3099; 0x30EB; 0x30C8]);
  (0x333F, [0x30DB; 0x30F3]); (0x3340, [0x30DB; 0x309A; 0x30F3; 0x30C8; 0x3099]); (0x3341, [0x30DB; 0x30FC; 0x30EB]); (0x3342, [0x30DB; 0x30FC; 0x30F3]);
  (0x3343, [0x30DE; 0x30A4; 0x30AF; 0x30ED]); (0x3344, [0x30DE; 0x30A4; 0x30EB]); (0x3345, [0x30DE; 0x30C3; 0x30CF]); (0x3346, [0x30DE; 0x30EB; 0x30AF]);
  (0x3347, [0x30DE; 0x30F3; 0x30B7; 0x30E7; 0x30F3]); (0x3348, [0x30DF; 0x30AF; 0x30ED; 0x30F3]); (0x3349, [0x30DF; 0x30EA]); (0x334A, [0x30DF; 0x30EA; 0x30CF; 0x3099; 0x30FC; 0x30EB]);
  (0x334B, [0x30E1; 0x30AB; 0x3099]); (0x334C, [0x30E1; 0x30AB; 0x3099; 0x30C8; 0x30F3]); (0x334D, [0x30E1; 0x30FC; 0x30C8; 0x30EB]); (0x334E, [0x30E4; 0x30FC; 0x30C8; 0x3099]);
  (0x334F, [0x30E4; 0x30FC; 0x30EB]); (0x3350, [0x30E6; 0x30A2; 0x30F3]); (0x3351, [0x30EA; 0x30C3; 0x30C8; 0x30EB]); (0x3352, [0x30EA; 0x30E9]);
  (0x3353, [0x30EB; 0x30D2; 0x309A; 0x30FC]); (0x3354, [0x30EB; 0x30FC; 0x30D5; 0x3099; 0x30EB]); (0x3355, [0x30EC; 0x30E0]); (0x3356, [0x30EC; 0x30F3; 0x30C8; 0x30B1; 0x3099; 0x30F3]);
  (0x3357, [0x30EF; 0x30C3; 0x30C8]); (0x3358, [0x30; 0x70B9]); (0x3359, [0x31; 0x70B9]); (0x335A, [0x32; 0x70B9]);
  (0x335B, [0x33; 0x70B9]); (0x335C, [0x34; 0x70B9]); (0x335D, [0x35; 0x70B9]); (0x335E, [0x36; 0x70B9]);
  (0x335F, [0x37; 0x70B9]); (0x3360, [0x38; 0x70B9]); (0x3361, [0x39; 0x70B9]); (0x3362, [0x31; 0x30; 0x70B9]);
  (0x3363, [0x31; 0x31; 0x70B9]); (0x3364, [0x31; 0x32; 0x70B9]); (0x3365, [0x31; 0x33; 0x70B9]); (0x3366, [0x31; 0x34; 0x70B9])
 ]%N.

Definition compat_table_3 : list (N * list N) :=
 [
  (0x3367, [0x31; 0x35; 0x70B9]); (0x3368, [0x31; 0x36; 0x70B9]); (0x3369, [0x31; 0x37; 0x70B9]); (0x336A, [0x31; 0x38; 0x70B9]);
  (0x336B, [0x31; 0x39; 0x70B9]); (0x336C, [0x32; 0x30; 0x70B9]); (0x336D, [0x32; 0x31; 0x70B9]); (0x336E, [0x32; 0x32; 0x70B9]);
  (0x336F, [0x32; 0x33; 0x70B9]); (0x3370, [0x32; 0x34; 0x70B9]); (0x3371, [0x68; 0x50; 0x61]); (0x3372, [0x64; 0x61]);
  (0x3373, [0x41; 0x55]); (0x3374, [0x62; 0x61; 0x72]); (0x3375, [0x6F; 0x56]); (0x3376, [0x70; 0x63]);
  (0x3377, [0x64; 0x6D]); (0x3378, [0x64; 0x6D; 0x32]); (0x3379, [0x64; 0x6D; 0x33]); (0x337A, [0x49; 0x55]);
  (0x337B, [0x5E73; 0x6210]); (0x337C, [0x662D; 0x548C]); (0x337D, [0x5927; 0x6B63]); (0x337E, [0x660E; 0x6CBB]);
  (0x337F, [0x682A; 0x5F0F; 0x4F1A; 0x793E]); (0x3380, [0x70; 0x41]); (0x3381, [0x6E; 0x41]); (0x3382, [0x3BC; 0x41]);
  (0x3383, [0x6D; 0x41]); (0x3384, [0x6B; 0x41]); (0x3385, [0x4B; 0x42]); (0x3386, [0x4D; 0x42]);
  (0x3387, [0x47; 0x42]); (0x3388, [0x63; 0x61; 0x6C]); (0x3389, [0x6B; 0x63; 0x61; 0x6C]); (0x338A, [0x70; 0x46]);
  (0x338B, [0x6E; 0x46]); (0x338C, [0x3BC; 0x46]); (0x338D, [0x3BC; 0x67]); (0x338E, [0x6D; 0x67]);
  (0x338F, [0x6B; 0x67]); (0x3390, [0x48; 0x7A]); (0x3391, [0x6B; 0x48; 0x7A]); (0x3392, [0x4D; 0x48; 0x7A]);
  (0x3393, [0x47; 0x48; 0x7A]); (0x3394, [0x54; 0x48; 0x7A]); (0x3395, [0x3BC; 0x6C]); (0x3396, [0x6D; 0x6C]);
  (0x3397, [0x64; 0x6C]); (0x3398, [0x6B; 0x6C]); (0x3399, [0x66; 0x6D]); (0x339A, [0x6E; 0x6D]);
  (0x339B, [0x3BC; 0x6D]); (0x339C, [0x6D; 0x6D]); (0x339D, [0x63; 0x6D]); (0x339E, [0x6B; 0x6D]);
  (0x339F, [0x6D; 0x6D; 0x32]); (0x33A0, [0x63; 0x6D; 0x32]); (0x33A1, [0x6D; 0x32]); (0x33A2, [0x6B; 0x6D; 0x32]);
  (0x33A3, [0x6D; 0x6D; 0x33]); (0x33A4, [0x63; 0x6D; 0x33]); (0x33A5, [0x6D; 0x33]); (0x33A6, [0x6B; 0x6D; 0x33]);
  (0x33A7, [0x6D; 0x2215; 0x73]); (0x33A8, [0x6D; 0x2215; 0x73; 0x32]); (0x33A9, [0x50; 0x61]); (0x33AA, [0x6B; 0x50; 0x61]);
  (0x33AB, [0x4D; 0x50; 0x61]); (0x33AC, [0x47; 0x50; 0x61]); (0x33AD, [0x72; 0x61; 0x64]); (0x33AE, [0x72; 0x61; 0x64; 0x2215; 0x73]);
  (0x33AF, [0x72; 0x61; 0x64; 0x2215; 0x73; 0x32]); (0x33B0, [0x70; 0x73]); (0x33B1, [0x6E; 0x73]); (0x33B2, [0x3BC; 0x73]);
  (0x33B3, [0x6D; 0x73]); (0x33B4, [0x70; 0x56]); (0x33B5, [0x6E; 0x56]); (0x33B6, [0x3BC; 0x56]);
  (0x33B7, [0x6D; 0x56]); (0x33B8, [0x6B; 0x56]); (0x33B9, [0x4D; 0x56]); (0x33BA, [0x70; 0x57]);
  (0x33BB, [0x6E; 0x57]); (0x33BC, [0x3BC; 0x57]); (0x33BD, [0x6D; 0x57]); (0x33BE, [0x6B; 0x57]);
  (0x33BF, [0x4D; 0x57]); (0x33C0, [0x6B; 0x3A9]); (0x33C1, [0x4D; 0x3A9]); (0x33C2, [0x61; 0x2E; 0x6D; 0x2E]);
  (0x33C3, [0x42; 0x71]); (0x33C4, [0x63; 0x63]); (0x33C5, [0x63; 0x64]); (0x33C6, [0x43; 0x2215; 0x6B; 0x67]);
  (0x33C7, [0x43; 0x6F; 0x2E]); (0x33C8, [0x64; 0x42]); (0x33C9, [0x47; 0x79]); (0x33CA, [0x68; 0x61]);
  (0x33CB, [0x48; 0x50]); (0x33CC, [0x69; 0x6E]); (0x33CD, [0x4B; 0x4B]); (0x33CE, [0x4B; 0x4D]);
  (0x33CF, [0x6B; 0x74]); (0x33D0, [0x6C; 0x6D]); (0x33D1, [0x6C; 0x6E]); (0x33D2, [0x6C; 0x6F; 0x67]);
  (0x33D3, [0x6C; 0x78]); (0x33D4, [0x6D; 0x62]); (0x33D5, [0x6D; 0x69; 0x6C]); (0x33D6, [0x6D; 0x6F; 0x6C]);
  (0x33D7, [0x50; 0x48]); (0x33D8, [0x70; 0x2E; 0x6D; 0x2E]); (0x33D9, [0x50; 0x50; 0x4D]); (0x33DA, [0x50; 0x52]);
  (0x33DB, [0x73; 0x72]); (0x33DC, [0x53; 0x76]); (0x33DD, [0x57; 0x62]); (0x33DE, [0x56; 0x2215; 0x6D]);
  (0x33DF, [0x41; 0x2215; 0x6D]); (0x33E0, [0x31; 0x65E5]); (0x33E1, [0x32; 0x65E5]); (0x33E2, [0x33; 0x65E5]);
  (0x33E3, [0x34; 0x65E5]); (0x33E4, [0x35; 0x65E5]); (0x33E5, [0x36; 0x65E5]); (0x33E6, [0x37; 0x65E5]);
  (0x33E7, [0x38; 0x65E5]); (0x33E8, [0x39; 0x65E5]); (0x33E9, [0x31; 0x30; 0x65E5]); (0x33EA, [0x31; 0x31; 0x65E5]);
  (0x33EB, [0x31; 0x32; 0x65E5]); (0x33EC, [0x31; 0x33; 0x65E5]); (0x33ED, [0x31; 0x34; 0x65E5]); (0x33EE, [0x31; 0x35; 0x65E5]);
  (0x33EF, [0x31; 0x36; 0x65E5]); (0x33F0, [0x31; 0x37; 0x65E5]); (0x33F1, [0x31; 0x38; 0x65E5]); (0x33F2, [0x31; 0x39; 0x65E5]);
  (0x33F3, [0x32; 0x30; 0x65E5]); (0x33F4, [0x32; 0x31; 0x65E5]); (0x33F5, [0x32; 0x32; 0x65E5]); (0x33F6, [0x32; 0x33; 0x65E5]);
  (0x33F7, [0x32; 0x34; 0x65E5]); (0x33F8, [0x32; 0x35; 0x65E5]); (0x33F9, [0x32; 0x36; 0x65E5]); (0x33FA, [0x32; 0x37; 0x65E5]);
  (0x33FB, [0x32; 0x38; 0x65E5]); (0x33FC, [0x32; 0x39; 0x65E5]); (0x33FD, [0x33; 0x30; 0x65E5]); (0x33FE, [0x33; 0x31; 0x65E5]);
  (0x33FF, [0x67; 0x61; 0x6C]); (0xA69C, [0x44A]); (0xA69D, [0x44C]); (0xA770, [0xA76F]);
  (0xA7F2, [0x43]); (0xA7F3, [0x46]); (0xA7F4, [0x51]); (0xA7F8, [0x126]);
  (0xA7F9, [0x153]); (0xAB5C, [0xA727]); (0xAB5D, [0xAB37]); (0xAB5E, [0x26B]);
  (0xAB5F, [0xAB52]); (0xAB69, [0x28D]); (0xFB00, [0x66; 0x66]); (0xFB01, [0x66; 0x69]);
  (0xFB02, [0x66; 0x6C]); (0xFB03, [0x66; 0x66; 0x69]); (0xFB04, [0x66; 0x66; 0x6C]); (0xFB05, [0x73; 0x74]);
  (0xFB06, [0x73; 0x74]); (0xFB13, [0x574; 0x576]); (0xFB14, [0x574; 0x565]); (0xFB15, [0x574; 0x56B]);
  (0xFB16, [0x57E; 0x576]); (0xFB17, [0x574; 0x56D]); (0xFB20, [0x5E2]); (0xFB21, [0x5D0]);
  (0xFB22, [0x5D3]); (0xFB23, [0x5D4]); (0xFB24, [0x5DB]); (0xFB25, [0x5DC]);
  (0xFB26, [0x5DD]); (0xFB27, [0x5E8]); (0xFB28, [0x5EA]); (0xFB29, [0x2B]);
  (0xFB4F, [0x5D0; 0x5DC]); (0xFB50, [0x671]); (0xFB51, [0x671]); (0xFB52, [0x67B]);
  (0xFB53, [0x67B]); (0xFB54, [0x67B]); (0xFB55, [0x67B]); (0xFB56, [0x67E]);
  (0xFB57, [0x67E]); (0xFB58, [0x67E]); (0xFB59, [0x67E]); (0xFB5A, [0x680]);
  (0xFB5B, [0x680]); (0xFB5C, [0x680]); (0xFB5D, [0x680]); (0xFB5E, [0x67A]);
  (0xFB5F, [0x67A]); (0xFB60, [0x67A]); (0xFB61, [0x67A]); (0xFB62, [0x67F]);
  (0xFB63, [0x67F]); (0xFB64, [0x67F]); (0xFB65, [0x67F]); (0xFB66, [0x679]);
  (0xFB67, [0x679]); (0xFB68, [0x679]); (0xFB69, [0x679]); (0xFB6A, [0x6A4]);
  (0xFB6B, [0x6A4]); (0xFB6C, [0x6A4]); (0xFB6D, [0x6A4]); (0xFB6E, [0x6A6]);
  (0xFB6F, [0x6A6]); (0xFB70, [0x6A6]); (0xFB71, [0x6A6]); (0xFB72, [0x684]);
  (0xFB73, [0x684]); (0xFB74, [0x684]); (0xFB75, [0x684]); (0xFB76, [0x683]);
  (0xFB77, [0x683]); (0xFB78, [0x683]); (0xFB79, [0x683]); (0xFB7A, [0x686]);
  (0xFB7B, [0x686]); (0xFB7C, [0x686]); (0xFB7D, [0x686]); (0xFB7E, [0x687]);
  (0xFB7F, [0x687]); (0xFB80, [0x687]); (0xFB81, [0x687]); (0xFB82, [0x68D]);
  (0xFB83, [0x68D]); (0xFB84, [0x68C]); (0xFB85, [0x68C]); (0xFB86, [0x68E]);
  (0xFB87, [0x68E]); (0xFB88, [0x688]); (0xFB89, [0x688]); (0xFB8A, [0x698]);
  (0xFB8B, [0x698]); (0xFB8C, [0x691]); (0xFB8D, [0x691]); (0xFB8E, [0x6A9]);
  (0xFB8F, [0x6A9]); (0xFB90, [0x6A9]); (0xFB91, [0x6A9]); (0xFB92, [0x6AF]);
  (0xFB93, [0x6AF]); (0xFB94, [0x6AF]); (0xFB95, [0x6AF]); (0xFB96, [0x6B3]);
  (0xFB97, [0x6B3]); (0xFB98, [0x6B3]); (0xFB99, [0x6B3]); (0xFB9A, [0x6B1]);
  (0xFB9B, [0x6B1]); (0xFB9C, [0x6B1]); (0xFB9D, [0x6B1]); (0xFB9E, [0x6BA]);
  (0xFB9F, [0x6BA]); (0xFBA0, [0x6BB]); (0xFBA1, [0x6BB]); (0xFBA2, [0x6BB]);
  (0xFBA3, [0x6BB]); (0xFBA4, [0x6D5; 0x654]); (0xFBA5, [0x6D5; 0x654]); (0xFBA6, [0x6C1]);
  (0xFBA7, [0x6C1]); (0xFBA8, [0x6C1]); (0xFBA9, [0x6C1]); (0xFBAA, [0x6BE]);
  (0xFBAB, [0x6BE]); (0xFBAC, [0x6BE]); (0xFBAD, [0x6BE]); (0xFBAE, [0x6D2]);
  (0xFBAF, [0x6D2]); (0xFBB0, [0x6D2; 0x654]); (0xFBB1, [0x6D2; 0x654]); (0xFBD3, [0x6AD]);
  (0xFBD4, [0x6AD]); (0xFBD5, [0x6AD]); (0xFBD6, [0x6AD]); (0xFBD7, [0x6C7]);
  (0xFBD8, [0x6C7]); (0xFBD9, [0x6C6]); (0xFBDA, [0x6C6]); (0xFBDB, [0x6C8]);
  (0xFBDC, [0x6C8]); (0xFBDD, [0x6C7; 0x674]); (0xFBDE, [0x6CB]); (0xFBDF, [0x6CB]);
  (0xFBE0, [0x6C5]); (0xFBE1, [0x6C5]); (0xFBE2, [0x6C9]); (0xFBE3, [0x6C9]);
  (0xFBE4, [0x6D0]); (0xFBE5, [0x6D0]); (0xFBE6, [0x6D0]); (0xFBE7, [0x6D0]);
  (0xFBE8, [0x649]); (0xFBE9, [0x649]); (0xFBEA, [0x64A; 0x654; 0x627]); (0xFBEB, [0x64A; 0x654; 0x627]);
  (0xFBEC, [0x64A; 0x654; 0x6D5]); (0xFBED, [0x64A; 0x654; 0x6D5]); (0xFBEE, [0x64A; 0x654; 0x648]); (0xFBEF, [0x64A; 0x654; 0x648]);
  (0xFBF0, [0x64A; 0x654; 0x6C7]); (0xFBF1, [0x64A; 0x654; 0x6C7]); (0xFBF2, [0x64A; 0x654; 0x6C6]); (0xFBF3, [0x64A; 0x654; 0x6C6]);
  (0xFBF4, [0x64A; 0x654; 0x6C8]); (0xFBF5, [0x64A; 0x654; 0x6C8]); (0xFBF6, [0x64A; 0x654; 0x6D0]); (0xFBF7, [0x64A; 0x654; 0x6D0]);
  (0xFBF8, [0x64A; 0x654; 0x6D0]); (0xFBF9, [0x64A; 0x654; 0x649]); (0xFBFA, [0x64A; 0x654; 0x649]); (0xFBFB, [0x64A; 0x654; 0x649]);
  (0xFBFC, [0x6CC]); (0xFBFD, [0x6CC]); (0xFBFE, [0x6CC]); (0xFBFF, [0x6CC]);
  (0xFC00, [0x64A; 0x654; 0x62C]); (0xFC01, [0x64A; 0x654; 0x62D]); (0xFC02, [0x64A; 0x654; 0x645]); (0xFC03, [0x64A; 0x654; 0x649]);
  (0xFC04, [0x64A; 0x654; 0x64A]); (0xFC05, [0x628; 0x62C]); (0xFC06, [0x628; 0x62D]); (0xFC07, [0x628; 0x62E]);
  (0xFC08, [0x628; 0x645]); (0xFC09, [0x628; 0x649]); (0xFC0A, [0x628; 0x64A]); (0xFC0B, [0x62A; 0x62C]);
  (0xFC0C, [0x62A; 0x62D]); (0xFC0D, [0x62A; 0x62E]); (0xFC0E, [0x62A; 0x645]); (0xFC0F, [0x62A; 0x649]);
  (0xFC10, [0x62A; 0x64A]); (0xFC11, [0x62B; 0x62C]); (0xFC12, [0x62B; 0x645]); (0xFC13, [0x62B; 0x649]);
  (0xFC14, [0x62B; 0x64A]); (0xFC15, [0x62C; 0x62D]); (0xFC16, [0x62C; 0x645]); (0xFC17, [0x62D; 0x62C]);
  (0xFC18, [0x62D; 0x645]); (0xFC19, [0x62E; 0x62C]); (0xFC1A, [0x62E; 0x62D]); (0xFC1B, [0x62E; 0x645]);
  (0xFC1C, [0x633; 0x62C]); (0xFC1D, [0x633; 0x62D]); (0xFC1E, [0x633; 0x62E]); (0xFC1F, [0x633; 0x645]);
  (0xFC20, [0x635; 0x62D]); (0xFC21, [0x635; 0x645]); (0xFC22, [0x636; 0x62C]); (0xFC23, [0x636; 0x62D]);
  (0xFC24, [0x636; 0x62E]); (0xFC25, [0x636; 0x645]); (0xFC26, [0x637; 0x62D]); (0xFC27, [0x637; 0x645]);
  (0xFC28, [0x638; 0x645]); (0xFC29, [0x639; 0x62C]); (0xFC2A, [0x639; 0x645]); (0xFC2B, [0x63A; 0x62C]);
  (0xFC2C, [0x63A; 0x645]); (0xFC2D, [0x641; 0x62C]); (0xFC2E, [0x641; 0x62D]); (0xFC2F, [0x641; 0x62E]);
  (0xFC30, [0x641; 0x645]); (0xFC31, [0x641; 0x649]); (0xFC32, [0x641; 0x64A]); (0xFC33, [0x642; 0x62D]);
  (0xFC34, [0x642; 0x645]); (0xFC35, [0x642; 0x649]); (0xFC36, [0x642; 0x64A]); (0xFC37, [0x643; 0x627]);
  (0xFC38, [0x643; 0x62C]); (0xFC39, [0x643; 0x62D]); (0xFC3A, [0x643; 0x62E]); (0xFC3B, [0x643; 0x644]);
  (0xFC3C, [0x643; 0x645]); (0xFC3D, [0x643; 0x649]); (0xFC3E, [0x643; 0x64A]); (0xFC3F, [0x644; 0x62C]);
  (0xFC40, [0x644; 0x62D]); (0xFC41, [0x644; 0x62E]); (0xFC42, [0x644; 0x645]); (0xFC43, [0x644; 0x649])
 ]%N.

Definition compat_table_4 : list (N * list N) :=
 [
  (0xFC44, [0x644; 0x64A]); (0xFC45, [0x645; 0x62C]); (0xFC46, [0x645; 0x62D]); (0xFC47, [0x645; 0x62E]);
  (0xFC48, [0x645; 0x645]); (0xFC49, [0x645; 0x649]); (0xFC4A, [0x645; 0x64A]); (0xFC4B, [0x646; 0x62C]);
  (0xFC4C, [0x646; 0x62D]); (0xFC4D, [0x646; 0x62E]); (0xFC4E, [0x646; 0x645]); (0xFC4F, [0x646; 0x649]);
  (0xFC50, [0x646; 0x64A]); (0xFC51, [0x647; 0x62C]); (0xFC52, [0x647; 0x645]); (0xFC53, [0x647; 0x649]);
  (0xFC54, [0x647; 0x64A]); (0xFC55, [0x64A; 0x62C]); (0xFC56, [0x64A; 0x62D]); (0xFC57, [0x64A; 0x62E]);
  (0xFC58, [0x64A; 0x645]); (0xFC59, [0x64A; 0x649]); (0xFC5A, [0x64A; 0x64A]); (0xFC5B, [0x630; 0x670]);
  (0xFC5C, [0x631; 0x670]); (0xFC5D, [0x649; 0x670]); (0xFC5E, [0x20; 0x64C; 0x651]); (0xFC5F, [0x20; 0x64D; 0x651]);
  (0xFC60, [0x20; 0x64E; 0x651]); (0xFC61, [0x20; 0x64F; 0x651]); (0xFC62, [0x20; 0x650; 0x651]); (0xFC63, [0x20; 0x651; 0x670]);
  (0xFC64, [0x64A; 0x654; 0x631]); (0xFC65, [0x64A; 0x654; 0x632]); (0xFC66, [0x64A; 0x654; 0x645]); (0xFC67, [0x64A; 0x654; 0x646]);
  (0xFC68, [0x64A; 0x654; 0x649]); (0xFC69, [0x64A; 0x654; 0x64A]); (0xFC6A, [0x628; 0x631]); (0xFC6B, [0x628; 0x632]);
  (0xFC6C, [0x628; 0x645]); (0xFC6D, [0x628; 0x646]); (0xFC6E, [0x628; 0x649]); (0xFC6F, [0x628; 0x64A]);
  (0xFC70, [0x62A; 0x631]); (0xFC71, [0x62A; 0x632]); (0xFC72, [0x62A; 0x645]); (0xFC73, [0x62A; 0x646]);
  (0xFC74, [0x62A; 0x649]); (0xFC75, [0x62A; 0x64A]); (0xFC76, [0x62B; 0x631]); (0xFC77, [0x62B; 0x632]);
  (0xFC78, [0x62B; 0x645]); (0xFC79, [0x62B; 0x646]); (0xFC7A, [0x62B; 0x649]); (0xFC7B, [0x62B; 0x64A]);
  (0xFC7C, [0x641; 0x649]); (0xFC7D, [0x641; 0x64A]); (0xFC7E, [0x642; 0x649]); (0xFC7F, [0x642; 0x64A]);
  (0xFC80, [0x643; 0x627]); (0xFC81, [0x643; 0x644]); (0xFC82, [0x643; 0x645]); (0xFC83, [0x643; 0x649]);
  (0xFC84, [0x643; 0x64A]); (0xFC85, [0x644; 0x645]); (0xFC86, [0x644; 0x649]); (0xFC87, [0x644; 0x64A]);
  (0xFC88, [0x645; 0x627]); (0xFC89, [0x645; 0x645]); (0xFC8A, [0x646; 0x631]); (0xFC8B, [0x646; 0x632]);
  (0xFC8C, [0x646; 0x645]); (0xFC8D, [0x646; 0x646]); (0xFC8E, [0x646; 0x649]); (0xFC8F, [0x646; 0x64A]);
  (0xFC90, [0x649; 0x670]); (0xFC91, [0x64A; 0x631]); (0xFC92, [0x64A; 0x632]); (0xFC93, [0x64A; 0x645]);
  (0xFC94, [0x64A; 0x646]); (0xFC95, [0x64A; 0x649]); (0xFC96, [0x64A; 0x64A]); (0xFC97, [0x64A; 0x654; 0x62C]);
  (0xFC98, [0x64A; 0x654; 0x62D]); (0xFC99, [0x64A; 0x654; 0x62E]); (0xFC9A, [0x64A; 0x654; 0x645]); (0xFC9B, [0x64A; 0x654; 0x647]);
  (0xFC9C, [0x628; 0x62C]); (0xFC9D, [0x628; 0x62D]); (0xFC9E, [0x628; 0x62E]); (0xFC9F, [0x628; 0x645]);
  (0xFCA0, [0x628; 0x647]); (0xFCA1, [0x62A; 0x62C]); (0xFCA2, [0x62A; 0x62D]); (0xFCA3, [0x62A; 0x62E]);
  (0xFCA4, [0x62A; 0x645]); (0xFCA5, [0x62A; 0x647]); (0xFCA6, [0x62B; 0x645]); (0xFCA7, [0x62C; 0x62D]);
  (0xFCA8, [0x62C; 0x645]); (0xFCA9, [0x62D; 0x62C]); (0xFCAA, [0x62D; 0x645]); (0xFCAB, [0x62E; 0x62C]);
  (0xFCAC, [0x62E; 0x645]); (0xFCAD, [0x633; 0x62C]); (0xFCAE, [0x633; 0x62D]); (0xFCAF, [0x633; 0x62E]);
  (0xFCB0, [0x633; 0x645]); (0xFCB1, [0x635; 0x62D]); (0xFCB2, [0x635; 0x62E]); (0xFCB3, [0x635; 0x645]);
  (0xFCB4, [0x636; 0x62C]); (0xFCB5, [0x636; 0x62D]); (0xFCB6, [0x636; 0x62E]); (0xFCB7, [0x636; 0x645]);
  (0xFCB8, [0x637; 0x62D]); (0xFCB9, [0x638; 0x645]); (0xFCBA, [0x639; 0x62C]); (0xFCBB, [0x639; 0x645]);
  (0xFCBC, [0x63A; 0x62C]); (0xFCBD, [0x63A; 0x645]); (0xFCBE, [0x641; 0x62C]); (0xFCBF, [0x641; 0x62D]);
  (0xFCC0, [0x641; 0x62E]); (0xFCC1, [0x641; 0x645]); (0xFCC2, [0x642; 0x62D]); (0xFCC3, [0x642; 0x645]);
  (0xFCC4, [0x643; 0x62C]); (0xFCC5, [0x643; 0x62D]); (0xFCC6, [0x643; 0x62E]); (0xFCC7, [0x643; 0x644]);
  (0xFCC8, [0x643; 0x645]); (0xFCC9, [0x644; 0x62C]); (0xFCCA, [0x644; 0x62D]); (0xFCCB, [0x644; 0x62E]);
  (0xFCCC, [0x644; 0x645]); (0xFCCD, [0x644; 0x647]); (0xFCCE, [0x645; 0x62C]); (0xFCCF, [0x645; 0x62D]);
  (0xFCD0, [0x645; 0x62E]); (0xFCD1, [0x645; 0x645]); (0xFCD2, [0x646; 0x62C]); (0xFCD3, [0x646; 0x62D]);
  (0xFCD4, [0x646; 0x62E]); (0xFCD5, [0x646; 0x645]); (0xFCD6, [0x646; 0x647]); (0xFCD7, [0x647; 0x62C]);
  (0xFCD8, [0x647; 0x645]); (0xFCD9, [0x647; 0x670]); (0xFCDA, [0x64A; 0x62C]); (0xFCDB, [0x64A; 0x62D]);
  (0xFCDC, [0x64A; 0x62E]); (0xFCDD, [0x64A; 0x645]); (0xFCDE, [0x64A; 0x647]); (0xFCDF, [0x64A; 0x654; 0x645]);
  (0xFCE0, [0x64A; 0x654; 0x647]); (0xFCE1, [0x628; 0x645]); (0xFCE2, [0x628; 0x647]); (0xFCE3, [0x62A; 0x645]);
  (0xFCE4, [0x62A; 0x647]); (0xFCE5, [0x62B; 0x645]); (0xFCE6, [0x62B; 0x647]); (0xFCE7, [0x633; 0x645]);
  (0xFCE8, [0x633; 0x647]); (0xFCE9, [0x634; 0x645]); (0xFCEA, [0x634; 0x647]); (0xFCEB, [0x643; 0x644]);
  (0xFCEC, [0x643; 0x645]); (0xFCED, [0x644; 0x645]); (0xFCEE, [0x646; 0x645]); (0xFCEF, [0x646; 0x647]);
  (0xFCF0, [0x64A; 0x645]); (0xFCF1, [0x64A; 0x647]); (0xFCF2, [0x640; 0x64E; 0x651]); (0xFCF3, [0x640; 0x64F; 0x651]);
  (0xFCF4, [0x640; 0x650; 0x651]); (0xFCF5, [0x637; 0x649]); (0xFCF6, [0x637; 0x64A]); (0xFCF7, [0x639; 0x649]);
  (0xFCF8, [0x639; 0x64A]); (0xFCF9, [0x63A; 0x649]); (0xFCFA, [0x63A; 0x64A]); (0xFCFB, [0x633; 0x649]);
  (0xFCFC, [0x633; 0x64A]); (0xFCFD, [0x634; 0x649]); (0xFCFE, [0x634; 0x64A]); (0xFCFF, [0x62D; 0x649]);
  (0xFD00, [0x62D; 0x64A]); (0xFD01, [0x62C; 0x649]); (0xFD02, [0x62C; 0x64A]); (0xFD03, [0x62E; 0x649]);
  (0xFD04, [0x62E; 0x64A]); (0xFD05, [0x635; 0x649]); (0xFD06, [0x635; 0x64A]); (0xFD07, [0x636; 0x649]);
  (0xFD08, [0x636; 0x64A]); (0xFD09, [0x634; 0x62C]); (0xFD0A, [0x634; 0x62D]); (0xFD0B, [0x634; 0x62E]);
  (0xFD0C, [0x634; 0x645]); (0xFD0D, [0x634; 0x631]); (0xFD0E, [0x633; 0x631]); (0xFD0F, [0x635; 0x631]);
  (0xFD10, [0x636; 0x631]); (0xFD11, [0x637; 0x649]); (0xFD12, [0x637; 0x64A]); (0xFD13, [0x639; 0x649]);
  (0xFD14, [0x639; 0x64A]); (0xFD15, [0x63A; 0x649]); (0xFD16, [0x63A; 0x64A]); (0xFD17, [0x633; 0x649]);
  (0xFD18, [0x633; 0x64A]); (0xFD19, [0x634; 0x649]); (0xFD1A, [0x634; 0x64A]); (0xFD1B, [0x62D; 0x649]);
  (0xFD1C, [0x62D; 0x64A]); (0xFD1D, [0x62C; 0x649]); (0xFD1E, [0x62C; 0x64A]); (0xFD1F, [0x62E; 0x649]);
  (0xFD20, [0x62E; 0x64A]); (0xFD21, [0x635; 0x649]); (0xFD22, [0x635; 0x64A]); (0xFD23, [0x636; 0x649]);
  (0xFD24, [0x636; 0x64A]); (0xFD25, [0x634; 0x62C]); (0xFD26, [0x634; 0x62D]); (0xFD27, [0x634; 0x62E]);
  (0xFD28, [0x634; 0x645]); (0xFD29, [0x634; 0x631]); (0xFD2A, [0x633; 0x631]); (0xFD2B, [0x635; 0x631]);
  (0xFD2C, [0x636; 0x631]); (0xFD2D, [0x634; 0x62C]); (0xFD2E, [0x634; 0x62D]); (0xFD2F, [0x634; 0x62E]);
  (0xFD30, [0x634; 0x645]); (0xFD31, [0x633; 0x647]); (0xFD32, [0x634; 0x647]); (0xFD33, [0x637; 0x645]);
  (0xFD34, [0x633; 0x62C]); (0xFD35, [0x633; 0x62D]); (0xFD36, [0x633; 0x62E]); (0xFD37, [0x634; 0x62C]);
  (0xFD38, [0x634; 0x62D]); (0xFD39, [0x634; 0x62E]); (0xFD3A, [0x637; 0x645]); (0xFD3B, [0x638; 0x645]);
  (0xFD3C, [0x627; 0x64B]); (0xFD3D, [0x627; 0x64B]); (0xFD50, [0x62A; 0x62C; 0x645]); (0xFD51, [0x62A; 0x62D; 0x62C]);
  (0xFD52, [0x62A; 0x62D; 0x62C]); (0xFD53, [0x62A; 0x62D; 0x645]); (0xFD54, [0x62A; 0x62E; 0x645]); (0xFD55, [0x62A; 0x645; 0x62C]);
  (0xFD56, [0x62A; 0x645; 0x62D]); (0xFD57, [0x62A; 0x645; 0x62E]); (0xFD58, [0x62C; 0x645; 0x62D]); (0xFD59, [0x62C; 0x645; 0x62D]);
  (0xFD5A, [0x62D; 0x645; 0x64A]); (0xFD5B, [0x62D; 0x645; 0x649]); (0xFD5C, [0x633; 0x62D; 0x62C]); (0xFD5D, [0x633; 0x62C; 0x62D]);
  (0xFD5E, [0x633; 0x62C; 0x649]); (0xFD5F, [0x633; 0x645; 0x62D]); (0xFD60, [0x633; 0x645; 0x62D]); (0xFD61, [0x633; 0x645; 0x62C]);
  (0xFD62, [0x633; 0x645; 0x645]); (0xFD63, [0x633; 0x645; 0x645]); (0xFD64, [0x635; 0x62D; 0x62D]); (0xFD65, [0x635; 0x62D; 0x62D]);
  (0xFD66, [0x635; 0x645; 0x645]); (0xFD67, [0x634; 0x62D; 0x645]); (0xFD68, [0x634; 0x62D; 0x645]); (0xFD69, [0x634; 0x62C; 0x64A]);
  (0xFD6A, [0x634; 0x645; 0x62E]); (0xFD6B, [0x634; 0x645; 0x62E]); (0xFD6C, [0x634; 0x645; 0x645]); (0xFD6D, [0x634; 0x645; 0x645]);
  (0xFD6E, [0x636; 0x62D; 0x649]); (0xFD6F, [0x636; 0x62E; 0x645]); (0xFD70, [0x636; 0x62E; 0x645]); (0xFD71, [0x637; 0x645; 0x62D]);
  (0xFD72, [0x637; 0x645; 0x62D]); (0xFD73, [0x637; 0x645; 0x645]); (0xFD74, [0x637; 0x645; 0x64A]); (0xFD75, [0x639; 0x62C; 0x645]);
  (0xFD76, [0x639; 0x645; 0x645]); (0xFD77, [0x639; 0x645; 0x645]); (0xFD78, [0x639; 0x645; 0x649]); (0xFD79, [0x63A; 0x645; 0x645]);
  (0xFD7A, [0x63A; 0x645; 0x64A]); (0xFD7B, [0x63A; 0x645; 0x649]); (0xFD7C, [0x641; 0x62E; 0x645]); (0xFD7D, [0x641; 0x62E; 0x645]);
  (0xFD7E, [0x642; 0x645; 0x62D]); (0xFD7F, [0x642; 0x645; 0x645]); (0xFD80, [0x644; 0x62D; 0x645]); (0xFD81, [0x644; 0x62D; 0x64A]);
  (0xFD82, [0x644; 0x62D; 0x649]); (0xFD83, [0x644; 0x62C; 0x62C]); (0xFD84, [0x644; 0x62C; 0x62C]); (0xFD85, [0x644; 0x62E; 0x645]);
  (0xFD86, [0x644; 0x62E; 0x645]); (0xFD87, [0x644; 0x645; 0x62D]); (0xFD88, [0x644; 0x645; 0x62D]); (0xFD89, [0x645; 0x62D; 0x62C]);
  (0xFD8A, [0x645; 0x62D; 0x645]); (0xFD8B, [0x645; 0x62D; 0x64A]); (0xFD8C, [0x645; 0x62C; 0x62D]); (0xFD8D, [0x645; 0x62C; 0x645]);
  (0xFD8E, [0x645; 0x62E; 0x62C]); (0xFD8F, [0x645; 0x62E; 0x645]); (0xFD92, [0x645; 0x62C; 0x62E]); (0xFD93, [0x647; 0x645; 0x62C]);
  (0xFD94, [0x647; 0x645; 0x645]); (0xFD95, [0x646; 0x62D; 0x645]); (0xFD96, [0x646; 0x62D; 0x649]); (0xFD97, [0x646; 0x62C; 0x645]);
  (0xFD98, [0x646; 0x62C; 0x645]); (0xFD99, [0x646; 0x62C; 0x649]); (0xFD9A, [0x646; 0x645; 0x64A]); (0xFD9B, [0x646; 0x645; 0x649]);
  (0xFD9C, [0x64A; 0x645; 0x645]); (0xFD9D, [0x64A; 0x645; 0x645]); (0xFD9E, [0x628; 0x62E; 0x64A]); (0xFD9F, [0x62A; 0x62C; 0x64A]);
  (0xFDA0, [0x62A; 0x62C; 0x649]); (0xFDA1, [0x62A; 0x62E; 0x64A]); (0xFDA2, [0x62A; 0x62E; 0x649]); (0xFDA3, [0x62A; 0x645; 0x64A]);
  (0xFDA4, [0x62A; 0x645; 0x649]); (0xFDA5, [0x62C; 0x645; 0x64A]); (0xFDA6, [0x62C; 0x62D; 0x649]); (0xFDA7, [0x62C; 0x645; 0x649]);
  (0xFDA8, [0x633; 0x62E; 0x649]); (0xFDA9, [0x635; 0x62D; 0x64A]); (0xFDAA, [0x634; 0x62D; 0x64A]); (0xFDAB, [0x636; 0x62D; 0x64A]);
  (0xFDAC, [0x644; 0x62C; 0x64A]); (0xFDAD, [0x644; 0x645; 0x64A]); (0xFDAE, [0x64A; 0x62D; 0x64A]); (0xFDAF, [0x64A; 0x62C; 0x64A]);
  (0xFDB0, [0x64A; 0x645; 0x64A]); (0xFDB1, [0x645; 0x645; 0x64A]); (0xFDB2, [0x642; 0x645; 0x64A]); (0xFDB3, [0x646; 0x62D; 0x64A]);
  (0xFDB4, [0x642; 0x645; 0x62D]); (0xFDB5, [0x644; 0x62D; 0x645]); (0xFDB6, [0x639; 0x645; 0x64A]); (0xFDB7, [0x643; 0x645; 0x64A]);
  (0xFDB8, [0x646; 0x62C; 0x62D]); (0xFDB9, [0x645; 0x62E; 0x64A]); (0xFDBA, [0x644; 0x62C; 0x645]); (0xFDBB, [0x643; 0x645; 0x645]);
  (0xFDBC, [0x644; 0x62C; 0x645]); (0xFDBD, [0x646; 0x62C; 0x62D]); (0xFDBE, [0x62C; 0x62D; 0x64A]); (0xFDBF, [0x62D; 0x62C; 0x64A]);
  (0xFDC0, [0x645; 0x62C; 0x64A]); (0xFDC1, [0x641; 0x645; 0x64A]); (0xFDC2, [0x628; 0x62D; 0x64A]); (0xFDC3, [0x643; 0x645; 0x645]);
  (0xFDC4, [0x639; 0x62C; 0x645]); (0xFDC5, [0x635; 0x645; 0x645]); (0xFDC6, [0x633; 0x62E; 0x64A]); (0xFDC7, [0x646; 0x62C; 0x64A]);
  (0xFDF0, [0x635; 0x644; 0x6D2]); (0xFDF1, [0x642; 0x644; 0x6D2]); (0xFDF2, [0x627; 0x644; 0x644; 0x647]); (0xFDF3, [0x627; 0x643; 0x628; 0x631]);
  (0xFDF4, [0x645; 0x62D; 0x645; 0x62F]); (0xFDF5, [0x635; 0x644; 0x639; 0x645]); (0xFDF6, [0x631; 0x633; 0x648; 0x644]); (0xFDF7, [0x639; 0x644; 0x64A; 0x647]);
  (0xFDF8, [0x648; 0x633; 0x644; 0x645]); (0xFDF9, [0x635; 0x644; 0x649]); (0xFDFA, [0x635; 0x644; 0x649; 0x20; 0x627; 0x644; 0x644; 0x647; 0x20; 0x639; 0x644; 0x64A; 0x647; 0x20; 0x648; 0x633; 0x644; 0x645]); (0xFDFB, [0x62C; 0x644; 0x20; 0x62C; 0x644; 0x627; 0x644; 0x647]);
  (0xFDFC, [0x631; 0x6CC; 0x627; 0x644]); (0xFE10, [0x2C]); (0xFE11, [0x3001]); (0xFE12, [0x3002]);
  (0xFE13, [0x3A]); (0xFE14, [0x3B]); (0xFE15, [0x21]); (0xFE16, [0x3F]);
  (0xFE17, [0x3016]); (0xFE18, [0x3017]); (0xFE19, [0x2E; 0x2E; 0x2E]); (0xFE30, [0x2E; 0x2E]);
  (0xFE31, [0x2014]); (0xFE32, [0x2013]); (0xFE33, [0x5F]); (0xFE34, [0x5F]);
  (0xFE35, [0x28]); (0xFE36, [0x29]); (0xFE37, [0x7B]); (0xFE38, [0x7D])
 ]%N.

Definition compat_table_5 : list (N * list N) :=
 [
  (0xFE39, [0x3014]); (0xFE3A, [0x3015]); (0xFE3B, [0x3010]); (0xFE3C, [0x3011]);
  (0xFE3D, [0x300A]); (0xFE3E, [0x300B]); (0xFE3F, [0x3008]); (0xFE40, [0x3009]);
  (0xFE41, [0x300C]); (0xFE42, [0x300D]); (0xFE43, [0x300E]); (0xFE44, [0x300F]);
  (0xFE47, [0x5B]); (0xFE48, [0x5D]); (0xFE49, [0x20; 0x305]); (0xFE4A, [0x20; 0x305]);
  (0xFE4B, [0x20; 0x305]); (0xFE4C, [0x20; 0x305]); (0xFE4D, [0x5F]); (0xFE4E, [0x5F]);
  (0xFE4F, [0x5F]); (0xFE50, [0x2C]); (0xFE51, [0x3001]); (0xFE52, [0x2E]);
  (0xFE54, [0x3B]); (0xFE55, [0x3A]); (0xFE56, [0x3F]); (0xFE57, [0x21]);
  (0xFE58, [0x2014]); (0xFE59, [0x28]); (0xFE5A, [0x29]); (0xFE5B, [0x7B]);
  (0xFE5C, [0x7D]); (0xFE5D, [0x3014]); (0xFE5E, [0x3015]); (0xFE5F, [0x23]);
  (0xFE60, [0x26]); (0xFE61, [0x2A]); (0xFE62, [0x2B]); (0xFE63, [0x2D]);
  (0xFE64, [0x3C]); (0xFE65, [0x3E]); (0xFE66, [0x3D]); (0xFE68, [0x5C]);
  (0xFE69, [0x24]); (0xFE6A, [0x25]); (0xFE6B, [0x40]); (0xFE70, [0x20; 0x64B]);
  (0xFE71, [0x640; 0x64B]); (0xFE72, [0x20; 0x64C]); (0xFE74, [0x20; 0x64D]); (0xFE76, [0x20; 0x64E]);
  (0xFE77, [0x640; 0x64E]); (0xFE78, [0x20; 0x64F]); (0xFE79, [0x640; 0x64F]); (0xFE7A, [0x20; 0x650]);
  (0xFE7B, [0x640; 0x650]); (0xFE7C, [0x20; 0x651]); (0xFE7D, [0x640; 0x651]); (0xFE7E, [0x20; 0x652]);
  (0xFE7F, [0x640; 0x652]); (0xFE80, [0x621]); (0xFE81, [0x627; 0x653]); (0xFE82, [0x627; 0x653]);
  (0xFE83, [0x627; 0x654]); (0xFE84, [0x627; 0x654]); (0xFE85, [0x648; 0x654]); (0xFE86, [0x648; 0x654]);
  (0xFE87, [0x627; 0x655]); (0xFE88, [0x627; 0x655]); (0xFE89, [0x64A; 0x654]); (0xFE8A, [0x64A; 0x654]);
  (0xFE8B, [0x64A; 0x654]); (0xFE8C, [0x64A; 0x654]); (0xFE8D, [0x627]); (0xFE8E, [0x627]);
  (0xFE8F, [0x628]); (0xFE90, [0x628]); (0xFE91, [0x628]); (0xFE92, [0x628]);
  (0xFE93, [0x629]); (0xFE94, [0x629]); (0xFE95, [0x62A]); (0xFE96, [0x62A]);
  (0xFE97, [0x62A]); (0xFE98, [0x62A]); (0xFE99, [0x62B]); (0xFE9A, [0x62B]);
  (0xFE9B, [0x62B]); (0xFE9C, [0x62B]); (0xFE9D, [0x62C]); (0xFE9E, [0x62C]);
  (0xFE9F, [0x62C]); (0xFEA0, [0x62C]); (0xFEA1, [0x62D]); (0xFEA2, [0x62D]);
  (0xFEA3, [0x62D]); (0xFEA4, [0x62D]); (0xFEA5, [0x62E]); (0xFEA6, [0x62E]);
  (0xFEA7, [0x62E]); (0xFEA8, [0x62E]); (0xFEA9, [0x62F]); (0xFEAA, [0x62F]);
  (0xFEAB, [0x630]); (0xFEAC, [0x630]); (0xFEAD, [0x631]); (0xFEAE, [0x631]);
  (0xFEAF, [0x632]); (0xFEB0, [0x632]); (0xFEB1, [0x633]); (0xFEB2, [0x633]);
  (0xFEB3, [0x633]); (0xFEB4, [0x633]); (0xFEB5, [0x634]); (0xFEB6, [0x634]);
  (0xFEB7, [0x634]); (0xFEB8, [0x634]); (0xFEB9, [0x635]); (0xFEBA, [0x635]);
  (0xFEBB, [0x635]); (0xFEBC, [0x635]); (0xFEBD, [0x636]); (0xFEBE, [0x636]);
  (0xFEBF, [0x636]); (0xFEC0, [0x636]); (0xFEC1, [0x637]); (0xFEC2, [0x637]);
  (0xFEC3, [0x637]); (0xFEC4, [0x637]); (0xFEC5, [0x638]); (0xFEC6, [0x638]);
  (0xFEC7, [0x638]); (0xFEC8, [0x638]); (0xFEC9, [0x639]); (0xFECA, [0x639]);
  (0xFECB, [0x639]); (0xFECC, [0x639]); (0xFECD, [0x63A]); (0xFECE, [0x63A]);
  (0xFECF, [0x63A]); (0xFED0, [0x63A]); (0xFED1, [0x641]); (0xFED2, [0x641]);
  (0xFED3, [0x641]); (0xFED4, [0x641]); (0xFED5, [0x642]); (0xFED6, [0x642]);
  (0xFED7, [0x642]); (0xFED8, [0x642]); (0xFED9, [0x643]); (0xFEDA, [0x643]);
  (0xFEDB, [0x643]); (0xFEDC, [0x643]); (0xFEDD, [0x644]); (0xFEDE, [0x644]);
  (0xFEDF, [0x644]); (0xFEE0, [0x644]); (0xFEE1, [0x645]); (0xFEE2, [0x645]);
  (0xFEE3, [0x645]); (0xFEE4, [0x645]); (0xFEE5, [0x646]); (0xFEE6, [0x646]);
  (0xFEE7, [0x646]); (0xFEE8, [0x646]); (0xFEE9, [0x647]); (0xFEEA, [0x647]);
  (0xFEEB, [0x647]); (0xFEEC, [0x647]); (0xFEED, [0x648]); (0xFEEE, [0x648]);
  (0xFEEF, [0x649]); (0xFEF0, [0x649]); (0xFEF1, [0x64A]); (0xFEF2, [0x64A]);
  (0xFEF3, [0x64A]); (0xFEF4, [0x64A]); (0xFEF5, [0x644; 0x627; 0x653]); (0xFEF6, [0x644; 0x627; 0x653]);
  (0xFEF7, [0x644; 0x627; 0x654]); (0xFEF8, [0x644; 0x627; 0x654]); (0xFEF9, [0x644; 0x627; 0x655]); (0xFEFA, [0x644; 0x627; 0x655]);
  (0xFEFB, [0x644; 0x627]); (0xFEFC, [0x644; 0x627]); (0xFF01, [0x21]); (0xFF02, [0x22]);
  (0xFF03, [0x23]); (0xFF04, [0x24]); (0xFF05, [0x25]); (0xFF06, [0x26]);
  (0xFF07, [0x27]); (0xFF08, [0x28]); (0xFF09, [0x29]); (0xFF0A, [0x2A]);
  (0xFF0B, [0x2B]); (0xFF0C, [0x2C]); (0xFF0D, [0x2D]); (0xFF0E, [0x2E]);
  (0xFF0F, [0x2F]); (0xFF10, [0x30]); (0xFF11, [0x31]); (0xFF12, [0x32]);
  (0xFF13, [0x33]); (0xFF14, [0x34]); (0xFF15, [0x35]); (0xFF16, [0x36]);
  (0xFF17, [0x37]); (0xFF18, [0x38]); (0xFF19, [0x39]); (0xFF1A, [0x3A]);
  (0xFF1B, [0x3B]); (0xFF1C, [0x3C]); (0xFF1D, [0x3D]); (0xFF1E, [0x3E]);
  (0xFF1F, [0x3F]); (0xFF20, [0x40]); (0xFF21, [0x41]); (0xFF22, [0x42]);
  (0xFF23, [0x43]); (0xFF24, [0x44]); (0xFF25, [0x45]); (0xFF26, [0x46]);
  (0xFF27, [0x47]); (0xFF28, [0x48]); (0xFF29, [0x49]); (0xFF2A, [0x4A]);
  (0xFF2B, [0x4B]); (0xFF2C, [0x4C]); (0xFF2D, [0x4D]); (0xFF2E, [0x4E]);
  (0xFF2F, [0x4F]); (0xFF30, [0x50]); (0xFF31, [0x51]); (0xFF32, [0x52]);
  (0xFF33, [0x53]); (0xFF34, [0x54]); (0xFF35, [0x55]); (0xFF36, [0x56]);
  (0xFF37, [0x57]); (0xFF38, [0x58]); (0xFF39, [0x59]); (0xFF3A, [0x5A]);
  (0xFF3B, [0x5B]); (0xFF3C, [0x5C]); (0xFF3D, [0x5D]); (0xFF3E, [0x5E]);
  (0xFF3F, [0x5F]); (0xFF40, [0x60]); (0xFF41, [0x61]); (0xFF42, [0x62]);
  (0xFF43, [0x63]); (0xFF44, [0x64]); (0xFF45, [0x65]); (0xFF46, [0x66]);
  (0xFF47, [0x67]); (0xFF48, [0x68]); (0xFF49, [0x69]); (0xFF4A, [0x6A]);
  (0xFF4B, [0x6B]); (0xFF4C, [0x6C]); (0xFF4D, [0x6D]); (0xFF4E, [0x6E]);
  (0xFF4F, [0x6F]); (0xFF50, [0x70]); (0xFF51, [0x71]); (0xFF52, [0x72]);
  (0xFF53, [0x73]); (0xFF54, [0x74]); (0xFF55, [0x75]); (0xFF56, [0x76]);
  (0xFF57, [0x77]); (0xFF58, [0x78]); (0xFF59, [0x79]); (0xFF5A, [0x7A]);
  (0xFF5B, [0x7B]); (0xFF5C, [0x7C]); (0xFF5D, [0x7D]); (0xFF5E, [0x7E]);
  (0xFF5F, [0x2985]); (0xFF60, [0x2986]); (0xFF61, [0x3002]); (0xFF62, [0x300C]);
  (0xFF63, [0x300D]); (0xFF64, [0x3001]); (0xFF65, [0x30FB]); (0xFF66, [0x30F2]);
  (0xFF67, [0x30A1]); (0xFF68, [0x30A3]); (0xFF69, [0x30A5]); (0xFF6A, [0x30A7]);
  (0xFF6B, [0x30A9]); (0xFF6C, [0x30E3]); (0xFF6D, [0x30E5]); (0xFF6E, [0x30E7]);
  (0xFF6F, [0x30C3]); (0xFF70, [0x30FC]); (0xFF71, [0x30A2]); (0xFF72, [0x30A4]);
  (0xFF73, [0x30A6]); (0xFF74, [0x30A8]); (0xFF75, [0x30AA]); (0xFF76, [0x30AB]);
  (0xFF77, [0x30AD]); (0xFF78, [0x30AF]); (0xFF79, [0x30B1]); (0xFF7A, [0x30B3]);
  (0xFF7B, [0x30B5]); (0xFF7C, [0x30B7]); (0xFF7D, [0x30B9]); (0xFF7E, [0x30BB]);
  (0xFF7F, [0x30BD]); (0xFF80, [0x30BF]); (0xFF81, [0x30C1]); (0xFF82, [0x30C4]);
  (0xFF83, [0x30C6]); (0xFF84, [0x30C8]); (0xFF85, [0x30CA]); (0xFF86, [0x30CB]);
  (0xFF87, [0x30CC]); (0xFF88, [0x30CD]); (0xFF89, [0x30CE]); (0xFF8A, [0x30CF]);
  (0xFF8B, [0x30D2]); (0xFF8C, [0x30D5]); (0xFF8D, [0x30D8]); (0xFF8E, [0x30DB]);
  (0xFF8F, [0x30DE]); (0xFF90, [0x30DF]); (0xFF91, [0x30E0]); (0xFF92, [0x30E1]);
  (0xFF93, [0x30E2]); (0xFF94, [0x30E4]); (0xFF95, [0x30E6]); (0xFF96, [0x30E8]);
  (0xFF97, [0x30E9]); (0xFF98, [0x30EA]); (0xFF99, [0x30EB]); (0xFF9A, [0x30EC]);
  (0xFF9B, [0x30ED]); (0xFF9C, [0x30EF]); (0xFF9D, [0x30F3]); (0xFF9E, [0x3099]);
  (0xFF9F, [0x309A]); (0xFFA0, [0x1160]); (0xFFA1, [0x1100]); (0xFFA2, [0x1101]);
  (0xFFA3, [0x11AA]); (0xFFA4, [0x1102]); (0xFFA5, [0x11AC]); (0xFFA6, [0x11AD]);
  (0xFFA7, [0x1103]); (0xFFA8, [0x1104]); (0xFFA9, [0x1105]); (0xFFAA, [0x11B0]);
  (0xFFAB, [0x11B1]); (0xFFAC, [0x11B2]); (0xFFAD, [0x11B3]); (0xFFAE, [0x11B4]);
  (0xFFAF, [0x11B5]); (0xFFB0, [0x111A]); (0xFFB1, [0x1106]); (0xFFB2, [0x1107]);
  (0xFFB3, [0x1108]); (0xFFB4, [0x1121]); (0xFFB5, [0x1109]); (0xFFB6, [0x110A]);
  (0xFFB7, [0x110B]); (0xFFB8, [0x110C]); (0xFFB9, [0x110D]); (0xFFBA, [0x110E]);
  (0xFFBB, [0x110F]); (0xFFBC, [0x1110]); (0xFFBD, [0x1111]); (0xFFBE, [0x1112]);
  (0xFFC2, [0x1161]); (0xFFC3, [0x1162]); (0xFFC4, [0x1163]); (0xFFC5, [0x1164]);
  (0xFFC6, [0x1165]); (0xFFC7, [0x1166]); (0xFFCA, [0x1167]); (0xFFCB, [0x1168]);
  (0xFFCC, [0x1169]); (0xFFCD, [0x116A]); (0xFFCE, [0x116B]); (0xFFCF, [0x116C]);
  (0xFFD2, [0x116D]); (0xFFD3, [0x116E]); (0xFFD4, [0x116F]); (0xFFD5, [0x1170]);
  (0xFFD6, [0x1171]); (0xFFD7, [0x1172]); (0xFFDA, [0x1173]); (0xFFDB, [0x1174]);
  (0xFFDC, [0x1175]); (0xFFE0, [0xA2]); (0xFFE1, [0xA3]); (0xFFE2, [0xAC])
 ]%N.

Definition compat_table_6 : list (N * list N) :=
 [
  (0xFFE3, [0x20; 0x304]); (0xFFE4, [0xA6]); (0xFFE5, [0xA5]); (0xFFE6, [0x20A9]);
  (0xFFE8, [0x2502]); (0xFFE9, [0x2190]); (0xFFEA, [0x2191]); (0xFFEB, [0x2192]);
  (0xFFEC, [0x2193]); (0xFFED, [0x25A0]); (0xFFEE, [0x25CB]); (0x10781, [0x2D0]);
  (0x10782, [0x2D1]); (0x10783, [0xE6]); (0x10784, [0x299]); (0x10785, [0x253]);
  (0x10787, [0x2A3]); (0x10788, [0xAB66]); (0x10789, [0x2A5]); (0x1078A, [0x2A4]);
  (0x1078B, [0x256]); (0x1078C, [0x257]); (0x1078D, [0x1D91]); (0x1078E, [0x258]);
  (0x1078F, [0x25E]); (0x10790, [0x2A9]); (0x10791, [0x264]); (0x10792, [0x262]);
  (0x10793, [0x260]); (0x10794, [0x29B]); (0x10795, [0x127]); (0x10796, [0x29C]);
  (0x10797, [0x267]); (0x10798, [0x284]); (0x10799, [0x2AA]); (0x1079A, [0x2AB]);
  (0x1079B, [0x26C]); (0x1079C, [0x1DF04]); (0x1079D, [0xA78E]); (0x1079E, [0x26E]);
  (0x1079F, [0x1DF05]); (0x107A0, [0x28E]); (0x107A1, [0x1DF06]); (0x107A2, [0xF8]);
  (0x107A3, [0x276]); (0x107A4, [0x277]); (0x107A5, [0x71]); (0x107A6, [0x27A]);
  (0x107A7, [0x1DF08]); (0x107A8, [0x27D]); (0x107A9, [0x27E]); (0x107AA, [0x280]);
  (0x107AB, [0x2A8]); (0x107AC, [0x2A6]); (0x107AD, [0xAB67]); (0x107AE, [0x2A7]);
  (0x107AF, [0x288]); (0x107B0, [0x2C71]); (0x107B2, [0x28F]); (0x107B3, [0x2A1]);
  (0x107B4, [0x2A2]); (0x107B5, [0x298]); (0x107B6, [0x1C0]); (0x107B7, [0x1C1]);
  (0x107B8, [0x1C2]); (0x107B9, [0x1DF0A]); (0x107BA, [0x1DF1E]); (0x1D400, [0x41]);
  (0x1D401, [0x42]); (0x1D402, [0x43]); (0x1D403, [0x44]); (0x1D404, [0x45]);
  (0x1D405, [0x46]); (0x1D406, [0x47]); (0x1D407, [0x48]); (0x1D408, [0x49]);
  (0x1D409, [0x4A]); (0x1D40A, [0x4B]); (0x1D40B, [0x4C]); (0x1D40C, [0x4D]);
  (0x1D40D, [0x4E]); (0x1D40E, [0x4F]); (0x1D40F, [0x50]); (0x1D410, [0x51]);
  (0x1D411, [0x52]); (0x1D412, [0x53]); (0x1D413, [0x54]); (0x1D414, [0x55]);
  (0x1D415, [0x56]); (0x1D416, [0x57]); (0x1D417, [0x58]); (0x1D418, [0x59]);
  (0x1D419, [0x5A]); (0x1D41A, [0x61]); (0x1D41B, [0x62]); (0x1D41C, [0x63]);
  (0x1D41D, [0x64]); (0x1D41E, [0x65]); (0x1D41F, [0x66]); (0x1D420, [0x67]);
  (0x1D421, [0x68]); (0x1D422, [0x69]); (0x1D423, [0x6A]); (0x1D424, [0x6B]);
  (0x1D425, [0x6C]); (0x1D426, [0x6D]); (0x1D427, [0x6E]); (0x1D428, [0x6F]);
  (0x1D429, [0x70]); (0x1D42A, [0x71]); (0x1D42B, [0x72]); (0x1D42C, [0x73]);
  (0x1D42D, [0x74]); (0x1D42E, [0x75]); (0x1D42F, [0x76]); (0x1D430, [0x77]);
  (0x1D431, [0x78]); (0x1D432, [0x79]); (0x1D433, [0x7A]); (0x1D434, [0x41]);
  (0x1D435, [0x42]); (0x1D436, [0x43]); (0x1D437, [0x44]); (0x1D438, [0x45]);
  (0x1D439, [0x46]); (0x1D43A, [0x47]); (0x1D43B, [0x48]); (0x1D43C, [0x49]);
  (0x1D43D, [0x4A]); (0x1D43E, [0x4B]); (0x1D43F, [0x4C]); (0x1D440, [0x4D]);
  (0x1D441, [0x4E]); (0x1D442, [0x4F]); (0x1D443, [0x50]); (0x1D444, [0x51]);
  (0x1D445, [0x52]); (0x1D446, [0x53]); (0x1D447, [0x54]); (0x1D448, [0x55]);
  (0x1D449, [0x56]); (0x1D44A, [0x57]); (0x1D44B, [0x58]); (0x1D44C, [0x59]);
  (0x1D44D, [0x5A]); (0x1D44E, [0x61]); (0x1D44F, [0x62]); (0x1D450, [0x63]);
  (0x1D451, [0x64]); (0x1D452, [0x65]); (0x1D453, [0x66]); (0x1D454, [0x67]);
  (0x1D456, [0x69]); (0x1D457, [0x6A]); (0x1D458, [0x6B]); (0x1D459, [0x6C]);
  (0x1D45A, [0x6D]); (0x1D45B, [0x6E]); (0x1D45C, [0x6F]); (0x1D45D, [0x70]);
  (0x1D45E, [0x71]); (0x1D45F, [0x72]); (0x1D460, [0x73]); (0x1D461, [0x74]);
  (0x1D462, [0x75]); (0x1D463, [0x76]); (0x1D464, [0x77]); (0x1D465, [0x78]);
  (0x1D466, [0x79]); (0x1D467, [0x7A]); (0x1D468, [0x41]); (0x1D469, [0x42]);
  (0x1D46A, [0x43]); (0x1D46B, [0x44]); (0x1D46C, [0x45]); (0x1D46D, [0x46]);
  (0x1D46E, [0x47]); (0x1D46F, [0x48]); (0x1D470, [0x49]); (0x1D471, [0x4A]);
  (0x1D472, [0x4B]); (0x1D473, [0x4C]); (0x1D474, [0x4D]); (0x1D475, [0x4E]);
  (0x1D476, [0x4F]); (0x1D477, [0x50]); (0x1D478, [0x51]); (0x1D479, [0x52]);
  (0x1D47A, [0x53]); (0x1D47B, [0x54]); (0x1D47C, [0x55]); (0x1D47D, [0x56]);
  (0x1D47E, [0x57]); (0x1D47F, [0x58]); (0x1D480, [0x59]); (0x1D481, [0x5A]);
  (0x1D482, [0x61]); (0x1D483, [0x62]); (0x1D484, [0x63]); (0x1D485, [0x64]);
  (0x1D486, [0x65]); (0x1D487, [0x66]); (0x1D488, [0x67]); (0x1D489, [0x68]);
  (0x1D48A, [0x69]); (0x1D48B, [0x6A]); (0x1D48C, [0x6B]); (0x1D48D, [0x6C]);
  (0x1D48E, [0x6D]); (0x1D48F, [0x6E]); (0x1D490, [0x6F]); (0x1D491, [0x70]);
  (0x1D492, [0x71]); (0x1D493, [0x72]); (0x1D494, [0x73]); (0x1D495, [0x74]);
  (0x1D496, [0x75]); (0x1D497, [0x76]); (0x1D498, [0x77]); (0x1D499, [0x78]);
  (0x1D49A, [0x79]); (0x1D49B, [0x7A]); (0x1D49C, [0x41]); (0x1D49E, [0x43]);
  (0x1D49F, [0x44]); (0x1D4A2, [0x47]); (0x1D4A5, [0x4A]); (0x1D4A6, [0x4B]);
  (0x1D4A9, [0x4E]); (0x1D4AA, [0x4F]); (0x1D4AB, [0x50]); (0x1D4AC, [0x51]);
  (0x1D4AE, [0x53]); (0x1D4AF, [0x54]); (0x1D4B0, [0x55]); (0x1D4B1, [0x56]);
  (0x1D4B2, [0x57]); (0x1D4B3, [0x58]); (0x1D4B4, [0x59]); (0x1D4B5, [0x5A]);
  (0x1D4B6, [0x61]); (0x1D4B7, [0x62]); (0x1D4B8, [0x63]); (0x1D4B9, [0x64]);
  (0x1D4BB, [0x66]); (0x1D4BD, [0x68]); (0x1D4BE, [0x69]); (0x1D4BF, [0x6A]);
  (0x1D4C0, [0x6B]); (0x1D4C1, [0x6C]); (0x1D4C2, [0x6D]); (0x1D4C3, [0x6E]);
  (0x1D4C5, [0x70]); (0x1D4C6, [0x71]); (0x1D4C7, [0x72]); (0x1D4C8, [0x73]);
  (0x1D4C9, [0x74]); (0x1D4CA, [0x75]); (0x1D4CB, [0x76]); (0x1D4CC, [0x77]);
  (0x1D4CD, [0x78]); (0x1D4CE, [0x79]); (0x1D4CF, [0x7A]); (0x1D4D0, [0x41]);
  (0x1D4D1, [0x42]); (0x1D4D2, [0x43]); (0x1D4D3, [0x44]); (0x1D4D4, [0x45]);
  (0x1D4D5, [0x46]); (0x1D4D6, [0x47]); (0x1D4D7, [0x48]); (0x1D4D8, [0x49]);
  (0x1D4D9, [0x4A]); (0x1D4DA, [0x4B]); (0x1D4DB, [0x4C]); (0x1D4DC, [0x4D]);
  (0x1D4DD, [0x4E]); (0x1D4DE, [0x4F]); (0x1D4DF, [0x50]); (0x1D4E0, [0x51]);
  (0x1D4E1, [0x52]); (0x1D4E2, [0x53]); (0x1D4E3, [0x54]); (0x1D4E4, [0x55]);
  (0x1D4E5, [0x56]); (0x1D4E6, [0x57]); (0x1D4E7, [0x58]); (0x1D4E8, [0x59]);
  (0x1D4E9, [0x5A]); (0x1D4EA, [0x61]); (0x1D4EB, [0x62]); (0x1D4EC, [0x63]);
  (0x1D4ED, [0x64]); (0x1D4EE, [0x65]); (0x1D4EF, [0x66]); (0x1D4F0, [0x67]);
  (0x1D4F1, [0x68]); (0x1D4F2, [0x69]); (0x1D4F3, [0x6A]); (0x1D4F4, [0x6B]);
  (0x1D4F5, [0x6C]); (0x1D4F6, [0x6D]); (0x1D4F7, [0x6E]); (0x1D4F8, [0x6F]);
  (0x1D4F9, [0x70]); (0x1D4FA, [0x71]); (0x1D4FB, [0x72]); (0x1D4FC, [0x73]);
  (0x1D4FD, [0x74]); (0x1D4FE, [0x75]); (0x1D4FF, [0x76]); (0x1D500, [0x77]);
  (0x1D501, [0x78]); (0x1D502, [0x79]); (0x1D503, [0x7A]); (0x1D504, [0x41]);
  (0x1D505, [0x42]); (0x1D507, [0x44]); (0x1D508, [0x45]); (0x1D509, [0x46]);
  (0x1D50A, [0x47]); (0x1D50D, [0x4A]); (0x1D50E, [0x4B]); (0x1D50F, [0x4C]);
  (0x1D510, [0x4D]); (0x1D511, [0x4E]); (0x1D512, [0x4F]); (0x1D513, [0x50]);
  (0x1D514, [0x51]); (0x1D516, [0x53]); (0x1D517, [0x54]); (0x1D518, [0x55]);
  (0x1D519, [0x56]); (0x1D51A, [0x57]); (0x1D51B, [0x58]); (0x1D51C, [0x59]);
  (0x1D51E, [0x61]); (0x1D51F, [0x62]); (0x1D520, [0x63]); (0x1D521, [0x64]);
  (0x1D522, [0x65]); (0x1D523, [0x66]); (0x1D524, [0x67]); (0x1D525, [0x68]);
  (0x1D526, [0x69]); (0x1D527, [0x6A]); (0x1D528, [0x6B]); (0x1D529, [0x6C]);
  (0x1D52A, [0x6D]); (0x1D52B, [0x6E]); (0x1D52C, [0x6F]); (0x1D52D, [0x70]);
  (0x1D52E, [0x71]); (0x1D52F, [0x72]); (0x1D530, [0x73]); (0x1D531, [0x74]);
  (0x1D532, [0x75]); (0x1D533, [0x76]); (0x1D534, [0x77]); (0x1D535, [0x78]);
  (0x1D536, [0x79]); (0x1D537, [0x7A]); (0x1D538, [0x41]); (0x1D539, [0x42]);
  (0x1D53B, [0x44]); (0x1D53C, [0x45]); (0x1D53D, [0x46]); (0x1D53E, [0x47]);
  (0x1D540, [0x49]); (0x1D541, [0x4A]); (0x1D542, [0x4B]); (0x1D543, [0x4C]);
  (0x1D544, [0x4D]); (0x1D546, [0x4F]); (0x1D54A, [0x53]); (0x1D54B, [0x54]);
  (0x1D54C, [0x55]); (0x1D54D, [0x56]); (0x1D54E, [0x57]); (0x1D54F, [0x58]);
  (0x1D550, [0x59]); (0x1D552, [0x61]); (0x1D553, [0x62]); (0x1D554, [0x63]);
  (0x1D555, [0x64]); (0x1D556, [0x65]); (0x1D557, [0x66]); (0x1D558, [0x67]);
  (0x1D559, [0x68]); (0x1D55A, [0x69]); (0x1D55B, [0x6A]); (0x1D55C, [0x6B]);
  (0x1D55D, [0x6C]); (0x1D55E, [0x6D]); (0x1D55F, [0x6E]); (0x1D560, [0x6F]);
  (0x1D561, [0x70]); (0x1D562, [0x71]); (0x1D563, [0x72]); (0x1D564, [0x73])
 ]%N.

Definition compat_table_7 : list (N * list N) :=
 [
  (0x1D565, [0x74]); (0x1D566, [0x75]); (0x1D567, [0x76]); (0x1D568, [0x77]);
  (0x1D569, [0x78]); (0x1D56A, [0x79]); (0x1D56B, [0x7A]); (0x1D56C, [0x41]);
  (0x1D56D, [0x42]); (0x1D56E, [0x43]); (0x1D56F, [0x44]); (0x1D570, [0x45]);
  (0x1D571, [0x46]); (0x1D572, [0x47]); (0x1D573, [0x48]); (0x1D574, [0x49]);
  (0x1D575, [0x4A]); (0x1D576, [0x4B]); (0x1D577, [0x4C]); (0x1D578, [0x4D]);
  (0x1D579, [0x4E]); (0x1D57A, [0x4F]); (0x1D57B, [0x50]); (0x1D57C, [0x51]);
  (0x1D57D, [0x52]); (0x1D57E, [0x53]); (0x1D57F, [0x54]); (0x1D580, [0x55]);
  (0x1D581, [0x56]); (0x1D582, [0x57]); (0x1D583, [0x58]); (0x1D584, [0x59]);
  (0x1D585, [0x5A]); (0x1D586, [0x61]); (0x1D587, [0x62]); (0x1D588, [0x63]);
  (0x1D589, [0x64]); (0x1D58A, [0x65]); (0x1D58B, [0x66]); (0x1D58C, [0x67]);
  (0x1D58D, [0x68]); (0x1D58E, [0x69]); (0x1D58F, [0x6A]); (0x1D590, [0x6B]);
  (0x1D591, [0x6C]); (0x1D592, [0x6D]); (0x1D593, [0x6E]); (0x1D594, [0x6F]);
  (0x1D595, [0x70]); (0x1D596, [0x71]); (0x1D597, [0x72]); (0x1D598, [0x73]);
  (0x1D599, [0x74]); (0x1D59A, [0x75]); (0x1D59B, [0x76]); (0x1D59C, [0x77]);
  (0x1D59D, [0x78]); (0x1D59E, [0x79]); (0x1D59F, [0x7A]); (0x1D5A0, [0x41]);
  (0x1D5A1, [0x42]); (0x1D5A2, [0x43]); (0x1D5A3, [0x44]); (0x1D5A4, [0x45]);
  (0x1D5A5, [0x46]); (0x1D5A6, [0x47]); (0x1D5A7, [0x48]); (0x1D5A8, [0x49]);
  (0x1D5A9, [0x4A]); (0x1D5AA, [0x4B]); (0x1D5AB, [0x4C]); (0x1D5AC, [0x4D]);
  (0x1D5AD, [0x4E]); (0x1D5AE, [0x4F]); (0x1D5AF, [0x50]); (0x1D5B0, [0x51]);
  (0x1D5B1, [0x52]); (0x1D5B2, [0x53]); (0x1D5B3, [0x54]); (0x1D5B4, [0x55]);
  (0x1D5B5, [0x56]); (0x1D5B6, [0x57]); (0x1D5B7, [0x58]); (0x1D5B8, [0x59]);
  (0x1D5B9, [0x5A]); (0x1D5BA, [0x61]); (0x1D5BB, [0x62]); (0x1D5BC, [0x63]);
  (0x1D5BD, [0x64]); (0x1D5BE, [0x65]); (0x1D5BF, [0x66]); (0x1D5C0, [0x67]);
  (0x1D5C1, [0x68]); (0x1D5C2, [0x69]); (0x1D5C3, [0x6A]); (0x1D5C4, [0x6B]);
  (0x1D5C5, [0x6C]); (0x1D5C6, [0x6D]); (0x1D5C7, [0x6E]); (0x1D5C8, [0x6F]);
  (0x1D5C9, [0x70]); (0x1D5CA, [0x71]); (0x1D5CB, [0x72]); (0x1D5CC, [0x73]);
  (0x1D5CD, [0x74]); (0x1D5CE, [0x75]); (0x1D5CF, [0x76]); (0x1D5D0, [0x77]);
  (0x1D5D1, [0x78]); (0x1D5D2, [0x79]); (0x1D5D3, [0x7A]); (0x1D5D4, [0x41]);
  (0x1D5D5, [0x42]); (0x1D5D6, [0x43]); (0x1D5D7, [0x44]); (0x1D5D8, [0x45]);
  (0x1D5D9, [0x46]); (0x1D5DA, [0x47]); (0x1D5DB, [0x48]); (0x1D5DC, [0x49]);
  (0x1D5DD, [0x4A]); (0x1D5DE, [0x4B]); (0x1D5DF, [0x4C]); (0x1D5E0, [0x4D]);
  (0x1D5E1, [0x4E]); (0x1D5E2, [0x4F]); (0x1D5E3, [0x50]); (0x1D5E4, [0x51]);
  (0x1D5E5, [0x52]); (0x1D5E6, [0x53]); (0x1D5E7, [0x54]); (0x1D5E8, [0x55]);
  (0x1D5E9, [0x56]); (0x1D5EA, [0x57]); (0x1D5EB, [0x58]); (0x1D5EC, [0x59]);
  (0x1D5ED, [0x5A]); (0x1D5EE, [0x61]); (0x1D5EF, [0x62]); (0x1D5F0, [0x63]);
  (0x1D5F1, [0x64]); (0x1D5F2, [0x65]); (0x1D5F3, [0x66]); (0x1D5F4, [0x67]);
  (0x1D5F5, [0x68]); (0x1D5F6, [0x69]); (0x1D5F7, [0x6A]); (0x1D5F8, [0x6B]);
  (0x1D5F9, [0x6C]); (0x1D5FA, [0x6D]); (0x1D5FB, [0x6E]); (0x1D5FC, [0x6F]);
  (0x1D5FD, [0x70]); (0x1D5FE, [0x71]); (0x1D5FF, [0x72]); (0x1D600, [0x73]);
  (0x1D601, [0x74]); (0x1D602, [0x75]); (0x1D603, [0x76]); (0x1D604, [0x77]);
  (0x1D605, [0x78]); (0x1D606, [0x79]); (0x1D607, [0x7A]); (0x1D608, [0x41]);
  (0x1D609, [0x42]); (0x1D60A, [0x43]); (0x1D60B, [0x44]); (0x1D60C, [0x45]);
  (0x1D60D, [0x46]); (0x1D60E, [0x47]); (0x1D60F, [0x48]); (0x1D610, [0x49]);
  (0x1D611, [0x4A]); (0x1D612, [0x4B]); (0x1D613, [0x4C]); (0x1D614, [0x4D]);
  (0x1D615, [0x4E]); (0x1D616, [0x4F]); (0x1D617, [0x50]); (0x1D618, [0x51]);
  (0x1D619, [0x52]); (0x1D61A, [0x53]); (0x1D61B, [0x54]); (0x1D61C, [0x55]);
  (0x1D61D, [0x56]); (0x1D61E, [0x57]); (0x1D61F, [0x58]); (0x1D620, [0x59]);
  (0x1D621, [0x5A]); (0x1D622, [0x61]); (0x1D623, [0x62]); (0x1D624, [0x63]);
  (0x1D625, [0x64]); (0x1D626, [0x65]); (0x1D627, [0x66]); (0x1D628, [0x67]);
  (0x1D629, [0x68]); (0x1D62A, [0x69]); (0x1D62B, [0x6A]); (0x1D62C, [0x6B]);
  (0x1D62D, [0x6C]); (0x1D62E, [0x6D]); (0x1D62F, [0x6E]); (0x1D630, [0x6F]);
  (0x1D631, [0x70]); (0x1D632, [0x71]); (0x1D633, [0x72]); (0x1D634, [0x73]);
  (0x1D635, [0x74]); (0x1D636, [0x75]); (0x1D637, [0x76]); (0x1D638, [0x77]);
  (0x1D639, [0x78]); (0x1D63A, [0x79]); (0x1D63B, [0x7A]); (0x1D63C, [0x41]);
  (0x1D63D, [0x42]); (0x1D63E, [0x43]); (0x1D63F, [0x44]); (0x1D640, [0x45]);
  (0x1D641, [0x46]); (0x1D642, [0x47]); (0x1D643, [0x48]); (0x1D644, [0x49]);
  (0x1D645, [0x4A]); (0x1D646, [0x4B]); (0x1D647, [0x4C]); (0x1D648, [0x4D]);
  (0x1D649, [0x4E]); (0x1D64A, [0x4F]); (0x1D64B, [0x50]); (0x1D64C, [0x51]);
  (0x1D64D, [0x52]); (0x1D64E, [0x53]); (0x1D64F, [0x54]); (0x1D650, [0x55]);
  (0x1D651, [0x56]); (0x1D652, [0x57]); (0x1D653, [0x58]); (0x1D654, [0x59]);
  (0x1D655, [0x5A]); (0x1D656, [0x61]); (0x1D657, [0x62]); (0x1D658, [0x63]);
  (0x1D659, [0x64]); (0x1D65A, [0x65]); (0x1D65B, [0x66]); (0x1D65C, [0x67]);
  (0x1D65D, [0x68]); (0x1D65E, [0x69]); (0x1D65F, [0x6A]); (0x1D660, [0x6B]);
  (0x1D661, [0x6C]); (0x1D662, [0x6D]); (0x1D663, [0x6E]); (0x1D664, [0x6F]);
  (0x1D665, [0x70]); (0x1D666, [0x71]); (0x1D667, [0x72]); (0x1D668, [0x73]);
  (0x1D669, [0x74]); (0x1D66A, [0x75]); (0x1D66B, [0x76]); (0x1D66C, [0x77]);
  (0x1D66D, [0x78]); (0x1D66E, [0x79]); (0x1D66F, [0x7A]); (0x1D670, [0x41]);
  (0x1D671, [0x42]); (0x1D672, [0x43]); (0x1D673, [0x44]); (0x1D674, [0x45]);
  (0x1D675, [0x46]); (0x1D676, [0x47]); (0x1D677, [0x48]); (0x1D678, [0x49]);
  (0x1D679, [0x4A]); (0x1D67A, [0x4B]); (0x1D67B, [0x4C]); (0x1D67C, [0x4D]);
  (0x1D67D, [0x4E]); (0x1D67E, [0x4F]); (0x1D67F, [0x50]); (0x1D680, [0x51]);
  (0x1D681, [0x52]); (0x1D682, [0x53]); (0x1D683, [0x54]); (0x1D684, [0x55]);
  (0x1D685, [0x56]); (0x1D686, [0x57]); (0x1D687, [0x58]); (0x1D688, [0x59]);
  (0x1D689, [0x5A]); (0x1D68A, [0x61]); (0x1D68B, [0x62]); (0x1D68C, [0x63]);
  (0x1D68D, [0x64]); (0x1D68E, [0x65]); (0x1D68F, [0x66]); (0x1D690, [0x67]);
  (0x1D691, [0x68]); (0x1D692, [0x69]); (0x1D693, [0x6A]); (0x1D694, [0x6B]);
  (0x1D695, [0x6C]); (0x1D696, [0x6D]); (0x1D697, [0x6E]); (0x1D698, [0x6F]);
  (0x1D699, [0x70]); (0x1D69A, [0x71]); (0x1D69B, [0x72]); (0x1D69C, [0x73]);
  (0x1D69D, [0x74]); (0x1D69E, [0x75]); (0x1D69F, [0x76]); (0x1D6A0, [0x77]);
  (0x1D6A1, [0x78]); (0x1D6A2, [0x79]); (0x1D6A3, [0x7A]); (0x1D6A4, [0x131]);
  (0x1D6A5, [0x237]); (0x1D6A8, [0x391]); (0x1D6A9, [0x392]); (0x1D6AA, [0x393]);
  (0x1D6AB, [0x394]); (0x1D6AC, [0x395]); (0x1D6AD, [0x396]); (0x1D6AE, [0x397]);
  (0x1D6AF, [0x398]); (0x1D6B0, [0x399]); (0x1D6B1, [0x39A]); (0x1D6B2, [0x39B]);
  (0x1D6B3, [0x39C]); (0x1D6B4, [0x39D]); (0x1D6B5, [0x39E]); (0x1D6B6, [0x39F]);
  (0x1D6B7, [0x3A0]); (0x1D6B8, [0x3A1]); (0x1D6B9, [0x398]); (0x1D6BA, [0x3A3]);
  (0x1D6BB, [0x3A4]); (0x1D6BC, [0x3A5]); (0x1D6BD, [0x3A6]); (0x1D6BE, [0x3A7]);
  (0x1D6BF, [0x3A8]); (0x1D6C0, [0x3A9]); (0x1D6C1, [0x2207]); (0x1D6C2, [0x3B1]);
  (0x1D6C3, [0x3B2]); (0x1D6C4, [0x3B3]); (0x1D6C5, [0x3B4]); (0x1D6C6, [0x3B5]);
  (0x1D6C7, [0x3B6]); (0x1D6C8, [0x3B7]); (0x1D6C9, [0x3B8]); (0x1D6CA, [0x3B9]);
  (0x1D6CB, [0x3BA]); (0x1D6CC, [0x3BB]); (0x1D6CD, [0x3BC]); (0x1D6CE, [0x3BD]);
  (0x1D6CF, [0x3BE]); (0x1D6D0, [0x3BF]); (0x1D6D1, [0x3C0]); (0x1D6D2, [0x3C1]);
  (0x1D6D3, [0x3C2]); (0x1D6D4, [0x3C3]); (0x1D6D5, [0x3C4]); (0x1D6D6, [0x3C5]);
  (0x1D6D7, [0x3C6]); (0x1D6D8, [0x3C7]); (0x1D6D9, [0x3C8]); (0x1D6DA, [0x3C9]);
  (0x1D6DB, [0x2202]); (0x1D6DC, [0x3B5]); (0x1D6DD, [0x3B8]); (0x1D6DE, [0x3BA]);
  (0x1D6DF, [0x3C6]); (0x1D6E0, [0x3C1]); (0x1D6E1, [0x3C0]); (0x1D6E2, [0x391]);
  (0x1D6E3, [0x392]); (0x1D6E4, [0x393]); (0x1D6E5, [0x394]); (0x1D6E6, [0x395]);
  (0x1D6E7, [0x396]); (0x1D6E8, [0x397]); (0x1D6E9, [0x398]); (0x1D6EA, [0x399]);
  (0x1D6EB, [0x39A]); (0x1D6EC, [0x39B]); (0x1D6ED, [0x39C]); (0x1D6EE, [0x39D]);
  (0x1D6EF, [0x39E]); (0x1D6F0, [0x39F]); (0x1D6F1, [0x3A0]); (0x1D6F2, [0x3A1]);
  (0x1D6F3, [0x398]); (0x1D6F4, [0x3A3]); (0x1D6F5, [0x3A4]); (0x1D6F6, [0x3A5])
 ]%N.

Definition compat_table_8 : list (N * list N) :=
 [
  (0x1D6F7, [0x3A6]); (0x1D6F8, [0x3A7]); (0x1D6F9, [0x3A8]); (0x1D6FA, [0x3A9]);
  (0x1D6FB, [0x2207]); (0x1D6FC, [0x3B1]); (0x1D6FD, [0x3B2]); (0x1D6FE, [0x3B3]);
  (0x1D6FF, [0x3B4]); (0x1D700, [0x3B5]); (0x1D701, [0x3B6]); (0x1D702, [0x3B7]);
  (0x1D703, [0x3B8]); (0x1D704, [0x3B9]); (0x1D705, [0x3BA]); (0x1D706, [0x3BB]);
  (0x1D707, [0x3BC]); (0x1D708, [0x3BD]); (0x1D709, [0x3BE]); (0x1D70A, [0x3BF]);
  (0x1D70B, [0x3C0]); (0x1D70C, [0x3C1]); (0x1D70D, [0x3C2]); (0x1D70E, [0x3C3]);
  (0x1D70F, [0x3C4]); (0x1D710, [0x3C5]); (0x1D711, [0x3C6]); (0x1D712, [0x3C7]);
  (0x1D713, [0x3C8]); (0x1D714, [0x3C9]); (0x1D715, [0x2202]); (0x1D716, [0x3B5]);
  (0x1D717, [0x3B8]); (0x1D718, [0x3BA]); (0x1D719, [0x3C6]); (0x1D71A, [0x3C1]);
  (0x1D71B, [0x3C0]); (0x1D71C, [0x391]); (0x1D71D, [0x392]); (0x1D71E, [0x393]);
  (0x1D71F, [0x394]); (0x1D720, [0x395]); (0x1D721, [0x396]); (0x1D722, [0x397]);
  (0x1D723, [0x398]); (0x1D724, [0x399]); (0x1D725, [0x39A]); (0x1D726, [0x39B]);
  (0x1D727, [0x39C]); (0x1D728, [0x39D]); (0x1D729, [0x39E]); (0x1D72A, [0x39F]);
  (0x1D72B, [0x3A0]); (0x1D72C, [0x3A1]); (0x1D72D, [0x398]); (0x1D72E, [0x3A3]);
  (0x1D72F, [0x3A4]); (0x1D730, [0x3A5]); (0x1D731, [0x3A6]); (0x1D732, [0x3A7]);
  (0x1D733, [0x3A8]); (0x1D734, [0x3A9]); (0x1D735, [0x2207]); (0x1D736, [0x3B1]);
  (0x1D737, [0x3B2]); (0x1D738, [0x3B3]); (0x1D739, [0x3B4]); (0x1D73A, [0x3B5]);
  (0x1D73B, [0x3B6]); (0x1D73C, [0x3B7]); (0x1D73D, [0x3B8]); (0x1D73E, [0x3B9]);
  (0x1D73F, [0x3BA]); (0x1D740, [0x3BB]); (0x1D741, [0x3BC]); (0x1D742, [0x3BD]);
  (0x1D743, [0x3BE]); (0x1D744, [0x3BF]); (0x1D745, [0x3C0]); (0x1D746, [0x3C1]);
  (0x1D747, [0x3C2]); (0x1D748, [0x3C3]); (0x1D749, [0x3C4]); (0x1D74A, [0x3C5]);
  (0x1D74B, [0x3C6]); (0x1D74C, [0x3C7]); (0x1D74D, [0x3C8]); (0x1D74E, [0x3C9]);
  (0x1D74F, [0x2202]); (0x1D750, [0x3B5]); (0x1D751, [0x3B8]); (0x1D752, [0x3BA]);
  (0x1D753, [0x3C6]); (0x1D754, [0x3C1]); (0x1D755, [0x3C0]); (0x1D756, [0x391]);
  (0x1D757, [0x392]); (0x1D758, [0x393]); (0x1D759, [0x394]); (0x1D75A, [0x395]);
  (0x1D75B, [0x396]); (0x1D75C, [0x397]); (0x1D75D, [0x398]); (0x1D75E, [0x399]);
  (0x1D75F, [0x39A]); (0x1D760, [0x39B]); (0x1D761, [0x39C]); (0x1D762, [0x39D]);
  (0x1D763, [0x39E]); (0x1D764, [0x39F]); (0x1D765, [0x3A0]); (0x1D766, [0x3A1]);
  (0x1D767, [0x398]); (0x1D768, [0x3A3]); (0x1D769, [0x3A4]); (0x1D76A, [0x3A5]);
  (0x1D76B, [0x3A6]); (0x1D76C, [0x3A7]); (0x1D76D, [0x3A8]); (0x1D76E, [0x3A9]);
  (0x1D76F, [0x2207]); (0x1D770, [0x3B1]); (0x1D771, [0x3B2]); (0x1D772, [0x3B3]);
  (0x1D773, [0x3B4]); (0x1D774, [0x3B5]); (0x1D775, [0x3B6]); (0x1D776, [0x3B7]);
  (0x1D777, [0x3B8]); (0x1D778, [0x3B9]); (0x1D779, [0x3BA]); (0x1D77A, [0x3BB]);
  (0x1D77B, [0x3BC]); (0x1D77C, [0x3BD]); (0x1D77D, [0x3BE]); (0x1D77E, [0x3BF]);
  (0x1D77F, [0x3C0]); (0x1D780, [0x3C1]); (0x1D781, [0x3C2]); (0x1D782, [0x3C3]);
  (0x1D783, [0x3C4]); (0x1D784, [0x3C5]); (0x1D785, [0x3C6]); (0x1D786, [0x3C7]);
  (0x1D787, [0x3C8]); (0x1D788, [0x3C9]); (0x1D789, [0x2202]); (0x1D78A, [0x3B5]);
  (0x1D78B, [0x3B8]); (0x1D78C, [0x3BA]); (0x1D78D, [0x3C6]); (0x1D78E, [0x3C1]);
  (0x1D78F, [0x3C0]); (0x1D790, [0x391]); (0x1D791, [0x392]); (0x1D792, [0x393]);
  (0x1D793, [0x394]); (0x1D794, [0x395]); (0x1D795, [0x396]); (0x1D796, [0x397]);
  (0x1D797, [0x398]); (0x1D798, [0x399]); (0x1D799, [0x39A]); (0x1D79A, [0x39B]);
  (0x1D79B, [0x39C]); (0x1D79C, [0x39D]); (0x1D79D, [0x39E]); (0x1D79E, [0x39F]);
  (0x1D79F, [0x3A0]); (0x1D7A0, [0x3A1]); (0x1D7A1, [0x398]); (0x1D7A2, [0x3A3]);
  (0x1D7A3, [0x3A4]); (0x1D7A4, [0x3A5]); (0x1D7A5, [0x3A6]); (0x1D7A6, [0x3A7]);
  (0x1D7A7, [0x3A8]); (0x1D7A8, [0x3A9]); (0x1D7A9, [0x2207]); (0x1D7AA, [0x3B1]);
  (0x1D7AB, [0x3B2]); (0x1D7AC, [0x3B3]); (0x1D7AD, [0x3B4]); (0x1D7AE, [0x3B5]);
  (0x1D7AF, [0x3B6]); (0x1D7B0, [0x3B7]); (0x1D7B1, [0x3B8]); (0x1D7B2, [0x3B9]);
  (0x1D7B3, [0x3BA]); (0x1D7B4, [0x3BB]); (0x1D7B5, [0x3BC]); (0x1D7B6, [0x3BD]);
  (0x1D7B7, [0x3BE]); (0x1D7B8, [0x3BF]); (0x1D7B9, [0x3C0]); (0x1D7BA, [0x3C1]);
  (0x1D7BB, [0x3C2]); (0x1D7BC, [0x3C3]); (0x1D7BD, [0x3C4]); (0x1D7BE, [0x3C5]);
  (0x1D7BF, [0x3C6]); (0x1D7C0, [0x3C7]); (0x1D7C1, [0x3C8]); (0x1D7C2, [0x3C9]);
  (0x1D7C3, [0x2202]); (0x1D7C4, [0x3B5]); (0x1D7C5, [0x3B8]); (0x1D7C6, [0x3BA]);
  (0x1D7C7, [0x3C6]); (0x1D7C8, [0x3C1]); (0x1D7C9, [0x3C0]); (0x1D7CA, [0x3DC]);
  (0x1D7CB, [0x3DD]); (0x1D7CE, [0x30]); (0x1D7CF, [0x31]); (0x1D7D0, [0x32]);
  (0x1D7D1, [0x33]); (0x1D7D2, [0x34]); (0x1D7D3, [0x35]); (0x1D7D4, [0x36]);
  (0x1D7D5, [0x37]); (0x1D7D6, [0x38]); (0x1D7D7, [0x39]); (0x1D7D8, [0x30]);
  (0x1D7D9, [0x31]); (0x1D7DA, [0x32]); (0x1D7DB, [0x33]); (0x1D7DC, [0x34]);
  (0x1D7DD, [0x35]); (0x1D7DE, [0x36]); (0x1D7DF, [0x37]); (0x1D7E0, [0x38]);
  (0x1D7E1, [0x39]); (0x1D7E2, [0x30]); (0x1D7E3, [0x31]); (0x1D7E4, [0x32]);
  (0x1D7E5, [0x33]); (0x1D7E6, [0x34]); (0x1D7E7, [0x35]); (0x1D7E8, [0x36]);
  (0x1D7E9, [0x37]); (0x1D7EA, [0x38]); (0x1D7EB, [0x39]); (0x1D7EC, [0x30]);
  (0x1D7ED, [0x31]); (0x1D7EE, [0x32]); (0x1D7EF, [0x33]); (0x1D7F0, [0x34]);
  (0x1D7F1, [0x35]); (0x1D7F2, [0x36]); (0x1D7F3, [0x37]); (0x1D7F4, [0x38]);
  (0x1D7F5, [0x39]); (0x1D7F6, [0x30]); (0x1D7F7, [0x31]); (0x1D7F8, [0x32]);
  (0x1D7F9, [0x33]); (0x1D7FA, [0x34]); (0x1D7FB, [0x35]); (0x1D7FC, [0x36]);
  (0x1D7FD, [0x37]); (0x1D7FE, [0x38]); (0x1D7FF, [0x39]); (0x1EE00, [0x627]);
  (0x1EE01, [0x628]); (0x1EE02, [0x62C]); (0x1EE03, [0x62F]); (0x1EE05, [0x648]);
  (0x1EE06, [0x632]); (0x1EE07, [0x62D]); (0x1EE08, [0x637]); (0x1EE09, [0x64A]);
  (0x1EE0A, [0x643]); (0x1EE0B, [0x644]); (0x1EE0C, [0x645]); (0x1EE0D, [0x646]);
  (0x1EE0E, [0x633]); (0x1EE0F, [0x639]); (0x1EE10, [0x641]); (0x1EE11, [0x635]);
  (0x1EE12, [0x642]); (0x1EE13, [0x631]); (0x1EE14, [0x634]); (0x1EE15, [0x62A]);
  (0x1EE16, [0x62B]); (0x1EE17, [0x62E]); (0x1EE18, [0x630]); (0x1EE19, [0x636]);
  (0x1EE1A, [0x638]); (0x1EE1B, [0x63A]); (0x1EE1C, [0x66E]); (0x1EE1D, [0x6BA]);
  (0x1EE1E, [0x6A1]); (0x1EE1F, [0x66F]); (0x1EE21, [0x628]); (0x1EE22, [0x62C]);
  (0x1EE24, [0x647]); (0x1EE27, [0x62D]); (0x1EE29, [0x64A]); (0x1EE2A, [0x643]);
  (0x1EE2B, [0x644]); (0x1EE2C, [0x645]); (0x1EE2D, [0x646]); (0x1EE2E, [0x633]);
  (0x1EE2F, [0x639]); (0x1EE30, [0x641]); (0x1EE31, [0x635]); (0x1EE32, [0x642]);
  (0x1EE34, [0x634]); (0x1EE35, [0x62A]); (0x1EE36, [0x62B]); (0x1EE37, [0x62E]);
  (0x1EE39, [0x636]); (0x1EE3B, [0x63A]); (0x1EE42, [0x62C]); (0x1EE47, [0x62D]);
  (0x1EE49, [0x64A]); (0x1EE4B, [0x644]); (0x1EE4D, [0x646]); (0x1EE4E, [0x633]);
  (0x1EE4F, [0x639]); (0x1EE51, [0x635]); (0x1EE52, [0x642]); (0x1EE54, [0x634]);
  (0x1EE57, [0x62E]); (0x1EE59, [0x636]); (0x1EE5B, [0x63A]); (0x1EE5D, [0x6BA]);
  (0x1EE5F, [0x66F]); (0x1EE61, [0x628]); (0x1EE62, [0x62C]); (0x1EE64, [0x647]);
  (0x1EE67, [0x62D]); (0x1EE68, [0x637]); (0x1EE69, [0x64A]); (0x1EE6A, [0x643]);
  (0x1EE6C, [0x645]); (0x1EE6D, [0x646]); (0x1EE6E, [0x633]); (0x1EE6F, [0x639]);
  (0x1EE70, [0x641]); (0x1EE71, [0x635]); (0x1EE72, [0x642]); (0x1EE74, [0x634]);
  (0x1EE75, [0x62A]); (0x1EE76, [0x62B]); (0x1EE77, [0x62E]); (0x1EE79, [0x636]);
  (0x1EE7A, [0x638]); (0x1EE7B, [0x63A]); (0x1EE7C, [0x66E]); (0x1EE7E, [0x6A1]);
  (0x1EE80, [0x627]); (0x1EE81, [0x628]); (0x1EE82, [0x62C]); (0x1EE83, [0x62F]);
  (0x1EE84, [0x647]); (0x1EE85, [0x648]); (0x1EE86, [0x632]); (0x1EE87, [0x62D]);
  (0x1EE88, [0x637]); (0x1EE89, [0x64A]); (0x1EE8B, [0x644]); (0x1EE8C, [0x645]);
  (0x1EE8D, [0x646]); (0x1EE8E, [0x633]); (0x1EE8F, [0x639]); (0x1EE90, [0x641]);
  (0x1EE91, [0x635]); (0x1EE92, [0x642]); (0x1EE93, [0x631]); (0x1EE94, [0x634]);
  (0x1EE95, [0x62A]); (0x1EE96, [0x62B]); (0x1EE97, [0x62E]); (0x1EE98, [0x630]);
  (0x1EE99, [0x636]); (0x1EE9A, [0x638]); (0x1EE9B, [0x63A]); (0x1EEA1, [0x628]);
  (0x1EEA2, [0x62C]); (0x1EEA3, [0x62F]); (0x1EEA5, [0x648]); (0x1EEA6, [0x632]);
  (0x1EEA7, [0x62D]); (0x1EEA8, [0x637]); (0x1EEA9, [0x64A]); (0x1EEAB, [0x644]);
  (0x1EEAC, [0x645]); (0x1EEAD, [0x646]); (0x1EEAE, [0x633]); (0x1EEAF, [0x639]);
  (0x1EEB0, [0x641]); (0x1EEB1, [0x635]); (0x1EEB2, [0x642]); (0x1EEB3, [0x631]);
  (0x1EEB4, [0x634]); (0x1EEB5, [0x62A]); (0x1EEB6, [0x62B]); (0x1EEB7, [0x62E])
 ]%N.

Definition compat_table_9 : list (N * list N) :=
 [
  (0x1EEB8, [0x630]); (0x1EEB9, [0x636]); (0x1EEBA, [0x638]); (0x1EEBB, [0x63A]);
  (0x1F100, [0x30; 0x2E]); (0x1F101, [0x30; 0x2C]); (0x1F102, [0x31; 0x2C]); (0x1F103, [0x32; 0x2C]);
  (0x1F104, [0x33; 0x2C]); (0x1F105, [0x34; 0x2C]); (0x1F106, [0x35; 0x2C]); (0x1F107, [0x36; 0x2C]);
  (0x1F108, [0x37; 0x2C]); (0x1F109, [0x38; 0x2C]); (0x1F10A, [0x39; 0x2C]); (0x1F110, [0x28; 0x41; 0x29]);
  (0x1F111, [0x28; 0x42; 0x29]); (0x1F112, [0x28; 0x43; 0x29]); (0x1F113, [0x28; 0x44; 0x29]); (0x1F114, [0x28; 0x45; 0x29]);
  (0x1F115, [0x28; 0x46; 0x29]); (0x1F116, [0x28; 0x47; 0x29]); (0x1F117, [0x28; 0x48; 0x29]); (0x1F118, [0x28; 0x49; 0x29]);
  (0x1F119, [0x28; 0x4A; 0x29]); (0x1F11A, [0x28; 0x4B; 0x29]); (0x1F11B, [0x28; 0x4C; 0x29]); (0x1F11C, [0x28; 0x4D; 0x29]);
  (0x1F11D, [0x28; 0x4E; 0x29]); (0x1F11E, [0x28; 0x4F; 0x29]); (0x1F11F, [0x28; 0x50; 0x29]); (0x1F120, [0x28; 0x51; 0x29]);
  (0x1F121, [0x28; 0x52; 0x29]); (0x1F122, [0x28; 0x53; 0x29]); (0x1F123, [0x28; 0x54; 0x29]); (0x1F124, [0x28; 0x55; 0x29]);
  (0x1F125, [0x28; 0x56; 0x29]); (0x1F126, [0x28; 0x57; 0x29]); (0x1F127, [0x28; 0x58; 0x29]); (0x1F128, [0x28; 0x59; 0x29]);
  (0x1F129, [0x28; 0x5A; 0x29]); (0x1F12A, [0x3014; 0x53; 0x3015]); (0x1F12B, [0x43]); (0x1F12C, [0x52]);
  (0x1F12D, [0x43; 0x44]); (0x1F12E, [0x57; 0x5A]); (0x1F130, [0x41]); (0x1F131, [0x42]);
  (0x1F132, [0x43]); (0x1F133, [0x44]); (0x1F134, [0x45]); (0x1F135, [0x46]);
  (0x1F136, [0x47]); (0x1F137, [0x48]); (0x1F138, [0x49]); (0x1F139, [0x4A]);
  (0x1F13A, [0x4B]); (0x1F13B, [0x4C]); (0x1F13C, [0x4D]); (0x1F13D, [0x4E]);
  (0x1F13E, [0x4F]); (0x1F13F, [0x50]); (0x1F140, [0x51]); (0x1F141, [0x52]);
  (0x1F142, [0x53]); (0x1F143, [0x54]); (0x1F144, [0x55]); (0x1F145, [0x56]);
  (0x1F146, [0x57]); (0x1F147, [0x58]); (0x1F148, [0x59]); (0x1F149, [0x5A]);
  (0x1F14A, [0x48; 0x56]); (0x1F14B, [0x4D; 0x56]); (0x1F14C, [0x53; 0x44]); (0x1F14D, [0x53; 0x53]);
  (0x1F14E, [0x50; 0x50; 0x56]); (0x1F14F, [0x57; 0x43]); (0x1F16A, [0x4D; 0x43]); (0x1F16B, [0x4D; 0x44]);
  (0x1F16C, [0x4D; 0x52]); (0x1F190, [0x44; 0x4A]); (0x1F200, [0x307B; 0x304B]); (0x1F201, [0x30B3; 0x30B3]);
  (0x1F202, [0x30B5]); (0x1F210, [0x624B]); (0x1F211, [0x5B57]); (0x1F212, [0x53CC]);
  (0x1F213, [0x30C6; 0x3099]); (0x1F214, [0x4E8C]); (0x1F215, [0x591A]); (0x1F216, [0x89E3]);
  (0x1F217, [0x5929]); (0x1F218, [0x4EA4]); (0x1F219, [0x6620]); (0x1F21A, [0x7121]);
  (0x1F21B, [0x6599]); (0x1F21C, [0x524D]); (0x1F21D, [0x5F8C]); (0x1F21E, [0x518D]);
  (0x1F21F, [0x65B0]); (0x1F220, [0x521D]); (0x1F221, [0x7D42]); (0x1F222, [0x751F]);
  (0x1F223, [0x8CA9]); (0x1F224, [0x58F0]); (0x1F225, [0x5439]); (0x1F226, [0x6F14]);
  (0x1F227, [0x6295]); (0x1F228, [0x6355]); (0x1F229, [0x4E00]); (0x1F22A, [0x4E09]);
  (0x1F22B, [0x904A]); (0x1F22C, [0x5DE6]); (0x1F22D, [0x4E2D]); (0x1F22E, [0x53F3]);
  (0x1F22F, [0x6307]); (0x1F230, [0x8D70]); (0x1F231, [0x6253]); (0x1F232, [0x7981]);
  (0x1F233, [0x7A7A]); (0x1F234, [0x5408]); (0x1F235, [0x6E80]); (0x1F236, [0x6709]);
  (0x1F237, [0x6708]); (0x1F238, [0x7533]); (0x1F239, [0x5272]); (0x1F23A, [0x55B6]);
  (0x1F23B, [0x914D]); (0x1F240, [0x3014; 0x672C; 0x3015]); (0x1F241, [0x3014; 0x4E09; 0x3015]); (0x1F242, [0x3014; 0x4E8C; 0x3015]);
  (0x1F243, [0x3014; 0x5B89; 0x3015]); (0x1F244, [0x3014; 0x70B9; 0x3015]); (0x1F245, [0x3014; 0x6253; 0x3015]); (0x1F246, [0x3014; 0x76D7; 0x3015]);
  (0x1F247, [0x3014; 0x52DD; 0x3015]); (0x1F248, [0x3014; 0x6557; 0x3015]); (0x1F250, [0x5F97]); (0x1F251, [0x53EF]);
  (0x1FBF0, [0x30]); (0x1FBF1, [0x31]); (0x1FBF2, [0x32]); (0x1FBF3, [0x33]);
  (0x1FBF4, [0x34]); (0x1FBF5, [0x35]); (0x1FBF6, [0x36]); (0x1FBF7, [0x37]);
  (0x1FBF8, [0x38]); (0x1FBF9, [0x39])
 ]%N.

Definition compat_table : list (N * list N) :=
  compat_table_0 ++ compat_table_1 ++ compat_table_2 ++ compat_table_3 ++ compat_table_4 ++ compat_table_5 ++ compat_table_6 ++ compat_table_7 ++ compat_table_8 ++ compat_table_9.

(** [ccc_table]: ranges [(first, last, class)] of the code points whose
    canonical combining class ([unicodedata.combining]) is not zero. *)

Definition ccc_table_0 : list (N * N * N) :=
 [
  (0x300, 0x314, 230); (0x315, 0x315, 232); (0x316, 0x319, 220); (0x31A, 0x31A, 232); (0x31B, 0x31B, 216);
  (0x31C, 0x320, 220); (0x321, 0x322, 202); (0x323, 0x326, 220); (0x327, 0x328, 202); (0x329, 0x333, 220);
  (0x334, 0x338, 1); (0x339, 0x33C, 220); (0x33D, 0x344, 230); (0x345, 0x345, 240); (0x346, 0x346, 230);
  (0x347, 0x349, 220); (0x34A, 0x34C, 230); (0x34D, 0x34E, 220); (0x350, 0x352, 230); (0x353, 0x356, 220);
  (0x357, 0x357, 230); (0x358, 0x358, 232); (0x359, 0x35A, 220); (0x35B, 0x35B, 230); (0x35C, 0x35C, 233);
  (0x35D, 0x35E, 234); (0x35F, 0x35F, 233); (0x360, 0x361, 234); (0x362, 0x362, 233); (0x363, 0x36F, 230);
  (0x483, 0x487, 230); (0x591, 0x591, 220); (0x592, 0x595, 230); (0x596, 0x596, 220); (0x597, 0x599, 230);
  (0x59A, 0x59A, 222); (0x59B, 0x59B, 220); (0x59C, 0x5A1, 230); (0x5A2, 0x5A7, 220); (0x5A8, 0x5A9, 230);
  (0x5AA, 0x5AA, 220); (0x5AB, 0x5AC, 230); (0x5AD, 0x5AD, 222); (0x5AE, 0x5AE, 228); (0x5AF, 0x5AF, 230);
  (0x5B0, 0x5B0, 10); (0x5B1, 0x5B1, 11); (0x5B2, 0x5B2, 12); (0x5B3, 0x5B3, 13); (0x5B4, 0x5B4, 14);
  (0x5B5, 0x5B5, 15); (0x5B6, 0x5B6, 16); (0x5B7, 0x5B7, 17); (0x5B8, 0x5B8, 18); (0x5B9, 0x5BA, 19);
  (0x5BB, 0x5BB, 20); (0x5BC, 0x5BC, 21); (0x5BD, 0x5BD, 22); (0x5BF, 0x5BF, 23); (0x5C1, 0x5C1, 24);
  (0x5C2, 0x5C2, 25); (0x5C4, 0x5C4, 230); (0x5C5, 0x5C5, 220); (0x5C7, 0x5C7, 18); (0x610, 0x617, 230);
  (0x618, 0x618, 30); (0x619, 0x619, 31); (0x61A, 0x61A, 32); (0x64B, 0x64B, 27); (0x64C, 0x64C, 28);
  (0x64D, 0x64D, 29); (0x64E, 0x64E, 30); (0x64F, 0x64F, 31); (0x650, 0x650, 32); (0x651, 0x651, 33);
  (0x652, 0x652, 34); (0x653, 0x654, 230); (0x655, 0x656, 220); (0x657, 0x65B, 230); (0x65C, 0x65C, 220);
  (0x65D, 0x65E, 230); (0x65F, 0x65F, 220); (0x670, 0x670, 35); (0x6D6, 0x6DC, 230); (0x6DF, 0x6E2, 230);
  (0x6E3, 0x6E3, 220); (0x6E4, 0x6E4, 230); (0x6E7, 0x6E8, 230); (0x6EA, 0x6EA, 220); (0x6EB, 0x6EC, 230);
  (0x6ED, 0x6ED, 220); (0x711, 0x711, 36); (0x730, 0x730, 230); (0x731, 0x731, 220); (0x732, 0x733, 230);
  (0x734, 0x734, 220); (0x735, 0x736, 230); (0x737, 0x739, 220); (0x73A, 0x73A, 230); (0x73B, 0x73C, 220);
  (0x73D, 0x73D, 230); (0x73E, 0x73E, 220); (0x73F, 0x741, 230); (0x742, 0x742, 220); (0x743, 0x743, 230);
  (0x744, 0x744, 220); (0x745, 0x745, 230); (0x746, 0x746, 220); (0x747, 0x747, 230); (0x748, 0x748, 220);
  (0x749, 0x74A, 230); (0x7EB, 0x7F1, 230); (0x7F2, 0x7F2, 220); (0x7F3, 0x7F3, 230); (0x7FD, 0x7FD, 220);
  (0x816, 0x819, 230); (0x81B, 0x823, 230); (0x825, 0x827, 230); (0x829, 0x82D, 230); (0x859, 0x85B, 220);
  (0x898, 0x898, 230); (0x899, 0x89B, 220); (0x89C, 0x89F, 230); (0x8CA, 0x8CE, 230); (0x8CF, 0x8D3, 220);
  (0x8D4, 0x8E1, 230); (0x8E3, 0x8E3, 220); (0x8E4, 0x8E5, 230); (0x8E6, 0x8E6, 220); (0x8E7, 0x8E8, 230);
  (0x8E9, 0x8E9, 220); (0x8EA, 0x8EC, 230); (0x8ED, 0x8EF, 220); (0x8F0, 0x8F0, 27); (0x8F1, 0x8F1, 28);
  (0x8F2, 0x8F2, 29); (0x8F3, 0x8F5, 230); (0x8F6, 0x8F6, 220); (0x8F7, 0x8F8, 230); (0x8F9, 0x8FA, 220);
  (0x8FB, 0x8FF, 230); (0x93C, 0x93C, 7); (0x94D, 0x94D, 9); (0x951, 0x951, 230); (0x952, 0x952, 220);
  (0x953, 0x954, 230); (0x9BC, 0x9BC, 7); (0x9CD, 0x9CD, 9); (0x9FE, 0x9FE, 230); (0xA3C, 0xA3C, 7);
  (0xA4D, 0xA4D, 9); (0xABC, 0xABC, 7); (0xACD, 0xACD, 9); (0xB3C, 0xB3C, 7); (0xB4D, 0xB4D, 9);
  (0xBCD, 0xBCD, 9); (0xC3C, 0xC3C, 7); (0xC4D, 0xC4D, 9); (0xC55, 0xC55, 84); (0xC56, 0xC56, 91);
  (0xCBC, 0xCBC, 7); (0xCCD, 0xCCD, 9); (0xD3B, 0xD3C, 9); (0xD4D, 0xD4D, 9); (0xDCA, 0xDCA, 9);
  (0xE38, 0xE39, 103); (0xE3A, 0xE3A, 9); (0xE48, 0xE4B, 107); (0xEB8, 0xEB9, 118); (0xEBA, 0xEBA, 9);
  (0xEC8, 0xECB, 122); (0xF18, 0xF19, 220); (0xF35, 0xF35, 220); (0xF37, 0xF37, 220); (0xF39, 0xF39, 216);
  (0xF71, 0xF71, 129); (0xF72, 0xF72, 130); (0xF74, 0xF74, 132); (0xF7A, 0xF7D, 130); (0xF80, 0xF80, 130);
  (0xF82, 0xF83, 230); (0xF84, 0xF84, 9); (0xF86, 0xF87, 230); (0xFC6, 0xFC6, 220); (0x1037, 0x1037, 7);
  (0x1039, 0x103A, 9); (0x108D, 0x108D, 220); (0x135D, 0x135F, 230); (0x1714, 0x1715, 9); (0x1734, 0x1734, 9);
  (0x17D2, 0x17D2, 9); (0x17DD, 0x17DD, 230); (0x18A9, 0x18A9, 228); (0x1939, 0x1939, 222); (0x193A, 0x193A, 230);
  (0x193B, 0x193B, 220); (0x1A17, 0x1A17, 230); (0x1A18, 0x1A18, 220); (0x1A60, 0x1A60, 9); (0x1A75, 0x1A7C, 230);
  (0x1A7F, 0x1A7F, 220); (0x1AB0, 0x1AB4, 230); (0x1AB5, 0x1ABA, 220); (0x1ABB, 0x1ABC, 230); (0x1ABD, 0x1ABD, 220);
  (0x1ABF, 0x1AC0, 220); (0x1AC1, 0x1AC2, 230); (0x1AC3, 0x1AC4, 220); (0x1AC5, 0x1AC9, 230); (0x1ACA, 0x1ACA, 220);
  (0x1ACB, 0x1ACE, 230); (0x1B34, 0x1B34, 7); (0x1B44, 0x1B44, 9); (0x1B6B, 0x1B6B, 230); (0x1B6C, 0x1B6C, 220);
  (0x1B6D, 0x1B73, 230); (0x1BAA, 0x1BAB, 9); (0x1BE6, 0x1BE6, 7); (0x1BF2, 0x1BF3, 9); (0x1C37, 0x1C37, 7);
  (0x1CD0, 0x1CD2, 230); (0x1CD4, 0x1CD4, 1); (0x1CD5, 0x1CD9, 220); (0x1CDA, 0x1CDB, 230); (0x1CDC, 0x1CDF, 220);
  (0x1CE0, 0x1CE0, 230); (0x1CE2, 0x1CE8, 1); (0x1CED, 0x1CED, 220); (0x1CF4, 0x1CF4, 230); (0x1CF8, 0x1CF9, 230);
  (0x1DC0, 0x1DC1, 230); (0x1DC2, 0x1DC2, 220); (0x1DC3, 0x1DC9, 230); (0x1DCA, 0x1DCA, 220); (0x1DCB, 0x1DCC, 230);
  (0x1DCD, 0x1DCD, 234); (0x1DCE, 0x1DCE, 214); (0x1DCF, 0x1DCF, 220); (0x1DD0, 0x1DD0, 202); (0x1DD1, 0x1DF5, 230);
  (0x1DF6, 0x1DF6, 232); (0x1DF7, 0x1DF8, 228); (0x1DF9, 0x1DF9, 220); (0x1DFA, 0x1DFA, 218); (0x1DFB, 0x1DFB, 230);
  (0x1DFC, 0x1DFC, 233); (0x1DFD, 0x1DFD, 220); (0x1DFE, 0x1DFE, 230); (0x1DFF, 0x1DFF, 220); (0x20D0, 0x20D1, 230);
  (0x20D2, 0x20D3, 1); (0x20D4, 0x20D7, 230); (0x20D8, 0x20DA, 1); (0x20DB, 0x20DC, 230); (0x20E1, 0x20E1, 230);
  (0x20E5, 0x20E6, 1); (0x20E7, 0x20E7, 230); (0x20E8, 0x20E8, 220); (0x20E9, 0x20E9, 230); (0x20EA, 0x20EB, 1);
  (0x20EC, 0x20EF, 220); (0x20F0, 0x20F0, 230); (0x2CEF, 0x2CF1, 230); (0x2D7F, 0x2D7F, 9); (0x2DE0, 0x2DFF, 230);
  (0x302A, 0x302A, 218); (0x302B, 0x302B, 228); (0x302C, 0x302C, 232); (0x302D, 0x302D, 222); (0x302E, 0x302F, 224);
  (0x3099, 0x309A, 8); (0xA66F, 0xA66F, 230); (0xA674, 0xA67D, 230); (0xA69E, 0xA69F, 230); (0xA6F0, 0xA6F1, 230);
  (0xA806, 0xA806, 9); (0xA82C, 0xA82C, 9); (0xA8C4, 0xA8C4, 9); (0xA8E0, 0xA8F1, 230); (0xA92B, 0xA92D, 220);
  (0xA953, 0xA953, 9); (0xA9B3, 0xA9B3, 7); (0xA9C0, 0xA9C0, 9); (0xAAB0, 0xAAB0, 230); (0xAAB2, 0xAAB3, 230);
  (0xAAB4, 0xAAB4, 220); (0xAAB7, 0xAAB8, 230); (0xAABE, 0xAABF, 230); (0xAAC1, 0xAAC1, 230); (0xAAF6, 0xAAF6, 9);
  (0xABED, 0xABED, 9); (0xFB1E, 0xFB1E, 26); (0xFE20, 0xFE26, 230); (0xFE27, 0xFE2D, 220); (0xFE2E, 0xFE2F, 230);
  (0x101FD, 0x101FD, 220); (0x102E0, 0x102E0, 220); (0x10376, 0x1037A, 230); (0x10A0D, 0x10A0D, 220); (0x10A0F, 0x10A0F, 230);
  (0x10A38, 0x10A38, 230); (0x10A39, 0x10A39, 1); (0x10A3A, 0x10A3A, 220); (0x10A3F, 0x10A3F, 9); (0x10AE5, 0x10AE5, 230);
  (0x10AE6, 0x10AE6, 220); (0x10D24, 0x10D27, 230); (0x10EAB, 0x10EAC, 230); (0x10F46, 0x10F47, 220); (0x10F48, 0x10F4A, 230);
  (0x10F4B, 0x10F4B, 220); (0x10F4C, 0x10F4C, 230); (0x10F4D, 0x10F50, 220); (0x10F82, 0x10F82, 230); (0x10F83, 0x10F83, 220);
  (0x10F84, 0x10F84, 230); (0x10F85, 0x10F85, 220); (0x11046, 0x11046, 9); (0x11070, 0x11070, 9); (0x1107F, 0x1107F, 9);
  (0x110B9, 0x110B9, 9); (0x110BA, 0x110BA, 7); (0x11100, 0x11102, 230); (0x11133, 0x11134, 9); (0x11173, 0x11173, 7);
  (0x111C0, 0x111C0, 9); (0x111CA, 0x111CA, 7); (0x11235, 0x11235, 9); (0x11236, 0x11236, 7); (0x112E9, 0x112E9, 7);
  (0x112EA, 0x112EA, 9); (0x1133B, 0x1133C, 7); (0x1134D, 0x1134D, 9); (0x11366, 0x1136C, 230); (0x11370, 0x11374, 230);
  (0x11442, 0x11442, 9); (0x11446, 0x11446, 7); (0x1145E, 0x1145E, 230); (0x114C2, 0x114C2, 9); (0x114C3, 0x114C3, 7);
  (0x115BF, 0x115BF, 9); (0x115C0, 0x115C0, 7); (0x1163F, 0x1163F, 9); (0x116B6, 0x116B6, 9); (0x116B7, 0x116B7, 7);
  (0x1172B, 0x1172B, 9); (0x11839, 0x11839, 9); (0x1183A, 0x1183A, 7); (0x1193D, 0x1193E, 9); (0x11943, 0x11943, 7);
  (0x119E0, 0x119E0, 9); (0x11A34, 0x11A34, 9); (0x11A47, 0x11A47, 9); (0x11A99, 0x11A99, 9); (0x11C3F, 0x11C3F, 9);
  (0x11D42, 0x11D42, 7); (0x11D44, 0x11D45, 9); (0x11D97, 0x11D97, 9); (0x16AF0, 0x16AF4, 1); (0x16B30, 0x16B36, 230);
  (0x16FF0, 0x16FF1, 6); (0x1BC9E, 0x1BC9E, 1); (0x1D165, 0x1D166, 216); (0x1D167, 0x1D169, 1); (0x1D16D, 0x1D16D, 226);
  (0x1D16E, 0x1D172, 216); (0x1D17B, 0x1D182, 220); (0x1D185, 0x1D189, 230); (0x1D18A, 0x1D18B, 220); (0x1D1AA, 0x1D1AD, 230);
  (0x1D242, 0x1D244, 230); (0x1E000, 0x1E006, 230); (0x1E008, 0x1E018, 230); (0x1E01B, 0x1E021, 230); (0x1E023, 0x1E024, 230);
  (0x1E026, 0x1E02A, 230); (0x1E130, 0x1E136, 230); (0x1E2AE, 0x1E2AE, 230); (0x1E2EC, 0x1E2EF, 230); (0x1E8D0, 0x1E8D6, 220);
  (0x1E944, 0x1E949, 230); (0x1E94A, 0x1E94A, 7)
 ]%N.

Definition ccc_table : list (N * N * N) :=
  ccc_table_0.

(** [Mn_table]: ranges of the code points of general category [Mn]
    (non-spacing mark). *)

Definition Mn_table_0 : list (N * N) :=
 [
  (0x300, 0x36F); (0x483, 0x487); (0x591, 0x5BD); (0x5BF, 0x5BF); (0x5C1, 0x5C2); (0x5C4, 0x5C5);
  (0x5C7, 0x5C7); (0x610, 0x61A); (0x64B, 0x65F); (0x670, 0x670); (0x6D6, 0x6DC); (0x6DF, 0x6E4);
  (0x6E7, 0x6E8); (0x6EA, 0x6ED); (0x711, 0x711); (0x730, 0x74A); (0x7A6, 0x7B0); (0x7EB, 0x7F3);
  (0x7FD, 0x7FD); (0x816, 0x819); (0x81B, 0x823); (0x825, 0x827); (0x829, 0x82D); (0x859, 0x85B);
  (0x898, 0x89F); (0x8CA, 0x8E1); (0x8E3, 0x902); (0x93A, 0x93A); (0x93C, 0x93C); (0x941, 0x948);
  (0x94D, 0x94D); (0x951, 0x957); (0x962, 0x963); (0x981, 0x981); (0x9BC, 0x9BC); (0x9C1, 0x9C4);
  (0x9CD, 0x9CD); (0x9E2, 0x9E3); (0x9FE, 0x9FE); (0xA01, 0xA02); (0xA3C, 0xA3C); (0xA41, 0xA42);
  (0xA47, 0xA48); (0xA4B, 0xA4D); (0xA51, 0xA51); (0xA70, 0xA71); (0xA75, 0xA75); (0xA81, 0xA82);
  (0xABC, 0xABC); (0xAC1, 0xAC5); (0xAC7, 0xAC8); (0xACD, 0xACD); (0xAE2, 0xAE3); (0xAFA, 0xAFF);
  (0xB01, 0xB01); (0xB3C, 0xB3C); (0xB3F, 0xB3F); (0xB41, 0xB44); (0xB4D, 0xB4D); (0xB55, 0xB56);
  (0xB62, 0xB63); (0xB82, 0xB82); (0xBC0, 0xBC0); (0xBCD, 0xBCD); (0xC00, 0xC00); (0xC04, 0xC04);
  (0xC3C, 0xC3C); (0xC3E, 0xC40); (0xC46, 0xC48); (0xC4A, 0xC4D); (0xC55, 0xC56); (0xC62, 0xC63);
  (0xC81, 0xC81); (0xCBC, 0xCBC); (0xCBF, 0xCBF); (0xCC6, 0xCC6); (0xCCC, 0xCCD); (0xCE2, 0xCE3);
  (0xD00, 0xD01); (0xD3B, 0xD3C); (0xD41, 0xD44); (0xD4D, 0xD4D); (0xD62, 0xD63); (0xD81, 0xD81);
  (0xDCA, 0xDCA); (0xDD2, 0xDD4); (0xDD6, 0xDD6); (0xE31, 0xE31); (0xE34, 0xE3A); (0xE47, 0xE4E);
  (0xEB1, 0xEB1); (0xEB4, 0xEBC); (0xEC8, 0xECD); (0xF18, 0xF19); (0xF35, 0xF35); (0xF37, 0xF37);
  (0xF39, 0xF39); (0xF71, 0xF7E); (0xF80, 0xF84); (0xF86, 0xF87); (0xF8D, 0xF97); (0xF99, 0xFBC);
  (0xFC6, 0xFC6); (0x102D, 0x1030); (0x1032, 0x1037); (0x1039, 0x103A); (0x103D, 0x103E); (0x1058, 0x1059);
  (0x105E, 0x1060); (0x1071, 0x1074); (0x1082, 0x1082); (0x1085, 0x1086); (0x108D, 0x108D); (0x109D, 0x109D);
  (0x135D, 0x135F); (0x1712, 0x1714); (0x1732, 0x1733); (0x1752, 0x1753); (0x1772, 0x1773); (0x17B4, 0x17B5);
  (0x17B7, 0x17BD); (0x17C6, 0x17C6); (0x17C9, 0x17D3); (0x17DD, 0x17DD); (0x180B, 0x180D); (0x180F, 0x180F);
  (0x1885, 0x1886); (0x18A9, 0x18A9); (0x1920, 0x1922); (0x1927, 0x1928); (0x1932, 0x1932); (0x1939, 0x193B);
  (0x1A17, 0x1A18); (0x1A1B, 0x1A1B); (0x1A56, 0x1A56); (0x1A58, 0x1A5E); (0x1A60, 0x1A60); (0x1A62, 0x1A62);
  (0x1A65, 0x1A6C); (0x1A73, 0x1A7C); (0x1A7F, 0x1A7F); (0x1AB0, 0x1ABD); (0x1ABF, 0x1ACE); (0x1B00, 0x1B03);
  (0x1B34, 0x1B34); (0x1B36, 0x1B3A); (0x1B3C, 0x1B3C); (0x1B42, 0x1B42); (0x1B6B, 0x1B73); (0x1B80, 0x1B81);
  (0x1BA2, 0x1BA5); (0x1BA8, 0x1BA9); (0x1BAB, 0x1BAD); (0x1BE6, 0x1BE6); (0x1BE8, 0x1BE9); (0x1BED, 0x1BED);
  (0x1BEF, 0x1BF1); (0x1C2C, 0x1C33); (0x1C36, 0x1C37); (0x1CD0, 0x1CD2); (0x1CD4, 0x1CE0); (0x1CE2, 0x1CE8);
  (0x1CED, 0x1CED); (0x1CF4, 0x1CF4); (0x1CF8, 0x1CF9); (0x1DC0, 0x1DFF); (0x20D0, 0x20DC); (0x20E1, 0x20E1);
  (0x20E5, 0x20F0); (0x2CEF, 0x2CF1); (0x2D7F, 0x2D7F); (0x2DE0, 0x2DFF); (0x302A, 0x302D); (0x3099, 0x309A);
  (0xA66F, 0xA66F); (0xA674, 0xA67D); (0xA69E, 0xA69F); (0xA6F0, 0xA6F1); (0xA802, 0xA802); (0xA806, 0xA806);
  (0xA80B, 0xA80B); (0xA825, 0xA826); (0xA82C, 0xA82C); (0xA8C4, 0xA8C5); (0xA8E0, 0xA8F1); (0xA8FF, 0xA8FF);
  (0xA926, 0xA92D); (0xA947, 0xA951); (0xA980, 0xA982); (0xA9B3, 0xA9B3); (0xA9B6, 0xA9B9); (0xA9BC, 0xA9BD);
  (0xA9E5, 0xA9E5); (0xAA29, 0xAA2E); (0xAA31, 0xAA32); (0xAA35, 0xAA36); (0xAA43, 0xAA43); (0xAA4C, 0xAA4C);
  (0xAA7C, 0xAA7C); (0xAAB0, 0xAAB0); (0xAAB2, 0xAAB4); (0xAAB7, 0xAAB8); (0xAABE, 0xAABF); (0xAAC1, 0xAAC1);
  (0xAAEC, 0xAAED); (0xAAF6, 0xAAF6); (0xABE5, 0xABE5); (0xABE8, 0xABE8); (0xABED, 0xABED); (0xFB1E, 0xFB1E);
  (0xFE00, 0xFE0F); (0xFE20, 0xFE2F); (0x101FD, 0x101FD); (0x102E0, 0x102E0); (0x10376, 0x1037A); (0x10A01, 0x10A03);
  (0x10A05, 0x10A06); (0x10A0C, 0x10A0F); (0x10A38, 0x10A3A); (0x10A3F, 0x10A3F); (0x10AE5, 0x10AE6); (0x10D24, 0x10D27);
  (0x10EAB, 0x10EAC); (0x10F46, 0x10F50); (0x10F82, 0x10F85); (0x11001, 0x11001); (0x11038, 0x11046); (0x11070, 0x11070);
  (0x11073, 0x11074); (0x1107F, 0x11081); (0x110B3, 0x110B6); (0x110B9, 0x110BA); (0x110C2, 0x110C2); (0x11100, 0x11102);
  (0x11127, 0x1112B); (0x1112D, 0x11134); (0x11173, 0x11173); (0x11180, 0x11181); (0x111B6, 0x111BE); (0x111C9, 0x111CC);
  (0x111CF, 0x111CF); (0x1122F, 0x11231); (0x11234, 0x11234); (0x11236, 0x11237); (0x1123E, 0x1123E); (0x112DF, 0x112DF);
  (0x112E3, 0x112EA); (0x11300, 0x11301); (0x1133B, 0x1133C); (0x11340, 0x11340); (0x11366, 0x1136C); (0x11370, 0x11374);
  (0x11438, 0x1143F); (0x11442, 0x11444); (0x11446, 0x11446); (0x1145E, 0x1145E); (0x114B3, 0x114B8); (0x114BA, 0x114BA);
  (0x114BF, 0x114C0); (0x114C2, 0x114C3); (0x115B2, 0x115B5); (0x115BC, 0x115BD); (0x115BF, 0x115C0); (0x115DC, 0x115DD);
  (0x11633, 0x1163A); (0x1163D, 0x1163D); (0x1163F, 0x11640); (0x116AB, 0x116AB); (0x116AD, 0x116AD); (0x116B0, 0x116B5);
  (0x116B7, 0x116B7); (0x1171D, 0x1171F); (0x11722, 0x11725); (0x11727, 0x1172B); (0x1182F, 0x11837); (0x11839, 0x1183A);
  (0x1193B, 0x1193C); (0x1193E, 0x1193E); (0x11943, 0x11943); (0x119D4, 0x119D7); (0x119DA, 0x119DB); (0x119E0, 0x119E0);
  (0x11A01, 0x11A0A); (0x11A33, 0x11A38); (0x11A3B, 0x11A3E); (0x11A47, 0x11A47); (0x11A51, 0x11A56); (0x11A59, 0x11A5B);
  (0x11A8A, 0x11A96); (0x11A98, 0x11A99); (0x11C30, 0x11C36); (0x11C38, 0x11C3D); (0x11C3F, 0x11C3F); (0x11C92, 0x11CA7);
  (0x11CAA, 0x11CB0); (0x11CB2, 0x11CB3); (0x11CB5, 0x11CB6); (0x11D31, 0x11D36); (0x11D3A, 0x11D3A); (0x11D3C, 0x11D3D);
  (0x11D3F, 0x11D45); (0x11D47, 0x11D47); (0x11D90, 0x11D91); (0x11D95, 0x11D95); (0x11D97, 0x11D97); (0x11EF3, 0x11EF4);
  (0x16AF0, 0x16AF4); (0x16B30, 0x16B36); (0x16F4F, 0x16F4F); (0x16F8F, 0x16F92); (0x16FE4, 0x16FE4); (0x1BC9D, 0x1BC9E);
  (0x1CF00, 0x1CF2D); (0x1CF30, 0x1CF46); (0x1D167, 0x1D169); (0x1D17B, 0x1D182); (0x1D185, 0x1D18B); (0x1D1AA, 0x1D1AD);
  (0x1D242, 0x1D244); (0x1DA00, 0x1DA36); (0x1DA3B, 0x1DA6C); (0x1DA75, 0x1DA75); (0x1DA84, 0x1DA84); (0x1DA9B, 0x1DA9F);
  (0x1DAA1, 0x1DAAF); (0x1E000, 0x1E006); (0x1E008, 0x1E018); (0x1E01B, 0x1E021); (0x1E023, 0x1E024); (0x1E026, 0x1E02A);
  (0x1E130, 0x1E136); (0x1E2AE, 0x1E2AE); (0x1E2EC, 0x1E2EF); (0x1E8D0, 0x1E8D6); (0x1E944, 0x1E94A); (0xE0100, 0xE01EF)
 ]%N.

Definition Mn_table : list (N * N) :=
  Mn_table_0.

(** [upper_table]: the full upper-case mapping of [str.upper], for the code
    points it changes. *)

Definition upper_table_0 : list (N * list N) :=
 [
  (0x61, [0x41]); (0x62, [0x42]); (0x63, [0x43]); (0x64, [0x44]); (0x65, [0x45]);
  (0x66, [0x46]); (0x67, [0x47]); (0x68, [0x48]); (0x69, [0x49]); (0x6A, [0x4A]);
  (0x6B, [0x4B]); (0x6C, [0x4C]); (0x6D, [0x4D]); (0x6E, [0x4E]); (0x6F, [0x4F]);
  (0x70, [0x50]); (0x71, [0x51]); (0x72, [0x52]); (0x73, [0x53]); (0x74, [0x54]);
  (0x75, [0x55]); (0x76, [0x56]); (0x77, [0x57]); (0x78, [0x58]); (0x79, [0x59]);
  (0x7A, [0x5A]); (0xB5, [0x39C]); (0xDF, [0x53; 0x53]); (0xE0, [0xC0]); (0xE1, [0xC1]);
  (0xE2, [0xC2]); (0xE3, [0xC3]); (0xE4, [0xC4]); (0xE5, [0xC5]); (0xE6, [0xC6]);
  (0xE7, [0xC7]); (0xE8, [0xC8]); (0xE9, [0xC9]); (0xEA, [0xCA]); (0xEB, [0xCB]);
  (0xEC, [0xCC]); (0xED, [0xCD]); (0xEE, [0xCE]); (0xEF, [0xCF]); (0xF0, [0xD0]);
  (0xF1, [0xD1]); (0xF2, [0xD2]); (0xF3, [0xD3]); (0xF4, [0xD4]); (0xF5, [0xD5]);
  (0xF6, [0xD6]); (0xF8, [0xD8]); (0xF9, [0xD9]); (0xFA, [0xDA]); (0xFB, [0xDB]);
  (0xFC, [0xDC]); (0xFD, [0xDD]); (0xFE, [0xDE]); (0xFF, [0x178]); (0x101, [0x100]);
  (0x103, [0x102]); (0x105, [0x104]); (0x107, [0x106]); (0x109, [0x108]); (0x10B, [0x10A]);
  (0x10D, [0x10C]); (0x10F, [0x10E]); (0x111, [0x110]); (0x113, [0x112]); (0x115, [0x114]);
  (0x117, [0x116]); (0x119, [0x118]); (0x11B, [0x11A]); (0x11D, [0x11C]); (0x11F, [0x11E]);
  (0x121, [0x120]); (0x123, [0x122]); (0x125, [0x124]); (0x127, [0x126]); (0x129, [0x128]);
  (0x12B, [0x12A]); (0x12D, [0x12C]); (0x12F, [0x12E]); (0x131, [0x49]); (0x133, [0x132]);
  (0x135, [0x134]); (0x137, [0x136]); (0x13A, [0x139]); (0x13C, [0x13B]); (0x13E, [0x13D]);
  (0x140, [0x13F]); (0x142, [0x141]); (0x144, [0x143]); (0x146, [0x145]); (0x148, [0x147]);
  (0x149, [0x2BC; 0x4E]); (0x14B, [0x14A]); (0x14D, [0x14C]); (0x14F, [0x14E]); (0x151, [0x150]);
  (0x153, [0x152]); (0x155, [0x154]); (0x157, [0x156]); (0x159, [0x158]); (0x15B, [0x15A]);
  (0x15D, [0x15C]); (0x15F, [0x15E]); (0x161, [0x160]); (0x163, [0x162]); (0x165, [0x164]);
  (0x167, [0x166]); (0x169, [0x168]); (0x16B, [0x16A]); (0x16D, [0x16C]); (0x16F, [0x16E]);
  (0x171, [0x170]); (0x173, [0x172]); (0x175, [0x174]); (0x177, [0x176]); (0x17A, [0x179]);
  (0x17C, [0x17B]); (0x17E, [0x17D]); (0x17F, [0x53]); (0x180, [0x243]); (0x183, [0x182]);
  (0x185, [0x184]); (0x188, [0x187]); (0x18C, [0x18B]); (0x192, [0x191]); (0x195, [0x1F6]);
  (0x199, [0x198]); (0x19A, [0x23D]); (0x19E, [0x220]); (0x1A1, [0x1A0]); (0x1A3, [0x1A2]);
  (0x1A5, [0x1A4]); (0x1A8, [0x1A7]); (0x1AD, [0x1AC]); (0x1B0, [0x1AF]); (0x1B4, [0x1B3]);
  (0x1B6, [0x1B5]); (0x1B9, [0x1B8]); (0x1BD, [0x1BC]); (0x1BF, [0x1F7]); (0x1C5, [0x1C4]);
  (0x1C6, [0x1C4]); (0x1C8, [0x1C7]); (0x1C9, [0x1C7]); (0x1CB, [0x1CA]); (0x1CC, [0x1CA]);
  (0x1CE, [0x1CD]); (0x1D0, [0x1CF]); (0x1D2, [0x1D1]); (0x1D4, [0x1D3]); (0x1D6, [0x1D5]);
  (0x1D8, [0x1D7]); (0x1DA, [0x1D9]); (0x1DC, [0x1DB]); (0x1DD, [0x18E]); (0x1DF, [0x1DE]);
  (0x1E1, [0x1E0]); (0x1E3, [0x1E2]); (0x1E5, [0x1E4]); (0x1E7, [0x1E6]); (0x1E9, [0x1E8]);
  (0x1EB, [0x1EA]); (0x1ED, [0x1EC]); (0x1EF, [0x1EE]); (0x1F0, [0x4A; 0x30C]); (0x1F2, [0x1F1]);
  (0x1F3, [0x1F1]); (0x1F5, [0x1F4]); (0x1F9, [0x1F8]); (0x1FB, [0x1FA]); (0x1FD, [0x1FC]);
  (0x1FF, [0x1FE]); (0x201, [0x200]); (0x203, [0x202]); (0x205, [0x204]); (0x207, [0x206]);
  (0x209, [0x208]); (0x20B, [0x20A]); (0x20D, [0x20C]); (0x20F, [0x20E]); (0x211, [0x210]);
  (0x213, [0x212]); (0x215, [0x214]); (0x217, [0x216]); (0x219, [0x218]); (0x21B, [0x21A]);
  (0x21D, [0x21C]); (0x21F, [0x21E]); (0x223, [0x222]); (0x225, [0x224]); (0x227, [0x226]);
  (0x229, [0x228]); (0x22B, [0x22A]); (0x22D, [0x22C]); (0x22F, [0x22E]); (0x231, [0x230]);
  (0x233, [0x232]); (0x23C, [0x23B]); (0x23F, [0x2C7E]); (0x240, [0x2C7F]); (0x242, [0x241]);
  (0x247, [0x246]); (0x249, [0x248]); (0x24B, [0x24A]); (0x24D, [0x24C]); (0x24F, [0x24E]);
  (0x250, [0x2C6F]); (0x251, [0x2C6D]); (0x252, [0x2C70]); (0x253, [0x181]); (0x254, [0x186]);
  (0x256, [0x189]); (0x257, [0x18A]); (0x259, [0x18F]); (0x25B, [0x190]); (0x25C, [0xA7AB]);
  (0x260, [0x193]); (0x261, [0xA7AC]); (0x263, [0x194]); (0x265, [0xA78D]); (0x266, [0xA7AA]);
  (0x268, [0x197]); (0x269, [0x196]); (0x26A, [0xA7AE]); (0x26B, [0x2C62]); (0x26C, [0xA7AD]);
  (0x26F, [0x19C]); (0x271, [0x2C6E]); (0x272, [0x19D]); (0x275, [0x19F]); (0x27D, [0x2C64]);
  (0x280, [0x1A6]); (0x282, [0xA7C5]); (0x283, [0x1A9]); (0x287, [0xA7B1]); (0x288, [0x1AE]);
  (0x289, [0x244]); (0x28A, [0x1B1]); (0x28B, [0x1B2]); (0x28C, [0x245]); (0x292, [0x1B7]);
  (0x29D, [0xA7B2]); (0x29E, [0xA7B0]); (0x345, [0x399]); (0x371, [0x370]); (0x373, [0x372]);
  (0x377, [0x376]); (0x37B, [0x3FD]); (0x37C, [0x3FE]); (0x37D, [0x3FF]); (0x390, [0x399; 0x308; 0x301]);
  (0x3AC, [0x386]); (0x3AD, [0x388]); (0x3AE, [0x389]); (0x3AF, [0x38A]); (0x3B0, [0x3A5; 0x308; 0x301]);
  (0x3B1, [0x391]); (0x3B2, [0x392]); (0x3B3, [0x393]); (0x3B4, [0x394]); (0x3B5, [0x395]);
  (0x3B6, [0x396]); (0x3B7, [0x397]); (0x3B8, [0x398]); (0x3B9, [0x399]); (0x3BA, [0x39A]);
  (0x3BB, [0x39B]); (0x3BC, [0x39C]); (0x3BD, [0x39D]); (0x3BE, [0x39E]); (0x3BF, [0x39F]);
  (0x3C0, [0x3A0]); (0x3C1, [0x3A1]); (0x3C2, [0x3A3]); (0x3C3, [0x3A3]); (0x3C4, [0x3A4]);
  (0x3C5, [0x3A5]); (0x3C6, [0x3A6]); (0x3C7, [0x3A7]); (0x3C8, [0x3A8]); (0x3C9, [0x3A9]);
  (0x3CA, [0x3AA]); (0x3CB, [0x3AB]); (0x3CC, [0x38C]); (0x3CD, [0x38E]); (0x3CE, [0x38F]);
  (0x3D0, [0x392]); (0x3D1, [0x398]); (0x3D5, [0x3A6]); (0x3D6, [0x3A0]); (0x3D7, [0x3CF]);
  (0x3D9, [0x3D8]); (0x3DB, [0x3DA]); (0x3DD, [0x3DC]); (0x3DF, [0x3DE]); (0x3E1, [0x3E0]);
  (0x3E3, [0x3E2]); (0x3E5, [0x3E4]); (0x3E7, [0x3E6]); (0x3E9, [0x3E8]); (0x3EB, [0x3EA]);
  (0x3ED, [0x3EC]); (0x3EF, [0x3EE]); (0x3F0, [0x39A]); (0x3F1, [0x3A1]); (0x3F2, [0x3F9]);
  (0x3F3, [0x37F]); (0x3F5, [0x395]); (0x3F8, [0x3F7]); (0x3FB, [0x3FA]); (0x430, [0x410]);
  (0x431, [0x411]); (0x432, [0x412]); (0x433, [0x413]); (0x434, [0x414]); (0x435, [0x415]);
  (0x436, [0x416]); (0x437, [0x417]); (0x438, [0x418]); (0x439, [0x419]); (0x43A, [0x41A]);
  (0x43B, [0x41B]); (0x43C, [0x41C]); (0x43D, [0x41D]); (0x43E, [0x41E]); (0x43F, [0x41F]);
  (0x440, [0x420]); (0x441, [0x421]); (0x442, [0x422]); (0x443, [0x423]); (0x444, [0x424]);
  (0x445, [0x425]); (0x446, [0x426]); (0x447, [0x427]); (0x448, [0x428]); (0x449, [0x429]);
  (0x44A, [0x42A]); (0x44B, [0x42B]); (0x44C, [0x42C]); (0x44D, [0x42D]); (0x44E, [0x42E]);
  (0x44F, [0x42F]); (0x450, [0x400]); (0x451, [0x401]); (0x452, [0x402]); (0x453, [0x403]);
  (0x454, [0x404]); (0x455, [0x405]); (0x456, [0x406]); (0x457, [0x407]); (0x458, [0x408]);
  (0x459, [0x409]); (0x45A, [0x40A]); (0x45B, [0x40B]); (0x45C, [0x40C]); (0x45D, [0x40D]);
  (0x45E, [0x40E]); (0x45F, [0x40F]); (0x461, [0x460]); (0x463, [0x462]); (0x465, [0x464]);
  (0x467, [0x466]); (0x469, [0x468]); (0x46B, [0x46A]); (0x46D, [0x46C]); (0x46F, [0x46E]);
  (0x471, [0x470]); (0x473, [0x472]); (0x475, [0x474]); (0x477, [0x476]); (0x479, [0x478]);
  (0x47B, [0x47A]); (0x47D, [0x47C]); (0x47F, [0x47E]); (0x481, [0x480]); (0x48B, [0x48A]);
  (0x48D, [0x48C]); (0x48F, [0x48E]); (0x491, [0x490]); (0x493, [0x492]); (0x495, [0x494]);
  (0x497, [0x496]); (0x499, [0x498]); (0x49B, [0x49A]); (0x49D, [0x49C]); (0x49F, [0x49E]);
  (0x4A1, [0x4A0]); (0x4A3, [0x4A2]); (0x4A5, [0x4A4]); (0x4A7, [0x4A6]); (0x4A9, [0x4A8]);
  (0x4AB, [0x4AA]); (0x4AD, [0x4AC]); (0x4AF, [0x4AE]); (0x4B1, [0x4B0]); (0x4B3, [0x4B2])
 ]%N.

Definition upper_table_1 : list (N * list N) :=
 [
  (0x4B5, [0x4B4]); (0x4B7, [0x4B6]); (0x4B9, [0x4B8]); (0x4BB, [0x4BA]); (0x4BD, [0x4BC]);
  (0x4BF, [0x4BE]); (0x4C2, [0x4C1]); (0x4C4, [0x4C3]); (0x4C6, [0x4C5]); (0x4C8, [0x4C7]);
  (0x4CA, [0x4C9]); (0x4CC, [0x4CB]); (0x4CE, [0x4CD]); (0x4CF, [0x4C0]); (0x4D1, [0x4D0]);
  (0x4D3, [0x4D2]); (0x4D5, [0x4D4]); (0x4D7, [0x4D6]); (0x4D9, [0x4D8]); (0x4DB, [0x4DA]);
  (0x4DD, [0x4DC]); (0x4DF, [0x4DE]); (0x4E1, [0x4E0]); (0x4E3, [0x4E2]); (0x4E5, [0x4E4]);
  (0x4E7, [0x4E6]); (0x4E9, [0x4E8]); (0x4EB, [0x4EA]); (0x4ED, [0x4EC]); (0x4EF, [0x4EE]);
  (0x4F1, [0x4F0]); (0x4F3, [0x4F2]); (0x4F5, [0x4F4]); (0x4F7, [0x4F6]); (0x4F9, [0x4F8]);
  (0x4FB, [0x4FA]); (0x4FD, [0x4FC]); (0x4FF, [0x4FE]); (0x501, [0x500]); (0x503, [0x502]);
  (0x505, [0x504]); (0x507, [0x506]); (0x509, [0x508]); (0x50B, [0x50A]); (0x50D, [0x50C]);
  (0x50F, [0x50E]); (0x511, [0x510]); (0x513, [0x512]); (0x515, [0x514]); (0x517, [0x516]);
  (0x519, [0x518]); (0x51B, [0x51A]); (0x51D, [0x51C]); (0x51F, [0x51E]); (0x521, [0x520]);
  (0x523, [0x522]); (0x525, [0x524]); (0x527, [0x526]); (0x529, [0x528]); (0x52B, [0x52A]);
  (0x52D, [0x52C]); (0x52F, [0x52E]); (0x561, [0x531]); (0x562, [0x532]); (0x563, [0x533]);
  (0x564, [0x534]); (0x565, [0x535]); (0x566, [0x536]); (0x567, [0x537]); (0x568, [0x538]);
  (0x569, [0x539]); (0x56A, [0x53A]); (0x56B, [0x53B]); (0x56C, [0x53C]); (0x56D, [0x53D]);
  (0x56E, [0x53E]); (0x56F, [0x53F]); (0x570, [0x540]); (0x571, [0x541]); (0x572, [0x542]);
  (0x573, [0x543]); (0x574, [0x544]); (0x575, [0x545]); (0x576, [0x546]); (0x577, [0x547]);
  (0x578, [0x548]); (0x579, [0x549]); (0x57A, [0x54A]); (0x57B, [0x54B]); (0x57C, [0x54C]);
  (0x57D, [0x54D]); (0x57E, [0x54E]); (0x57F, [0x54F]); (0x580, [0x550]); (0x581, [0x551]);
  (0x582, [0x552]); (0x583, [0x553]); (0x584, [0x554]); (0x585, [0x555]); (0x586, [0x556]);
  (0x587, [0x535; 0x552]); (0x10D0, [0x1C90]); (0x10D1, [0x1C91]); (0x10D2, [0x1C92]); (0x10D3, [0x1C93]);
  (0x10D4, [0x1C94]); (0x10D5, [0x1C95]); (0x10D6, [0x1C96]); (0x10D7, [0x1C97]); (0x10D8, [0x1C98]);
  (0x10D9, [0x1C99]); (0x10DA, [0x1C9A]); (0x10DB, [0x1C9B]); (0x10DC, [0x1C9C]); (0x10DD, [0x1C9D]);
  (0x10DE, [0x1C9E]); (0x10DF, [0x1C9F]); (0x10E0, [0x1CA0]); (0x10E1, [0x1CA1]); (0x10E2, [0x1CA2]);
  (0x10E3, [0x1CA3]); (0x10E4, [0x1CA4]); (0x10E5, [0x1CA5]); (0x10E6, [0x1CA6]); (0x10E7, [0x1CA7]);
  (0x10E8, [0x1CA8]); (0x10E9, [0x1CA9]); (0x10EA, [0x1CAA]); (0x10EB, [0x1CAB]); (0x10EC, [0x1CAC]);
  (0x10ED, [0x1CAD]); (0x10EE, [0x1CAE]); (0x10EF, [0x1CAF]); (0x10F0, [0x1CB0]); (0x10F1, [0x1CB1]);
  (0x10F2, [0x1CB2]); (0x10F3, [0x1CB3]); (0x10F4, [0x1CB4]); (0x10F5, [0x1CB5]); (0x10F6, [0x1CB6]);
  (0x10F7, [0x1CB7]); (0x10F8, [0x1CB8]); (0x10F9, [0x1CB9]); (0x10FA, [0x1CBA]); (0x10FD, [0x1CBD]);
  (0x10FE, [0x1CBE]); (0x10FF, [0x1CBF]); (0x13F8, [0x13F0]); (0x13F9, [0x13F1]); (0x13FA, [0x13F2]);
  (0x13FB, [0x13F3]); (0x13FC, [0x13F4]); (0x13FD, [0x13F5]); (0x1C80, [0x412]); (0x1C81, [0x414]);
  (0x1C82, [0x41E]); (0x1C83, [0x421]); (0x1C84, [0x422]); (0x1C85, [0x422]); (0x1C86, [0x42A]);
  (0x1C87, [0x462]); (0x1C88, [0xA64A]); (0x1D79, [0xA77D]); (0x1D7D, [0x2C63]); (0x1D8E, [0xA7C6]);
  (0x1E01, [0x1E00]); (0x1E03, [0x1E02]); (0x1E05, [0x1E04]); (0x1E07, [0x1E06]); (0x1E09, [0x1E08]);
  (0x1E0B, [0x1E0A]); (0x1E0D, [0x1E0C]); (0x1E0F, [0x1E0E]); (0x1E11, [0x1E10]); (0x1E13, [0x1E12]);
  (0x1E15, [0x1E14]); (0x1E17, [0x1E16]); (0x1E19, [0x1E18]); (0x1E1B, [0x1E1A]); (0x1E1D, [0x1E1C]);
  (0x1E1F, [0x1E1E]); (0x1E21, [0x1E20]); (0x1E23, [0x1E22]); (0x1E25, [0x1E24]); (0x1E27, [0x1E26]);
  (0x1E29, [0x1E28]); (0x1E2B, [0x1E2A]); (0x1E2D, [0x1E2C]); (0x1E2F, [0x1E2E]); (0x1E31, [0x1E30]);
  (0x1E33, [0x1E32]); (0x1E35, [0x1E34]); (0x1E37, [0x1E36]); (0x1E39, [0x1E38]); (0x1E3B, [0x1E3A]);
  (0x1E3D, [0x1E3C]); (0x1E3F, [0x1E3E]); (0x1E41, [0x1E40]); (0x1E43, [0x1E42]); (0x1E45, [0x1E44]);
  (0x1E47, [0x1E46]); (0x1E49, [0x1E48]); (0x1E4B, [0x1E4A]); (0x1E4D, [0x1E4C]); (0x1E4F, [0x1E4E]);
  (0x1E51, [0x1E50]); (0x1E53, [0x1E52]); (0x1E55, [0x1E54]); (0x1E57, [0x1E56]); (0x1E59, [0x1E58]);
  (0x1E5B, [0x1E5A]); (0x1E5D, [0x1E5C]); (0x1E5F, [0x1E5E]); (0x1E61, [0x1E60]); (0x1E63, [0x1E62]);
  (0x1E65, [0x1E64]); (0x1E67, [0x1E66]); (0x1E69, [0x1E68]); (0x1E6B, [0x1E6A]); (0x1E6D, [0x1E6C]);
  (0x1E6F, [0x1E6E]); (0x1E71, [0x1E70]); (0x1E73, [0x1E72]); (0x1E75, [0x1E74]); (0x1E77, [0x1E76]);
  (0x1E79, [0x1E78]); (0x1E7B, [0x1E7A]); (0x1E7D, [0x1E7C]); (0x1E7F, [0x1E7E]); (0x1E81, [0x1E80]);
  (0x1E83, [0x1E82]); (0x1E85, [0x1E84]); (0x1E87, [0x1E86]); (0x1E89, [0x1E88]); (0x1E8B, [0x1E8A]);
  (0x1E8D, [0x1E8C]); (0x1E8F, [0x1E8E]); (0x1E91, [0x1E90]); (0x1E93, [0x1E92]); (0x1E95, [0x1E94]);
  (0x1E96, [0x48; 0x331]); (0x1E97, [0x54; 0x308]); (0x1E98, [0x57; 0x30A]); (0x1E99, [0x59; 0x30A]); (0x1E9A, [0x41; 0x2BE]);
  (0x1E9B, [0x1E60]); (0x1EA1, [0x1EA0]); (0x1EA3, [0x1EA2]); (0x1EA5, [0x1EA4]); (0x1EA7, [0x1EA6]);
  (0x1EA9, [0x1EA8]); (0x1EAB, [0x1EAA]); (0x1EAD, [0x1EAC]); (0x1EAF, [0x1EAE]); (0x1EB1, [0x1EB0]);
  (0x1EB3, [0x1EB2]); (0x1EB5, [0x1EB4]); (0x1EB7, [0x1EB6]); (0x1EB9, [0x1EB8]); (0x1EBB, [0x1EBA]);
  (0x1EBD, [0x1EBC]); (0x1EBF, [0x1EBE]); (0x1EC1, [0x1EC0]); (0x1EC3, [0x1EC2]); (0x1EC5, [0x1EC4]);
  (0x1EC7, [0x1EC6]); (0x1EC9, [0x1EC8]); (0x1ECB, [0x1ECA]); (0x1ECD, [0x1ECC]); (0x1ECF, [0x1ECE]);
  (0x1ED1, [0x1ED0]); (0x1ED3, [0x1ED2]); (0x1ED5, [0x1ED4]); (0x1ED7, [0x1ED6]); (0x1ED9, [0x1ED8]);
  (0x1EDB, [0x1EDA]); (0x1EDD, [0x1EDC]); (0x1EDF, [0x1EDE]); (0x1EE1, [0x1EE0]); (0x1EE3, [0x1EE2]);
  (0x1EE5, [0x1EE4]); (0x1EE7, [0x1EE6]); (0x1EE9, [0x1EE8]); (0x1EEB, [0x1EEA]); (0x1EED, [0x1EEC]);
  (0x1EEF, [0x1EEE]); (0x1EF1, [0x1EF0]); (0x1EF3, [0x1EF2]); (0x1EF5, [0x1EF4]); (0x1EF7, [0x1EF6]);
  (0x1EF9, [0x1EF8]); (0x1EFB, [0x1EFA]); (0x1EFD, [0x1EFC]); (0x1EFF, [0x1EFE]); (0x1F00, [0x1F08]);
  (0x1F01, [0x1F09]); (0x1F02, [0x1F0A]); (0x1F03, [0x1F0B]); (0x1F04, [0x1F0C]); (0x1F05, [0x1F0D]);
  (0x1F06, [0x1F0E]); (0x1F07, [0x1F0F]); (0x1F10, [0x1F18]); (0x1F11, [0x1F19]); (0x1F12, [0x1F1A]);
  (0x1F13, [0x1F1B]); (0x1F14, [0x1F1C]); (0x1F15, [0x1F1D]); (0x1F20, [0x1F28]); (0x1F21, [0x1F29]);
  (0x1F22, [0x1F2A]); (0x1F23, [0x1F2B]); (0x1F24, [0x1F2C]); (0x1F25, [0x1F2D]); (0x1F26, [0x1F2E]);
  (0x1F27, [0x1F2F]); (0x1F30, [0x1F38]); (0x1F31, [0x1F39]); (0x1F32, [0x1F3A]); (0x1F33, [0x1F3B]);
  (0x1F34, [0x1F3C]); (0x1F35, [0x1F3D]); (0x1F36, [0x1F3E]); (0x1F37, [0x1F3F]); (0x1F40, [0x1F48]);
  (0x1F41, [0x1F49]); (0x1F42, [0x1F4A]); (0x1F43, [0x1F4B]); (0x1F44, [0x1F4C]); (0x1F45, [0x1F4D]);
  (0x1F50, [0x3A5; 0x313]); (0x1F51, [0x1F59]); (0x1F52, [0x3A5; 0x313; 0x300]); (0x1F53, [0x1F5B]); (0x1F54, [0x3A5; 0x313; 0x301]);
  (0x1F55, [0x1F5D]); (0x1F56, [0x3A5; 0x313; 0x342]); (0x1F57, [0x1F5F]); (0x1F60, [0x1F68]); (0x1F61, [0x1F69]);
  (0x1F62, [0x1F6A]); (0x1F63, [0x1F6B]); (0x1F64, [0x1F6C]); (0x1F65, [0x1F6D]); (0x1F66, [0x1F6E]);
  (0x1F67, [0x1F6F]); (0x1F70, [0x1FBA]); (0x1F71, [0x1FBB]); (0x1F72, [0x1FC8]); (0x1F73, [0x1FC9]);
  (0x1F74, [0x1FCA]); (0x1F75, [0x1FCB]); (0x1F76, [0x1FDA]); (0x1F77, [0x1FDB]); (0x1F78, [0x1FF8]);
  (0x1F79, [0x1FF9]); (0x1F7A, [0x1FEA]); (0x1F7B, [0x1FEB]); (0x1F7C, [0x1FFA]); (0x1F7D, [0x1FFB]);
  (0x1F80, [0x1F08; 0x399]); (0x1F81, [0x1F09; 0x399]); (0x1F82, [0x1F0A; 0x399]); (0x1F83, [0x1F0B; 0x399]); (0x1F84, [0x1F0C; 0x399]);
  (0x1F85, [0x1F0D; 0x399]); (0x1F86, [0x1F0E; 0x399]); (0x1F87, [0x1F0F; 0x399]); (0x1F88, [0x1F08; 0x399]); (0x1F89, [0x1F09; 0x399]);
  (0x1F8A, [0x1F0A; 0x399]); (0x1F8B, [0x1F0B; 0x399]); (0x1F8C, [0x1F0C; 0x399]); (0x1F8D, [0x1F0D; 0x399]); (0x1F8E, [0x1F0E; 0x399]);
  (0x1F8F, [0x1F0F; 0x399]); (0x1F90, [0x1F28; 0x399]); (0x1F91, [0x1F29; 0x399]); (0x1F92, [0x1F2A; 0x399]); (0x1F93, [0x1F2B; 0x399]);
  (0x1F94, [0x1F2C; 0x399]); (0x1F95, [0x1F2D; 0x399]); (0x1F96, [0x1F2E; 0x399]); (0x1F97, [0x1F2F; 0x399]); (0x1F98, [0x1F28; 0x399]);
  (0x1F99, [0x1F29; 0x399]); (0x1F9A, [0x1F2A; 0x399]); (0x1F9B, [0x1F2B; 0x399]); (0x1F9C, [0x1F2C; 0x399]); (0x1F9D, [0x1F2D; 0x399]);
  (0x1F9E, [0x1F2E; 0x399]); (0x1F9F, [0x1F2F; 0x399]); (0x1FA0, [0x1F68; 0x399]); (0x1FA1, [0x1F69; 0x399]); (0x1FA2, [0x1F6A; 0x399]);
  (0x1FA3, [0x1F6B; 0x399]); (0x1FA4, [0x1F6C; 0x399]); (0x1FA5, [0x1F6D; 0x399]); (0x1FA6, [0x1F6E; 0x399]); (0x1FA7, [0x1F6F; 0x399])
 ]%N.

Definition upper_table_2 : list (N * list N) :=
 [
  (0x1FA8, [0x1F68; 0x399]); (0x1FA9, [0x1F69; 0x399]); (0x1FAA, [0x1F6A; 0x399]); (0x1FAB, [0x1F6B; 0x399]); (0x1FAC, [0x1F6C; 0x399]);
  (0x1FAD, [0x1F6D; 0x399]); (0x1FAE, [0x1F6E; 0x399]); (0x1FAF, [0x1F6F; 0x399]); (0x1FB0, [0x1FB8]); (0x1FB1, [0x1FB9]);
  (0x1FB2, [0x1FBA; 0x399]); (0x1FB3, [0x391; 0x399]); (0x1FB4, [0x386; 0x399]); (0x1FB6, [0x391; 0x342]); (0x1FB7, [0x391; 0x342; 0x399]);
  (0x1FBC, [0x391; 0x399]); (0x1FBE, [0x399]); (0x1FC2, [0x1FCA; 0x399]); (0x1FC3, [0x397; 0x399]); (0x1FC4, [0x389; 0x399]);
  (0x1FC6, [0x397; 0x342]); (0x1FC7, [0x397; 0x342; 0x399]); (0x1FCC, [0x397; 0x399]); (0x1FD0, [0x1FD8]); (0x1FD1, [0x1FD9]);
  (0x1FD2, [0x399; 0x308; 0x300]); (0x1FD3, [0x399; 0x308; 0x301]); (0x1FD6, [0x399; 0x342]); (0x1FD7, [0x399; 0x308; 0x342]); (0x1FE0, [0x1FE8]);
  (0x1FE1, [0x1FE9]); (0x1FE2, [0x3A5; 0x308; 0x300]); (0x1FE3, [0x3A5; 0x308; 0x301]); (0x1FE4, [0x3A1; 0x313]); (0x1FE5, [0x1FEC]);
  (0x1FE6, [0x3A5; 0x342]); (0x1FE7, [0x3A5; 0x308; 0x342]); (0x1FF2, [0x1FFA; 0x399]); (0x1FF3, [0x3A9; 0x399]); (0x1FF4, [0x38F; 0x399]);
  (0x1FF6, [0x3A9; 0x342]); (0x1FF7, [0x3A9; 0x342; 0x399]); (0x1FFC, [0x3A9; 0x399]); (0x214E, [0x2132]); (0x2170, [0x2160]);
  (0x2171, [0x2161]); (0x2172, [0x2162]); (0x2173, [0x2163]); (0x2174, [0x2164]); (0x2175, [0x2165]);
  (0x2176, [0x2166]); (0x2177, [0x2167]); (0x2178, [0x2168]); (0x2179, [0x2169]); (0x217A, [0x216A]);
  (0x217B, [0x216B]); (0x217C, [0x216C]); (0x217D, [0x216D]); (0x217E, [0x216E]); (0x217F, [0x216F]);
  (0x2184, [0x2183]); (0x24D0, [0x24B6]); (0x24D1, [0x24B7]); (0x24D2, [0x24B8]); (0x24D3, [0x24B9]);
  (0x24D4, [0x24BA]); (0x24D5, [0x24BB]); (0x24D6, [0x24BC]); (0x24D7, [0x24BD]); (0x24D8, [0x24BE]);
  (0x24D9, [0x24BF]); (0x24DA, [0x24C0]); (0x24DB, [0x24C1]); (0x24DC, [0x24C2]); (0x24DD, [0x24C3]);
  (0x24DE, [0x24C4]); (0x24DF, [0x24C5]); (0x24E0, [0x24C6]); (0x24E1, [0x24C7]); (0x24E2, [0x24C8]);
  (0x24E3, [0x24C9]); (0x24E4, [0x24CA]); (0x24E5, [0x24CB]); (0x24E6, [0x24CC]); (0x24E7, [0x24CD]);
  (0x24E8, [0x24CE]); (0x24E9, [0x24CF]); (0x2C30, [0x2C00]); (0x2C31, [0x2C01]); (0x2C32, [0x2C02]);
  (0x2C33, [0x2C03]); (0x2C34, [0x2C04]); (0x2C35, [0x2C05]); (0x2C36, [0x2C06]); (0x2C37, [0x2C07]);
  (0x2C38, [0x2C08]); (0x2C39, [0x2C09]); (0x2C3A, [0x2C0A]); (0x2C3B, [0x2C0B]); (0x2C3C, [0x2C0C]);
  (0x2C3D, [0x2C0D]); (0x2C3E, [0x2C0E]); (0x2C3F, [0x2C0F]); (0x2C40, [0x2C10]); (0x2C41, [0x2C11]);
  (0x2C42, [0x2C12]); (0x2C43, [0x2C13]); (0x2C44, [0x2C14]); (0x2C45, [0x2C15]); (0x2C46, [0x2C16]);
  (0x2C47, [0x2C17]); (0x2C48, [0x2C18]); (0x2C49, [0x2C19]); (0x2C4A, [0x2C1A]); (0x2C4B, [0x2C1B]);
  (0x2C4C, [0x2C1C]); (0x2C4D, [0x2C1D]); (0x2C4E, [0x2C1E]); (0x2C4F, [0x2C1F]); (0x2C50, [0x2C20]);
  (0x2C51, [0x2C21]); (0x2C52, [0x2C22]); (0x2C53, [0x2C23]); (0x2C54, [0x2C24]); (0x2C55, [0x2C25]);
  (0x2C56, [0x2C26]); (0x2C57, [0x2C27]); (0x2C58, [0x2C28]); (0x2C59, [0x2C29]); (0x2C5A, [0x2C2A]);
  (0x2C5B, [0x2C2B]); (0x2C5C, [0x2C2C]); (0x2C5D, [0x2C2D]); (0x2C5E, [0x2C2E]); (0x2C5F, [0x2C2F]);
  (0x2C61, [0x2C60]); (0x2C65, [0x23A]); (0x2C66, [0x23E]); (0x2C68, [0x2C67]); (0x2C6A, [0x2C69]);
  (0x2C6C, [0x2C6B]); (0x2C73, [0x2C72]); (0x2C76, [0x2C75]); (0x2C81, [0x2C80]); (0x2C83, [0x2C82]);
  (0x2C85, [0x2C84]); (0x2C87, [0x2C86]); (0x2C89, [0x2C88]); (0x2C8B, [0x2C8A]); (0x2C8D, [0x2C8C]);
  (0x2C8F, [0x2C8E]); (0x2C91, [0x2C90]); (0x2C93, [0x2C92]); (0x2C95, [0x2C94]); (0x2C97, [0x2C96]);
  (0x2C99, [0x2C98]); (0x2C9B, [0x2C9A]); (0x2C9D, [0x2C9C]); (0x2C9F, [0x2C9E]); (0x2CA1, [0x2CA0]);
  (0x2CA3, [0x2CA2]); (0x2CA5, [0x2CA4]); (0x2CA7, [0x2CA6]); (0x2CA9, [0x2CA8]); (0x2CAB, [0x2CAA]);
  (0x2CAD, [0x2CAC]); (0x2CAF, [0x2CAE]); (0x2CB1, [0x2CB0]); (0x2CB3, [0x2CB2]); (0x2CB5, [0x2CB4]);
  (0x2CB7, [0x2CB6]); (0x2CB9, [0x2CB8]); (0x2CBB, [0x2CBA]); (0x2CBD, [0x2CBC]); (0x2CBF, [0x2CBE]);
  (0x2CC1, [0x2CC0]); (0x2CC3, [0x2CC2]); (0x2CC5, [0x2CC4]); (0x2CC7, [0x2CC6]); (0x2CC9, [0x2CC8]);
  (0x2CCB, [0x2CCA]); (0x2CCD, [0x2CCC]); (0x2CCF, [0x2CCE]); (0x2CD1, [0x2CD0]); (0x2CD3, [0x2CD2]);
  (0x2CD5, [0x2CD4]); (0x2CD7, [0x2CD6]); (0x2CD9, [0x2CD8]); (0x2CDB, [0x2CDA]); (0x2CDD, [0x2CDC]);
  (0x2CDF, [0x2CDE]); (0x2CE1, [0x2CE0]); (0x2CE3, [0x2CE2]); (0x2CEC, [0x2CEB]); (0x2CEE, [0x2CED]);
  (0x2CF3, [0x2CF2]); (0x2D00, [0x10A0]); (0x2D01, [0x10A1]); (0x2D02, [0x10A2]); (0x2D03, [0x10A3]);
  (0x2D04, [0x10A4]); (0x2D05, [0x10A5]); (0x2D06, [0x10A6]); (0x2D07, [0x10A7]); (0x2D08, [0x10A8]);
  (0x2D09, [0x10A9]); (0x2D0A, [0x10AA]); (0x2D0B, [0x10AB]); (0x2D0C, [0x10AC]); (0x2D0D, [0x10AD]);
  (0x2D0E, [0x10AE]); (0x2D0F, [0x10AF]); (0x2D10, [0x10B0]); (0x2D11, [0x10B1]); (0x2D12, [0x10B2]);
  (0x2D13, [0x10B3]); (0x2D14, [0x10B4]); (0x2D15, [0x10B5]); (0x2D16, [0x10B6]); (0x2D17, [0x10B7]);
  (0x2D18, [0x10B8]); (0x2D19, [0x10B9]); (0x2D1A, [0x10BA]); (0x2D1B, [0x10BB]); (0x2D1C, [0x10BC]);
  (0x2D1D, [0x10BD]); (0x2D1E, [0x10BE]); (0x2D1F, [0x10BF]); (0x2D20, [0x10C0]); (0x2D21, [0x10C1]);
  (0x2D22, [0x10C2]); (0x2D23, [0x10C3]); (0x2D24, [0x10C4]); (0x2D25, [0x10C5]); (0x2D27, [0x10C7]);
  (0x2D2D, [0x10CD]); (0xA641, [0xA640]); (0xA643, [0xA642]); (0xA645, [0xA644]); (0xA647, [0xA646]);
  (0xA649, [0xA648]); (0xA64B, [0xA64A]); (0xA64D, [0xA64C]); (0xA64F, [0xA64E]); (0xA651, [0xA650]);
  (0xA653, [0xA652]); (0xA655, [0xA654]); (0xA657, [0xA656]); (0xA659, [0xA658]); (0xA65B, [0xA65A]);
  (0xA65D, [0xA65C]); (0xA65F, [0xA65E]); (0xA661, [0xA660]); (0xA663, [0xA662]); (0xA665, [0xA664]);
  (0xA667, [0xA666]); (0xA669, [0xA668]); (0xA66B, [0xA66A]); (0xA66D, [0xA66C]); (0xA681, [0xA680]);
  (0xA683, [0xA682]); (0xA685, [0xA684]); (0xA687, [0xA686]); (0xA689, [0xA688]); (0xA68B, [0xA68A]);
  (0xA68D, [0xA68C]); (0xA68F, [0xA68E]); (0xA691, [0xA690]); (0xA693, [0xA692]); (0xA695, [0xA694]);
  (0xA697, [0xA696]); (0xA699, [0xA698]); (0xA69B, [0xA69A]); (0xA723, [0xA722]); (0xA725, [0xA724]);
  (0xA727, [0xA726]); (0xA729, [0xA728]); (0xA72B, [0xA72A]); (0xA72D, [0xA72C]); (0xA72F, [0xA72E]);
  (0xA733, [0xA732]); (0xA735, [0xA734]); (0xA737, [0xA736]); (0xA739, [0xA738]); (0xA73B, [0xA73A]);
  (0xA73D, [0xA73C]); (0xA73F, [0xA73E]); (0xA741, [0xA740]); (0xA743, [0xA742]); (0xA745, [0xA744]);
  (0xA747, [0xA746]); (0xA749, [0xA748]); (0xA74B, [0xA74A]); (0xA74D, [0xA74C]); (0xA74F, [0xA74E]);
  (0xA751, [0xA750]); (0xA753, [0xA752]); (0xA755, [0xA754]); (0xA757, [0xA756]); (0xA759, [0xA758]);
  (0xA75B, [0xA75A]); (0xA75D, [0xA75C]); (0xA75F, [0xA75E]); (0xA761, [0xA760]); (0xA763, [0xA762]);
  (0xA765, [0xA764]); (0xA767, [0xA766]); (0xA769, [0xA768]); (0xA76B, [0xA76A]); (0xA76D, [0xA76C]);
  (0xA76F, [0xA76E]); (0xA77A, [0xA779]); (0xA77C, [0xA77B]); (0xA77F, [0xA77E]); (0xA781, [0xA780]);
  (0xA783, [0xA782]); (0xA785, [0xA784]); (0xA787, [0xA786]); (0xA78C, [0xA78B]); (0xA791, [0xA790]);
  (0xA793, [0xA792]); (0xA794, [0xA7C4]); (0xA797, [0xA796]); (0xA799, [0xA798]); (0xA79B, [0xA79A]);
  (0xA79D, [0xA79C]); (0xA79F, [0xA79E]); (0xA7A1, [0xA7A0]); (0xA7A3, [0xA7A2]); (0xA7A5, [0xA7A4]);
  (0xA7A7, [0xA7A6]); (0xA7A9, [0xA7A8]); (0xA7B5, [0xA7B4]); (0xA7B7, [0xA7B6]); (0xA7B9, [0xA7B8]);
  (0xA7BB, [0xA7BA]); (0xA7BD, [0xA7BC]); (0xA7BF, [0xA7BE]); (0xA7C1, [0xA7C0]); (0xA7C3, [0xA7C2]);
  (0xA7C8, [0xA7C7]); (0xA7CA, [0xA7C9]); (0xA7D1, [0xA7D0]); (0xA7D7, [0xA7D6]); (0xA7D9, [0xA7D8]);
  (0xA7F6, [0xA7F5]); (0xAB53, [0xA7B3]); (0xAB70, [0x13A0]); (0xAB71, [0x13A1]); (0xAB72, [0x13A2]);
  (0xAB73, [0x13A3]); (0xAB74, [0x13A4]); (0xAB75, [0x13A5]); (0xAB76, [0x13A6]); (0xAB77, [0x13A7]);
  (0xAB78, [0x13A8]); (0xAB79, [0x13A9]); (0xAB7A, [0x13AA]); (0xAB7B, [0x13AB]); (0xAB7C, [0x13AC]);
  (0xAB7D, [0x13AD]); (0xAB7E, [0x13AE]); (0xAB7F, [0x13AF]); (0xAB80, [0x13B0]); (0xAB81, [0x13B1]);
  (0xAB82, [0x13B2]); (0xAB83, [0x13B3]); (0xAB84, [0x13B4]); (0xAB85, [0x13B5]); (0xAB86, [0x13B6]);
  (0xAB87, [0x13B7]); (0xAB88, [0x13B8]); (0xAB89, [0x13B9]); (0xAB8A, [0x13BA]); (0xAB8B, [0x13BB]);
  (0xAB8C, [0x13BC]); (0xAB8D, [0x13BD]); (0xAB8E, [0x13BE]); (0xAB8F, [0x13BF]); (0xAB90, [0x13C0]);
  (0xAB91, [0x13C1]); (0xAB92, [0x13C2]); (0xAB93, [0x13C3]); (0xAB94, [0x13C4]); (0xAB95, [0x13C5]);
  (0xAB96, [0x13C6]); (0xAB97, [0x13C7]); (0xAB98, [0x13C8]); (0xAB99, [0x13C9]); (0xAB9A, [0x13CA]);
  (0xAB9B, [0x13CB]); (0xAB9C, [0x13CC]); (0xAB9D, [0x13CD]); (0xAB9E, [0x13CE]); (0xAB9F, [0x13CF]);
  (0xABA0, [0x13D0]); (0xABA1, [0x13D1]); (0xABA2, [0x13D2]); (0xABA3, [0x13D3]); (0xABA4, [0x13D4])
 ]%N.

Definition upper_table_3 : list (N * list N) :=
 [
  (0xABA5, [0x13D5]); (0xABA6, [0x13D6]); (0xABA7, [0x13D7]); (0xABA8, [0x13D8]); (0xABA9, [0x13D9]);
  (0xABAA, [0x13DA]); (0xABAB, [0x13DB]); (0xABAC, [0x13DC]); (0xABAD, [0x13DD]); (0xABAE, [0x13DE]);
  (0xABAF, [0x13DF]); (0xABB0, [0x13E0]); (0xABB1, [0x13E1]); (0xABB2, [0x13E2]); (0xABB3, [0x13E3]);
  (0xABB4, [0x13E4]); (0xABB5, [0x13E5]); (0xABB6, [0x13E6]); (0xABB7, [0x13E7]); (0xABB8, [0x13E8]);
  (0xABB9, [0x13E9]); (0xABBA, [0x13EA]); (0xABBB, [0x13EB]); (0xABBC, [0x13EC]); (0xABBD, [0x13ED]);
  (0xABBE, [0x13EE]); (0xABBF, [0x13EF]); (0xFB00, [0x46; 0x46]); (0xFB01, [0x46; 0x49]); (0xFB02, [0x46; 0x4C]);
  (0xFB03, [0x46; 0x46; 0x49]); (0xFB04, [0x46; 0x46; 0x4C]); (0xFB05, [0x53; 0x54]); (0xFB06, [0x53; 0x54]); (0xFB13, [0x544; 0x546]);
  (0xFB14, [0x544; 0x535]); (0xFB15, [0x544; 0x53B]); (0xFB16, [0x54E; 0x546]); (0xFB17, [0x544; 0x53D]); (0xFF41, [0xFF21]);
  (0xFF42, [0xFF22]); (0xFF43, [0xFF23]); (0xFF44, [0xFF24]); (0xFF45, [0xFF25]); (0xFF46, [0xFF26]);
  (0xFF47, [0xFF27]); (0xFF48, [0xFF28]); (0xFF49, [0xFF29]); (0xFF4A, [0xFF2A]); (0xFF4B, [0xFF2B]);
  (0xFF4C, [0xFF2C]); (0xFF4D, [0xFF2D]); (0xFF4E, [0xFF2E]); (0xFF4F, [0xFF2F]); (0xFF50, [0xFF30]);
  (0xFF51, [0xFF31]); (0xFF52, [0xFF32]); (0xFF53, [0xFF33]); (0xFF54, [0xFF34]); (0xFF55, [0xFF35]);
  (0xFF56, [0xFF36]); (0xFF57, [0xFF37]); (0xFF58, [0xFF38]); (0xFF59, [0xFF39]); (0xFF5A, [0xFF3A]);
  (0x10428, [0x10400]); (0x10429, [0x10401]); (0x1042A, [0x10402]); (0x1042B, [0x10403]); (0x1042C, [0x10404]);
  (0x1042D, [0x10405]); (0x1042E, [0x10406]); (0x1042F, [0x10407]); (0x10430, [0x10408]); (0x10431, [0x10409]);
  (0x10432, [0x1040A]); (0x10433, [0x1040B]); (0x10434, [0x1040C]); (0x10435, [0x1040D]); (0x10436, [0x1040E]);
  (0x10437, [0x1040F]); (0x10438, [0x10410]); (0x10439, [0x10411]); (0x1043A, [0x10412]); (0x1043B, [0x10413]);
  (0x1043C, [0x10414]); (0x1043D, [0x10415]); (0x1043E, [0x10416]); (0x1043F, [0x10417]); (0x10440, [0x10418]);
  (0x10441, [0x10419]); (0x10442, [0x1041A]); (0x10443, [0x1041B]); (0x10444, [0x1041C]); (0x10445, [0x1041D]);
  (0x10446, [0x1041E]); (0x10447, [0x1041F]); (0x10448, [0x10420]); (0x10449, [0x10421]); (0x1044A, [0x10422]);
  (0x1044B, [0x10423]); (0x1044C, [0x10424]); (0x1044D, [0x10425]); (0x1044E, [0x10426]); (0x1044F, [0x10427]);
  (0x104D8, [0x104B0]); (0x104D9, [0x104B1]); (0x104DA, [0x104B2]); (0x104DB, [0x104B3]); (0x104DC, [0x104B4]);
  (0x104DD, [0x104B5]); (0x104DE, [0x104B6]); (0x104DF, [0x104B7]); (0x104E0, [0x104B8]); (0x104E1, [0x104B9]);
  (0x104E2, [0x104BA]); (0x104E3, [0x104BB]); (0x104E4, [0x104BC]); (0x104E5, [0x104BD]); (0x104E6, [0x104BE]);
  (0x104E7, [0x104BF]); (0x104E8, [0x104C0]); (0x104E9, [0x104C1]); (0x104EA, [0x104C2]); (0x104EB, [0x104C3]);
  (0x104EC, [0x104C4]); (0x104ED, [0x104C5]); (0x104EE, [0x104C6]); (0x104EF, [0x104C7]); (0x104F0, [0x104C8]);
  (0x104F1, [0x104C9]); (0x104F2, [0x104CA]); (0x104F3, [0x104CB]); (0x104F4, [0x104CC]); (0x104F5, [0x104CD]);
  (0x104F6, [0x104CE]); (0x104F7, [0x104CF]); (0x104F8, [0x104D0]); (0x104F9, [0x104D1]); (0x104FA, [0x104D2]);
  (0x104FB, [0x104D3]); (0x10597, [0x10570]); (0x10598, [0x10571]); (0x10599, [0x10572]); (0x1059A, [0x10573]);
  (0x1059B, [0x10574]); (0x1059C, [0x10575]); (0x1059D, [0x10576]); (0x1059E, [0x10577]); (0x1059F, [0x10578]);
  (0x105A0, [0x10579]); (0x105A1, [0x1057A]); (0x105A3, [0x1057C]); (0x105A4, [0x1057D]); (0x105A5, [0x1057E]);
  (0x105A6, [0x1057F]); (0x105A7, [0x10580]); (0x105A8, [0x10581]); (0x105A9, [0x10582]); (0x105AA, [0x10583]);
  (0x105AB, [0x10584]); (0x105AC, [0x10585]); (0x105AD, [0x10586]); (0x105AE, [0x10587]); (0x105AF, [0x10588]);
  (0x105B0, [0x10589]); (0x105B1, [0x1058A]); (0x105B3, [0x1058C]); (0x105B4, [0x1058D]); (0x105B5, [0x1058E]);
  (0x105B6, [0x1058F]); (0x105B7, [0x10590]); (0x105B8, [0x10591]); (0x105B9, [0x10592]); (0x105BB, [0x10594]);
  (0x105BC, [0x10595]); (0x10CC0, [0x10C80]); (0x10CC1, [0x10C81]); (0x10CC2, [0x10C82]); (0x10CC3, [0x10C83]);
  (0x10CC4, [0x10C84]); (0x10CC5, [0x10C85]); (0x10CC6, [0x10C86]); (0x10CC7, [0x10C87]); (0x10CC8, [0x10C88]);
  (0x10CC9, [0x10C89]); (0x10CCA, [0x10C8A]); (0x10CCB, [0x10C8B]); (0x10CCC, [0x10C8C]); (0x10CCD, [0x10C8D]);
  (0x10CCE, [0x10C8E]); (0x10CCF, [0x10C8F]); (0x10CD0, [0x10C90]); (0x10CD1, [0x10C91]); (0x10CD2, [0x10C92]);
  (0x10CD3, [0x10C93]); (0x10CD4, [0x10C94]); (0x10CD5, [0x10C95]); (0x10CD6, [0x10C96]); (0x10CD7, [0x10C97]);
  (0x10CD8, [0x10C98]); (0x10CD9, [0x10C99]); (0x10CDA, [0x10C9A]); (0x10CDB, [0x10C9B]); (0x10CDC, [0x10C9C]);
  (0x10CDD, [0x10C9D]); (0x10CDE, [0x10C9E]); (0x10CDF, [0x10C9F]); (0x10CE0, [0x10CA0]); (0x10CE1, [0x10CA1]);
  (0x10CE2, [0x10CA2]); (0x10CE3, [0x10CA3]); (0x10CE4, [0x10CA4]); (0x10CE5, [0x10CA5]); (0x10CE6, [0x10CA6]);
  (0x10CE7, [0x10CA7]); (0x10CE8, [0x10CA8]); (0x10CE9, [0x10CA9]); (0x10CEA, [0x10CAA]); (0x10CEB, [0x10CAB]);
  (0x10CEC, [0x10CAC]); (0x10CED, [0x10CAD]); (0x10CEE, [0x10CAE]); (0x10CEF, [0x10CAF]); (0x10CF0, [0x10CB0]);
  (0x10CF1, [0x10CB1]); (0x10CF2, [0x10CB2]); (0x118C0, [0x118A0]); (0x118C1, [0x118A1]); (0x118C2, [0x118A2]);
  (0x118C3, [0x118A3]); (0x118C4, [0x118A4]); (0x118C5, [0x118A5]); (0x118C6, [0x118A6]); (0x118C7, [0x118A7]);
  (0x118C8, [0x118A8]); (0x118C9, [0x118A9]); (0x118CA, [0x118AA]); (0x118CB, [0x118AB]); (0x118CC, [0x118AC]);
  (0x118CD, [0x118AD]); (0x118CE, [0x118AE]); (0x118CF, [0x118AF]); (0x118D0, [0x118B0]); (0x118D1, [0x118B1]);
  (0x118D2, [0x118B2]); (0x118D3, [0x118B3]); (0x118D4, [0x118B4]); (0x118D5, [0x118B5]); (0x118D6, [0x118B6]);
  (0x118D7, [0x118B7]); (0x118D8, [0x118B8]); (0x118D9, [0x118B9]); (0x118DA, [0x118BA]); (0x118DB, [0x118BB]);
  (0x118DC, [0x118BC]); (0x118DD, [0x118BD]); (0x118DE, [0x118BE]); (0x118DF, [0x118BF]); (0x16E60, [0x16E40]);
  (0x16E61, [0x16E41]); (0x16E62, [0x16E42]); (0x16E63, [0x16E43]); (0x16E64, [0x16E44]); (0x16E65, [0x16E45]);
  (0x16E66, [0x16E46]); (0x16E67, [0x16E47]); (0x16E68, [0x16E48]); (0x16E69, [0x16E49]); (0x16E6A, [0x16E4A]);
  (0x16E6B, [0x16E4B]); (0x16E6C, [0x16E4C]); (0x16E6D, [0x16E4D]); (0x16E6E, [0x16E4E]); (0x16E6F, [0x16E4F]);
  (0x16E70, [0x16E50]); (0x16E71, [0x16E51]); (0x16E72, [0x16E52]); (0x16E73, [0x16E53]); (0x16E74, [0x16E54]);
  (0x16E75, [0x16E55]); (0x16E76, [0x16E56]); (0x16E77, [0x16E57]); (0x16E78, [0x16E58]); (0x16E79, [0x16E59]);
  (0x16E7A, [0x16E5A]); (0x16E7B, [0x16E5B]); (0x16E7C, [0x16E5C]); (0x16E7D, [0x16E5D]); (0x16E7E, [0x16E5E]);
  (0x16E7F, [0x16E5F]); (0x1E922, [0x1E900]); (0x1E923, [0x1E901]); (0x1E924, [0x1E902]); (0x1E925, [0x1E903]);
  (0x1E926, [0x1E904]); (0x1E927, [0x1E905]); (0x1E928, [0x1E906]); (0x1E929, [0x1E907]); (0x1E92A, [0x1E908]);
  (0x1E92B, [0x1E909]); (0x1E92C, [0x1E90A]); (0x1E92D, [0x1E90B]); (0x1E92E, [0x1E90C]); (0x1E92F, [0x1E90D]);
  (0x1E930, [0x1E90E]); (0x1E931, [0x1E90F]); (0x1E932, [0x1E910]); (0x1E933, [0x1E911]); (0x1E934, [0x1E912]);
  (0x1E935, [0x1E913]); (0x1E936, [0x1E914]); (0x1E937, [0x1E915]); (0x1E938, [0x1E916]); (0x1E939, [0x1E917]);
  (0x1E93A, [0x1E918]); (0x1E93B, [0x1E919]); (0x1E93C, [0x1E91A]); (0x1E93D, [0x1E91B]); (0x1E93E, [0x1E91C]);
  (0x1E93F, [0x1E91D]); (0x1E940, [0x1E91E]); (0x1E941, [0x1E91F]); (0x1E942, [0x1E920]); (0x1E943, [0x1E921])
 ]%N.

Definition upper_table : list (N * list N) :=
  upper_table_0 ++ upper_table_1 ++ upper_table_2 ++ upper_table_3.

(** [space_table]: the code points for which [str.isspace] holds; [str.strip]
    and the [re] class [\s] use the same set. *)

Definition space_table_0 : list N :=
 [
  0x9; 0xA; 0xB; 0xC; 0xD; 0x1C; 0x1D; 0x1E; 0x1F; 0x20; 0x85; 0xA0;
  0x1680; 0x2000; 0x2001; 0x2002; 0x2003; 0x2004; 0x2005; 0x2006; 0x2007; 0x2008; 0x2009; 0x200A;
  0x2028; 0x2029; 0x202F; 0x205F; 0x3000
 ]%N.

Definition space_table : list N :=
  space_table_0.

(** [decimal_zero_table]: the digit zero of every run of ten decimal digits
    (general category [Nd]); the [re] class [\d], [int] and [float] accept
    exactly these digits. *)

Definition decimal_zero_table_0 : list N :=
 [
  0x30; 0x660; 0x6F0; 0x7C0; 0x966; 0x9E6; 0xA66; 0xAE6; 0xB66; 0xBE6;
  0xC66; 0xCE6; 0xD66; 0xDE6; 0xE50; 0xED0; 0xF20; 0x1040; 0x1090; 0x17E0;
  0x1810; 0x1946; 0x19D0; 0x1A80; 0x1A90; 0x1B50; 0x1BB0; 0x1C40; 0x1C50; 0xA620;
  0xA8D0; 0xA900; 0xA9D0; 0xA9F0; 0xAA50; 0xABF0; 0xFF10; 0x104A0; 0x10D30; 0x11066;
  0x110F0; 0x11136; 0x111D0; 0x112F0; 0x11450; 0x114D0; 0x11650; 0x116C0; 0x11730; 0x118E0;
  0x11950; 0x11C50; 0x11D50; 0x11DA0; 0x16A60; 0x16AC0; 0x16B50; 0x1D7CE; 0x1D7D8; 0x1D7E2;
  0x1D7EC; 0x1D7F6; 0x1E140; 0x1E2F0; 0x1E950; 0x1FBF0
 ]%N.

Definition decimal_zero_table : list N :=
  decimal_zero_table_0.

(** [digit_table]: ranges of the code points for which [str.isdigit] holds
    (decimal digits and the other characters of numeric type digit, such as
    superscripts). *)

Definition digit_table_0 : list (N * N) :=
 [
  (0x30, 0x39); (0xB2, 0xB3); (0xB9, 0xB9); (0x660, 0x669); (0x6F0, 0x6F9); (0x7C0, 0x7C9);
  (0x966, 0x96F); (0x9E6, 0x9EF); (0xA66, 0xA6F); (0xAE6, 0xAEF); (0xB66, 0xB6F); (0xBE6, 0xBEF);
  (0xC66, 0xC6F); (0xCE6, 0xCEF); (0xD66, 0xD6F); (0xDE6, 0xDEF); (0xE50, 0xE59); (0xED0, 0xED9);
  (0xF20, 0xF29); (0x1040, 0x1049); (0x1090, 0x1099); (0x1369, 0x1371); (0x17E0, 0x17E9); (0x1810, 0x1819);
  (0x1946, 0x194F); (0x19D0, 0x19DA); (0x1A80, 0x1A89); (0x1A90, 0x1A99); (0x1B50, 0x1B59); (0x1BB0, 0x1BB9);
  (0x1C40, 0x1C49); (0x1C50, 0x1C59); (0x2070, 0x2070); (0x2074, 0x2079); (0x2080, 0x2089); (0x2460, 0x2468);
  (0x2474, 0x247C); (0x2488, 0x2490); (0x24EA, 0x24EA); (0x24F5, 0x24FD); (0x24FF, 0x24FF); (0x2776, 0x277E);
  (0x2780, 0x2788); (0x278A, 0x2792); (0xA620, 0xA629); (0xA8D0, 0xA8D9); (0xA900, 0xA909); (0xA9D0, 0xA9D9);
  (0xA9F0, 0xA9F9); (0xAA50, 0xAA59); (0xABF0, 0xABF9); (0xFF10, 0xFF19); (0x104A0, 0x104A9); (0x10A40, 0x10A43);
  (0x10D30, 0x10D39); (0x10E60, 0x10E68); (0x11052, 0x1105A); (0x11066, 0x1106F); (0x110F0, 0x110F9); (0x11136, 0x1113F);
  (0x111D0, 0x111D9); (0x112F0, 0x112F9); (0x11450, 0x11459); (0x114D0, 0x114D9); (0x11650, 0x11659); (0x116C0, 0x116C9);
  (0x11730, 0x11739); (0x118E0, 0x118E9); (0x11950, 0x11959); (0x11C50, 0x11C59); (0x11D50, 0x11D59); (0x11DA0, 0x11DA9);
  (0x16A60, 0x16A69); (0x16AC0, 0x16AC9); (0x16B50, 0x16B59); (0x1D7CE, 0x1D7FF); (0x1E140, 0x1E149); (0x1E2F0, 0x1E2F9);
  (0x1E950, 0x1E959); (0x1F100, 0x1F10A); (0x1FBF0, 0x1FBF9)
 ]%N.

Definition digit_table : list (N * N) :=
  digit_table_0.


(** *** Indexed tables *)

Definition key (c : N) : positive := N.succ_pos c.

Definition table_add {A} (m : PositiveMap.t A) (kv : N * A) : PositiveMap.t A :=
  PositiveMap.add (key (fst kv)) (snd kv) m.

Definition map_of_list {A} (l : list (N * A)) : PositiveMap.t A :=
  fold_left table_add l (PositiveMap.empty A).

Fixpoint range_from (lo : N) (n : nat) : list N :=
  match n with
  | O => []
  | S k => lo :: range_from (N.succ lo) k
  end.

Definition expand_range {A} (e : N * N * A) : list (N * A) :=
  let '(lo, hi, v) := e in
  map (fun c => (c, v)) (range_from lo (N.to_nat (hi + 1 - lo))).

Definition ccc_entries : list (N * N) := flat_map expand_range ccc_table.
Definition Mn_entries : list (N * unit) :=
  flat_map (fun e => expand_range (fst e, snd e, tt)) Mn_table.
Definition space_entries : list (N * unit) := map (fun c => (c, tt)) space_table.
Definition decimal_entries : list (N * N) :=
  flat_map (fun z => map (fun d => (z + d, d)) (range_from 0 10)) decimal_zero_table.
Definition digit_entries : list (N * unit) :=
  flat_map (fun e => expand_range (fst e, snd e, tt)) digit_table.

Definition canon_map : PositiveMap.t (list N) := Eval vm_compute in map_of_list canon_table.
Definition compat_map : PositiveMap.t (list N) := Eval vm_compute in map_of_list compat_table.
Definition upper_map : PositiveMap.t (list N) := Eval vm_compute in map_of_list upper_table.
Definition ccc_map : PositiveMap.t N := Eval vm_compute in map_of_list ccc_entries.
Definition Mn_map : PositiveMap.t unit := Eval vm_compute in map_of_list Mn_entries.
Definition space_map : PositiveMap.t unit := Eval vm_compute in map_of_list space_entries.
Definition decimal_map : PositiveMap.t N := Eval vm_compute in map_of_list decimal_entries.
Definition digit_map : PositiveMap.t unit := Eval vm_compute in map_of_list digit_entries.

Definition find {A} (m : PositiveMap.t A) (c : N) : option A :=
  PositiveMap.find (key c) m.

Definition mem {A} (m : PositiveMap.t A) (c : N) : bool :=
  match find m c with Some _ => true | None => false end.

(** *** Hangul syllables (decomposed by the arithmetic of the standard) *)

Definition SBase : N := 0xAC00.
Definition LBase : N := 0x1100.
Definition VBase : N := 0x1161.
Definition TBase : N := 0x11A7.
Definition TCount : N := 28.
Definition NCount : N := 588.
Definition SCount : N := 11172.

Definition is_hangul_syllable (c : N) : bool :=
  (SBase <=? c) && (c <? SBase + SCount).

Definition hangul_decompose (c : N) : list N :=
  let si := c - SBase in
  let l := LBase + si / NCount in
  let v := VBase + (si mod NCount) / TCount in
  let t := si mod TCount in
  if t =? 0 then [l; v] else [l; v; TBase + t].

(** *** Character properties *)

(** The full canonical decomposition of one code point. *)
Definition canon (c : N) : list N :=
  if is_hangul_syllable c then hangul_decompose c
  else match find canon_map c with
       | Some l => l
       | None => [c]
       end.

(** The full compatibility decomposition of one code point. *)
Definition compat (c : N) : list N :=
  match find compat_map c with
  | Some l => l
  | None => canon c
  end.

(** [unicodedata.combining]: the canonical combining class. *)
Definition combining (c : N) : N :=
  match find ccc_map c with
  | Some k => k
  | None => 0
  end.

(** [unicodedata.category(c) == "Mn"]. *)
Definition is_Mn (c : N) : bool := mem Mn_map c.

(** The upper-case mapping of one code point ([str.upper] maps each
    character on its own, possibly to several). *)
Definition toupper (c : N) : list N :=
  match find upper_map c with
  | Some l => l
  | None => [c]
  end.

Definition isspace (c : N) : bool := mem space_map c.

(** The value of a decimal digit, [None] for any other character. *)
Definition decimal (c : N) : option N := find decimal_map c.

Definition isdecimal (c : N) : bool := mem decimal_map c.

Definition isdigit (c : N) : bool := mem digit_map c.

End UCD.

(** ** Python strings *)

(** A [str] is a sequence of code points. *)
Definition pystr : Type := list N.

(** String literals of this file are written in UTF-8 and decoded to code
    points, as the interpreter does with the literals of a source file. *)
Fixpoint utf8_decode (s : string) (need : nat) (acc : N) : pystr :=
  match s with
  | EmptyString => []
  | String a rest =>
      let b := N_of_ascii a in
      match need with
      | O =>
          if b <? 0x80 then b :: utf8_decode rest 0 0
          else if b <? 0xE0 then utf8_decode rest 1 (N.land b 0x1F)
          else if b <? 0xF0 then utf8_decode rest 2 (N.land b 0x0F)
          else utf8_decode rest 3 (N.land b 0x07)
      | S O => (acc * 64 + N.land b 0x3F) :: utf8_decode rest 0 0
      | S k => utf8_decode rest k (acc * 64 + N.land b 0x3F)
      end
  end.

Definition utf8 (s : string) : pystr := utf8_decode s 0 0.
Arguments utf8 s%_string.

Module Str.

(** [s.lstrip()], [s.rstrip()], [s.strip()] with the default character
    set (white space). *)
Fixpoint lstrip (s : pystr) : pystr :=
  match s with
  | c :: r => if UCD.isspace c then lstrip r else s
  | [] => []
  end.

Fixpoint rstrip (s : pystr) : pystr :=
  match s with
  | [] => []
  | c :: r =>
      match rstrip r with
      | [] => if UCD.isspace c then [] else [c]
      | r' => c :: r'
      end
  end.

Definition strip (s : pystr) : pystr := rstrip (lstrip s).

(** [s.upper()]. *)
Definition upper (s : pystr) : pystr := flat_map UCD.toupper s.

(** [s.replace(a, b)] for a one-character [a] and a one-character [b]. *)
Definition replace_char (a b : N) (s : pystr) : pystr :=
  map (fun c => if c =? a then b else c) s.

(** [s.replace(a, "")] for a one-character [a]. *)
Definition remove_char (a : N) (s : pystr) : pystr :=
  List.filter (fun c => negb (c =? a)) s.

Fixpoint eqb (s t : pystr) : bool :=
  match s, t with
  | [], [] => true
  | a :: s', b :: t' => (a =? b) && eqb s' t'
  | _, _ => false
  end.

Fixpoint startswith (p s : pystr) : bool :=
  match p, s with
  | [], _ => true
  | a :: p', b :: s' => (a =? b) && startswith p' s'
  | _ :: _, [] => false
  end.

(** [p in s]: [p] occurs in [s] as a contiguous substring. *)
Fixpoint contains (p s : pystr) : bool :=
  startswith p s ||
  match s with
  | [] => false
  | _ :: s' => contains p s'
  end.

(** [re.sub(r'\s+', ' ', s)]: every maximal run of white space becomes one
    space.  [in_run] tells that the previous character was white space. *)
Fixpoint sub_ws_from (in_run : bool) (s : pystr) : pystr :=
  match s with
  | [] => []
  | c :: r =>
      if UCD.isspace c
      then (if in_run then sub_ws_from true r else 0x20 :: sub_ws_from true r)
      else c :: sub_ws_from false r
  end.

Definition sub_ws (s : pystr) : pystr := sub_ws_from false s.

(** The leading run of decimal digits of [s] and what follows it. *)
Fixpoint span_decimal (s : pystr) : pystr * pystr :=
  match s with
  | c :: r =>
      if UCD.isdecimal c
      then let '(d, rest) := span_decimal r in (c :: d, rest)
      else ([], s)
  | [] => ([], [])
  end.

(** [re.search(r'(\d+)', s)]: the leftmost, longest run of decimal digits;
    [None] when [s] holds no digit. *)
Fixpoint search_digits (s : pystr) : option pystr :=
  match s with
  | c :: r => if UCD.isdecimal c then Some (fst (span_decimal s)) else search_digits r
  | [] => None
  end.

(** [s.isdigit()]. *)
Definition isdigit (s : pystr) : bool :=
  match s with
  | [] => false
  | _ => forallb UCD.isdigit s
  end.

(** *** Unicode normalization ([unicodedata.normalize]) *)

(** Canonical ordering, as the interpreter performs it: every character of
    non-zero combining class is moved left past the marks of a greater
    class that precede it, never across a character of class zero.
    [racc] is the part already ordered, last character first. *)
Fixpoint insert_mark (c : N) (racc : pystr) : pystr :=
  match racc with
  | p :: rest =>
      if (UCD.combining p =? 0) || (UCD.combining p <=? UCD.combining c)
      then c :: racc
      else p :: insert_mark c rest
  | [] => [c]
  end.

Definition order_step (racc : pystr) (c : N) : pystr :=
  if UCD.combining c =? 0 then c :: racc else insert_mark c racc.

Definition canonical_order (s : pystr) : pystr :=
  rev (fold_left order_step s []).

Definition nfd (s : pystr) : pystr := canonical_order (flat_map UCD.canon s).

Definition nfkd (s : pystr) : pystr := canonical_order (flat_map UCD.compat s).

End Str.

(** ** Python numbers *)

Module Num.

Local Open Scope Z_scope.

(** *** Integers *)

(** The value of a string of decimal digits read left to right; [None] as
    soon as a character is not a decimal digit. *)
Fixpoint digits_value (acc : Z) (s : pystr) : option Z :=
  match s with
  | [] => Some acc
  | c :: r =>
      match UCD.decimal c with
      | Some d => digits_value (10 * acc + Z.of_N d) r
      | None => None
      end
  end.

(** The interpreter's limit on the length of a decimal string converted to
    an integer ([sys.get_int_max_str_digits()], 4300 by default). *)
Definition int_max_str_digits : nat := 4300.

(** [int(s)] for a string [s] of digit characters (the scripts call it only
    after [s.isdigit()] or on a match of [\d+]): a [ValueError] ([None])
    when the string is empty, longer than the limit, or holds a digit
    character that is not a decimal digit. *)
Definition int_of_digits (s : pystr) : option Z :=
  match s with
  | [] => None
  | _ => if (int_max_str_digits <? length s)%nat then None else digits_value 0 s
  end.

(** [str(z)] for an integer [z]. *)
Fixpoint uint_codes (d : Decimal.uint) : pystr :=
  match d with
  | Decimal.Nil => []
  | Decimal.D0 r => 48%N :: uint_codes r
  | Decimal.D1 r => 49%N :: uint_codes r
  | Decimal.D2 r => 50%N :: uint_codes r
  | Decimal.D3 r => 51%N :: uint_codes r
  | Decimal.D4 r => 52%N :: uint_codes r
  | Decimal.D5 r => 53%N :: uint_codes r
  | Decimal.D6 r => 54%N :: uint_codes r
  | Decimal.D7 r => 55%N :: uint_codes r
  | Decimal.D8 r => 56%N :: uint_codes r
  | Decimal.D9 r => 57%N :: uint_codes r
  end.

Definition str_of_N (n : N) : pystr := uint_codes (N.to_uint n).

Definition str_of_Z (z : Z) : pystr :=
  match z with
  | Zneg p => 45%N :: str_of_N (Npos p)
  | _ => str_of_N (Z.to_N z)
  end.

(** *** Floating-point numbers (IEEE 754 binary64) *)

Definition prec : Z := 53.
Definition emax : Z := 1024.

(** The binary64 value nearest to [m * 10 ^ e10] (ties to even), which is
    what [float] computes for a decimal numeral. *)
Definition float_of_decimal (neg : bool) (m : Z) (e10 : Z) : spec_float :=
  match m with
  | Zpos p =>
      if 0 <=? e10
      then binary_round prec emax neg (Z.to_pos (Zpos p * 10 ^ e10)) 0
      else SFdiv prec emax (S754_finite neg p 0)
                           (S754_finite false (Z.to_pos (10 ^ (- e10))) 0)
  | _ => S754_zero neg
  end.

(** [x.is_integer()]. *)
Definition is_integer (x : spec_float) : bool :=
  match x with
  | S754_zero _ => true
  | S754_finite _ m e => (0 <=? e) || (Zpos m mod 2 ^ (- e) =? 0)
  | _ => false
  end.

(** [int(x)] for a float [x] with [x.is_integer()]. *)
Definition int_of_float (x : spec_float) : Z :=
  match x with
  | S754_finite s m e =>
      let v := if 0 <=? e then Zpos m * 2 ^ e else Zpos m / 2 ^ (- e) in
      if s then - v else v
  | _ => 0
  end.

(** *** [repr] of a float: the shortest decimal numeral that reads back as
    the same float and, among those, the nearest to it *)

(** The number of decimal digits of a positive integer ([fuel] bounds the
    count). *)
Fixpoint decimal_length (fuel : nat) (n : Z) : Z :=
  match fuel with
  | O => 0
  | S k => if n <? 10 then 1 else 1 + decimal_length k (n / 10)
  end.

(** The number of zeros that follow the decimal point of [p / q < 1]. *)
Fixpoint leading_zeros (fuel : nat) (p q : Z) : Z :=
  match fuel with
  | O => 0
  | S k => if q <=? 10 * p then 0 else 1 + leading_zeros k (10 * p) q
  end.

(** The decimal exponent [k] of [x = p / q > 0]: [10 ^ (k - 1) <= x < 10 ^ k]. *)
Definition decimal_point (p q : Z) : Z :=
  if q <=? p then decimal_length 400 (p / q) else - leading_zeros 400 p q.

(** The [n]-digit candidates around [x = p / q], whose decimal exponent is
    [k]: the two neighbours [lo] and [lo + 1] of [x * 10 ^ (n - k)]; the
    result is the one that reads back as [x]; when both do, the nearer, and
    the even one on a tie. *)
Definition candidate (x : spec_float) (p q k n : Z) : option Z :=
  let num := if 0 <=? n - k then p * 10 ^ (n - k) else p in
  let den := if 0 <=? n - k then q else q * 10 ^ (k - n) in
  let lo := num / den in
  let hi := lo + 1 in
  let back c := SFeqb (float_of_decimal false c (k - n)) x in
  match back lo && (0 <? lo), back hi with
  | true, true =>
      match 2 * num ?= (2 * lo + 1) * den with
      | Lt => Some lo
      | Gt => Some hi
      | Eq => if Z.even lo then Some lo else Some hi
      end
  | true, false => Some lo
  | false, true => Some hi
  | false, false => None
  end.

Fixpoint shortest_from (fuel : nat) (x : spec_float) (p q k n : Z) : Z * Z :=
  match fuel with
  | O => (0, n)
  | S f =>
      match candidate x p q k n with
      | Some c => (c, n)
      | None => shortest_from f x p q k (n + 1)
      end
  end.

Fixpoint strip_zeros (fuel : nat) (c e : Z) : Z * Z :=
  match fuel with
  | O => (c, e)
  | S f => if (c mod 10 =? 0) && negb (c =? 0) then strip_zeros f (c / 10) (e + 1) else (c, e)
  end.

(** The digits [c] of the shortest numeral of the positive float
    [m * 2 ^ e], and the position [decpt] of its decimal point:
    the numeral is [0.c * 10 ^ decpt]. *)
Definition shortest_digits (m : positive) (e : Z) : pystr * Z :=
  let p := if 0 <=? e then Zpos m * 2 ^ e else Zpos m in
  let q := if 0 <=? e then 1 else 2 ^ (- e) in
  let k := decimal_point p q in
  let '(c, n) := shortest_from 17 (S754_finite false m e) p q k 1 in
  let '(c', e10) := strip_zeros 20 c (k - n) in
  let ds := str_of_Z c' in
  (ds, e10 + Z.of_nat (length ds)).

Definition zeros (n : Z) : pystr := repeat 48%N (Z.to_nat n).

(** The layout of [repr]: positional notation when the decimal point lies
    in [(-4, 16]], scientific notation otherwise. *)
Definition format_digits (ds : pystr) (decpt : Z) : pystr :=
  let n := Z.of_nat (length ds) in
  if (-4 <? decpt) && (decpt <=? 16) then
    if decpt <=? 0 then [48%N; 46%N] ++ zeros (- decpt) ++ ds
    else if n <=? decpt then ds ++ zeros (decpt - n) ++ [46%N; 48%N]
    else firstn (Z.to_nat decpt) ds ++ [46%N] ++ skipn (Z.to_nat decpt) ds
  else
    let ex := decpt - 1 in
    let mant :=
      match ds with
      | d :: ((_ :: _) as r) => d :: 46%N :: r
      | _ => ds
      end in
    let exs := str_of_Z (Z.abs ex) in
    mant ++ [101%N; (if ex <? 0 then 45%N else 43%N)]
         ++ (if Z.abs ex <? 10 then [48%N] else []) ++ exs.

(** [repr(x)], which is also [str(x)], for a float [x]. *)
Definition float_repr (x : spec_float) : pystr :=
  match x with
  | S754_nan => utf8 "nan"
  | S754_infinity s => if s then utf8 "-inf" else utf8 "inf"
  | S754_zero s => if s then utf8 "-0.0" else utf8 "0.0"
  | S754_finite s m e =>
      let '(ds, decpt) := shortest_digits m e in
      (if s then [45%N] else []) ++ format_digits ds decpt
  end.

End Num.

(** ** Python values and data frames *)

(** The values a spreadsheet cell, a column label or an argument of the
    scripts can hold.  The float [S754_nan] is the missing-value marker
    [NaN] of the table reader; a date is carried by its text. *)
Inductive pyval : Type :=
| VNone
| VBool (b : bool)
| VInt (z : Z)
| VFloat (x : spec_float)
| VStr (s : pystr)
| VDate (text : pystr).

(** [pd.isna(v)]. *)
Definition isna (v : pyval) : bool :=
  match v with
  | VNone => true
  | VFloat S754_nan => true
  | _ => false
  end.

(** [str(v)]. *)
Definition py_str (v : pyval) : pystr :=
  match v with
  | VNone => utf8 "None"
  | VBool b => if b then utf8 "True" else utf8 "False"
  | VInt z => Num.str_of_Z z
  | VFloat x => Num.float_repr x
  | VStr s => s
  | VDate t => t
  end.

Definition float_eqb (x y : spec_float) : bool :=
  match x, y with
  | S754_zero s, S754_zero s' => Bool.eqb s s'
  | S754_infinity s, S754_infinity s' => Bool.eqb s s'
  | S754_nan, S754_nan => true
  | S754_finite s m e, S754_finite s' m' e' => Bool.eqb s s' && Pos.eqb m m' && Z.eqb e e'
  | _, _ => false
  end.

(** Identity of labels: two column labels are the same label. *)
Definition pyval_eqb (v w : pyval) : bool :=
  match v, w with
  | VNone, VNone => true
  | VBool a, VBool b => Bool.eqb a b
  | VInt a, VInt b => Z.eqb a b
  | VFloat a, VFloat b => float_eqb a b
  | VStr a, VStr b => Str.eqb a b
  | VDate a, VDate b => Str.eqb a b
  | _, _ => false
  end.

(** A sequence index as Python resolves it: [-n .. -1] count from the end;
    [None] is an [IndexError]. *)
Definition py_index (n : nat) (i : Z) : option nat :=
  let len := Z.of_nat n in
  if (0 <=? i)%Z && (i <? len)%Z then Some (Z.to_nat i)
  else if (- len <=? i)%Z && (i <? 0)%Z then Some (Z.to_nat (len + i))
  else None.

(** A sheet loaded without header: its cells by zero-based row and column.
    [ncols] is [df.shape[1]]; a row shorter than [ncols] is padded with
    missing values, as the reader does. *)
Record DataFrame : Type := mkDataFrame {
  ncols : nat;
  cells : list (list pyval)
}.

Definition nrows (df : DataFrame) : nat := length (cells df).

Definition NaN : pyval := VFloat S754_nan.

(** The cell at resolved positions [r], [c]. *)
Definition cell_at (df : DataFrame) (r c : nat) : pyval :=
  if (c <? ncols df)%nat then nth c (nth r (cells df) []) NaN else NaN.

(** [df.iat[r, c]]; [None] is the [IndexError] of a position outside the
    frame. *)
Definition iat (df : DataFrame) (r c : Z) : option pyval :=
  match py_index (nrows df) r, py_index (ncols df) c with
  | Some i, Some j => Some (cell_at df i j)
  | _, _ => None
  end.

(** ** The canonical record *)

(** One row of the canonical table.  Every field is a Python value, since
    each of them can be missing on some extraction path. *)
Record Rec : Type := mkRec {
  province : pyval;
  district : pyval;
  year : pyval;
  month : pyval;
  den1 : pyval;
  den2 : pyval;
  den3 : pyval;
  den4 : pyval;
  total_test : pyval
}.

(** ** Heuristic extraction ([edengue_import.py]) *)

Module EdengueImport.

(** [remove_diacritics_upper] on the text of its argument. *)
Definition remove_diacritics_upper_str (s : pystr) : pystr :=
  let s := Str.strip s in
  let s_norm := Str.nfkd s in
  let s_ascii := List.filter (fun ch => UCD.combining ch =? 0) s_norm in
  let s_ascii := Str.replace_char 0x111 0x64 (Str.replace_char 0x110 0x44 s_ascii) in
  Str.upper (Str.strip (Str.sub_ws s_ascii)).

Definition remove_diacritics_upper (s : pyval) : pyval :=
  if isna s then s else VStr (remove_diacritics_upper_str (py_str s)).

Definition default_bad_keywords : list pystr :=
  [utf8 "Địa"; utf8 "SỞ"; utf8 "BÁO"; utf8 "Ghi chú"; utf8 "TOÀN TỈNH";
   utf8 "Nơi nhận"; utf8 "Viện"; utf8 "Ngày"; utf8 "TC"].

(** The row [r] holds a cell that reads "TC" once converted to text,
    trimmed and upper-cased. *)
Definition is_tc_cell (v : pyval) : bool :=
  Str.eqb (Str.upper (Str.strip (py_str v))) (utf8 "TC").

Definition tc_row (df : DataFrame) (r : nat) : bool :=
  existsb (fun c => is_tc_cell (cell_at df r c)) (seq 0 (ncols df)).

Definition tc_indices (df : DataFrame) : list nat :=
  List.filter (tc_row df) (seq 0 (nrows df)).

(** [any(k.upper() in s.upper() for k in bad_keywords)]. *)
Definition has_bad_keyword (bad_keywords : list pystr) (s : pystr) : bool :=
  existsb (fun k => Str.contains (Str.upper k) (Str.upper s)) bad_keywords.

(** The body of the search loops at row [i] of column [col]: the trimmed
    text of the cell when it is a label, [None] when the loop continues. *)
Definition label_at (df : DataFrame) (bad_keywords : list pystr) (col i : nat)
  : option pystr :=
  let val := cell_at df i col in
  if isna val then None
  else
    let s := Str.strip (py_str val) in
    if Str.eqb s [] then None
    else if has_bad_keyword bad_keywords s then None
    else Some s.

(** [for i in range(n - 1, -1, -1)]: rows [n - 1] down to [0]. *)
Fixpoint search_up (df : DataFrame) (bad_keywords : list pystr) (col n : nat)
  : option pystr :=
  match n with
  | O => None
  | S i =>
      match label_at df bad_keywords col i with
      | Some s => Some s
      | None => search_up df bad_keywords col i
      end
  end.

(** The district label of the marker row [idx], before normalization. *)
Definition find_district (df : DataFrame) (bad_keywords : list pystr) (idx : nat)
  : pystr :=
  let maxcol := ncols df in
  let district := if (maxcol =? 0)%nat then None else search_up df bad_keywords 0 idx in
  let district :=
    match district with
    | Some s => Some s
    | None => if (1 <? maxcol)%nat then search_up df bad_keywords 1 idx else None
    end in
  match district with
  | Some s => s
  | None => utf8 "UNKNOWN"
  end.

(** A match of [-?\d+(\.\d+)?] against the whole of [t]: the sign, the
    digits before the point and the digits after it. *)
Definition numeral (t : pystr) : option (bool * pystr * pystr) :=
  let '(neg, t1) :=
    match t with
    | 0x2D :: r => (true, r)
    | _ => (false, t)
    end in
  let '(ip, t2) := Str.span_decimal t1 in
  match ip, t2 with
  | [], _ => None
  | _ :: _, [] => Some (neg, ip, [])
  | _ :: _, 0x2E :: t3 =>
      match Str.span_decimal t3 with
      | (c :: fp', []) => Some (neg, ip, c :: fp')
      | _ => None
      end
  | _, _ => None
  end.

(** [float(t)] for a text [t] that matches the pattern. *)
Definition float_of_numeral (n : bool * pystr * pystr) : spec_float :=
  let '(neg, ip, fp) := n in
  match Num.digits_value 0 (ip ++ fp) with
  | Some m => Num.float_of_decimal neg m (- Z.of_nat (length fp))
  | None => S754_nan
  end.

Definition safe_get (df : DataFrame) (r c : Z) : pyval :=
  match iat df r c with
  | None => VInt 0
  | Some v =>
      if isna v then VInt 0
      else
        match v with
        | VStr s =>
            let t := Str.remove_char 0x2C (Str.strip s) in
            match numeral t with
            | Some num =>
                let n := float_of_numeral num in
                if Num.is_integer n then VInt (Num.int_of_float n) else VFloat n
            | None => VInt 0
            end
        | _ => v
        end
  end.

Definition col_map_t : Type := (Z * Z * Z * Z * Z)%type.

Definition default_col_map : col_map_t := (3, 4, 5, 6, 7)%Z.

(** The record of the marker row [idx]. *)
Definition tc_record (df : DataFrame) (month_val : Z) (prov_name : pystr)
    (col_indices_map : col_map_t) (bad_keywords : list pystr) (idx : nat) : Rec :=
  let '(c0, c1, c2, c3, c4) := col_indices_map in
  let district := find_district df bad_keywords idx in
  let r := Z.of_nat idx in
  {| province := VStr prov_name;
     district := remove_diacritics_upper (VStr district);
     year := VInt 2025;
     month := VInt month_val;
     den1 := safe_get df r c0;
     den2 := safe_get df r c1;
     den3 := safe_get df r c2;
     den4 := safe_get df r c3;
     total_test := safe_get df r c4 |}.

Definition extract_tc_rows_from_sheet (df : DataFrame) (month_val : Z)
    (prov_name : pystr) (col_indices_map : col_map_t)
    (bad_keywords : option (list pystr)) : list Rec :=
  let bad_keywords :=
    match bad_keywords with
    | None => default_bad_keywords
    | Some l => l
    end in
  map (tc_record df month_val prov_name col_indices_map bad_keywords) (tc_indices df).

(** *** The workbook driver *)

(** [os.path.basename]. *)
Definition basename (path : pystr) : pystr :=
  fold_left (fun acc c => if c =? 0x2F then [] else acc ++ [c]) path [].

(** [s.replace(old, new)] for a non-empty [old]; [skip] counts the
    characters of a replaced occurrence still to pass. *)
Fixpoint replace_from (old new : pystr) (skip : nat) (s : pystr) : pystr :=
  match s with
  | [] => []
  | c :: r =>
      match skip with
      | S k => replace_from old new k r
      | O =>
          if Str.startswith old s
          then new ++ replace_from old new (length old - 1) r
          else c :: replace_from old new 0 r
      end
  end.

Definition replace (old new s : pystr) : pystr := replace_from old new 0 s.

(** A character matches a letter of "GSTX" when case is ignored. *)
Definition gstx_letters : list (list N) :=
  [[0x47; 0x67]; [0x53; 0x73; 0x17F]; [0x54; 0x74]; [0x58; 0x78]].

Fixpoint match_letters (ls : list (list N)) (s : pystr) : option pystr :=
  match ls, s with
  | [], _ => Some s
  | l :: ls', c :: r => if existsb (N.eqb c) l then match_letters ls' r else None
  | _ :: _, [] => None
  end.

Fixpoint span_line (s : pystr) : pystr :=
  match s with
  | c :: r => if c =? 0x0A then s else span_line r
  | [] => []
  end.

(** A match of [\s*GSTX.*$] (ignoring case) at the start of [s]: what is
    left of [s] after the match. *)
Definition gstx_match (s : pystr) : option pystr :=
  match match_letters gstx_letters (Str.lstrip s) with
  | Some rest =>
      match span_line rest with
      | [] => Some []
      | [nl] => Some [nl]
      | _ => None
      end
  | None => None
  end.

(** [re.sub(r'\s*GSTX.*$', '', s, flags=re.I)]. *)
Fixpoint sub_gstx (s : pystr) : pystr :=
  match gstx_match s with
  | Some tail => tail
  | None =>
      match s with
      | [] => []
      | c :: r => c :: sub_gstx r
      end
  end.

(** The province name written to the records. *)
Definition resolve_prov_name (input_path : pystr) (prov_name : option pystr) : pystr :=
  match prov_name with
  | None =>
      let p := basename input_path in
      let p := replace (utf8 ".xls") [] (replace (utf8 ".xlsm") [] (replace (utf8 ".xlsx") [] p)) in
      Str.upper (Str.strip (sub_gstx p))
  | Some p => Str.upper (Str.strip p)
  end.

(** A workbook: its sheets in order, each with its name. *)
Definition Workbook : Type := list (pystr * DataFrame).

(** The month of a sheet: [None] when the sheet is skipped, [Some None]
    when [int] raises. *)
Definition sheet_month (sheet : pystr) : option (option Z) :=
  match Str.search_digits sheet with
  | None => None
  | Some ds => Some (Num.int_of_digits ds)
  end.

(** The rows [process_file_to_edengue] collects from the sheets, in the
    order it writes them; [None] when a sheet name makes [int] raise. *)
Fixpoint collect_rows (sheets : Workbook) (prov_name : pystr)
    (month_min month_max : Z) (col_map : col_map_t) : option (list Rec) :=
  match sheets with
  | [] => Some []
  | (sheet, df) :: rest =>
      match sheet_month sheet with
      | None => collect_rows rest prov_name month_min month_max col_map
      | Some None => None
      | Some (Some month_val) =>
          if (month_val <? month_min)%Z || (month_max <? month_val)%Z
          then collect_rows rest prov_name month_min month_max col_map
          else
            let rows := extract_tc_rows_from_sheet df month_val prov_name col_map None in
            match collect_rows rest prov_name month_min month_max col_map with
            | Some more => Some (rows ++ more)
            | None => None
            end
      end
  end.

(** [process_file_to_edengue], up to the rows it collects ([all_rows]): the
    resolution of the province name and the loop over the sheets.  The table
    made of these rows and stored at [output_path], after the rows of an
    existing file when [append_to_existing] is set, is left out. *)
Definition process_file_to_edengue (xls : Workbook) (input_path : pystr)
    (prov_name : option pystr) (month_min month_max : Z) (col_map : col_map_t)
  : option (list Rec) :=
  collect_rows xls (resolve_prov_name input_path prov_name) month_min month_max col_map.

End EdengueImport.

(** ** Per-case aggregation ([cleaning_data/edengue_processing.py]) *)

(** A sheet loaded with its header row: the column labels and the rows,
    each row holding one value per column. *)
Record Table : Type := mkTable {
  columns : list pyval;
  body : list (list pyval)
}.

(** The position of the label [c] among the columns. *)
Fixpoint label_index (cols : list pyval) (c : pyval) : option nat :=
  match cols with
  | [] => None
  | l :: rest =>
      if pyval_eqb l c then Some O
      else option_map S (label_index rest c)
  end.

(** [row[c]] for the row [vals] of a table with the columns [cols];
    [None] when [c not in row]. *)
Definition row_get (cols : list pyval) (vals : list pyval) (c : pyval) : option pyval :=
  match label_index cols c with
  | Some j => Some (nth j vals NaN)
  | None => None
  end.

(** [df[c]]: the values of the column [c], one per row. *)
Definition get_column (df : Table) (c : pyval) : list pyval :=
  map (fun vals => match row_get (columns df) vals c with
                   | Some v => v
                   | None => NaN
                   end) (body df).

Fixpoint set_nth (j : nat) (v : pyval) (vals : list pyval) : list pyval :=
  match j, vals with
  | O, _ :: r => v :: r
  | O, [] => [v]
  | S k, x :: r => x :: set_nth k v r
  | S k, [] => NaN :: set_nth k v []
  end.

(** The rows with the value of position [j] replaced, row by row, by
    [values]. *)
Fixpoint assign_values (j : nat) (rows : list (list pyval)) (values : list pyval)
  : list (list pyval) :=
  match rows with
  | [] => []
  | row :: rest => set_nth j (hd NaN values) row :: assign_values j rest (tl values)
  end.

(** [df[c] = values]: the column [c] is overwritten when the table has
    it and appended otherwise. *)
Definition set_column (df : Table) (c : pyval) (values : list pyval) : Table :=
  match label_index (columns df) c with
  | Some j =>
      {| columns := columns df; body := assign_values j (body df) values |}
  | None =>
      {| columns := columns df ++ [c];
         body := assign_values (length (columns df)) (body df) values |}
  end.

(** A column label given by its text. *)
Definition lbl (s : string) : pyval := VStr (utf8 s).
Arguments lbl s%_string.

Module Processing.

(** [normalize] on the text of its argument. *)
Definition normalize_str (s : pystr) : pystr :=
  let s := Str.nfd s in
  let s := List.filter (fun c => negb (UCD.is_Mn c)) s in
  Str.strip (Str.upper s).

Definition normalize (text : pyval) : pyval :=
  if isna text then VNone else VStr (normalize_str (py_str text)).

(** [int(v)] for the tokens the resolver converts: an integer, or a string
    of digit characters; [None] is a [ValueError]. *)
Definition int_of_token (v : pyval) : option Z :=
  match v with
  | VInt z => Some z
  | VBool b => Some (Z.b2z b)
  | VStr s => Num.int_of_digits s
  | _ => None
  end.

(** [isinstance(v, int) or (isinstance(v, str) and v.isdigit())]. *)
Definition integer_like (v : pyval) : bool :=
  match v with
  | VInt _ | VBool _ => true
  | VStr s => Str.isdigit s
  | _ => false
  end.

(** The name matching of the resolver: the first column whose text is the
    token, else the first one whose upper-cased text contains the
    upper-cased token. *)
Definition match_by_name (cols : list pyval) (idx_or_name : pyval) : option pyval :=
  match idx_or_name with
  | VStr s =>
      match List.find (fun c => Str.eqb (py_str c) s) cols with
      | Some c => Some c
      | None =>
          let u := Str.upper s in
          List.find (fun c => Str.contains u (Str.upper (py_str c))) cols
      end
  | _ => None
  end.

Definition col_by_index_or_name (df : Table) (idx_or_name : pyval) : option pyval :=
  let cols := columns df in
  match idx_or_name with
  | VNone => None
  | _ =>
      if integer_like idx_or_name then
        match int_of_token idx_or_name with
        | Some idx =>
            if (idx <? Z.of_nat (length cols))%Z then
              match py_index (length cols) idx with
              | Some j => Some (nth j cols VNone)
              | None => match_by_name cols idx_or_name
              end
            else None
        | None => match_by_name cols idx_or_name
        end
      else match_by_name cols idx_or_name
  end.

Fixpoint detect_den_from_cols (cols_of_row : list pyval) (row : list pyval)
    (cols : list pyval) (den_token : pystr) : bool :=
  match cols with
  | [] => false
  | c :: rest =>
      match row_get cols_of_row row c with
      | None => detect_den_from_cols cols_of_row row rest den_token
      | Some val =>
          if isna val then detect_den_from_cols cols_of_row row rest den_token
          else
            let v := Str.upper (Str.remove_char 0x2D (py_str val)) in
            if Str.contains den_token v then true
            else detect_den_from_cols cols_of_row row rest den_token
      end
  end.

(** [f"DEN{d}"]. *)
Definition den_token (d : Z) : pystr := utf8 "DEN" ++ Num.str_of_Z d.

(** The truth value of a label in [if month_col:]. *)
Definition truthy (v : pyval) : bool :=
  match v with
  | VNone => false
  | VBool b => b
  | VInt z => negb (z =? 0)%Z
  | VFloat (S754_zero _) => false
  | VFloat _ => true
  | VStr s => negb (Str.eqb s [])
  | VDate _ => true
  end.

(** The resolution of the result columns; [None] is the [ValueError] of a
    token that names no column. *)
Fixpoint resolve_result_cols (df : Table) (tokens : list pyval) : option (list pyval) :=
  match tokens with
  | [] => Some []
  | t :: rest =>
      match col_by_index_or_name df t with
      | None => None
      | Some colname =>
          match resolve_result_cols df rest with
          | Some more => Some (colname :: more)
          | None => None
          end
      end
  end.

(** [s.split(sep)] for a one-character separator: the pieces between the
    separators, empty pieces included. *)
Fixpoint split_on (sep : N) (s : pystr) : list pystr :=
  match s with
  | [] => [[]]
  | c :: r =>
      if c =? sep then [] :: split_on sep r
      else
        match split_on sep r with
        | h :: t => (c :: h) :: t
        | [] => [[c]]
        end
  end.

(** The tokens of the result columns, from the argument of [process]:
    nothing ([None]), a list or tuple of tokens ([inl]), or any other
    value ([inr]), whose text is split on commas. *)
Definition result_tokens (result_cols_idx_or_name : option (list pyval + pyval))
  : list pyval :=
  match result_cols_idx_or_name with
  | None => []
  | Some (inl tokens) => tokens
  | Some (inr v) =>
      if truthy v
      then map VStr
             (List.filter (fun t => negb (Str.eqb t []))
                (map Str.strip (split_on 0x2C (py_str v))))
      else []
  end.

(** One pass of [for d in [1,2,3,4]]: the column [DENd] is assigned from
    the table as it stands. *)
Definition assign_den (result_cols : list pyval) (df : Table) (d : Z) : Table :=
  let flags :=
    match result_cols with
    | [] => map (fun _ => VBool false) (body df)
    | _ => map (fun row => VBool (detect_den_from_cols (columns df) row result_cols (den_token d)))
               (body df)
    end in
  set_column df (VStr (den_token d)) flags.

(** [df[result_cols].notna().any(axis=1).astype(int)]. *)
Definition any_result (df : Table) (result_cols : list pyval) : list pyval :=
  map (fun row =>
         VInt (Z.b2z (existsb (fun c => match row_get (columns df) row c with
                                        | Some v => negb (isna v)
                                        | None => false
                                        end) result_cols)))
      (body df).

(** The table once every derived column is assigned.  [dt_month] stands
    for the date parser, [pd.to_datetime(col, errors="coerce").dt.month];
    [None] is a [ValueError]. *)
Definition prepare (dt_month : list pyval -> list pyval) (df : Table) (year : Z)
    (province_idx_or_name district_idx_or_name month_idx_or_name : pyval)
    (tokens : list pyval) : option (Table * list pyval) :=
  let province_col := col_by_index_or_name df province_idx_or_name in
  let district_col := col_by_index_or_name df district_idx_or_name in
  let month_col := col_by_index_or_name df month_idx_or_name in
  match resolve_result_cols df tokens with
  | None => None
  | Some result_cols =>
      match province_col with
      | None => None
      | Some pc =>
          let df := set_column df (lbl "province") (map normalize (get_column df pc)) in
          let df :=
            match district_col with
            | Some dc => set_column df (lbl "district") (map normalize (get_column df dc))
            | None => set_column df (lbl "district") (map (fun _ => VNone) (body df))
            end in
          let df := set_column df (lbl "year") (map (fun _ => VInt year) (body df)) in
          let df :=
            match month_col with
            | Some mc =>
                if truthy mc
                then set_column df (lbl "month") (dt_month (get_column df mc))
                else set_column df (lbl "month") (map (fun _ => VNone) (body df))
            | None => set_column df (lbl "month") (map (fun _ => VNone) (body df))
            end in
          let df := fold_left (assign_den result_cols) [1; 2; 3; 4]%Z df in
          let df :=
            match result_cols with
            | [] => set_column df (lbl "TOTAL_TEST") (map (fun _ => VInt 0) (body df))
            | _ => set_column df (lbl "TOTAL_TEST") (any_result df result_cols)
            end in
          Some (df, result_cols)
      end
  end.

End Processing.

(** *** Grouping *)

Global Instance spec_float_eq_dec : EqDecision spec_float.
Proof. solve_decision. Defined.

Global Instance pyval_eq_dec : EqDecision pyval.
Proof. solve_decision. Defined.

Definition float_code (x : spec_float) : bool + bool + unit + bool * positive * Z :=
  match x with
  | S754_zero s => inl (inl (inl s))
  | S754_infinity s => inl (inl (inr s))
  | S754_nan => inl (inr tt)
  | S754_finite s m e => inr (s, m, e)
  end.

Definition float_decode (c : bool + bool + unit + bool * positive * Z) : spec_float :=
  match c with
  | inl (inl (inl s)) => S754_zero s
  | inl (inl (inr s)) => S754_infinity s
  | inl (inr _) => S754_nan
  | inr (s, m, e) => S754_finite s m e
  end.

Global Instance spec_float_countable : Countable spec_float.
Proof. apply (inj_countable' float_code float_decode). intros []; reflexivity. Defined.

Definition pyval_code (v : pyval) : unit + bool + Z + spec_float + pystr + pystr :=
  match v with
  | VNone => inl (inl (inl (inl (inl tt))))
  | VBool b => inl (inl (inl (inl (inr b))))
  | VInt z => inl (inl (inl (inr z)))
  | VFloat x => inl (inl (inr x))
  | VStr s => inl (inr s)
  | VDate t => inr t
  end.

Definition pyval_decode (c : unit + bool + Z + spec_float + pystr + pystr) : pyval :=
  match c with
  | inl (inl (inl (inl (inl _)))) => VNone
  | inl (inl (inl (inl (inr b)))) => VBool b
  | inl (inl (inl (inr z))) => VInt z
  | inl (inl (inr x)) => VFloat x
  | inl (inr s) => VStr s
  | inr t => VDate t
  end.

Global Instance pyval_countable : Countable pyval.
Proof. apply (inj_countable' pyval_code pyval_decode). intros []; reflexivity. Defined.

(** The sums of one group. *)
Record Totals : Type := mkTotals {
  No_DEN1 : Z;
  No_DEN2 : Z;
  No_DEN3 : Z;
  No_DEN4 : Z;
  Total_test : Z
}.

Definition totals_add (a b : Totals) : Totals :=
  {| No_DEN1 := No_DEN1 a + No_DEN1 b;
     No_DEN2 := No_DEN2 a + No_DEN2 b;
     No_DEN3 := No_DEN3 a + No_DEN3 b;
     No_DEN4 := No_DEN4 a + No_DEN4 b;
     Total_test := Total_test a + Total_test b |}.

Definition totals_zero : Totals := mkTotals 0 0 0 0 0.

Module Aggregator.

(** What a value of a summed column adds: a flag counts as 0 or 1. *)
Definition count_of (v : pyval) : Z :=
  match v with
  | VBool b => Z.b2z b
  | VInt z => z
  | _ => 0
  end.

(** A component of a group key: every missing value is the one null key. *)
Definition key_value (v : pyval) : pyval := if isna v then VNone else v.

Definition field (df : Table) (row : list pyval) (c : pyval) : pyval :=
  match row_get (columns df) row c with
  | Some v => v
  | None => NaN
  end.

Definition group_cols (df : Table) : list pyval :=
  [lbl "province"]
  ++ (if existsb (pyval_eqb (lbl "district")) (columns df)
         && existsb (fun v => negb (isna v)) (get_column df (lbl "district"))
      then [lbl "district"] else [])
  ++ [lbl "year"; lbl "month"].

Definition row_key (df : Table) (gcols : list pyval) (row : list pyval) : list pyval :=
  map (fun c => key_value (field df row c)) gcols.

Definition row_totals (df : Table) (row : list pyval) : Totals :=
  {| No_DEN1 := count_of (field df row (lbl "DEN1"));
     No_DEN2 := count_of (field df row (lbl "DEN2"));
     No_DEN3 := count_of (field df row (lbl "DEN3"));
     No_DEN4 := count_of (field df row (lbl "DEN4"));
     Total_test := count_of (field df row (lbl "TOTAL_TEST")) |}.

(** [groupby(keys, dropna=False)] followed by the sums: the grouped table
    as a finite map from the key of a group to its sums (the order in which
    the rows of the result are written is left out). *)
Definition add_to_group (m : gmap (list pyval) Totals) (kt : list pyval * Totals)
  : gmap (list pyval) Totals :=
  <[fst kt := totals_add (default totals_zero (m !! fst kt)) (snd kt)]> m.

Definition groupby_sum (rows : list (list pyval * Totals)) : gmap (list pyval) Totals :=
  fold_left add_to_group rows ∅.

Definition aggregate (df : Table) : gmap (list pyval) Totals :=
  let gcols := group_cols df in
  groupby_sum (map (fun row => (row_key df gcols row, row_totals df row)) (body df)).

End Aggregator.

(** [process], up to the table it writes. *)
Definition process (dt_month : list pyval -> list pyval) (df : Table) (year : Z)
    (province_idx_or_name district_idx_or_name month_idx_or_name : pyval)
    (tokens : list pyval) : option (gmap (list pyval) Totals) :=
  match Processing.prepare dt_month df year province_idx_or_name
          district_idx_or_name month_idx_or_name tokens with
  | Some (df', _) => Some (Aggregator.aggregate df')
  | None => None
  end.

(** ** Fixed-offset extraction ([cleaning_data/fill_edengue_from_dmoss.py]) *)

Module Dmoss.

(** [remove_diacritics_ascii] on a string. *)
Definition remove_diacritics_ascii_str (s : pystr) : pystr :=
  let s := Str.replace_char 0x111 0x64 (Str.replace_char 0x110 0x44 s) in
  let nfkd := Str.nfkd s in
  List.filter (fun c => UCD.combining c =? 0) nfkd.

Definition remove_diacritics_ascii (s : pyval) : pyval :=
  match s with
  | VStr t => VStr (remove_diacritics_ascii_str t)
  | _ => s
  end.

(** One entry of the list [read_dmoss_sheet] returns. *)
Record MonthRow : Type := mkMonthRow {
  Month : Z;
  m_den1 : pyval;
  m_den2 : pyval;
  m_den3 : pyval;
  m_den4 : pyval;
  m_total : pyval
}.

Definition get_cell (df : DataFrame) (col_idx : Z) (r : Z) : pyval :=
  match iat df r col_idx with
  | None => VNone
  | Some v =>
      if isna v then VNone
      else
        match v with
        | VFloat x => if Num.is_integer x then VInt (Num.int_of_float x) else v
        | _ => v
        end
  end.

Definition month_row (df : DataFrame) (d1_row d2_row d3_row d4_row total_row : Z)
    (months_col_start : Z) (i : nat) : MonthRow :=
  let col_idx := (months_col_start + Z.of_nat i)%Z in
  {| Month := Z.of_nat i + 1;
     m_den1 := get_cell df col_idx d1_row;
     m_den2 := get_cell df col_idx d2_row;
     m_den3 := get_cell df col_idx d3_row;
     m_den4 := get_cell df col_idx d4_row;
     m_total := get_cell df col_idx total_row |}.

(** [for i, month in enumerate(range(1, 13))]. *)
Definition read_dmoss_sheet (df : DataFrame) (d1_row d2_row d3_row d4_row total_row : Z)
    (months_col_start : Z) : list MonthRow :=
  map (month_row df d1_row d2_row d3_row d4_row total_row months_col_start) (seq 0 12).

(** [re.search(r'(20\d{2})', name)]: the first "20" followed by two decimal
    digits. *)
Fixpoint search_year (name : pystr) : option pystr :=
  match name with
  | 0x32 :: 0x30 :: a :: b :: _ =>
      if UCD.isdecimal a && UCD.isdecimal b then Some [0x32; 0x30; a; b]
      else match name with _ :: r => search_year r | [] => None end
  | _ :: r => search_year r
  | [] => None
  end.

Definition infer_year_from_filename (name : pystr) : pyval :=
  match search_year name with
  | Some g =>
      match Num.int_of_digits g with
      | Some y => VInt y
      | None => VNone
      end
  | None => VNone
  end.

Definition dmoss_record (province : pystr) (year : pyval) (m : MonthRow) : Rec :=
  {| province := VStr province;
     district := VStr [];
     year := year;
     month := VInt (Month m);
     den1 := m_den1 m;
     den2 := m_den2 m;
     den3 := m_den3 m;
     den4 := m_den4 m;
     total_test := m_total m |}.

(** The records of one sheet of a workbook named [file_name]. *)
Definition sheet_records (file_name : pystr) (year : option Z)
    (d1_row d2_row d3_row d4_row total_row months_col_start : Z)
    (sheet : pystr * DataFrame) : list Rec :=
  let '(sheet_name, df) := sheet in
  let province := Str.upper (remove_diacritics_ascii_str sheet_name) in
  let monthly := read_dmoss_sheet df d1_row d2_row d3_row d4_row total_row months_col_start in
  map (dmoss_record province
         (match year with
          | Some y => VInt y
          | None => infer_year_from_filename file_name
          end)) monthly.

(** [process_dmoss_file] on the sheets that could be read. *)
Definition process_dmoss_file (xls : list (pystr * DataFrame)) (file_name : pystr)
    (year : option Z) (d1_row d2_row d3_row d4_row total_row months_col_start : Z)
  : list Rec :=
  flat_map (sheet_records file_name year d1_row d2_row d3_row d4_row total_row
              months_col_start) xls.

End Dmoss.

(** ** Headers and cells without diacritics
    ([cleaning_data/convert_excel_nodiacritics.py]) *)

Module Convert.

(** [remove_diacritics] on the text of its argument. *)
Definition remove_diacritics_str (s : pystr) : pystr :=
  let nk := Str.nfkd s in
  List.filter (fun c => UCD.combining c =? 0) nk.

Definition remove_diacritics (text : pyval) : pyval :=
  if isna text then text else VStr (remove_diacritics_str (py_str text)).

(** [re.sub(r"\s+", "_", s)]: every maximal run of white space becomes one
    underscore. *)
Fixpoint sub_ws_underscore (in_run : bool) (s : pystr) : pystr :=
  match s with
  | [] => []
  | c :: r =>
      if UCD.isspace c
      then (if in_run then sub_ws_underscore true r else 0x5F :: sub_ws_underscore true r)
      else c :: sub_ws_underscore false r
  end.

(** The class [A-Za-z0-9_]. *)
Definition is_word (c : N) : bool :=
  ((0x41 <=? c) && (c <=? 0x5A)) || ((0x61 <=? c) && (c <=? 0x7A))
  || ((0x30 <=? c) && (c <=? 0x39)) || (c =? 0x5F).

Definition sanitize_header (col : pyval) : pystr :=
  let s := match col with
           | VNone => []
           | _ => py_str col
           end in
  let s := remove_diacritics_str s in
  let s := sub_ws_underscore false (Str.strip s) in
  let s := List.filter is_word s in
  let s := if Str.eqb s [] then utf8 "COL" else s in
  Str.upper s.

(** [f"{base}_{i}"]. *)
Definition numbered (base : pystr) (i : Z) : pystr :=
  base ++ 0x5F :: Num.str_of_Z i.

(** The loop [while c in seen: c = f"{base}_{i}"; i += 1].  Each turn
    tries a name it has not tried before, so the loop ends within as many
    turns as [seen] has names; [fuel] is that bound. *)
Fixpoint next_free (fuel : nat) (seen : list pystr) (base c : pystr) (i : Z) : pystr :=
  if existsb (Str.eqb c) seen then
    match fuel with
    | O => c
    | S f => next_free f seen base (numbered base i) (i + 1)
    end
  else c.

(** The loop over the headers; [seen] holds the names given so far. *)
Fixpoint uniq_from (seen : list pystr) (new_cols : list pystr) : list pystr :=
  match new_cols with
  | [] => []
  | c :: rest =>
      let c' := next_free (length seen) seen c c 1 in
      c' :: uniq_from (c' :: seen) rest
  end.

Definition unique_headers (columns : list pyval) : list pystr :=
  uniq_from [] (map sanitize_header columns).

End Convert.

(** ** Character classes used in the statements *)

Module Chars.

(** A starter: a character of canonical combining class zero. *)
Definition starter (c : N) : bool := UCD.combining c =? 0.

(** The character has no canonical decomposition. *)
Definition cstable (c : N) : bool :=
  negb (UCD.is_hangul_syllable c) && negb (UCD.mem UCD.canon_map c).

(** The character has no decomposition at all. *)
Definition kstable (c : N) : bool :=
  cstable c && negb (UCD.mem UCD.compat_map c).

(** The letters D with stroke, capital and small. *)
Definition is_D_stroke (c : N) : bool := (c =? 0x110) || (c =? 0x111).

(** What [remove_diacritics_upper] leaves before it upper-cases. *)
Definition plain (c : N) : bool :=
  kstable c && starter c && negb (is_D_stroke c).

(** A plain character that [str.upper] keeps. *)
Definition fixed (c : N) : bool :=
  plain c && negb (UCD.mem UCD.upper_map c).

(** What [normalize] leaves before it upper-cases, on an input whose
    marks are all non-spacing. *)
Definition nplain (c : N) : bool :=
  cstable c && starter c && negb (UCD.is_Mn c).

Definition nfixed (c : N) : bool :=
  nplain c && negb (UCD.mem UCD.upper_map c).

(** Not a non-spacing mark. *)
Definition not_Mn (c : N) : bool := negb (UCD.is_Mn c).

(** [s.replace('Đ','D').replace('đ','d')]. *)
Definition unstroke (s : pystr) : pystr :=
  Str.replace_char 0x111 0x64 (Str.replace_char 0x110 0x44 s).

(** Every character of the canonical decomposition of [s] that has a
    non-zero combining class is a non-spacing mark. *)
Definition marks_nonspacing (s : pystr) : bool :=
  forallb (fun c => starter c || UCD.is_Mn c) (flat_map UCD.canon s).

(** A character below U+1715, or from U+1BF4 to U+302D: the Latin, Greek
    and Cyrillic blocks among others, with every letter and every
    combining mark of Vietnamese. *)
Definition common_script (c : N) : bool :=
  (c <? 0x1715) || ((0x1BF4 <=? c) && (c <? 0x302E)).

(** The text is free of diacritics: it holds no combining mark and no
    character that decomposes. *)
Definition diacritic_free (s : pystr) : bool :=
  forallb (fun c => kstable c && starter c) s.

End Chars.

(** ** White space in a text *)

Module Space.

(** White space is normal in [s]: every white-space character is a plain
    space, and no two are adjacent.  [in_run] tells that the character
    before [s] was white space. *)
Fixpoint normal_from (in_run : bool) (s : pystr) : bool :=
  match s with
  | [] => true
  | c :: r =>
      if UCD.isspace c
      then (c =? 0x20) && negb in_run && normal_from true r
      else normal_from false r
  end.

(** [s] does not start with white space. *)
Definition head_ok (s : pystr) : bool :=
  match s with
  | c :: _ => negb (UCD.isspace c)
  | [] => true
  end.

(** [s] does not end with white space. *)
Fixpoint last_ok (s : pystr) : bool :=
  match s with
  | [] => true
  | [c] => negb (UCD.isspace c)
  | _ :: r => last_ok r
  end.

(** A text as [remove_diacritics_upper] leaves it: trimmed, with single
    spaces between words. *)
Definition tidy (s : pystr) : bool :=
  normal_from false s && head_ok s && last_ok s.

End Space.

(** ** Checks over the tables *)

Module Checks.
Import UCD Chars.

(** What holds of every conjoining jamo, the parts of a Hangul syllable. *)
Definition jamo_ok (d : N) : bool :=
  kstable d && starter d && negb (is_Mn d) && negb (mem upper_map d)
  && negb (is_D_stroke d) && negb (isspace d).

Definition canon_check : bool :=
  forallb (fun kv => forallb cstable (snd kv)) canon_table.

Definition compat_check : bool :=
  forallb (fun kv => forallb kstable (snd kv)) compat_table
  && forallb (fun kv => mem compat_map (fst kv) || forallb kstable (snd kv)) canon_table.

Definition stroke_check : bool :=
  forallb (fun kv => forallb (fun d => negb (is_D_stroke d)) (snd kv)) compat_table
  && forallb (fun kv => forallb (fun d => negb (is_D_stroke d)) (snd kv)) canon_table.

(** The upper-case mapping of a character of the class [pre] is not empty,
    lies in the class [post] and is white space only if the character is. *)
Definition upper_entry_ok (pre post : N -> bool) (e : N) (l : list N) : bool :=
  implb (pre e)
    (match l with
     | [] => false
     | _ => forallb (fun u => post u && Bool.eqb (isspace u) (isspace e)) l
     end).

Definition upper_check : bool :=
  forallb (fun kv => upper_entry_ok plain fixed (fst kv) (snd kv)) upper_table
  && forallb (fun kv => upper_entry_ok nplain nfixed (fst kv) (snd kv)) upper_table.

End Checks.

(** ** Notions used in the statements *)

Module Spec.

(** [p] occurs in [s] as a contiguous substring. *)
Definition occurs_in (p s : pystr) : Prop :=
  exists pre post, s = pre ++ p ++ post.

Definition all_decimal (s : pystr) : Prop :=
  Forall (fun c => UCD.isdecimal c = true) s.

Definition no_decimal (s : pystr) : Prop :=
  Forall (fun c => UCD.isdecimal c = false) s.

(** [s] does not start with a decimal digit. *)
Definition no_digit_ahead (s : pystr) : Prop :=
  match s with
  | [] => True
  | c :: _ => UCD.isdecimal c = false
  end.

(** [ds] is the first run of digits of [s]: the digits of [s] that follow
    its longest digit-free prefix, up to the next character that is not a
    digit. *)
Definition first_digit_run (s ds : pystr) : Prop :=
  exists pre post,
    s = pre ++ ds ++ post /\ no_decimal pre /\ ds <> [] /\ all_decimal ds
    /\ no_digit_ahead post.

(** [t] is a numeral: an optional minus sign, the digits [ip], and
    optionally a point followed by the digits [fp] ([fp] is empty when
    the numeral has no point). *)
Definition is_numeral (t : pystr) (neg : bool) (ip fp : pystr) : Prop :=
  t = (if neg then [0x2D] else []) ++ ip
        ++ (match fp with [] => [] | _ :: _ => 0x2E :: fp end)
  /\ ip <> [] /\ all_decimal ip /\ all_decimal fp.

(** The float [x] is the integer [z]. *)
Definition float_is (x : spec_float) (z : Z) : Prop :=
  match x with
  | S754_zero _ => z = 0%Z
  | S754_finite s m e =>
      (z * 2 ^ Z.max 0 (- e) = (if s then Zneg m else Zpos m) * 2 ^ Z.max 0 e)%Z
  | _ => False
  end.

(** The cell of row [i] and column [col] is a label whose trimmed text is
    [s]: it is not blank, and [s], upper-cased, contains none of the
    boilerplate keywords (upper-cased as well). *)
Definition is_label (df : DataFrame) (bad_keywords : list pystr) (col i : nat)
    (s : pystr) : Prop :=
  isna (cell_at df i col) = false
  /\ s = Str.strip (py_str (cell_at df i col))
  /\ s <> []
  /\ forall k, In k bad_keywords -> ~ occurs_in (Str.upper k) (Str.upper s).

(** [s] is the label nearest to the row [idx] among the rows above it. *)
Definition nearest_label (df : DataFrame) (bad_keywords : list pystr)
    (col idx : nat) (s : pystr) : Prop :=
  exists i, (i < idx)%nat /\ is_label df bad_keywords col i s
    /\ forall j t, (i < j < idx)%nat -> ~ is_label df bad_keywords col j t.

(** No row above [idx] holds a label in the column [col]. *)
Definition no_label (df : DataFrame) (bad_keywords : list pystr) (col idx : nat) : Prop :=
  forall i t, (i < idx)%nat -> ~ is_label df bad_keywords col i t.

(** [c] is the first element of [cols] that satisfies [P]. *)
Definition first_such (P : pyval -> Prop) (cols : list pyval) (c : pyval) : Prop :=
  exists pre post, cols = pre ++ c :: post /\ P c /\ forall x, In x pre -> ~ P x.

(** No element of [cols] satisfies [P]. *)
Definition none_such (P : pyval -> Prop) (cols : list pyval) : Prop :=
  forall x, In x cols -> ~ P x.

(** The sum of a list of integers. *)
Definition Zsum (l : list Z) : Z := fold_right Z.add 0%Z l.

(** The rows of [df] whose group key is [k]. *)
Definition rows_of_group (df : Table) (gcols : list pyval) (k : list pyval)
  : list (list pyval) :=
  List.filter (fun row => bool_decide (Aggregator.row_key df gcols row = k)) (body df).

(** The sum, over the rows of the group [k], of what the column [c] counts. *)
Definition group_sum (df : Table) (gcols : list pyval) (k : list pyval) (c : pyval) : Z :=
  Zsum (map (fun row => Aggregator.count_of (Aggregator.field df row c))
          (rows_of_group df gcols k)).

(** [s] starts with "20" and the two decimal digits [a] and [b]. *)
Definition year_prefix (s : pystr) (a b : N) : Prop :=
  (exists rest, s = [0x32; 0x30; a; b] ++ rest)
  /\ UCD.isdecimal a = true /\ UCD.isdecimal b = true.

(** The class [A-Z0-9_]. *)
Definition is_upper_word (c : N) : bool :=
  ((0x41 <=? c) && (c <=? 0x5A)) || ((0x30 <=? c) && (c <=? 0x39)) || (c =? 0x5F).

(** [c'] is the header [c] or [c] with a number appended. *)
Definition numbered_from (c c' : pystr) : Prop :=
  c' = c \/ exists i, (1 <= i)%Z /\ c' = Convert.numbered c i.

(** [",".join(ts)]. *)
Fixpoint join_commas (ts : list pystr) : pystr :=
  match ts with
  | [] => []
  | [t] => t
  | t :: rest => t ++ 0x2C :: join_commas rest
  end.

(** A token as the splitting of a text leaves it: not empty, trimmed and
    without comma. *)
Definition clean_token (t : pystr) : Prop :=
  t <> [] /\ Str.strip t = t /\ ~ In 0x2C t.

(** The sum of the count [f] over all the groups of [m]. *)
Definition total_over (f : Totals -> Z) (m : gmap (list pyval) Totals) : Z :=
  Zsum (map (fun kt => f (snd kt)) (map_to_list m)).

(** The labels of the columns [process] assigns. *)
Definition derived_labels : list pyval :=
  [lbl "province"; lbl "district"; lbl "year"; lbl "month";
   lbl "DEN1"; lbl "DEN2"; lbl "DEN3"; lbl "DEN4"; lbl "TOTAL_TEST"].

(** The value of the column [c] in the row of position [i]. *)
Definition cell_of (df : Table) (i : nat) (c : pyval) : pyval :=
  nth i (get_column df c) NaN.

(** The table of [process] once the columns province, district and year
    are assigned; [pc] is the resolved province column. *)
Definition table_with_year (df : Table) (year : Z) (pc : pyval)
    (district_col : option pyval) : Table :=
  let df := set_column df (lbl "province") (map Processing.normalize (get_column df pc)) in
  let df :=
    match district_col with
    | Some dc =>
        set_column df (lbl "district") (map Processing.normalize (get_column df dc))
    | None => set_column df (lbl "district") (map (fun _ => VNone) (body df))
    end in
  set_column df (lbl "year") (map (fun _ => VInt year) (body df)).

(** The table of [process] once the month is assigned as well. *)
Definition table_with_month (dt_month : list pyval -> list pyval) (df : Table)
    (year : Z) (pc : pyval) (district_col month_col : option pyval) : Table :=
  let df := table_with_year df year pc district_col in
  match month_col with
  | Some mc =>
      if Processing.truthy mc
      then set_column df (lbl "month") (dt_month (get_column df mc))
      else set_column df (lbl "month") (map (fun _ => VNone) (body df))
  | None => set_column df (lbl "month") (map (fun _ => VNone) (body df))
  end.

(** The serotypes whose flag is assigned before the flag of [k]. *)
Definition dens_before (k : Z) : list Z :=
  List.filter (fun d => (d <? k)%Z) [1; 2; 3; 4]%Z.

(** The table as it stands when the flag of the serotype [k] is computed:
    [df4], the table with its month, with the flags assigned before. *)
Definition table_before_den (result_cols : list pyval) (df4 : Table) (k : Z) : Table :=
  fold_left (Processing.assign_den result_cols) (dens_before k) df4.

(** The labels of the columns assigned before the flag of [k] is computed. *)
Definition assigned_before (k : Z) : list pyval :=
  [lbl "province"; lbl "district"; lbl "year"; lbl "month"]
  ++ map (fun d => VStr (Processing.den_token d)) (dens_before k).

End Spec.

(** ** Inputs of the examples *)

Module Examples.

(** A monthly sheet: boilerplate at the top, the district label "Quan 1"
    at row 8, a blank row, and the marker row at row 10. *)
Definition sheet_quan1 : DataFrame :=
  {| ncols := 8;
     cells :=
       [ [VStr (utf8 "SỞ Y TẾ")]; []; [VStr (utf8 "BÁO CÁO THÁNG")]; [];
         []; []; []; [];
         [VStr (utf8 "Quan 1")];
         [];
         [NaN; NaN; VStr (utf8 "TC"); VStr (utf8 "1,234"); VStr (utf8 "12.50");
          VStr (utf8 "abc"); NaN; VInt 20] ] |}.

(** A sheet with nothing but boilerplate above its marker row. *)
Definition sheet_boilerplate : DataFrame :=
  {| ncols := 8;
     cells :=
       [ [VStr (utf8 "SỞ Y TẾ"); VStr (utf8 "Ngày 5")];
         [VStr (utf8 "Ghi chú"); NaN];
         [VStr (utf8 "tc"); VInt 1; VInt 2; VInt 3; VInt 4; VInt 5; VInt 6; VInt 7] ] |}.

(** A workbook with a sheet for July, a sheet without month and a sheet
    for October. *)
Definition workbook : EdengueImport.Workbook :=
  [ (utf8 "Thang 7", sheet_quan1);
    (utf8 "Ghi chu", sheet_boilerplate);
    (utf8 "T10-2024", sheet_boilerplate) ].

(** A line list of four cases with one result column. *)
Definition line_list : Table :=
  {| columns := [lbl "TINH"; lbl "KQ"];
     body :=
       [ [VStr (utf8 "Hà Nội"); VStr (utf8 "den-1")];
         [VStr (utf8 "Hà Nội"); VStr (utf8 "DEN12")];
         [VStr (utf8 "Hà Nội"); VStr (utf8 "Den2")];
         [VStr (utf8 "Hà Nội"); NaN] ] |}.

(** Two cases of Ha Noi in May 2021, the first positive for DEN1, with
    no district. *)
Definition two_cases : Table :=
  {| columns := [lbl "province"; lbl "district"; lbl "year"; lbl "month";
                 lbl "DEN1"; lbl "DEN2"; lbl "DEN3"; lbl "DEN4"; lbl "TOTAL_TEST"];
     body :=
       [ [VStr (utf8 "HA NOI"); VNone; VInt 2021; VInt 5;
          VBool true; VBool false; VBool false; VBool false; VInt 1];
         [VStr (utf8 "HA NOI"); VNone; VInt 2021; VInt 5;
          VBool false; VBool false; VBool false; VBool false; VInt 1] ] |}.

(** Three cases, one of them without month, in two districts. *)
Definition three_cases : Table :=
  {| columns := [lbl "province"; lbl "district"; lbl "year"; lbl "month";
                 lbl "DEN1"; lbl "DEN2"; lbl "DEN3"; lbl "DEN4"; lbl "TOTAL_TEST"];
     body :=
       [ [VStr (utf8 "HA NOI"); VStr (utf8 "BA DINH"); VInt 2021; VInt 5;
          VBool true; VBool false; VBool false; VBool false; VInt 1];
         [VStr (utf8 "HA NOI"); VNone; VInt 2021; NaN;
          VBool false; VBool true; VBool false; VBool false; VInt 1];
         [VStr (utf8 "HA NOI"); VNone; VInt 2021; NaN;
          VBool false; VBool true; VBool false; VBool false; VInt 1] ] |}.

(** A line list whose result column bears the name of a flag column. *)
Definition flag_named : Table :=
  {| columns := [lbl "TINH"; lbl "DEN1"];
     body := [ [VStr (utf8 "Ha Noi"); VStr (utf8 "DEN2")] ] |}.

(** A line list with a column named like the year column. *)
Definition year_named : Table :=
  {| columns := [lbl "TINH"; lbl "year"];
     body := [ [VStr (utf8 "Ha Noi"); VStr (utf8 "2019-03-05")] ] |}.

End Examples.

(** * Properties *)

(** ** The tables *)

Module UCDFacts.
Import UCD Chars Checks.

Lemma key_inj (c d : N) : key c = key d -> c = d.
Proof.
  unfold key. intros H.
  rewrite <- (N.pos_pred_succ c), <- (N.pos_pred_succ d). now rewrite H.
Qed.

Lemma find_fold_add {A} (l : list (N * A)) (m : PositiveMap.t A) (c : N) (v : A) :
  find (fold_left table_add l m) c = Some v -> In (c, v) l \/ find m c = Some v.
Proof.
  revert m. induction l as [|[k x] l IH]; intros m H; simpl in *.
  - now right.
  - destruct (IH _ H) as [Hin | Hm].
    + left. now right.
    + unfold find, table_add in Hm. simpl in Hm.
      destruct (Pos.eq_dec (key c) (key k)) as [E | E].
      * rewrite E, PositiveMap.gss in Hm. apply key_inj in E. subst k.
        left. left. congruence.
      * rewrite PositiveMap.gso in Hm by exact E. now right.
Qed.

Lemma find_map_of_list {A} (l : list (N * A)) (c : N) (v : A) :
  find (map_of_list l) c = Some v -> In (c, v) l.
Proof.
  intros H. destruct (find_fold_add _ _ _ _ H) as [Hin | He]; [exact Hin |].
  unfold find in He. now rewrite PositiveMap.gempty in He.
Qed.

(** A property checked on every entry of a table holds of every hit. *)
Lemma table_forall {A} (m : PositiveMap.t A) (l : list (N * A)) (P : N -> A -> bool) :
  m = map_of_list l ->
  forallb (fun kv => P (fst kv) (snd kv)) l = true ->
  forall c v, find m c = Some v -> P c v = true.
Proof.
  intros -> Hall c v Hf. apply find_map_of_list in Hf.
  rewrite forallb_forall in Hall. exact (Hall _ Hf).
Qed.

Lemma canon_map_eq : canon_map = map_of_list canon_table.
Proof. vm_compute. reflexivity. Qed.

Lemma compat_map_eq : compat_map = map_of_list compat_table.
Proof. vm_compute. reflexivity. Qed.

Lemma upper_map_eq : upper_map = map_of_list upper_table.
Proof. vm_compute. reflexivity. Qed.

Lemma In_range_from (lo : N) (n : nat) (d : N) :
  lo <= d < lo + N.of_nat n -> In d (range_from lo n).
Proof.
  revert lo. induction n as [|n IH]; intros lo H; simpl.
  - lia.
  - destruct (N.eq_dec lo d) as [-> | Hne]; [now left | right].
    apply IH. lia.
Qed.

(** *** Hangul *)

Lemma jamo_check : forallb jamo_ok (range_from 0x1100 195) = true.
Proof. vm_compute. reflexivity. Qed.

Lemma jamo_range_ok (d : N) : 0x1100 <= d < 0x11C3 -> jamo_ok d = true.
Proof.
  intros H. pose proof jamo_check as Hc. rewrite forallb_forall in Hc.
  apply Hc, In_range_from. simpl. lia.
Qed.

Lemma hangul_decompose_range (c d : N) :
  is_hangul_syllable c = true -> In d (hangul_decompose c) -> 0x1100 <= d < 0x11C3.
Proof.
  unfold is_hangul_syllable, hangul_decompose, SBase, SCount, LBase, VBase, TBase, NCount, TCount.
  intros Hh Hin. apply andb_true_iff in Hh as [H1 H2].
  apply N.leb_le in H1. apply N.ltb_lt in H2.
  remember (c - 0xAC00) as si eqn:Esi.
  assert (Hsi : si < 11172) by lia.
  assert (Hl : si / 588 < 19) by (apply N.Div0.div_lt_upper_bound; lia).
  assert (Hm : si mod 588 < 588) by (apply N.mod_lt; lia).
  assert (Hv : (si mod 588) / 28 < 21) by (apply N.Div0.div_lt_upper_bound; lia).
  assert (Ht : si mod 28 < 28) by (apply N.mod_lt; lia).
  clear Esi H1 H2 Hsi Hm.
  generalize dependent (si / 588). generalize dependent ((si mod 588) / 28).
  generalize dependent (si mod 28). intros t Ht v Hv l Hin Hl.
  destruct (t =? 0); cbn [In] in Hin;
    repeat (destruct Hin as [Hin | Hin]; [lia |]); destruct Hin.
Qed.

Lemma hangul_products_ok (c d : N) :
  is_hangul_syllable c = true -> In d (hangul_decompose c) -> jamo_ok d = true.
Proof. intros H1 H2. apply jamo_range_ok. eapply hangul_decompose_range; eauto. Qed.


(** *** From the boolean classes to the functions *)

Lemma mem_false {A} (m : PositiveMap.t A) (c : N) : mem m c = false -> find m c = None.
Proof. unfold mem. destruct (find m c); [discriminate | reflexivity]. Qed.

Lemma mem_true {A} (m : PositiveMap.t A) (c : N) (v : A) : find m c = Some v -> mem m c = true.
Proof. unfold mem. now intros ->. Qed.

Lemma cstable_canon (c : N) : cstable c = true -> canon c = [c].
Proof.
  unfold cstable, canon. destruct (is_hangul_syllable c); [discriminate |].
  destruct (mem canon_map c) eqn:H; [discriminate |].
  now rewrite (mem_false _ _ H).
Qed.

Lemma kstable_cstable (c : N) : kstable c = true -> cstable c = true.
Proof. unfold kstable. destruct (cstable c); [reflexivity | discriminate]. Qed.

Lemma kstable_compat (c : N) : kstable c = true -> compat c = [c].
Proof.
  unfold kstable, compat. destruct (mem compat_map c) eqn:H.
  - rewrite andb_false_r. discriminate.
  - rewrite (mem_false _ _ H), andb_true_r. apply cstable_canon.
Qed.

Lemma plain_kstable (c : N) : plain c = true -> kstable c = true.
Proof. unfold plain. destruct (kstable c); [reflexivity | discriminate]. Qed.

Lemma plain_starter (c : N) : plain c = true -> starter c = true.
Proof.
  unfold plain. destruct (starter c); [reflexivity |].
  rewrite andb_false_r. discriminate.
Qed.

Lemma plain_not_D_stroke (c : N) : plain c = true -> is_D_stroke c = false.
Proof.
  unfold plain. destruct (is_D_stroke c); [| reflexivity].
  rewrite andb_false_r. discriminate.
Qed.

Lemma fixed_plain (c : N) : fixed c = true -> plain c = true.
Proof. unfold fixed. destruct (plain c); [reflexivity | discriminate]. Qed.

Lemma fixed_toupper (c : N) : fixed c = true -> toupper c = [c].
Proof.
  unfold fixed, toupper. destruct (mem upper_map c) eqn:H.
  - rewrite andb_false_r. discriminate.
  - now rewrite (mem_false _ _ H).
Qed.

Lemma nfixed_nplain (c : N) : nfixed c = true -> nplain c = true.
Proof. unfold nfixed. destruct (nplain c); [reflexivity | discriminate]. Qed.

Lemma nfixed_toupper (c : N) : nfixed c = true -> toupper c = [c].
Proof.
  unfold nfixed, toupper. destruct (mem upper_map c) eqn:H.
  - rewrite andb_false_r. discriminate.
  - now rewrite (mem_false _ _ H).
Qed.

Lemma nplain_cstable (c : N) : nplain c = true -> cstable c = true.
Proof. unfold nplain. destruct (cstable c); [reflexivity | discriminate]. Qed.

Lemma nplain_starter (c : N) : nplain c = true -> starter c = true.
Proof.
  unfold nplain. destruct (starter c); [reflexivity |].
  rewrite andb_false_r. discriminate.
Qed.

Lemma nplain_not_Mn (c : N) : nplain c = true -> is_Mn c = false.
Proof.
  unfold nplain. destruct (is_Mn c); [| reflexivity].
  rewrite andb_false_r. discriminate.
Qed.

Lemma jamo_kstable (d : N) : jamo_ok d = true -> kstable d = true.
Proof. unfold jamo_ok. destruct (kstable d); [reflexivity | discriminate]. Qed.

Lemma jamo_not_D_stroke (d : N) : jamo_ok d = true -> is_D_stroke d = false.
Proof.
  unfold jamo_ok. destruct (is_D_stroke d); [| reflexivity].
  rewrite andb_false_r. discriminate.
Qed.

(** *** The parts of a decomposition do not decompose *)

Lemma canon_check_ok : canon_check = true.
Proof. vm_compute. reflexivity. Qed.

Lemma canon_parts (c d : N) : In d (canon c) -> cstable d = true.
Proof.
  unfold canon. destruct (is_hangul_syllable c) eqn:Hh.
  - intros Hin. apply kstable_cstable, jamo_kstable. eapply hangul_products_ok; eauto.
  - destruct (find canon_map c) as [l|] eqn:Hf.
    + intros Hin.
      pose proof (table_forall _ _ (fun _ l => forallb cstable l) canon_map_eq canon_check_ok _ _ Hf) as Hl.
      cbv beta in Hl. rewrite forallb_forall in Hl. now apply Hl.
    + intros [<- | []]. unfold cstable. rewrite Hh. unfold mem. now rewrite Hf.
Qed.

Lemma compat_check_ok : compat_check = true.
Proof. vm_compute. reflexivity. Qed.

Lemma compat_parts (c d : N) : In d (compat c) -> kstable d = true.
Proof.
  pose proof compat_check_ok as Hc. unfold compat_check in Hc.
  apply andb_true_iff in Hc as [Hk Hn].
  unfold compat. destruct (find compat_map c) as [l|] eqn:Hf.
  - intros Hin.
    pose proof (table_forall _ _ (fun _ l => forallb kstable l) compat_map_eq Hk _ _ Hf) as Hl.
    cbv beta in Hl. rewrite forallb_forall in Hl. now apply Hl.
  - unfold canon. destruct (is_hangul_syllable c) eqn:Hh.
    + intros Hin. apply jamo_kstable. eapply hangul_products_ok; eauto.
    + destruct (find canon_map c) as [l|] eqn:Hg.
      * intros Hin.
        pose proof (table_forall _ _ (fun k l => mem compat_map k || forallb kstable l)
                      canon_map_eq Hn _ _ Hg) as Hl.
        cbv beta in Hl. unfold mem in Hl at 1. rewrite Hf in Hl. simpl in Hl.
        rewrite forallb_forall in Hl. now apply Hl.
      * intros [<- | []]. unfold kstable, cstable, mem. now rewrite Hh, Hg, Hf.
Qed.

Lemma stroke_check_ok : stroke_check = true.
Proof. vm_compute. reflexivity. Qed.

(** No character but the letter itself decomposes to a D with stroke. *)
Lemma compat_no_D_stroke (c d : N) :
  is_D_stroke c = false -> In d (compat c) -> is_D_stroke d = false.
Proof.
  pose proof stroke_check_ok as Hc. unfold stroke_check in Hc.
  apply andb_true_iff in Hc as [Hk Hn]. intros Hc.
  unfold compat. destruct (find compat_map c) as [l|] eqn:Hf.
  - intros Hin.
    pose proof (table_forall _ _ (fun _ l => forallb (fun d => negb (is_D_stroke d)) l)
                  compat_map_eq Hk _ _ Hf) as Hl.
    cbv beta in Hl. rewrite forallb_forall in Hl. apply negb_true_iff. now apply Hl.
  - unfold canon. destruct (is_hangul_syllable c) eqn:Hh.
    + intros Hin. apply jamo_not_D_stroke. eapply hangul_products_ok; eauto.
    + destruct (find canon_map c) as [l|] eqn:Hg.
      * intros Hin.
        pose proof (table_forall _ _ (fun _ l => forallb (fun d => negb (is_D_stroke d)) l)
                      canon_map_eq Hn _ _ Hg) as Hl.
        cbv beta in Hl. rewrite forallb_forall in Hl. apply negb_true_iff. now apply Hl.
      * now intros [<- | []].
Qed.

(** *** Upper-casing keeps the classes *)

Lemma upper_check_ok : upper_check = true.
Proof. vm_compute. reflexivity. Qed.

Lemma upper_entry_ok_spec (pre post : N -> bool) (e : N) (l : list N) :
  upper_entry_ok pre post e l = true -> pre e = true ->
  l <> [] /\ forall u, In u l -> post u = true /\ isspace u = isspace e.
Proof.
  unfold upper_entry_ok. intros H Hp. rewrite Hp in H. simpl in H.
  destruct l as [|a l]; [discriminate |]. split; [discriminate |].
  rewrite forallb_forall in H. intros u Hu. specialize (H u Hu).
  apply andb_true_iff in H as [H1 H2]. split; [exact H1 | now apply eqb_prop].
Qed.

Lemma toupper_plain (e : N) :
  plain e = true ->
  toupper e <> [] /\ forall u, In u (toupper e) -> fixed u = true /\ isspace u = isspace e.
Proof.
  pose proof upper_check_ok as Hc. unfold upper_check in Hc.
  apply andb_true_iff in Hc as [Hk _]. intros Hp.
  unfold toupper. destruct (find upper_map e) as [l|] eqn:Hf.
  - apply (upper_entry_ok_spec plain fixed); [| exact Hp].
    exact (table_forall _ _ (upper_entry_ok plain fixed) upper_map_eq Hk _ _ Hf).
  - split; [discriminate |]. intros u [<- | []]. split; [| reflexivity].
    unfold fixed, mem. now rewrite Hp, Hf.
Qed.

Lemma toupper_nplain (e : N) :
  nplain e = true ->
  toupper e <> [] /\ forall u, In u (toupper e) -> nfixed u = true /\ isspace u = isspace e.
Proof.
  pose proof upper_check_ok as Hc. unfold upper_check in Hc.
  apply andb_true_iff in Hc as [_ Hn]. intros Hp.
  unfold toupper. destruct (find upper_map e) as [l|] eqn:Hf.
  - apply (upper_entry_ok_spec nplain nfixed); [| exact Hp].
    exact (table_forall _ _ (upper_entry_ok nplain nfixed) upper_map_eq Hn _ _ Hf).
  - split; [discriminate |]. intros u [<- | []]. split; [| reflexivity].
    unfold nfixed, mem. now rewrite Hp, Hf.
Qed.

Lemma space_plain : plain 0x20 = true /\ isspace 0x20 = true.
Proof. vm_compute. split; reflexivity. Qed.

Lemma letter_D_plain : plain 0x44 = true /\ plain 0x64 = true.
Proof. vm_compute. split; reflexivity. Qed.

End UCDFacts.

(** ** Strings *)

Module StrFacts.
Import UCD Chars Space Str.

Lemma eqb_eq (s t : pystr) : Str.eqb s t = true <-> s = t.
Proof.
  revert t. induction s as [|a s IH]; intros [|b t]; simpl; split; try easy.
  - intros H. apply andb_true_iff in H as [H1 H2]. apply N.eqb_eq in H1.
    apply IH in H2. congruence.
  - intros [= -> ->]. rewrite N.eqb_refl. now apply IH.
Qed.

Lemma flat_map_single (f : N -> list N) (s : pystr) :
  (forall c, In c s -> f c = [c]) -> flat_map f s = s.
Proof.
  induction s as [|a s IH]; intros H; simpl; [reflexivity |].
  rewrite (H a (or_introl eq_refl)). simpl. f_equal. apply IH.
  intros c Hc. apply H. now right.
Qed.

Lemma filter_all (f : N -> bool) (s : pystr) :
  (forall c, In c s -> f c = true) -> List.filter f s = s.
Proof.
  induction s as [|a s IH]; intros H; simpl; [reflexivity |].
  rewrite (H a (or_introl eq_refl)). f_equal. apply IH.
  intros c Hc. apply H. now right.
Qed.

Lemma replace_char_other (a b : N) (s : pystr) :
  (forall c, In c s -> c <> a) -> replace_char a b s = s.
Proof.
  unfold replace_char. induction s as [|x s IH]; intros H; simpl; [reflexivity |].
  destruct (x =? a) eqn:E.
  - apply N.eqb_eq in E. now destruct (H x (or_introl eq_refl)).
  - f_equal. apply IH. intros c Hc. apply H. now right.
Qed.

(** *** Canonical ordering *)

Section Ordering.
Variable keep : N -> bool.

Lemma filter_insert_mark (c : N) (racc : pystr) :
  keep c = false ->
  List.filter keep (insert_mark c racc) = List.filter keep racc.
Proof using Type.
  intros Hc. induction racc as [|p rest IH]; simpl.
  - now rewrite Hc.
  - destruct ((combining p =? 0) || (combining p <=? combining c)); simpl.
    + now rewrite Hc.
    + rewrite IH. reflexivity.
Qed.

Lemma filter_fold_order (l racc : pystr) :
  (forall c, In c l -> keep c = true -> starter c = true) ->
  List.filter keep (fold_left order_step l racc)
  = rev (List.filter keep l) ++ List.filter keep racc.
Proof using Type.
  revert racc. induction l as [|a l IH]; intros racc H; simpl; [reflexivity |].
  rewrite IH by (intros c Hc; apply H; now right).
  unfold order_step. specialize (H a (or_introl eq_refl)). unfold starter in H.
  destruct (combining a =? 0) eqn:Hs.
  - simpl. destruct (keep a); simpl; [| reflexivity].
    now rewrite <- app_assoc.
  - destruct (keep a) eqn:Hk; [specialize (H eq_refl); discriminate |].
    now rewrite filter_insert_mark.
Qed.

(** Ordering moves marks only: what a filter that keeps starters only
    retains is left in place. *)
Lemma filter_canonical_order (l : pystr) :
  (forall c, In c l -> keep c = true -> starter c = true) ->
  List.filter keep (canonical_order l) = List.filter keep l.
Proof using Type.
  intros H. unfold canonical_order.
  rewrite filter_rev, filter_fold_order by exact H.
  simpl. now rewrite app_nil_r, rev_involutive.
Qed.
End Ordering.

Lemma fold_order_starters (l racc : pystr) :
  (forall c, In c l -> starter c = true) ->
  fold_left order_step l racc = rev l ++ racc.
Proof.
  revert racc. induction l as [|a l IH]; intros racc H; simpl; [reflexivity |].
  rewrite IH by (intros c Hc; apply H; now right).
  unfold order_step. specialize (H a (or_introl eq_refl)). unfold starter in H.
  rewrite H. now rewrite <- app_assoc.
Qed.

Lemma canonical_order_starters (l : pystr) :
  (forall c, In c l -> starter c = true) -> canonical_order l = l.
Proof.
  intros H. unfold canonical_order. rewrite fold_order_starters by exact H.
  now rewrite app_nil_r, rev_involutive.
Qed.

(** *** Trimming *)

Lemma In_lstrip (c : N) (s : pystr) : In c (lstrip s) -> In c s.
Proof.
  induction s as [|a s IH]; simpl; [easy |].
  destruct (isspace a); [| easy]. intros H. right. now apply IH.
Qed.

Lemma In_rstrip (c : N) (s : pystr) : In c (rstrip s) -> In c s.
Proof.
  induction s as [|a s IH]; simpl; [easy |].
  destruct (rstrip s) as [|b r] eqn:E.
  - destruct (isspace a); simpl; [easy | intuition].
  - simpl. intros [H | H]; [now left | right]. apply IH. exact H.
Qed.

Lemma In_strip (c : N) (s : pystr) : In c (strip s) -> In c s.
Proof. unfold strip. intros H. now apply In_lstrip, In_rstrip. Qed.

Lemma head_ok_lstrip_id (s : pystr) : head_ok s = true -> lstrip s = s.
Proof. destruct s as [|a s]; simpl; [easy |]. now destruct (isspace a). Qed.

Lemma head_ok_lstrip (s : pystr) : head_ok (lstrip s) = true.
Proof.
  induction s as [|a s IH]; simpl; [reflexivity |].
  destruct (isspace a) eqn:E; [exact IH |]. simpl. now rewrite E.
Qed.

Lemma last_ok_rstrip_id (s : pystr) : last_ok s = true -> rstrip s = s.
Proof.
  induction s as [|a s IH]; simpl; [reflexivity |].
  destruct s as [|b r].
  - simpl. intros H. apply negb_true_iff in H. now rewrite H.
  - intros H. rewrite (IH H). reflexivity.
Qed.

Lemma last_ok_rstrip (s : pystr) : last_ok (rstrip s) = true.
Proof.
  induction s as [|a s IH]; simpl; [reflexivity |].
  destruct (rstrip s) as [|b r] eqn:E.
  - destruct (isspace a) eqn:Ha; simpl; [reflexivity | now rewrite Ha].
  - exact IH.
Qed.

Lemma head_ok_rstrip (s : pystr) : head_ok s = true -> head_ok (rstrip s) = true.
Proof.
  destruct s as [|a s]; simpl; [easy |]. intros H.
  destruct (rstrip s); [| exact H].
  destruct (isspace a) eqn:E; [reflexivity | simpl; now rewrite E].
Qed.

Lemma strip_tidy_ends (s : pystr) :
  head_ok (strip s) = true /\ last_ok (strip s) = true.
Proof.
  unfold strip. split; [apply head_ok_rstrip, head_ok_lstrip | apply last_ok_rstrip].
Qed.

Lemma strip_id (s : pystr) :
  head_ok s = true -> last_ok s = true -> strip s = s.
Proof.
  intros H1 H2. unfold strip. rewrite (head_ok_lstrip_id _ H1).
  now apply last_ok_rstrip_id.
Qed.

Lemma strip_strip (s : pystr) : strip (strip s) = strip s.
Proof. destruct (strip_tidy_ends s). now apply strip_id. Qed.

(** *** Runs of white space *)

Lemma sub_ws_normal_id (b : bool) (s : pystr) :
  normal_from b s = true -> sub_ws_from b s = s.
Proof.
  revert b. induction s as [|c r IH]; intros b; simpl; [reflexivity |].
  destruct (isspace c).
  - intros H. apply andb_true_iff in H as [H H3].
    apply andb_true_iff in H as [H1 H2].
    apply N.eqb_eq in H1. apply negb_true_iff in H2. subst b c.
    f_equal. now apply IH.
  - intros H. f_equal. now apply IH.
Qed.

Lemma isspace_space : isspace 0x20 = true.
Proof. vm_compute. reflexivity. Qed.

Lemma sub_ws_normal (b : bool) (s : pystr) : normal_from b (sub_ws_from b s) = true.
Proof.
  revert b. induction s as [|c r IH]; intros b; simpl; [reflexivity |].
  destruct (isspace c) eqn:E.
  - destruct b; [apply IH |].
    cbn [normal_from]. rewrite isspace_space, N.eqb_refl. simpl. apply IH.
  - cbn [normal_from]. rewrite E. apply IH.
Qed.

Lemma In_sub_ws (b : bool) (c : N) (s : pystr) :
  In c (sub_ws_from b s) -> c = 0x20 \/ In c s.
Proof.
  revert b. induction s as [|a r IH]; intros b; simpl; [easy |].
  destruct (isspace a).
  - destruct b.
    + intros H. destruct (IH _ H); [now left | right; now right].
    + intros [H | H]; [now left |]. destruct (IH _ H); [now left | right; now right].
  - intros [H | H]; [right; now left |].
    destruct (IH _ H); [now left | right; now right].
Qed.

Lemma normal_lstrip (b b' : bool) (s : pystr) :
  normal_from b s = true -> normal_from b' (lstrip s) = true.
Proof.
  revert b. induction s as [|c r IH]; intros b; simpl; [easy |].
  destruct (isspace c) eqn:E.
  - intros H. apply andb_true_iff in H as [_ H]. now apply (IH true).
  - intros H. cbn [normal_from]. now rewrite E.
Qed.

Lemma normal_rstrip (b : bool) (s : pystr) :
  normal_from b s = true -> normal_from b (rstrip s) = true.
Proof.
  revert b. induction s as [|c r IH]; intros b; simpl; [easy |].
  destruct (isspace c) eqn:E.
  - intros H. apply andb_true_iff in H as [H H3]. specialize (IH _ H3).
    destruct (rstrip r) as [|x r'] eqn:Er; [reflexivity |].
    cbn [normal_from]. rewrite E, H. exact IH.
  - intros H. specialize (IH _ H).
    destruct (rstrip r) as [|x r'] eqn:Er.
    + cbn [normal_from]. now rewrite E.
    + cbn [normal_from]. rewrite E. exact IH.
Qed.

Lemma tidy_strip_sub_ws (s : pystr) : tidy (strip (sub_ws s)) = true.
Proof.
  unfold tidy. destruct (strip_tidy_ends (sub_ws s)) as [H1 H2].
  rewrite H1, H2, !andb_true_r. unfold strip.
  apply normal_rstrip, (normal_lstrip false), sub_ws_normal.
Qed.

Lemma tidy_fixpoint (s : pystr) :
  tidy s = true -> strip s = s /\ sub_ws s = s.
Proof.
  unfold tidy. intros H. apply andb_true_iff in H as [H H3].
  apply andb_true_iff in H as [H1 H2]. split.
  - now apply strip_id.
  - now apply sub_ws_normal_id.
Qed.

(** *** Upper-casing keeps a text tidy *)

Section Upper.
(** A class of characters whose upper-case mapping is not empty and is
    white space only if the character is. *)
Variable cls : N -> bool.
Hypothesis cls_upper : forall e, cls e = true ->
  toupper e <> [] /\ forall u, In u (toupper e) -> isspace u = isspace e.

Lemma normal_app_word (b : bool) (l m : pystr) :
  l <> [] -> (forall u, In u l -> isspace u = false) ->
  normal_from b (l ++ m) = normal_from false m.
Proof using Type.
  revert b. induction l as [|a l IH]; intros b Hne Hl; [easy |].
  simpl. rewrite (Hl a (or_introl eq_refl)).
  destruct l as [|a' l']; [reflexivity |].
  apply IH; [easy | intros u Hu; apply Hl; now right].
Qed.

Lemma upper_normal (b : bool) (s : pystr) :
  (forall c, In c s -> cls c = true) ->
  normal_from b s = true -> normal_from b (upper s) = true.
Proof using cls_upper.
  revert b. induction s as [|c r IH]; intros b Hc; [easy |].
  assert (Hr : forall x, In x r -> cls x = true) by (intros x Hx; apply Hc; now right).
  destruct (cls_upper c (Hc c (or_introl eq_refl))) as [Hne Hsp].
  cbn [normal_from upper flat_map]. destruct (isspace c) eqn:E.
  - intros H. apply andb_true_iff in H as [H H3].
    apply andb_true_iff in H as [H1 H2]. apply N.eqb_eq in H1. subst c.
    replace (toupper 0x20) with [0x20] by (vm_compute; reflexivity).
    cbn [app normal_from]. rewrite isspace_space, N.eqb_refl, H2. simpl.
    now apply IH.
  - intros H. rewrite normal_app_word; [now apply IH | exact Hne |].
    intros u Hu. now rewrite (Hsp u Hu).
Qed.

Lemma upper_head_ok (s : pystr) :
  (forall c, In c s -> cls c = true) ->
  head_ok s = true -> head_ok (upper s) = true.
Proof using cls_upper.
  destruct s as [|c r]; intros Hc; [easy |].
  destruct (cls_upper c (Hc c (or_introl eq_refl))) as [Hne Hsp].
  cbn [head_ok upper flat_map]. intros H.
  destruct (toupper c) as [|u l] eqn:E; [easy |].
  simpl. rewrite (Hsp u (or_introl eq_refl)). exact H.
Qed.

Lemma last_ok_app (l m : pystr) :
  m <> [] -> last_ok (l ++ m) = last_ok m.
Proof using Type.
  intros Hm. induction l as [|a l IH]; [reflexivity |].
  simpl. destruct (l ++ m) eqn:E; [| exact IH].
  destruct l, m; simpl in E; congruence.
Qed.

Lemma last_ok_word (l : pystr) :
  (forall u, In u l -> isspace u = false) -> last_ok l = true.
Proof using Type.
  induction l as [|a l IH]; intros H; [reflexivity |].
  destruct l as [|b l'].
  - simpl. now rewrite (H a (or_introl eq_refl)).
  - change (last_ok (b :: l') = true). apply IH. intros u Hu. apply H. now right.
Qed.

Lemma upper_nonempty (s : pystr) :
  (forall c, In c s -> cls c = true) -> s <> [] -> upper s <> [].
Proof using cls_upper.
  destruct s as [|c r]; intros Hc Hs; [easy |].
  destruct (cls_upper c (Hc c (or_introl eq_refl))) as [Hne _].
  cbn [upper flat_map]. destruct (toupper c); [easy | discriminate].
Qed.

Lemma upper_last_ok (s : pystr) :
  (forall c, In c s -> cls c = true) ->
  last_ok s = true -> last_ok (upper s) = true.
Proof using cls_upper.
  induction s as [|c r IH]; intros Hc; [easy |].
  assert (Hr : forall x, In x r -> cls x = true) by (intros x Hx; apply Hc; now right).
  destruct (cls_upper c (Hc c (or_introl eq_refl))) as [Hne Hsp].
  destruct r as [|d r'].
  - cbn [last_ok upper flat_map]. rewrite app_nil_r. intros H.
    apply negb_true_iff in H. apply last_ok_word.
    intros u Hu. now rewrite (Hsp u Hu).
  - intros H. change (last_ok (d :: r') = true) in H.
    cbn [upper flat_map]. rewrite last_ok_app.
    + now apply IH.
    + apply (upper_nonempty (d :: r')); [exact Hr | discriminate].
Qed.

Lemma upper_tidy (s : pystr) :
  (forall c, In c s -> cls c = true) -> tidy s = true -> tidy (upper s) = true.
Proof using cls_upper.
  unfold tidy. intros Hc H. apply andb_true_iff in H as [H H3].
  apply andb_true_iff in H as [H1 H2].
  rewrite upper_normal, upper_head_ok, upper_last_ok; auto.
Qed.
End Upper.

Lemma In_upper (u : N) (s : pystr) :
  In u (upper s) -> exists c, In c s /\ In u (toupper c).
Proof. unfold upper. intros H. apply in_flat_map in H. exact H. Qed.

End StrFacts.

(** ** The text normalizers *)

Module NormFacts.
Import UCD Chars Space Str UCDFacts StrFacts.

Lemma plain_upper_class (e : N) :
  plain e = true ->
  toupper e <> [] /\ forall u, In u (toupper e) -> isspace u = isspace e.
Proof.
  intros H. destruct (toupper_plain e H) as [H1 H2]. split; [exact H1 |].
  intros u Hu. now destruct (H2 u Hu).
Qed.

Lemma nplain_upper_class (e : N) :
  nplain e = true ->
  toupper e <> [] /\ forall u, In u (toupper e) -> isspace u = isspace e.
Proof.
  intros H. destruct (toupper_nplain e H) as [H1 H2]. split; [exact H1 |].
  intros u Hu. now destruct (H2 u Hu).
Qed.

(** The starters of a compatibility decomposition, in their order. *)
Lemma starters_nfkd (s : pystr) :
  List.filter starter (nfkd s) = List.filter starter (flat_map compat s).
Proof. unfold nfkd. apply filter_canonical_order. auto. Qed.

Lemma starters_nfkd_parts (d : N) (s : pystr) :
  In d (List.filter starter (nfkd s)) ->
  kstable d = true /\ starter d = true /\ exists c, In c s /\ In d (compat c).
Proof.
  rewrite starters_nfkd. intros H. apply filter_In in H as [H1 H2].
  apply in_flat_map in H1 as [c [Hc Hd]].
  split; [eapply compat_parts; eauto | split; [exact H2 | eauto]].
Qed.

Lemma unstroke_plain (s : pystr) :
  (forall d, In d s -> kstable d = true /\ starter d = true) ->
  forall c, In c (unstroke s) -> plain c = true.
Proof.
  intros H c Hc. unfold unstroke, replace_char in Hc.
  rewrite map_map in Hc. apply in_map_iff in Hc as [d [<- Hd]].
  destruct (H d Hd) as [Hk Hs].
  destruct (d =? 0x110) eqn:E1.
  - simpl. apply letter_D_plain.
  - destruct (d =? 0x111) eqn:E2.
    + apply letter_D_plain.
    + unfold plain, is_D_stroke. now rewrite Hk, Hs, E1, E2.
Qed.

Lemma unstroke_id (s : pystr) :
  (forall c, In c s -> is_D_stroke c = false) -> unstroke s = s.
Proof.
  intros H. unfold unstroke.
  assert (H1 : replace_char 0x110 0x44 s = s).
  { apply replace_char_other. intros c Hc ->. specialize (H _ Hc). discriminate. }
  rewrite H1. apply replace_char_other. intros c Hc ->. specialize (H _ Hc). discriminate.
Qed.

Lemma In_unstroke (c : N) (s : pystr) :
  In c (unstroke s) -> is_D_stroke c = false.
Proof.
  unfold unstroke, replace_char. rewrite map_map. intros H.
  apply in_map_iff in H as [d [<- Hd]].
  destruct (d =? 0x110) eqn:E1; [reflexivity |].
  destruct (d =? 0x111) eqn:E2; [reflexivity |].
  unfold is_D_stroke. now rewrite E1, E2.
Qed.

(** *** [remove_diacritics_upper] *)

Import EdengueImport.

Lemma rdu_unfold (s : pystr) :
  remove_diacritics_upper_str s
  = upper (strip (sub_ws (unstroke (List.filter starter (nfkd (strip s)))))).
Proof. reflexivity. Qed.

(** What the function returns is tidy and made of characters that neither
    decompose, nor combine, nor change in upper case. *)
Lemma rdu_result (s : pystr) :
  tidy (remove_diacritics_upper_str s) = true
  /\ forall u, In u (remove_diacritics_upper_str s) -> fixed u = true.
Proof.
  rewrite rdu_unfold.
  set (y := unstroke (List.filter starter (nfkd (strip s)))).
  assert (Hy : forall c, In c y -> plain c = true).
  { apply unstroke_plain. intros d Hd. apply starters_nfkd_parts in Hd. tauto. }
  assert (Hw : forall c, In c (strip (sub_ws y)) -> plain c = true).
  { intros c Hc. apply In_strip, In_sub_ws in Hc as [-> | Hc];
      [apply space_plain | now apply Hy]. }
  split.
  - apply (upper_tidy plain plain_upper_class); [exact Hw | apply tidy_strip_sub_ws].
  - intros u Hu. apply In_upper in Hu as [c [Hc Hu]].
    now destruct (toupper_plain c (Hw c Hc)) as [_ H]; destruct (H u Hu).
Qed.

Lemma plain_fixpoint_nfkd (t : pystr) :
  (forall u, In u t -> plain u = true) ->
  List.filter starter (nfkd t) = t.
Proof.
  intros H. rewrite starters_nfkd.
  rewrite flat_map_single by (intros c Hc; apply kstable_compat, plain_kstable, H, Hc).
  apply filter_all. intros c Hc. apply plain_starter, H, Hc.
Qed.

Lemma rdu_fixpoint (t : pystr) :
  tidy t = true -> (forall u, In u t -> fixed u = true) ->
  remove_diacritics_upper_str t = t.
Proof.
  intros Ht Hf. destruct (tidy_fixpoint t Ht) as [Hs Hw].
  rewrite rdu_unfold, Hs.
  rewrite plain_fixpoint_nfkd by (intros u Hu; apply fixed_plain, Hf, Hu).
  rewrite unstroke_id by (intros u Hu; apply plain_not_D_stroke, fixed_plain, Hf, Hu).
  rewrite Hw, Hs. apply flat_map_single. intros u Hu. apply fixed_toupper, Hf, Hu.
Qed.

Lemma rdu_str_idempotent (s : pystr) :
  remove_diacritics_upper_str (remove_diacritics_upper_str s)
  = remove_diacritics_upper_str s.
Proof. destruct (rdu_result s) as [H1 H2]. now apply rdu_fixpoint. Qed.

(** *** [remove_diacritics_ascii] *)

Import Dmoss.

Lemma rda_unfold (s : pystr) :
  remove_diacritics_ascii_str s = List.filter starter (nfkd (unstroke s)).
Proof. reflexivity. Qed.

Lemma rda_result (s : pystr) :
  forall d, In d (remove_diacritics_ascii_str s) -> plain d = true.
Proof.
  intros d Hd. rewrite rda_unfold in Hd.
  apply starters_nfkd_parts in Hd as [Hk [Hs [c [Hc Hd]]]].
  unfold plain. rewrite Hk, Hs.
  now rewrite (compat_no_D_stroke c d (In_unstroke _ _ Hc) Hd).
Qed.

Lemma rda_fixpoint (t : pystr) :
  (forall u, In u t -> plain u = true) -> remove_diacritics_ascii_str t = t.
Proof.
  intros H. rewrite rda_unfold.
  rewrite unstroke_id by (intros u Hu; apply plain_not_D_stroke, H, Hu).
  now apply plain_fixpoint_nfkd.
Qed.

Lemma rda_str_idempotent (s : pystr) :
  remove_diacritics_ascii_str (remove_diacritics_ascii_str s)
  = remove_diacritics_ascii_str s.
Proof. apply rda_fixpoint, rda_result. Qed.

Lemma rda_upper_result (s : pystr) :
  forall u, In u (upper (remove_diacritics_ascii_str s)) -> fixed u = true.
Proof.
  intros u Hu. apply In_upper in Hu as [c [Hc Hu]].
  now destruct (toupper_plain c (rda_result s c Hc)) as [_ H]; destruct (H u Hu).
Qed.

Lemma rda_upper_idempotent (s : pystr) :
  upper (remove_diacritics_ascii_str (upper (remove_diacritics_ascii_str s)))
  = upper (remove_diacritics_ascii_str s).
Proof.
  pose proof (rda_upper_result s) as H.
  rewrite rda_fixpoint by (intros u Hu; apply fixed_plain, H, Hu).
  apply flat_map_single. intros u Hu. apply fixed_toupper, H, Hu.
Qed.

(** *** [normalize] *)

Import Processing.

Lemma normalize_unfold (s : pystr) :
  normalize_str s = strip (upper (List.filter not_Mn (nfd s))).
Proof. reflexivity. Qed.

Lemma marks_nonspacing_spec (s : pystr) :
  marks_nonspacing s = true ->
  forall c, In c (flat_map canon s) -> not_Mn c = true -> starter c = true.
Proof.
  unfold marks_nonspacing, not_Mn. rewrite forallb_forall. intros H c Hc Hn.
  specialize (H c Hc). apply negb_true_iff in Hn. rewrite Hn, orb_false_r in H. exact H.
Qed.

Lemma normalize_result (s : pystr) :
  marks_nonspacing s = true ->
  forall u, In u (normalize_str s) -> nfixed u = true.
Proof.
  intros Hm u Hu. rewrite normalize_unfold in Hu.
  apply In_strip, In_upper in Hu as [c [Hc Hu]].
  unfold nfd in Hc.
  rewrite (filter_canonical_order not_Mn _ (marks_nonspacing_spec s Hm)) in Hc.
  apply filter_In in Hc as [Hc Hn].
  assert (Hp : nplain c = true).
  { unfold nplain. rewrite (marks_nonspacing_spec s Hm c Hc Hn).
    apply in_flat_map in Hc as [c0 [_ Hc]]. rewrite (canon_parts _ _ Hc).
    exact Hn. }
  now destruct (toupper_nplain c Hp) as [_ H]; destruct (H u Hu).
Qed.

Lemma normalize_fixpoint (t : pystr) :
  (forall u, In u t -> nfixed u = true) -> strip t = t -> normalize_str t = t.
Proof.
  intros H Hs. rewrite normalize_unfold. unfold nfd.
  rewrite flat_map_single
    by (intros c Hc; apply cstable_canon, nplain_cstable, nfixed_nplain, H, Hc).
  rewrite canonical_order_starters
    by (intros c Hc; apply nplain_starter, nfixed_nplain, H, Hc).
  rewrite filter_all
    by (intros c Hc; unfold not_Mn; now rewrite (nplain_not_Mn c (nfixed_nplain c (H c Hc)))).
  unfold upper.
  rewrite flat_map_single by (intros c Hc; apply nfixed_toupper, H, Hc).
  exact Hs.
Qed.

Lemma normalize_str_idempotent (s : pystr) :
  marks_nonspacing s = true ->
  normalize_str (normalize_str s) = normalize_str s.
Proof.
  intros Hm. apply normalize_fixpoint; [now apply normalize_result |].
  rewrite normalize_unfold. apply strip_strip.
Qed.

End NormFacts.
(** ** Searching in a text *)

Module SearchFacts.
Import UCD Str Spec StrFacts.

Lemma startswith_spec (p s : pystr) :
  startswith p s = true <-> exists post, s = p ++ post.
Proof.
  revert s. induction p as [| a p IH]; intros s; simpl.
  - split; [eauto | reflexivity].
  - destruct s as [| b s].
    + split; [discriminate | now intros [post H]].
    + rewrite andb_true_iff, N.eqb_eq, IH. split.
      * intros [-> [post ->]]. eauto.
      * intros [post H]. injection H as -> ->. eauto.
Qed.

Lemma contains_spec (p s : pystr) :
  contains p s = true <-> occurs_in p s.
Proof.
  unfold occurs_in. induction s as [| c s IH]; simpl.
  - rewrite orb_false_r, startswith_spec. split.
    + intros [post H]. exists [], post. exact H.
    + intros [pre [post H]]. destruct pre; [eauto | discriminate].
  - rewrite orb_true_iff, startswith_spec, IH. split.
    + intros [[post H] | [pre [post H]]].
      * exists [], post. exact H.
      * exists (c :: pre), post. simpl. now rewrite H.
    + intros [pre [post H]]. destruct pre as [| c' pre].
      * left. eauto.
      * right. injection H as _ H. eauto.
Qed.

Lemma span_decimal_spec (s d rest : pystr) :
  span_decimal s = (d, rest) ->
  s = d ++ rest /\ all_decimal d /\ no_digit_ahead rest.
Proof.
  revert d rest. induction s as [| c s IH]; intros d rest; simpl.
  - intros [= <- <-]. repeat split. constructor.
  - destruct (isdecimal c) eqn:E.
    + destruct (span_decimal s) as [d' rest'] eqn:Es. intros [= <- <-].
      destruct (IH _ _ eq_refl) as [-> [H1 H2]].
      repeat split; [now constructor | exact H2].
    + intros [= <- <-]. repeat split; [constructor | exact E].
Qed.

Lemma span_decimal_app (d rest : pystr) :
  all_decimal d -> no_digit_ahead rest -> span_decimal (d ++ rest) = (d, rest).
Proof.
  intros Hd Hr. induction Hd as [| c d Hc Hd IH]; simpl.
  - destruct rest as [| c r]; [reflexivity |]. simpl in *. now rewrite Hr.
  - now rewrite Hc, IH.
Qed.

Lemma search_digits_cons (c : N) (s : pystr) :
  search_digits (c :: s)
  = if isdecimal c then Some (fst (span_decimal (c :: s))) else search_digits s.
Proof. reflexivity. Qed.

Lemma search_digits_spec (s ds : pystr) :
  search_digits s = Some ds <-> first_digit_run s ds.
Proof.
  unfold first_digit_run. split.
  - revert ds. induction s as [| c s IH]; intros ds; [discriminate |].
    rewrite search_digits_cons. destruct (isdecimal c) eqn:E.
    + destruct (span_decimal (c :: s)) as [d rest] eqn:Es. intros [= <-].
      destruct (span_decimal_spec _ _ _ Es) as [H1 [H2 H3]].
      exists [], rest. repeat split; auto; [constructor |].
      simpl in Es. rewrite E in Es. destruct (span_decimal s). now injection Es as <- _.
    + intros H. destruct (IH _ H) as [pre [post [-> [H1 H2]]]].
      exists (c :: pre), post. repeat split; [now constructor | tauto ..].
  - intros [pre [post [-> [H1 [H2 [H3 H4]]]]]].
    induction H1 as [| c pre Hc Hpre IH].
    + destruct ds as [| c ds]; [congruence |].
      change ([] ++ (c :: ds) ++ post) with (c :: ds ++ post).
      rewrite search_digits_cons. inversion H3; subst.
      match goal with H : isdecimal c = true |- _ => rewrite H end.
      change (c :: ds ++ post) with ((c :: ds) ++ post).
      now rewrite span_decimal_app.
    + change ((c :: pre) ++ ds ++ post) with (c :: pre ++ ds ++ post).
      rewrite search_digits_cons. now rewrite Hc.
Qed.

End SearchFacts.
(** ** The numeral grammar of [safe_get] *)

Module NumeralFacts.
Import UCD Str Spec StrFacts SearchFacts EdengueImport.

Lemma minus_not_decimal : isdecimal 0x2D = false.
Proof. vm_compute. reflexivity. Qed.

Lemma point_not_decimal : isdecimal 0x2E = false.
Proof. vm_compute. reflexivity. Qed.

Lemma numeral_unsigned (neg : bool) (t1 : pystr) :
  (let '(ip, t2) := span_decimal t1 in
   match ip, t2 with
   | [], _ => None
   | _ :: _, [] => Some (neg, ip, [])
   | _ :: _, 0x2E :: t3 =>
       match span_decimal t3 with
       | (c :: fp', []) => Some (neg, ip, c :: fp')
       | _ => None
       end
   | _, _ => None
   end) = numeral ((if neg then [0x2D] else []) ++ t1)
  \/ (neg = false /\ exists r, t1 = 0x2D :: r).
Proof.
  destruct neg; [left; reflexivity |].
  destruct t1 as [| c r]; [left; reflexivity |].
  destruct (N.eq_dec c 0x2D) as [-> | Hc]; [right; eauto |].
  left. unfold numeral. simpl app.
  destruct c as [| p]; [reflexivity |].
  do 6 (destruct p as [p | p |]; try reflexivity). congruence.
Qed.

Lemma numeral_sound (t : pystr) (neg : bool) (ip fp : pystr) :
  numeral t = Some (neg, ip, fp) -> is_numeral t neg ip fp.
Proof.
  unfold numeral, is_numeral.
  set (p := match t with 0x2D :: r => (true, r) | _ => (false, t) end).
  assert (Ht : t = (if fst p then [0x2D] else []) ++ snd p).
  { subst p. destruct t as [| c r]; [reflexivity |].
    destruct c as [| q]; [reflexivity |].
    do 6 (destruct q as [q | q |]; try reflexivity). }
  destruct p as [sg t1]. simpl in Ht.
  destruct (span_decimal t1) as [d t2] eqn:Es.
  destruct (span_decimal_spec _ _ _ Es) as [-> [Hd _]].
  destruct d as [| c d]; [discriminate |].
  destruct t2 as [| c2 t3].
  - intros [= <- <- <-]. rewrite app_nil_r in Ht.
    repeat split; [now rewrite app_nil_r | discriminate | exact Hd | constructor].
  - destruct (N.eq_dec c2 0x2E) as [-> | Hc2].
    + destruct (span_decimal t3) as [f rest] eqn:Ef.
      destruct (span_decimal_spec _ _ _ Ef) as [-> [Hf _]].
      destruct f as [| cf f]; [discriminate |].
      destruct rest; [| discriminate].
      intros [= <- <- <-]. rewrite app_nil_r in Ht.
      repeat split; [exact Ht | discriminate | exact Hd | exact Hf].
    + intros H. exfalso.
      destruct c2 as [| q]; [discriminate |].
      do 6 (destruct q as [q | q |]; try discriminate). congruence.
Qed.

Lemma numeral_complete (t : pystr) (neg : bool) (ip fp : pystr) :
  is_numeral t neg ip fp -> numeral t = Some (neg, ip, fp).
Proof.
  intros [-> [Hne [Hip Hfp]]].
  destruct ip as [| c ip]; [congruence |].
  assert (Hc : isdecimal c = true) by now inversion Hip.
  assert (Hs : forall rest, no_digit_ahead rest ->
            span_decimal ((c :: ip) ++ rest) = (c :: ip, rest)).
  { intros rest Hr. now apply span_decimal_app. }
  assert (Hc' : c <> 0x2D).
  { intros ->. rewrite minus_not_decimal in Hc. discriminate. }
  assert (Hn : forall rest,
            numeral ((if neg then [0x2D] else []) ++ (c :: ip) ++ rest)
            = let '(ip, t2) := span_decimal ((c :: ip) ++ rest) in
              match ip, t2 with
              | [], _ => None
              | _ :: _, [] => Some (neg, ip, [])
              | _ :: _, 0x2E :: t3 =>
                  match span_decimal t3 with
                  | (c :: fp', []) => Some (neg, ip, c :: fp')
                  | _ => None
                  end
              | _, _ => None
              end).
  { intros rest. destruct (numeral_unsigned neg ((c :: ip) ++ rest)) as [H | [_ [r H]]].
    - symmetry. exact H.
    - injection H as H _. congruence. }
  rewrite Hn. destruct fp as [| f fp].
  - rewrite Hs by exact I. reflexivity.
  - rewrite Hs by exact point_not_decimal.
    replace (f :: fp) with ((f :: fp) ++ []) at 1 by apply app_nil_r.
    rewrite span_decimal_app by (auto; exact I). reflexivity.
Qed.

Lemma numeral_spec (t : pystr) (neg : bool) (ip fp : pystr) :
  numeral t = Some (neg, ip, fp) <-> is_numeral t neg ip fp.
Proof. split; [apply numeral_sound | apply numeral_complete]. Qed.

Lemma numeral_none (t : pystr) :
  numeral t = None <-> forall neg ip fp, ~ is_numeral t neg ip fp.
Proof.
  split.
  - intros H neg ip fp Hn. apply numeral_complete in Hn. congruence.
  - intros H. destruct (numeral t) as [[[neg ip] fp] |] eqn:E; [| reflexivity].
    apply numeral_sound in E. now apply H in E.
Qed.

End NumeralFacts.
(** ** Numbers *)

Module NumFacts.
Import UCD Str Spec.

Local Open Scope Z_scope.

Lemma digits_value_decimal (s : pystr) (acc : Z) :
  all_decimal s -> exists m, Num.digits_value acc s = Some m.
Proof.
  intros H. revert acc. induction H as [| c s Hc Hs IH]; intros acc; simpl.
  - eauto.
  - unfold isdecimal, mem in Hc. unfold decimal.
    destruct (find decimal_map c); [apply IH | discriminate].
Qed.

Lemma is_integer_float_is (x : spec_float) :
  Num.is_integer x = true -> float_is x (Num.int_of_float x).
Proof.
  destruct x as [s | s | | s m e]; simpl; try discriminate; [reflexivity |].
  destruct (Z.leb_spec 0 e) as [He | He]; simpl.
  - intros _. rewrite Z.max_l, Z.max_r by lia.
    destruct s; simpl; lia.
  - rewrite Z.eqb_eq. intros Hm. rewrite Z.max_r, Z.max_l by lia.
    assert (Hp : 0 < 2 ^ (- e)) by (apply Z.pow_pos_nonneg; lia).
    pose proof (Z.div_mod (Zpos m) (2 ^ (- e)) ltac:(lia)) as Hd.
    rewrite Hm in Hd. destruct s; simpl; nia.
Qed.

Lemma float_is_integer (x : spec_float) (z : Z) :
  float_is x z -> Num.is_integer x = true /\ z = Num.int_of_float x.
Proof.
  destruct x as [s | s | | s m e]; simpl; try tauto.
  destruct (Z.leb_spec 0 e) as [He | He]; simpl.
  - rewrite Z.max_l, Z.max_r by lia. intros H. split; [reflexivity |].
    destruct s; simpl in *; lia.
  - rewrite Z.max_r, Z.max_l by lia. intros H.
    assert (Hp : 0 < 2 ^ (- e)) by (apply Z.pow_pos_nonneg; lia).
    assert (Hz : Zpos m = (if s then - z else z) * 2 ^ (- e)) by (destruct s; simpl in *; lia).
    split.
    + rewrite Z.eqb_eq, Hz. apply Z.mod_mul. lia.
    + rewrite Hz, Z.div_mul by lia. destruct s; lia.
Qed.

Lemma is_integer_spec (x : spec_float) :
  Num.is_integer x = true <-> exists z, float_is x z.
Proof.
  split.
  - intros H. eexists. now apply is_integer_float_is.
  - intros [z H]. now apply float_is_integer in H.
Qed.

End NumFacts.
(** ** The upward search for the district label *)

Module DistrictFacts.
Import UCD Str Spec StrFacts SearchFacts EdengueImport.

Lemma has_bad_keyword_false (bad : list pystr) (s : pystr) :
  has_bad_keyword bad s = false
  <-> forall k, In k bad -> ~ occurs_in (upper k) (upper s).
Proof.
  unfold has_bad_keyword. induction bad as [| k bad IH]; simpl.
  - split; [intros _ k [] | reflexivity].
  - rewrite orb_false_iff, IH. split.
    + intros [H1 H2] k' [<- | Hk] Ho.
      * apply contains_spec in Ho. congruence.
      * now apply (H2 k').
    + intros H. split.
      * destruct (contains (upper k) (upper s)) eqn:E; [| reflexivity].
        apply contains_spec in E. now destruct (H k (or_introl eq_refl)).
      * intros k' Hk. apply H. now right.
Qed.

Lemma label_at_spec (df : DataFrame) (bad : list pystr) (col i : nat) (s : pystr) :
  label_at df bad col i = Some s <-> is_label df bad col i s.
Proof.
  unfold label_at, is_label.
  destruct (isna (cell_at df i col)); [split; [discriminate | intros [H _]; discriminate] |].
  set (t := strip (py_str (cell_at df i col))).
  destruct (Str.eqb t []) eqn:Ee.
  - apply eqb_eq in Ee. split; [discriminate | intros [_ [-> [H _]]]; congruence].
  - assert (Hne : t <> []).
    { intros H. apply eqb_eq in H. congruence. }
    destruct (has_bad_keyword bad t) eqn:Eb.
    + split; [discriminate | intros [_ [-> [_ H]]]].
      pose proof (proj2 (has_bad_keyword_false bad t) H). congruence.
    + pose proof (proj1 (has_bad_keyword_false bad t) Eb) as Hb. split.
      * intros [= <-]. auto.
      * intros [_ [-> _]]. reflexivity.
Qed.

Lemma label_at_none (df : DataFrame) (bad : list pystr) (col i : nat) :
  label_at df bad col i = None <-> forall t, ~ is_label df bad col i t.
Proof.
  split.
  - intros H t Ht. apply label_at_spec in Ht. congruence.
  - intros H. destruct (label_at df bad col i) as [t |] eqn:E; [| reflexivity].
    apply label_at_spec in E. now apply H in E.
Qed.

Lemma search_up_none (df : DataFrame) (bad : list pystr) (col n : nat) :
  search_up df bad col n = None <-> no_label df bad col n.
Proof.
  unfold no_label. induction n as [| n IH]; simpl.
  - split; [intros _ i t Hi; lia | reflexivity].
  - destruct (label_at df bad col n) as [s |] eqn:E.
    + split; [discriminate |]. intros H. apply label_at_spec in E.
      now destruct (H n s (Nat.lt_succ_diag_r n)).
    + rewrite IH. split.
      * intros H i t Hi. destruct (Nat.eq_dec i n) as [-> | Hne].
        -- now apply label_at_none.
        -- apply H. lia.
      * intros H i t Hi. apply H. lia.
Qed.

Lemma search_up_some (df : DataFrame) (bad : list pystr) (col n : nat) (s : pystr) :
  search_up df bad col n = Some s <-> nearest_label df bad col n s.
Proof.
  unfold nearest_label. induction n as [| n IH]; simpl.
  - split; [discriminate | intros [i [Hi _]]; lia].
  - destruct (label_at df bad col n) as [t |] eqn:E.
    + split.
      * intros [= <-]. exists n. apply label_at_spec in E.
        split; [lia | split; [exact E | intros j u Hj; lia]].
      * intros [i [Hi [Hl Hn]]]. destruct (Nat.eq_dec i n) as [-> | Hne].
        -- apply label_at_spec in Hl. congruence.
        -- apply label_at_spec in E. destruct (Hn n t); [lia | exact E].
    + rewrite IH. split.
      * intros [i [Hi [Hl Hn]]]. exists i. split; [lia | split; [exact Hl |]].
        intros j u Hj. destruct (Nat.eq_dec j n) as [-> | Hne].
        -- now apply label_at_none.
        -- apply Hn. lia.
      * intros [i [Hi [Hl Hn]]]. exists i.
        assert (i <> n).
        { intros ->. apply label_at_spec in Hl. congruence. }
        split; [lia | split; [exact Hl |]]. intros j u Hj. apply Hn. lia.
Qed.

(** A column outside the sheet holds no label. *)
Lemma no_label_outside (df : DataFrame) (bad : list pystr) (col n : nat) :
  (ncols df <= col)%nat -> no_label df bad col n.
Proof.
  intros H i t _ [Hna _]. unfold cell_at in Hna.
  apply Nat.ltb_ge in H. rewrite H in Hna. discriminate.
Qed.

(** The two loops of the source, as one expression. *)
Lemma find_district_eq (df : DataFrame) (bad : list pystr) (idx : nat) :
  find_district df bad idx
  = match search_up df bad 0 idx with
    | Some s => s
    | None =>
        match search_up df bad 1 idx with
        | Some s => s
        | None => utf8 "UNKNOWN"
        end
    end.
Proof.
  unfold find_district.
  destruct (ncols df =? 0)%nat eqn:E0.
  - apply Nat.eqb_eq in E0.
    assert (H0 : search_up df bad 0 idx = None)
      by (apply search_up_none, no_label_outside; lia).
    assert (H1 : search_up df bad 1 idx = None)
      by (apply search_up_none, no_label_outside; lia).
    rewrite H0, H1. now destruct (1 <? ncols df)%nat.
  - destruct (search_up df bad 0 idx); [reflexivity |].
    destruct (1 <? ncols df)%nat eqn:E1; [reflexivity |].
    apply Nat.ltb_ge in E1.
    assert (H1 : search_up df bad 1 idx = None)
      by (apply search_up_none, no_label_outside; lia).
    now rewrite H1.
Qed.

End DistrictFacts.
(** ** Tables *)

Module TableFacts.
Import UCD Str Spec StrFacts.

Lemma float_eqb_eq (x y : spec_float) : float_eqb x y = true <-> x = y.
Proof.
  destruct x as [s | s | | s m e], y as [s' | s' | | s' m' e']; simpl;
    try (split; [discriminate | congruence]).
  - rewrite Bool.eqb_true_iff. split; congruence.
  - rewrite Bool.eqb_true_iff. split; congruence.
  - tauto.
  - rewrite !andb_true_iff, Bool.eqb_true_iff, Pos.eqb_eq, Z.eqb_eq.
    split; [intros [[-> ->] ->]; reflexivity | intros [= -> -> ->]; auto].
Qed.

Lemma pyval_eqb_eq (v w : pyval) : pyval_eqb v w = true <-> v = w.
Proof.
  destruct v, w; simpl; try (split; [discriminate | congruence]).
  - tauto.
  - rewrite Bool.eqb_true_iff. split; congruence.
  - rewrite Z.eqb_eq. split; congruence.
  - rewrite float_eqb_eq. split; congruence.
  - rewrite eqb_eq. split; congruence.
  - rewrite eqb_eq. split; congruence.
Qed.

Lemma pyval_eqb_refl (v : pyval) : pyval_eqb v v = true.
Proof. now apply pyval_eqb_eq. Qed.

Lemma pyval_eqb_neq (v w : pyval) : v <> w -> pyval_eqb v w = false.
Proof.
  intros H. destruct (pyval_eqb v w) eqn:E; [| reflexivity].
  apply pyval_eqb_eq in E. contradiction.
Qed.

Lemma label_index_Some (cols : list pyval) (c : pyval) (j : nat) :
  label_index cols c = Some j ->
  (j < length cols)%nat /\ nth_error cols j = Some c
  /\ forall i, (i < j)%nat -> nth_error cols i <> Some c.
Proof.
  revert j. induction cols as [| l cols IH]; intros j; simpl; [discriminate |].
  destruct (pyval_eqb l c) eqn:E.
  - intros [= <-]. apply pyval_eqb_eq in E. subst l.
    repeat split; [lia | intros i Hi; lia].
  - destruct (label_index cols c) as [k |]; [| discriminate].
    intros [= <-]. destruct (IH k eq_refl) as [H1 [H2 H3]].
    repeat split; [lia | exact H2 |].
    intros [| i] Hi; simpl.
    + intros [= ->]. now rewrite pyval_eqb_refl in E.
    + apply H3. lia.
Qed.

Lemma label_index_None (cols : list pyval) (c : pyval) :
  label_index cols c = None <-> ~ In c cols.
Proof.
  split.
  - induction cols as [| l cols IH]; simpl; [tauto |].
    destruct (pyval_eqb l c) eqn:E; [discriminate |].
    destruct (label_index cols c); [discriminate |].
    intros _ [-> | H]; [now rewrite pyval_eqb_refl in E | now apply IH].
  - intros H. destruct (label_index cols c) as [j |] eqn:E; [| reflexivity].
    apply label_index_Some in E as [_ [E _]]. apply nth_error_In in E. contradiction.
Qed.

Lemma label_index_app (cols : list pyval) (c c' : pyval) :
  label_index (cols ++ [c]) c'
  = match label_index cols c' with
    | Some j => Some j
    | None => if pyval_eqb c c' then Some (length cols) else None
    end.
Proof.
  induction cols as [| l cols IH]; simpl.
  - now destruct (pyval_eqb c c').
  - destruct (pyval_eqb l c'); [reflexivity |]. rewrite IH.
    destruct (label_index cols c'); [reflexivity |].
    now destruct (pyval_eqb c c').
Qed.

Lemma nth_set_nth_same (j : nat) (v : pyval) (vals : list pyval) :
  nth j (set_nth j v vals) NaN = v.
Proof.
  revert vals. induction j as [| j IH]; intros [| x vals]; simpl; auto.
Qed.

Lemma nth_set_nth_other (j k : nat) (v : pyval) (vals : list pyval) :
  j <> k -> nth j (set_nth k v vals) NaN = nth j vals NaN.
Proof.
  revert j vals. induction k as [| k IH]; intros [| j] [| x vals] H; simpl;
    try reflexivity; try lia.
  - now destruct j.
  - rewrite IH by lia. now destruct j.
  - apply IH. lia.
Qed.

Lemma length_assign_values (j : nat) (rows : list (list pyval)) (values : list pyval) :
  length (assign_values j rows values) = length rows.
Proof.
  revert values. induction rows as [| row rows IH]; intros values; simpl; [reflexivity |].
  now rewrite IH.
Qed.

Lemma map_nth_assign_same (j : nat) (rows : list (list pyval)) (values : list pyval) :
  length values = length rows ->
  map (fun vals => nth j vals NaN) (assign_values j rows values) = values.
Proof.
  revert values. induction rows as [| row rows IH]; intros [| v values] H;
    simpl in *; try discriminate; [reflexivity |].
  rewrite nth_set_nth_same, IH; [reflexivity | lia].
Qed.

Lemma map_nth_assign_other (j k : nat) (rows : list (list pyval)) (values : list pyval) :
  j <> k ->
  map (fun vals => nth j vals NaN) (assign_values k rows values)
  = map (fun vals => nth j vals NaN) rows.
Proof.
  intros H. revert values. induction rows as [| row rows IH]; intros values; simpl;
    [reflexivity |].
  now rewrite nth_set_nth_other, IH.
Qed.

Lemma get_column_eq (df : Table) (c : pyval) :
  get_column df c
  = match label_index (columns df) c with
    | Some j => map (fun vals => nth j vals NaN) (body df)
    | None => map (fun _ => NaN) (body df)
    end.
Proof.
  unfold get_column, row_get. now destruct (label_index (columns df) c).
Qed.

Lemma length_get_column (df : Table) (c : pyval) :
  length (get_column df c) = length (body df).
Proof. unfold get_column. apply length_map. Qed.

Lemma length_body_set_column (df : Table) (c : pyval) (values : list pyval) :
  length (body (set_column df c values)) = length (body df).
Proof.
  unfold set_column. destruct (label_index (columns df) c); simpl;
    apply length_assign_values.
Qed.

(** Reading back the column that was assigned. *)
Lemma get_set_column_same (df : Table) (c : pyval) (values : list pyval) :
  length values = length (body df) ->
  get_column (set_column df c values) c = values.
Proof.
  intros H. rewrite get_column_eq. unfold set_column.
  destruct (label_index (columns df) c) as [j |] eqn:E; simpl.
  - rewrite E. now apply map_nth_assign_same.
  - rewrite label_index_app, E, pyval_eqb_refl. now apply map_nth_assign_same.
Qed.

(** An assignment leaves every other column as it was. *)
Lemma get_set_column_other (df : Table) (c c' : pyval) (values : list pyval) :
  c <> c' -> get_column (set_column df c values) c' = get_column df c'.
Proof.
  intros H. rewrite !get_column_eq. unfold set_column.
  destruct (label_index (columns df) c) as [j |] eqn:E; simpl.
  - destruct (label_index (columns df) c') as [k |] eqn:E'.
    + apply map_nth_assign_other. intros ->.
      apply label_index_Some in E as [_ [E _]].
      apply label_index_Some in E' as [_ [E' _]]. congruence.
    + clear. generalize values. induction (body df); intros vs; simpl;
        [reflexivity | now rewrite IHl].
  - rewrite label_index_app, (pyval_eqb_neq _ _ H).
    destruct (label_index (columns df) c') as [k |] eqn:E'.
    + apply map_nth_assign_other. apply label_index_Some in E' as [E' _]. lia.
    + clear. generalize values. induction (body df); intros vs; simpl;
        [reflexivity | now rewrite IHl].
Qed.

Lemma In_columns_set_column (df : Table) (c c' : pyval) (values : list pyval) :
  In c' (columns (set_column df c values)) <-> c' = c \/ In c' (columns df).
Proof.
  unfold set_column. destruct (label_index (columns df) c) as [j |] eqn:E; simpl.
  - apply label_index_Some in E as [_ [E _]]. apply nth_error_In in E.
    split; [tauto | intros [-> | H]; auto].
  - rewrite in_app_iff. simpl. split; [intros [H | [-> | []]]; auto | intros [-> | H]; auto].
Qed.

End TableFacts.
(** ** Texts of the common scripts *)

Module ScriptFacts.
Import UCD Chars Str UCDFacts.

Lemma common_script_check :
  forallb (fun c => implb (common_script c) (marks_nonspacing [c])) (range_from 0 (N.to_nat 12334))
  = true.
Proof. vm_compute. reflexivity. Qed.

Lemma marks_nonspacing_char (c : N) :
  common_script c = true -> marks_nonspacing [c] = true.
Proof.
  intros H. pose proof common_script_check as Hc. rewrite forallb_forall in Hc.
  assert (Hin : In c (range_from 0 (N.to_nat 12334))).
  { apply In_range_from. rewrite N2Nat.id. unfold common_script in H.
    apply orb_true_iff in H as [H | H].
    - apply N.ltb_lt in H. lia.
    - apply andb_true_iff in H as [_ H]. apply N.ltb_lt in H. lia. }
  specialize (Hc c Hin). now rewrite H in Hc.
Qed.

Lemma marks_nonspacing_common (s : pystr) :
  forallb common_script s = true -> marks_nonspacing s = true.
Proof.
  unfold marks_nonspacing. induction s as [| c s IH]; simpl; [reflexivity |].
  intros H. apply andb_true_iff in H as [Hc Hs].
  rewrite forallb_app, (IH Hs), andb_true_r.
  pose proof (marks_nonspacing_char c Hc) as H. unfold marks_nonspacing in H.
  simpl in H. now rewrite app_nil_r in H.
Qed.

End ScriptFacts.
(** ** Grouping *)

Module GroupFacts.
Import Spec Aggregator.

Local Open Scope Z_scope.

Lemma fold_totals_add (l : list Totals) (t0 : Totals) :
  let t := fold_left totals_add l t0 in
  No_DEN1 t = No_DEN1 t0 + Zsum (map No_DEN1 l)
  /\ No_DEN2 t = No_DEN2 t0 + Zsum (map No_DEN2 l)
  /\ No_DEN3 t = No_DEN3 t0 + Zsum (map No_DEN3 l)
  /\ No_DEN4 t = No_DEN4 t0 + Zsum (map No_DEN4 l)
  /\ Total_test t = Total_test t0 + Zsum (map Total_test l).
Proof.
  revert t0. induction l as [| a l IH]; intros t0; simpl.
  - repeat split; lia.
  - destruct (IH (totals_add t0 a)) as (H1 & H2 & H3 & H4 & H5).
    simpl in *. repeat split; lia.
Qed.

(** The group of the key [k] after the rows [rows] are added to the
    groups [m]. *)
Lemma lookup_fold_add_to_group (rows : list (list pyval * Totals))
    (m : gmap (list pyval) Totals) (k : list pyval) :
  fold_left add_to_group rows m !! k
  = match List.filter (fun kt => bool_decide (fst kt = k)) rows with
    | [] => m !! k
    | l => Some (fold_left totals_add (map snd l) (default totals_zero (m !! k)))
    end.
Proof.
  revert m. induction rows as [| [k' t] rows IH]; intros m; simpl; [reflexivity |].
  rewrite IH. unfold add_to_group. cbn [fst snd].
  destruct (decide (k' = k)) as [-> | Hne].
  - rewrite bool_decide_eq_true_2 by reflexivity. rewrite lookup_insert_eq. simpl.
    now destruct (List.filter _ rows).
  - rewrite bool_decide_eq_false_2 by exact Hne. now rewrite lookup_insert_ne.
Qed.

Lemma lookup_groupby_sum (rows : list (list pyval * Totals)) (k : list pyval) :
  groupby_sum rows !! k
  = match List.filter (fun kt => bool_decide (fst kt = k)) rows with
    | [] => None
    | l => Some (fold_left totals_add (map snd l) totals_zero)
    end.
Proof.
  unfold groupby_sum. rewrite lookup_fold_add_to_group, lookup_empty. reflexivity.
Qed.

Lemma filter_map_key (df : Table) (gcols : list pyval) (k : list pyval)
    (rows : list (list pyval)) :
  List.filter (fun kt : list pyval * Totals => bool_decide (fst kt = k))
    (map (fun row => (row_key df gcols row, row_totals df row)) rows)
  = map (fun row => (row_key df gcols row, row_totals df row))
      (List.filter (fun row => bool_decide (row_key df gcols row = k)) rows).
Proof.
  induction rows as [| r rows IH]; simpl; [reflexivity |].
  destruct (bool_decide (row_key df gcols r = k)); simpl; now rewrite IH.
Qed.

(** The group of a key: absent when no row has the key, and otherwise the
    sums over the rows that have it. *)
Lemma lookup_aggregate (df : Table) (k : list pyval) :
  let gcols := group_cols df in
  match rows_of_group df gcols k with
  | [] => aggregate df !! k = None
  | _ :: _ =>
      exists t, aggregate df !! k = Some t
        /\ No_DEN1 t = group_sum df gcols k (lbl "DEN1")
        /\ No_DEN2 t = group_sum df gcols k (lbl "DEN2")
        /\ No_DEN3 t = group_sum df gcols k (lbl "DEN3")
        /\ No_DEN4 t = group_sum df gcols k (lbl "DEN4")
        /\ Total_test t = group_sum df gcols k (lbl "TOTAL_TEST")
  end.
Proof.
  cbv zeta. unfold aggregate, group_sum, rows_of_group.
  rewrite lookup_groupby_sum, filter_map_key.
  destruct (List.filter _ (body df)) as [| r l] eqn:E; [reflexivity |].
  cbn [map]. eexists. split; [reflexivity |].
  set (rs := r :: l).
  change ((row_key df (group_cols df) r, row_totals df r)
          :: map (fun row => (row_key df (group_cols df) row, row_totals df row)) l)
    with (map (fun row => (row_key df (group_cols df) row, row_totals df row)) rs).
  rewrite map_map. cbn [snd].
  destruct (fold_totals_add (map (fun x => row_totals df x) rs) totals_zero)
    as (H1 & H2 & H3 & H4 & H5).
  rewrite !map_map in *. simpl in *. repeat split; assumption.
Qed.

End GroupFacts.
(** ** The derived columns of [process] *)

Module PrepareFacts.
Import UCD Str Spec Processing TableFacts.

Lemma map_const_length {A B C} (v : C) (l : list A) (l' : list B) :
  length l = length l' -> map (fun _ => v) l = map (fun _ => v) l'.
Proof.
  revert l'. induction l as [| a l IH]; intros [| b l'] H; simpl in *;
    try discriminate; [reflexivity |]. f_equal. apply IH. lia.
Qed.

Lemma den_label_other (d : Z) (s : string) :
  (1 <= d <= 4)%Z -> In s ["province"; "district"; "year"; "month"]%string ->
  VStr (den_token d) <> lbl s.
Proof.
  intros Hd Hs.
  assert (Hc : (d = 1 \/ d = 2 \/ d = 3 \/ d = 4)%Z) by lia.
  simpl in Hs.
  destruct Hc as [-> | [-> | [-> | ->]]];
    destruct Hs as [<- | [<- | [<- | [<- | []]]]]; intros H; vm_compute in H; discriminate.
Qed.

Lemma get_column_assign_den (rc : list pyval) (df : Table) (d : Z) (c : pyval) :
  VStr (den_token d) <> c -> get_column (assign_den rc df d) c = get_column df c.
Proof. intros H. unfold assign_den. now apply get_set_column_other. Qed.

Lemma length_body_assign_den (rc : list pyval) (df : Table) (d : Z) :
  length (body (assign_den rc df d)) = length (body df).
Proof. unfold assign_den. apply length_body_set_column. Qed.

(** What [process] has in the key columns once the derived columns are
    assigned. *)
Lemma prepare_columns (dt_month : list pyval -> list pyval) (df : Table) (year : Z)
    (p d m : pyval) (tokens : list pyval) (df' : Table) (rc : list pyval) :
  prepare dt_month df year p d m tokens = Some (df', rc) ->
  exists pc,
    col_by_index_or_name df p = Some pc
    /\ resolve_result_cols df tokens = Some rc
    /\ length (body df') = length (body df)
    /\ get_column df' (lbl "province") = map normalize (get_column df pc)
    /\ get_column df' (lbl "year") = map (fun _ => VInt year) (body df)
    /\ get_column df' (lbl "district")
       = match col_by_index_or_name df d with
         | Some dc =>
             map normalize
               (get_column (set_column df (lbl "province") (map normalize (get_column df pc))) dc)
         | None => map (fun _ => VNone) (body df)
         end.
Proof.
  unfold prepare.
  destruct (resolve_result_cols df tokens) as [rc0 |]; [| discriminate].
  destruct (col_by_index_or_name df p) as [pc |]; [| discriminate].
  set (df1 := set_column df (lbl "province") (map normalize (get_column df pc))).
  set (df2 := match col_by_index_or_name df d with
              | Some dc => set_column df1 (lbl "district") (map normalize (get_column df1 dc))
              | None => set_column df1 (lbl "district") (map (fun _ => VNone) (body df1))
              end).
  set (df3 := set_column df2 (lbl "year") (map (fun _ => VInt year) (body df2))).
  set (df4 := match col_by_index_or_name df m with
              | Some mc =>
                  if truthy mc
                  then set_column df3 (lbl "month") (dt_month (get_column df3 mc))
                  else set_column df3 (lbl "month") (map (fun _ => VNone) (body df3))
              | None => set_column df3 (lbl "month") (map (fun _ => VNone) (body df3))
              end).
  set (df5 := fold_left (assign_den rc0) [1; 2; 3; 4]%Z df4).
  intros H.
  assert (Hdf' : exists vs, df' = set_column df5 (lbl "TOTAL_TEST") vs /\ rc = rc0).
  { destruct rc0; injection H as <- <-; eauto. }
  destruct Hdf' as [vs [-> ->]]. clear H.
  assert (L1 : length (body df1) = length (body df))
    by apply length_body_set_column.
  assert (L2 : length (body df2) = length (body df)).
  { subst df2. destruct (col_by_index_or_name df d); now rewrite length_body_set_column. }
  assert (L3 : length (body df3) = length (body df))
    by (subst df3; now rewrite length_body_set_column).
  assert (L4 : length (body df4) = length (body df)).
  { subst df4. destruct (col_by_index_or_name df m) as [mc |];
      [destruct (truthy mc) |]; now rewrite length_body_set_column. }
  assert (K5 : forall c, In c ["province"; "district"; "year"; "month"]%string ->
             get_column df5 (lbl c) = get_column df4 (lbl c)).
  { intros c Hc. subst df5. cbn [fold_left].
    rewrite !get_column_assign_den by (apply den_label_other; [lia | exact Hc]).
    reflexivity. }
  assert (K4 : forall c, In c ["province"; "district"; "year"]%string ->
             get_column df4 (lbl c) = get_column df3 (lbl c)).
  { intros c Hc. subst df4.
    assert (Hne : lbl "month" <> lbl c).
    { simpl in Hc. destruct Hc as [<- | [<- | [<- | []]]]; intros H; vm_compute in H;
        discriminate. }
    destruct (col_by_index_or_name df m) as [mc |]; [destruct (truthy mc) |];
      now apply get_set_column_other. }
  exists pc. repeat apply conj; try reflexivity.
  - rewrite length_body_set_column. subst df5. cbn [fold_left].
    now rewrite !length_body_assign_den.
  - rewrite get_set_column_other by (intros H; vm_compute in H; discriminate).
    rewrite K5, K4 by (simpl; tauto).
    subst df3. rewrite get_set_column_other by (intros H; vm_compute in H; discriminate).
    subst df2. destruct (col_by_index_or_name df d);
      (rewrite get_set_column_other by (intros H; vm_compute in H; discriminate));
      subst df1; apply get_set_column_same; now rewrite length_map, length_get_column.
  - rewrite get_set_column_other by (intros H; vm_compute in H; discriminate).
    rewrite K5, K4 by (simpl; tauto).
    subst df3. rewrite get_set_column_same by now rewrite length_map.
    apply map_const_length. exact L2.
  - rewrite get_set_column_other by (intros H; vm_compute in H; discriminate).
    rewrite K5, K4 by (simpl; tauto).
    subst df3. rewrite get_set_column_other by (intros H; vm_compute in H; discriminate).
    subst df2. destruct (col_by_index_or_name df d).
    + apply get_set_column_same. now rewrite length_map, length_get_column.
    + rewrite get_set_column_same by now rewrite length_map.
      apply map_const_length. exact L1.
Qed.

End PrepareFacts.
(** ** The workbook driver *)

Module DriverFacts.
Import UCD Str Spec EdengueImport SearchFacts.

Lemma collect_rows_spec (xls : Workbook) (prov : pystr) (month_min month_max : Z)
    (col_map : col_map_t) (rows : list Rec) :
  collect_rows xls prov month_min month_max col_map = Some rows ->
  forall r, In r rows ->
    exists sheet df ds m idx,
      In (sheet, df) xls /\ first_digit_run sheet ds
      /\ Num.int_of_digits ds = Some m /\ (month_min <= m <= month_max)%Z
      /\ In idx (tc_indices df)
      /\ r = tc_record df m prov col_map default_bad_keywords idx.
Proof.
  revert rows. induction xls as [| [sheet df] rest IH]; intros rows; simpl.
  - intros [= <-] r [].
  - assert (Hrest : forall rows', collect_rows rest prov month_min month_max col_map = Some rows' ->
              forall r, In r rows' ->
              exists sheet0 df0 ds m idx,
                ((sheet, df) = (sheet0, df0) \/ In (sheet0, df0) rest)
                /\ first_digit_run sheet0 ds
                /\ Num.int_of_digits ds = Some m /\ (month_min <= m <= month_max)%Z
                /\ In idx (tc_indices df0)
                /\ r = tc_record df0 m prov col_map default_bad_keywords idx).
    { intros rows' H r Hr. destruct (IH _ H r Hr) as (s0 & d0 & ds & m & idx & H1 & H2).
      exists s0, d0, ds, m, idx. tauto. }
    unfold sheet_month. destruct (search_digits sheet) as [ds |] eqn:Es; [| apply Hrest].
    destruct (Num.int_of_digits ds) as [m |] eqn:Em; [| discriminate].
    destruct ((m <? month_min)%Z || (month_max <? m)%Z) eqn:Eb; [apply Hrest |].
    apply orb_false_iff in Eb as [Eb1 Eb2].
    apply Z.ltb_ge in Eb1. apply Z.ltb_ge in Eb2.
    destruct (collect_rows rest prov month_min month_max col_map) as [more |]; [| discriminate].
    intros [= <-] r Hr. apply in_app_or in Hr as [Hr | Hr].
    + unfold extract_tc_rows_from_sheet in Hr. apply in_map_iff in Hr as [idx [<- Hidx]].
      exists sheet, df, ds, m, idx. apply search_digits_spec in Es.
      repeat split; auto.
    + now apply (Hrest more).
Qed.

End DriverFacts.
(** ** Serotype detection *)

Module DenFacts.
Import UCD Str Spec Processing SearchFacts TableFacts.

Lemma detect_den_spec (cols_of_row row cols : list pyval) (tok : pystr) :
  detect_den_from_cols cols_of_row row cols tok = true
  <-> exists c val,
        In c cols /\ row_get cols_of_row row c = Some val /\ isna val = false
        /\ occurs_in tok (upper (remove_char 0x2D (py_str val))).
Proof.
  induction cols as [| c cols IH]; simpl.
  - split; [discriminate | intros (c & val & [] & _)].
  - destruct (row_get cols_of_row row c) as [val |] eqn:Eg.
    + destruct (isna val) eqn:En.
      * rewrite IH. split.
        -- intros (c' & v' & H1 & H2). exists c', v'. tauto.
        -- intros (c' & v' & [<- | H1] & H2 & H3 & H4); [congruence |].
           exists c', v'. tauto.
      * destruct (contains tok (upper (remove_char 0x2D (py_str val)))) eqn:Ec.
        -- split; [intros _ | reflexivity].
           exists c, val. apply contains_spec in Ec. tauto.
        -- rewrite IH. split.
           ++ intros (c' & v' & H1 & H2). exists c', v'. tauto.
           ++ intros (c' & v' & [<- | H1] & H2 & H3 & H4).
              ** apply contains_spec in H4. congruence.
              ** exists c', v'. tauto.
    + rewrite IH. split.
      * intros (c' & v' & H1 & H2). exists c', v'. tauto.
      * intros (c' & v' & [<- | H1] & H2 & H3 & H4); [congruence |].
        exists c', v'. tauto.
Qed.

End DenFacts.
(** ** Rows and cells of a table *)

Module CellFacts.
Import UCD Str Spec Processing TableFacts PrepareFacts DenFacts.

Lemma nth_map_default {A B} (f : A -> B) (l : list A) (i : nat) (d : A) (d' : B) :
  (i < length l)%nat -> nth i (map f l) d' = f (nth i l d).
Proof.
  revert i. induction l as [| a l IH]; intros [| i] H; simpl in *; try lia;
    [reflexivity | apply IH; lia].
Qed.

Lemma field_cell (X : Table) (i : nat) (c : pyval) :
  (i < length (body X))%nat ->
  Aggregator.field X (nth i (body X) []) c = cell_of X i c.
Proof.
  intros H. unfold Aggregator.field, cell_of, get_column.
  now rewrite (nth_map_default _ _ _ []).
Qed.

Lemma row_get_cell (X : Table) (i : nat) (c v : pyval) :
  (i < length (body X))%nat ->
  row_get (columns X) (nth i (body X) []) c = Some v -> cell_of X i c = v.
Proof.
  intros H Hg. rewrite <- field_cell by exact H. unfold Aggregator.field. now rewrite Hg.
Qed.

Lemma cell_notna_row_get (X : Table) (i : nat) (c : pyval) :
  (i < length (body X))%nat -> isna (cell_of X i c) = false ->
  row_get (columns X) (nth i (body X) []) c = Some (cell_of X i c).
Proof.
  intros H Hn. rewrite <- field_cell in * by exact H. unfold Aggregator.field in *.
  destruct (row_get _ _ c); [reflexivity | discriminate].
Qed.

Lemma cell_of_set_same (X : Table) (c : pyval) (vs : list pyval) (i : nat) :
  length vs = length (body X) -> cell_of (set_column X c vs) i c = nth i vs NaN.
Proof. intros H. unfold cell_of. now rewrite get_set_column_same. Qed.

Lemma cell_of_set_other (X : Table) (c c' : pyval) (vs : list pyval) (i : nat) :
  c <> c' -> cell_of (set_column X c vs) i c' = cell_of X i c'.
Proof. intros H. unfold cell_of. now rewrite get_set_column_other. Qed.

Lemma assign_den_eq (rc : list pyval) (X : Table) (d : Z) :
  assign_den rc X d
  = set_column X (VStr (den_token d))
      (map (fun row => VBool (detect_den_from_cols (columns X) row rc (den_token d)))
         (body X)).
Proof. unfold assign_den. now destruct rc. Qed.

Lemma cell_of_assign_den_same (rc : list pyval) (X : Table) (d : Z) (i : nat) :
  (i < length (body X))%nat ->
  cell_of (assign_den rc X d) i (VStr (den_token d))
  = VBool (detect_den_from_cols (columns X) (nth i (body X) []) rc (den_token d)).
Proof.
  intros H. rewrite assign_den_eq, cell_of_set_same by now rewrite length_map.
  now rewrite (nth_map_default _ _ _ []).
Qed.

Lemma cell_of_assign_den_other (rc : list pyval) (X : Table) (d : Z) (i : nat) (c : pyval) :
  VStr (den_token d) <> c -> cell_of (assign_den rc X d) i c = cell_of X i c.
Proof. intros H. rewrite assign_den_eq. now apply cell_of_set_other. Qed.

(** A value that is not null stays not null when a flag column is
    assigned: either it is kept, or it becomes a flag. *)
Lemma notna_assign_den (rc : list pyval) (X : Table) (d : Z) (i : nat) (c : pyval) :
  (i < length (body X))%nat -> isna (cell_of X i c) = false ->
  isna (cell_of (assign_den rc X d) i c) = false.
Proof.
  intros H Hn. destruct (decide (VStr (den_token d) = c)) as [<- | Hne].
  - now rewrite cell_of_assign_den_same.
  - now rewrite cell_of_assign_den_other.
Qed.

Lemma length_body_fold_den (rc : list pyval) (ds : list Z) (X : Table) :
  length (body (fold_left (assign_den rc) ds X)) = length (body X).
Proof.
  revert X. induction ds as [| d ds IH]; intros X; simpl; [reflexivity |].
  now rewrite IH, length_body_assign_den.
Qed.

Lemma notna_fold_den (rc : list pyval) (ds : list Z) (X : Table) (i : nat) (c : pyval) :
  (i < length (body X))%nat -> isna (cell_of X i c) = false ->
  isna (cell_of (fold_left (assign_den rc) ds X) i c) = false.
Proof.
  revert X. induction ds as [| d ds IH]; intros X H Hn; simpl; [exact Hn |].
  apply IH; [now rewrite length_body_assign_den | now apply notna_assign_den].
Qed.

Lemma cell_of_fold_den_other (rc : list pyval) (ds : list Z) (X : Table) (i : nat)
    (c : pyval) :
  ~ In c (map (fun d => VStr (den_token d)) ds) ->
  cell_of (fold_left (assign_den rc) ds X) i c = cell_of X i c.
Proof.
  revert X. induction ds as [| d ds IH]; intros X H; simpl; [reflexivity |].
  rewrite IH by (intros Hin; apply H; now right).
  apply cell_of_assign_den_other. intros E. apply H. now left.
Qed.

(** The flags once all of them are assigned: each is a boolean, and a
    flag that is set comes with a result column that is not null. *)
Lemma flags_fold_den (rc : list pyval) (ds : list Z) (X : Table) (k : Z) (i : nat) :
  List.NoDup (map (fun d => VStr (den_token d)) ds) -> In k ds ->
  (i < length (body X))%nat ->
  exists b,
    cell_of (fold_left (assign_den rc) ds X) i (VStr (den_token k)) = VBool b
    /\ (b = true ->
        exists c, In c rc
          /\ isna (cell_of (fold_left (assign_den rc) ds X) i c) = false).
Proof.
  revert X. induction ds as [| d ds IH]; intros X Hnd Hk Hi; [destruct Hk |].
  simpl in Hnd. inversion Hnd as [| ? ? Hd Hnd']; subst. simpl.
  destruct (decide (VStr (den_token d) = VStr (den_token k))) as [E | Hne].
  - rewrite <- E. rewrite cell_of_fold_den_other by exact Hd.
    rewrite cell_of_assign_den_same by exact Hi.
    eexists. split; [reflexivity |]. intros Hb.
    apply detect_den_spec in Hb as (c & val & Hc & Hg & Hn & _).
    exists c. split; [exact Hc |].
    apply notna_fold_den; [now rewrite length_body_assign_den |].
    apply notna_assign_den; [exact Hi |].
    now rewrite (row_get_cell _ _ _ _ Hi Hg).
  - destruct Hk as [-> | Hk]; [contradiction |].
    apply IH; [exact Hnd' | exact Hk | now rewrite length_body_assign_den].
Qed.

Lemma any_result_cell (X : Table) (rc : list pyval) (i : nat) :
  (i < length (body X))%nat ->
  nth i (any_result X rc) NaN
  = VInt (Z.b2z (existsb (fun c => negb (isna (cell_of X i c))) rc)).
Proof.
  intros H. unfold any_result. rewrite (nth_map_default _ _ _ []) by exact H.
  do 2 f_equal. induction rc as [| c rc IH]; simpl; [reflexivity |].
  rewrite IH. f_equal.
  rewrite <- field_cell by exact H. unfold Aggregator.field.
  now destruct (row_get (columns X) (nth i (body X) []) c).
Qed.

End CellFacts.
(** ** Flags and tests *)

Module FlagFacts.
Import UCD Str Spec Processing TableFacts PrepareFacts DenFacts CellFacts GroupFacts.

Lemma prepare_shape (dt_month : list pyval -> list pyval) (df : Table) (yr : Z)
    (p d m : pyval) (tokens : list pyval) (df' : Table) (rc : list pyval) :
  prepare dt_month df yr p d m tokens = Some (df', rc) ->
  exists df4,
    length (body df4) = length (body df)
    /\ df' = set_column (fold_left (assign_den rc) [1; 2; 3; 4]%Z df4) (lbl "TOTAL_TEST")
               (match rc with
                | [] => map (fun _ => VInt 0)
                          (body (fold_left (assign_den rc) [1; 2; 3; 4]%Z df4))
                | _ => any_result (fold_left (assign_den rc) [1; 2; 3; 4]%Z df4) rc
                end).
Proof.
  unfold prepare.
  destruct (resolve_result_cols df tokens) as [rc0 |]; [| discriminate].
  destruct (col_by_index_or_name df p) as [pc |]; [| discriminate].
  set (df1 := set_column df (lbl "province") (map normalize (get_column df pc))).
  set (df2 := match col_by_index_or_name df d with
              | Some dc => set_column df1 (lbl "district") (map normalize (get_column df1 dc))
              | None => set_column df1 (lbl "district") (map (fun _ => VNone) (body df1))
              end).
  set (df3 := set_column df2 (lbl "year") (map (fun _ => VInt yr) (body df2))).
  set (df4 := match col_by_index_or_name df m with
              | Some mc =>
                  if truthy mc
                  then set_column df3 (lbl "month") (dt_month (get_column df3 mc))
                  else set_column df3 (lbl "month") (map (fun _ => VNone) (body df3))
              | None => set_column df3 (lbl "month") (map (fun _ => VNone) (body df3))
              end).
  intros H. exists df4. split.
  - subst df4 df3 df2 df1.
    destruct (col_by_index_or_name df m) as [mc |]; [destruct (truthy mc) |];
      destruct (col_by_index_or_name df d);
      now rewrite !length_body_set_column.
  - destruct rc0; injection H as <- <-; reflexivity.
Qed.

Lemma den_labels_nodup :
  List.NoDup (map (fun d => VStr (den_token d)) [1; 2; 3; 4]%Z).
Proof.
  repeat constructor; cbn [map In]; intros H;
    repeat (destruct H as [H | H]; [vm_compute in H; discriminate |]); exact H.
Qed.

(** The flags and the test count of a row of the table [process] groups. *)
Lemma prepare_flags (dt_month : list pyval -> list pyval) (df : Table) (yr : Z)
    (p d m : pyval) (tokens : list pyval) (df' : Table) (rc : list pyval) (k : Z)
    (i : nat) :
  prepare dt_month df yr p d m tokens = Some (df', rc) ->
  In k [1; 2; 3; 4]%Z -> (i < length (body df'))%nat ->
  exists b t : bool,
    cell_of df' i (VStr (den_token k)) = VBool b
    /\ cell_of df' i (lbl "TOTAL_TEST") = VInt (Z.b2z t)
    /\ (b = true -> t = true).
Proof.
  intros H Hk Hi. destruct (prepare_shape _ _ _ _ _ _ _ _ _ H) as [df4 [L4 ->]].
  set (df5 := fold_left (assign_den rc) [1; 2; 3; 4]%Z df4) in *.
  rewrite length_body_set_column in Hi.
  assert (L5 : length (body df5) = length (body df4)) by apply length_body_fold_den.
  assert (Hi4 : (i < length (body df4))%nat) by lia.
  destruct (flags_fold_den rc _ df4 k i den_labels_nodup Hk Hi4) as [b [Hb Hc]].
  fold df5 in Hb, Hc.
  exists b, (existsb (fun c => negb (isna (cell_of df5 i c))) rc).
  repeat apply conj.
  - rewrite cell_of_set_other; [exact Hb |].
    simpl in Hk. destruct Hk as [<- | [<- | [<- | [<- | []]]]]; intros E;
      vm_compute in E; discriminate.
  - rewrite cell_of_set_same.
    + destruct rc as [| c0 rc']; [now rewrite (nth_map_default _ _ _ []) |].
      now apply any_result_cell.
    + destruct rc; [now rewrite length_map |]. unfold any_result. now rewrite length_map.
  - intros ->. destruct (Hc eq_refl) as [c [Hin Hn]].
    apply existsb_exists. exists c. split; [exact Hin |]. now rewrite Hn.
Qed.

Lemma Zsum_le {A} (f g : A -> Z) (l : list A) :
  (forall x, In x l -> (f x <= g x)%Z) -> (Zsum (map f l) <= Zsum (map g l))%Z.
Proof.
  induction l as [| a l IH]; intros H; simpl; [lia |].
  pose proof (H a (or_introl eq_refl)).
  assert (Zsum (map f l) <= Zsum (map g l))%Z by (apply IH; intros x Hx; apply H; now right).
  lia.
Qed.

Lemma Zsum_bound {A} (f : A -> Z) (l : list A) :
  (forall x, In x l -> (0 <= f x <= 1)%Z) ->
  (0 <= Zsum (map f l) <= Z.of_nat (length l))%Z.
Proof.
  induction l as [| a l IH]; intros H; simpl; [lia |].
  pose proof (H a (or_introl eq_refl)).
  assert (0 <= Zsum (map f l) <= Z.of_nat (length l))%Z
    by (apply IH; intros x Hx; apply H; now right).
  lia.
Qed.

End FlagFacts.
(** ** The stages of [process] *)

Module StageFacts.
Import UCD Str Spec Processing TableFacts PrepareFacts DenFacts CellFacts.

(** The table [process] groups, in terms of its stages. *)
Lemma prepare_stages (dt_month : list pyval -> list pyval) (df : Table) (yr : Z)
    (p d m : pyval) (tokens : list pyval) (df' : Table) (rc : list pyval) (pc : pyval) :
  col_by_index_or_name df p = Some pc ->
  prepare dt_month df yr p d m tokens = Some (df', rc) ->
  let df4 := table_with_month dt_month df yr pc (col_by_index_or_name df d)
               (col_by_index_or_name df m) in
  let df5 := fold_left (assign_den rc) [1; 2; 3; 4]%Z df4 in
  df' = set_column df5 (lbl "TOTAL_TEST")
          (match rc with
           | [] => map (fun _ => VInt 0) (body df5)
           | _ => any_result df5 rc
           end).
Proof.
  intros Hp H. unfold prepare in H. rewrite Hp in H.
  destruct (resolve_result_cols df tokens) as [rc0 |]; [| discriminate].
  unfold table_with_month, table_with_year.
  destruct rc0 as [| c0 rc0]; injection H as H1 H2; subst rc; symmetry; exact H1.
Qed.

Lemma length_body_with_year (df : Table) (yr : Z) (pc : pyval) (dcol : option pyval) :
  length (body (table_with_year df yr pc dcol)) = length (body df).
Proof.
  unfold table_with_year. destruct dcol; now rewrite !length_body_set_column.
Qed.

Lemma length_body_with_month (dt_month : list pyval -> list pyval) (df : Table) (yr : Z)
    (pc : pyval) (dcol mcol : option pyval) :
  length (body (table_with_month dt_month df yr pc dcol mcol)) = length (body df).
Proof.
  unfold table_with_month. destruct mcol as [mc |]; [destruct (truthy mc) |];
    now rewrite length_body_set_column, length_body_with_year.
Qed.

Lemma get_column_with_year_other (df : Table) (yr : Z) (pc : pyval) (dcol : option pyval)
    (c : pyval) :
  ~ In c [lbl "province"; lbl "district"; lbl "year"] ->
  get_column (table_with_year df yr pc dcol) c = get_column df c.
Proof.
  intros H. unfold table_with_year. cbv zeta.
  rewrite get_set_column_other by (intros <-; apply H; simpl; tauto).
  destruct dcol;
    rewrite get_set_column_other by (intros <-; apply H; simpl; tauto);
    apply get_set_column_other; intros <-; apply H; simpl; tauto.
Qed.

Lemma get_column_with_year_year (df : Table) (yr : Z) (pc : pyval) (dcol : option pyval) :
  get_column (table_with_year df yr pc dcol) (lbl "year")
  = map (fun _ => VInt yr) (body df).
Proof.
  unfold table_with_year. cbv zeta. rewrite get_set_column_same by now rewrite length_map.
  apply map_const_length. destruct dcol; now rewrite !length_body_set_column.
Qed.

Lemma get_column_with_month_other (dt_month : list pyval -> list pyval) (df : Table)
    (yr : Z) (pc : pyval) (dcol mcol : option pyval) (c : pyval) :
  ~ In c [lbl "province"; lbl "district"; lbl "year"; lbl "month"] ->
  get_column (table_with_month dt_month df yr pc dcol mcol) c = get_column df c.
Proof.
  intros H. unfold table_with_month. cbv zeta.
  assert (Hy : get_column (table_with_year df yr pc dcol) c = get_column df c).
  { apply get_column_with_year_other. intros Hc. apply H. simpl in *. tauto. }
  destruct mcol as [mc |]; [destruct (truthy mc) |];
    (rewrite get_set_column_other; [exact Hy | intros <-; apply H; simpl; tauto]).
Qed.

Lemma dens_before_cases (k : Z) :
  In k [1; 2; 3; 4]%Z ->
  exists later, [1; 2; 3; 4]%Z = dens_before k ++ k :: later
    /\ ~ In (VStr (den_token k)) (map (fun d => VStr (den_token d)) later).
Proof.
  simpl. intros [<- | [<- | [<- | [<- | []]]]].
  - exists [2; 3; 4]%Z. split; [reflexivity |]. cbn [map In]. intros E.
    repeat (destruct E as [E | E]; [vm_compute in E; discriminate |]). exact E.
  - exists [3; 4]%Z. split; [reflexivity |]. cbn [map In]. intros E.
    repeat (destruct E as [E | E]; [vm_compute in E; discriminate |]). exact E.
  - exists [4]%Z. split; [reflexivity |]. cbn [map In]. intros E.
    repeat (destruct E as [E | E]; [vm_compute in E; discriminate |]). exact E.
  - exists []. split; [reflexivity |]. intros [].
Qed.

(** The flag of the serotype [k] in the table [process] groups is the one
    computed from the table as it stood then. *)
Lemma flag_of_stage (dt_month : list pyval -> list pyval) (df : Table) (yr : Z)
    (p d m : pyval) (tokens : list pyval) (df' : Table) (rc : list pyval) (pc : pyval)
    (k : Z) (i : nat) :
  col_by_index_or_name df p = Some pc ->
  prepare dt_month df yr p d m tokens = Some (df', rc) ->
  In k [1; 2; 3; 4]%Z -> (i < length (body df))%nat ->
  let dfk := table_before_den rc
               (table_with_month dt_month df yr pc (col_by_index_or_name df d)
                  (col_by_index_or_name df m)) k in
  length (body dfk) = length (body df)
  /\ cell_of df' i (VStr (den_token k))
     = VBool (detect_den_from_cols (columns dfk) (nth i (body dfk) []) rc (den_token k)).
Proof.
  intros Hp H Hk Hi dfk. pose proof (prepare_stages _ _ _ _ _ _ _ _ _ _ Hp H) as E.
  cbv zeta in E.
  set (df4 := table_with_month dt_month df yr pc (col_by_index_or_name df d)
                (col_by_index_or_name df m)) in *.
  assert (Lk : length (body dfk) = length (body df)).
  { subst dfk. unfold table_before_den. rewrite length_body_fold_den.
    apply length_body_with_month. }
  split; [exact Lk |].
  destruct (dens_before_cases k Hk) as (later & Hsplit & Hlater).
  rewrite E, Hsplit, fold_left_app. cbn [fold_left].
  change (fold_left (assign_den rc) (dens_before k) df4) with dfk.
  rewrite cell_of_set_other.
  - rewrite cell_of_fold_den_other by exact Hlater.
    apply cell_of_assign_den_same. lia.
  - simpl in Hk. destruct Hk as [<- | [<- | [<- | [<- | []]]]]; intros E';
      vm_compute in E'; discriminate.
Qed.

(** A column that is not assigned before the flag of [k] still holds the
    values of the source then. *)
Lemma cell_before_den (dt_month : list pyval -> list pyval) (df : Table) (yr : Z)
    (pc : pyval) (dcol mcol : option pyval) (rc : list pyval) (k : Z) (i : nat)
    (c : pyval) :
  ~ In c (assigned_before k) ->
  cell_of (table_before_den rc (table_with_month dt_month df yr pc dcol mcol) k) i c
  = cell_of df i c.
Proof.
  intros H. unfold table_before_den.
  rewrite cell_of_fold_den_other
    by (intros Hin; apply H; unfold assigned_before; apply in_or_app; now right).
  unfold cell_of. rewrite get_column_with_month_other; [reflexivity |].
  intros Hin. apply H. unfold assigned_before. apply in_or_app. now left.
Qed.

(** A value that is not null, by the row or by the cell. *)
Lemma row_get_notna_cell (X : Table) (i : nat) (c val : pyval) :
  (i < length (body X))%nat ->
  (row_get (columns X) (nth i (body X) []) c = Some val /\ isna val = false
   <-> cell_of X i c = val /\ isna val = false).
Proof.
  intros Hi. split; intros [H1 H2].
  - split; [now apply row_get_cell | exact H2].
  - subst val. split; [now apply cell_notna_row_get | exact H2].
Qed.

End StageFacts.

(** * The claims of the specification *)

(** ** C1: the year and the month of a record *)

Module YearMonth.
Import UCD Str Spec EdengueImport SearchFacts DriverFacts Examples.

(** C1 (as the code has it).  Every record [process_file_to_edengue]
    emits is the record of a marker row of a sheet of the workbook; its
    month is the number written by the first run of digits of the name
    of that sheet, which lies within the month bounds of the call, and its
    year is the constant 2025, whatever the caller supplies. *)
Theorem C1_year_fixed_month_from_sheet_name
    (xls : Workbook) (input_path : pystr) (prov_name : option pystr)
    (month_min month_max : Z) (col_map : col_map_t) (rows : list Rec) :
  process_file_to_edengue xls input_path prov_name month_min month_max col_map = Some rows ->
  forall r, In r rows ->
    year r = VInt 2025
    /\ exists sheet df ds m idx,
         In (sheet, df) xls /\ first_digit_run sheet ds
         /\ Num.int_of_digits ds = Some m /\ (month_min <= m <= month_max)%Z
         /\ In idx (tc_indices df)
         /\ r = tc_record df m (resolve_prov_name input_path prov_name) col_map
                  default_bad_keywords idx
         /\ month r = VInt m.
Proof.
  intros H r Hr.
  destruct (collect_rows_spec _ _ _ _ _ _ H r Hr) as (sheet & df & ds & m & idx & H1 & H2 & H3 & H4 & H5 & ->).
  destruct col_map as [[[[c0 c1] c2] c3] c4].
  split; [reflexivity |]. exists sheet, df, ds, m, idx. repeat split; auto; lia.
Qed.

(** The records of the example workbook: the July sheet and the October
    sheet give one record each, both of the year 2025. *)
Lemma C1_year_fixed_month_from_sheet_name_witness :
  exists rows,
    process_file_to_edengue workbook (utf8 "data/Ha Noi GSTX 2024.xlsx") None 1 12
      default_col_map = Some rows
    /\ map month rows = [VInt 7; VInt 10]
    /\ forall r, In r rows ->
         year r = VInt 2025
         /\ exists sheet df ds m idx,
              In (sheet, df) workbook /\ first_digit_run sheet ds
              /\ Num.int_of_digits ds = Some m /\ (1 <= m <= 12)%Z
              /\ In idx (tc_indices df)
              /\ r = tc_record df m
                       (resolve_prov_name (utf8 "data/Ha Noi GSTX 2024.xlsx") None)
                       default_col_map default_bad_keywords idx
              /\ month r = VInt m.
Proof.
  eexists. split; [vm_compute; reflexivity |]. split; [reflexivity |].
  apply (C1_year_fixed_month_from_sheet_name workbook
           (utf8 "data/Ha Noi GSTX 2024.xlsx") None 1 12 default_col_map).
  vm_compute. reflexivity.
Defined.

(** C1 as stated fails: no argument of the extractor or of the driver
    carries a year.  Called on a workbook of the year 2024 with the sheet
    of July, the month bounds 7 and 10 and the default columns, the driver
    emits a record whose year is 2025, which is none of the numbers the
    caller supplied. *)
Lemma C1_year_is_not_caller_supplied :
  exists r,
    process_file_to_edengue [(utf8 "Thang 7", sheet_quan1)]
      (utf8 "data/Ha Noi GSTX 2024.xlsx") (Some (utf8 "Ha Noi")) 7 10 (3, 4, 5, 6, 7)%Z
    = Some [r]
    /\ extract_tc_rows_from_sheet sheet_quan1 7 (utf8 "HA NOI") (3, 4, 5, 6, 7)%Z None = [r]
    /\ year r = VInt 2025
    /\ ~ In (year r) (map VInt [7; 10; 3; 4; 5; 6; 7; 2024]%Z).
Proof.
  eexists. split; [vm_compute; reflexivity |]. split; [vm_compute; reflexivity |].
  split; [reflexivity |]. cbn. intros H.
  repeat (destruct H as [H | H]; [discriminate |]). exact H.
Qed.

End YearMonth.

(** ** C2: the key fields of a record *)

Module KeyFields.
Import UCD Chars Space Str Spec TableFacts NormFacts DriverFacts PrepareFacts Examples.



End KeyFields.

(** ** C3 and C9: the text normalizers *)

Module Normalizers.
Import UCD Chars Str Spec UCDFacts NormFacts ScriptFacts.

(** C3 (the code departs from it).  [remove_diacritics_upper] and
    [remove_diacritics_ascii] followed by [upper] map the letters D with
    stroke to plain D: "Đà Nẵng" gives "DA NANG", and nothing they return
    holds a D with stroke.  [normalize] of [edengue_processing.py] does
    not: "Đà Nẵng" gives "ĐA NANG" there, the stroke kept. *)
Theorem C3_normalize_keeps_D_with_stroke :
  Processing.normalize (VStr (utf8 "Đà Nẵng")) = VStr (utf8 "ĐA NANG")
  /\ Processing.normalize (VStr (utf8 "Đà Nẵng")) <> VStr (utf8 "DA NANG")
  /\ EdengueImport.remove_diacritics_upper (VStr (utf8 "Đà Nẵng")) = VStr (utf8 "DA NANG")
  /\ upper (Dmoss.remove_diacritics_ascii_str (utf8 "Đà Nẵng")) = utf8 "DA NANG"
  /\ (forall s u, In u (EdengueImport.remove_diacritics_upper_str s) ->
        is_D_stroke u = false)
  /\ (forall s u, In u (upper (Dmoss.remove_diacritics_ascii_str s)) ->
        is_D_stroke u = false).
Proof.
  repeat apply conj.
  - vm_compute. reflexivity.
  - vm_compute. discriminate.
  - vm_compute. reflexivity.
  - vm_compute. reflexivity.
  - intros s u Hu. destruct (rdu_result s) as [_ H].
    apply plain_not_D_stroke, fixed_plain, H, Hu.
  - intros s u Hu. apply plain_not_D_stroke, fixed_plain, (rda_upper_result s), Hu.
Qed.

(** C9 as stated fails for [normalize]: on a text of three combining
    marks, U+302E, U+0902 and U+1D165, it returns the two marks U+302E and
    U+1D165 in that order, and applied to that result it swaps them. *)
Lemma C9_normalize_not_idempotent :
  Processing.normalize (VStr [0x302E; 0x902; 0x1D165]) = VStr [0x302E; 0x1D165]
  /\ Processing.normalize (Processing.normalize (VStr [0x302E; 0x902; 0x1D165]))
     = VStr [0x1D165; 0x302E]
  /\ Processing.normalize (Processing.normalize (VStr [0x302E; 0x902; 0x1D165]))
     <> Processing.normalize (VStr [0x302E; 0x902; 0x1D165]).
Proof.
  repeat apply conj.
  - vm_compute. reflexivity.
  - vm_compute. reflexivity.
  - vm_compute. discriminate.
Qed.

(** C9 (as the code has it).  [remove_diacritics_upper] and
    [remove_diacritics_ascii] (also when followed by [upper], as for the
    province of a sheet) are idempotent on every input.  [normalize] is
    idempotent on every input whose combining marks, once it is decomposed,
    are all non-spacing marks; that holds of every text written with
    characters below U+1715 or from U+1BF4 to U+302D, so of every
    Vietnamese text. *)
Theorem C9_normalizers_idempotent :
  (forall x, EdengueImport.remove_diacritics_upper (EdengueImport.remove_diacritics_upper x)
             = EdengueImport.remove_diacritics_upper x)
  /\ (forall x, Dmoss.remove_diacritics_ascii (Dmoss.remove_diacritics_ascii x)
                = Dmoss.remove_diacritics_ascii x)
  /\ (forall s, upper (Dmoss.remove_diacritics_ascii_str
                         (upper (Dmoss.remove_diacritics_ascii_str s)))
                = upper (Dmoss.remove_diacritics_ascii_str s))
  /\ (forall x, marks_nonspacing (py_str x) = true ->
        Processing.normalize (Processing.normalize x) = Processing.normalize x)
  /\ (forall s, forallb common_script s = true ->
        Processing.normalize (Processing.normalize (VStr s)) = Processing.normalize (VStr s)).
Proof.
  assert (Hn : forall x, marks_nonspacing (py_str x) = true ->
             Processing.normalize (Processing.normalize x) = Processing.normalize x).
  { intros x Hx. unfold Processing.normalize.
    destruct (isna x) eqn:E; [reflexivity |]. cbn [isna py_str].
    now rewrite normalize_str_idempotent. }
  repeat apply conj.
  - intros x. unfold EdengueImport.remove_diacritics_upper.
    destruct (isna x) eqn:E; [now rewrite E |]. cbn [isna py_str].
    now rewrite rdu_str_idempotent.
  - intros [| | | | s |]; try reflexivity. cbn. now rewrite rda_str_idempotent.
  - apply rda_upper_idempotent.
  - exact Hn.
  - intros s Hs. apply Hn. now apply marks_nonspacing_common.
Qed.

End Normalizers.

(** ** C4: column resolution *)

Module ColumnResolution.
Import UCD Str Spec Processing StrFacts SearchFacts TableFacts Examples.

Lemma find_first (f : pyval -> bool) (P : pyval -> Prop) (cols : list pyval) :
  (forall x, f x = true <-> P x) ->
  (forall c, List.find f cols = Some c <-> first_such P cols c)
  /\ (List.find f cols = None <-> none_such P cols).
Proof.
  intros Hf. unfold first_such, none_such. induction cols as [| x cols [IH1 IH2]]; simpl.
  - split; [intros c | ]; split; try discriminate; try tauto.
    intros (pre & post & H & _). now destruct pre.
  - destruct (f x) eqn:E.
    + split; [intros c |]; split.
      * intros [= Hxc]. subst c. pose proof (proj1 (Hf x) E) as Hp. exists [], cols.
        split; [reflexivity | split; [exact Hp | intros y []]].
      * intros (pre & post & H & Hc & Hpre). destruct pre as [| y pre].
        -- injection H as Hxc _. now subst c.
        -- injection H as Hxy _. subst y. pose proof (proj1 (Hf x) E) as Hp.
           now destruct (Hpre x (or_introl eq_refl)).
      * discriminate.
      * intros H. pose proof (proj1 (Hf x) E) as Hp. now destruct (H x (or_introl eq_refl)).
    + assert (Hx : ~ P x) by (intros H; apply (proj2 (Hf _)) in H; congruence).
      split; [intros c |]; split.
      * intros H. apply IH1 in H as (pre & post & -> & Hc & Hpre).
        exists (x :: pre), post. repeat split; auto.
        intros y [<- | Hy]; auto.
      * intros (pre & post & H & Hc & Hpre). apply IH1. destruct pre as [| y pre].
        -- injection H as Hxc _. subst c. contradiction.
        -- injection H as _ Hc'. subst cols. exists pre, post. repeat split; auto.
           intros z Hz. apply Hpre. now right.
      * intros H y [<- | Hy]; [exact Hx | now apply IH2].
      * intros H. apply IH2. intros y Hy. apply H. now right.
Qed.

Lemma py_index_nonneg (n : nat) (i : Z) :
  (0 <= i < Z.of_nat n)%Z -> py_index n i = Some (Z.to_nat i).
Proof.
  intros H. unfold py_index.
  destruct (Z.leb_spec 0 i); [| lia]. destruct (Z.ltb_spec i (Z.of_nat n)); [| lia].
  reflexivity.
Qed.

Lemma py_index_neg (n : nat) (i : Z) :
  (- Z.of_nat n <= i < 0)%Z -> py_index n i = Some (Z.to_nat (Z.of_nat n + i)).
Proof.
  intros H. unfold py_index.
  destruct (Z.leb_spec 0 i); [lia |]. simpl.
  destruct (Z.leb_spec (- Z.of_nat n) i); [| lia]. destruct (Z.ltb_spec i 0); [| lia].
  reflexivity.
Qed.

Lemma py_index_out (n : nat) (i : Z) :
  (i < - Z.of_nat n \/ Z.of_nat n <= i)%Z -> py_index n i = None.
Proof.
  intros H. unfold py_index.
  destruct (Z.leb_spec 0 i), (Z.ltb_spec i (Z.of_nat n)),
    (Z.leb_spec (- Z.of_nat n) i), (Z.ltb_spec i 0); simpl; try reflexivity; lia.
Qed.

Lemma nth_error_nth_Some (cols : list pyval) (j : nat) :
  (j < length cols)%nat -> Some (nth j cols VNone) = nth_error cols j.
Proof.
  revert j. induction cols as [| c cols IH]; intros [| j] H; simpl in *; try lia;
    [reflexivity | apply IH; lia].
Qed.

(** C4 as stated fails: the token "7" parses as an integer that is not
    within the two columns of the table, and a column is labelled "7"; the
    resolver answers not-found, where an exact match of the label would
    give that column. *)
Lemma C4_index_out_of_range_skips_names :
  col_by_index_or_name {| columns := [lbl "a"; lbl "7"]; body := [] |} (lbl "7") = None
  /\ match_by_name [lbl "a"; lbl "7"] (lbl "7") = Some (lbl "7")
  /\ col_by_index_or_name {| columns := [lbl "a"; lbl "b"]; body := [] |} (VInt (-1))
     = Some (lbl "b").
Proof. repeat apply conj; vm_compute; reflexivity. Qed.

(** C4 (as the code has it).  A null token resolves to not-found.  A
    token that is an integer, or a text of digit characters that [int]
    reads, is resolved by position alone: to the column at that position
    when it is from 0 to the column count, to not-found when it is the
    column count or more (no name is tried), and to the column counted
    from the end when it is negative and not below minus the column count.
    Every other token is resolved by name: a text resolves to the first
    column whose label reads exactly like it, else to the first column
    whose upper-cased label contains the upper-cased token, else to
    not-found; a token that is not a text resolves to not-found. *)
Theorem C4_column_resolution (df : Table) (token : pyval) :
  let cols := columns df in
  let len := Z.of_nat (length cols) in
  (token = VNone -> col_by_index_or_name df token = None)
  /\ (forall idx, integer_like token = true -> int_of_token token = Some idx ->
        ((0 <= idx < len)%Z ->
           col_by_index_or_name df token = nth_error cols (Z.to_nat idx))
        /\ ((len <= idx)%Z -> col_by_index_or_name df token = None)
        /\ ((- len <= idx < 0)%Z ->
              col_by_index_or_name df token = nth_error cols (Z.to_nat (len + idx)))
        /\ ((idx < - len)%Z -> col_by_index_or_name df token = match_by_name cols token))
  /\ (token <> VNone ->
      integer_like token = false \/ int_of_token token = None ->
      col_by_index_or_name df token = match_by_name cols token)
  /\ (forall s c, first_such (fun x => py_str x = s) cols c ->
        match_by_name cols (VStr s) = Some c)
  /\ (forall s c, none_such (fun x => py_str x = s) cols ->
        first_such (fun x => occurs_in (upper s) (upper (py_str x))) cols c ->
        match_by_name cols (VStr s) = Some c)
  /\ (forall s, none_such (fun x => py_str x = s) cols ->
        none_such (fun x => occurs_in (upper s) (upper (py_str x))) cols ->
        match_by_name cols (VStr s) = None)
  /\ ((forall s, token <> VStr s) -> match_by_name cols token = None).
Proof.
  cbv zeta. repeat apply conj.
  - now intros ->.
  - intros idx Hi Hidx. unfold col_by_index_or_name.
    assert (Hn : token <> VNone) by (intros ->; discriminate).
    repeat apply conj; intros H.
    + destruct token; try contradiction; rewrite Hi, Hidx;
        (destruct (Z.ltb_spec idx (Z.of_nat (length (columns df)))); [| lia]);
        rewrite py_index_nonneg by lia; apply nth_error_nth_Some; lia.
    + destruct token; try contradiction; rewrite Hi, Hidx;
        (destruct (Z.ltb_spec idx (Z.of_nat (length (columns df)))); [lia |]);
        reflexivity.
    + destruct token; try contradiction; rewrite Hi, Hidx;
        (destruct (Z.ltb_spec idx (Z.of_nat (length (columns df)))); [| lia]);
        rewrite py_index_neg by lia; apply nth_error_nth_Some; lia.
    + destruct token; try contradiction; rewrite Hi, Hidx;
        (destruct (Z.ltb_spec idx (Z.of_nat (length (columns df)))); [| lia]);
        rewrite py_index_out by lia; reflexivity.
  - intros Hn H. unfold col_by_index_or_name.
    destruct token; try contradiction;
      (destruct H as [H | H]; [rewrite H; reflexivity |]);
      (destruct (integer_like _); [rewrite H |]; reflexivity).
  - intros s c H. unfold match_by_name.
    apply (find_first (fun x => Str.eqb (py_str x) s) (fun x => py_str x = s)) in H;
      [now rewrite H | intros x; apply eqb_eq].
  - intros s c H1 H2. unfold match_by_name.
    apply (find_first (fun x => Str.eqb (py_str x) s) (fun x => py_str x = s)) in H1;
      [rewrite H1 | intros x; apply eqb_eq].
    apply (find_first (fun x => contains (upper s) (upper (py_str x)))
             (fun x => occurs_in (upper s) (upper (py_str x)))) in H2;
      [exact H2 | intros x; apply contains_spec].
  - intros s H1 H2. unfold match_by_name.
    apply (find_first (fun x => Str.eqb (py_str x) s) (fun x => py_str x = s)) in H1;
      [rewrite H1 | intros x; apply eqb_eq].
    apply (find_first (fun x => contains (upper s) (upper (py_str x)))
             (fun x => occurs_in (upper s) (upper (py_str x)))) in H2;
      [exact H2 | intros x; apply contains_spec].
  - intros H. destruct token; try reflexivity. now destruct (H s).
Qed.

End ColumnResolution.

(** ** C5: the district label *)

Module DistrictLabel.
Import UCD Str Spec EdengueImport DistrictFacts Examples.

(** C5.  For the marker row [idx] of a sheet, the district label is the
    text of the nearest row above it whose cell in column 0 is a label: a
    cell that is not blank and whose trimmed text, upper-cased, contains
    none of the boilerplate keywords.  When column 0 holds no label above
    the marker row, it is the nearest label of column 1, and when column 1
    holds none either, the placeholder "UNKNOWN".  The record carries that
    label through [remove_diacritics_upper].  With the marker at row 10,
    "Quan 1" at row 8 and row 9 blank the district is "QUAN 1"; with
    nothing but boilerplate above the marker it is "UNKNOWN". *)
Theorem C5_district_label (df : DataFrame) (bad_keywords : list pystr) (idx : nat) :
  (forall s, nearest_label df bad_keywords 0 idx s ->
     find_district df bad_keywords idx = s)
  /\ (forall s, no_label df bad_keywords 0 idx ->
        nearest_label df bad_keywords 1 idx s ->
        find_district df bad_keywords idx = s)
  /\ (no_label df bad_keywords 0 idx -> no_label df bad_keywords 1 idx ->
      find_district df bad_keywords idx = utf8 "UNKNOWN")
  /\ (forall month_val prov_name col_map,
        district (tc_record df month_val prov_name col_map bad_keywords idx)
        = remove_diacritics_upper (VStr (find_district df bad_keywords idx)))
  /\ tc_indices sheet_quan1 = [10%nat]
  /\ find_district sheet_quan1 default_bad_keywords 10 = utf8 "Quan 1"
  /\ map district
       (extract_tc_rows_from_sheet sheet_quan1 7 (utf8 "HA NOI") default_col_map None)
     = [VStr (utf8 "QUAN 1")]
  /\ map district
       (extract_tc_rows_from_sheet sheet_boilerplate 7 (utf8 "HA NOI") default_col_map None)
     = [VStr (utf8 "UNKNOWN")].
Proof.
  repeat apply conj.
  - intros s H. apply search_up_some in H. now rewrite find_district_eq, H.
  - intros s H0 H1. apply search_up_none in H0. apply search_up_some in H1.
    now rewrite find_district_eq, H0, H1.
  - intros H0 H1. apply search_up_none in H0. apply search_up_none in H1.
    now rewrite find_district_eq, H0, H1.
  - intros month_val prov_name [[[[c0 c1] c2] c3] c4]. reflexivity.
  - vm_compute. reflexivity.
  - vm_compute. reflexivity.
  - vm_compute. reflexivity.
  - vm_compute. reflexivity.
Qed.

End DistrictLabel.

(** ** C6: the twelve months of a sheet *)

Module FixedOffset.
Import UCD Str Spec Dmoss Examples.

(** C6.  Whatever the sheet and the offsets, [read_dmoss_sheet] returns
    twelve entries, for the months 1 to 12 in order; the entry of the month
    [i + 1] holds, for each metric, the cell of the row of that metric in
    the column [months_col_start + i].  A cell that is blank or lies
    outside the sheet is read as null (and not as zero); any other cell is
    read as its value, a float without fractional part as the integer.
    Each sheet of a workbook therefore gives twelve records, one per
    month. *)
Theorem C6_twelve_months_by_offset (df : DataFrame)
    (d1_row d2_row d3_row d4_row total_row months_col_start : Z) :
  let rows := read_dmoss_sheet df d1_row d2_row d3_row d4_row total_row months_col_start in
  length rows = 12%nat
  /\ map Month rows = [1; 2; 3; 4; 5; 6; 7; 8; 9; 10; 11; 12]%Z
  /\ (forall i m, nth_error rows i = Some m ->
        Month m = (Z.of_nat i + 1)%Z
        /\ m_den1 m = get_cell df (months_col_start + Z.of_nat i) d1_row
        /\ m_den2 m = get_cell df (months_col_start + Z.of_nat i) d2_row
        /\ m_den3 m = get_cell df (months_col_start + Z.of_nat i) d3_row
        /\ m_den4 m = get_cell df (months_col_start + Z.of_nat i) d4_row
        /\ m_total m = get_cell df (months_col_start + Z.of_nat i) total_row)
  /\ (forall col r, iat df r col = None -> get_cell df col r = VNone)
  /\ (forall col r v, iat df r col = Some v -> isna v = true -> get_cell df col r = VNone)
  /\ (forall col r v, iat df r col = Some v -> isna v = false ->
        get_cell df col r
        = match v with
          | VFloat x => if Num.is_integer x then VInt (Num.int_of_float x) else v
          | _ => v
          end
        /\ get_cell df col r <> VNone)
  /\ (forall file_name year sheet_name,
        map month (sheet_records file_name year d1_row d2_row d3_row d4_row total_row
                     months_col_start (sheet_name, df))
        = map VInt [1; 2; 3; 4; 5; 6; 7; 8; 9; 10; 11; 12]%Z).
Proof.
  cbv zeta. repeat apply conj.
  - reflexivity.
  - reflexivity.
  - unfold read_dmoss_sheet. intros i m H.
    rewrite nth_error_map in H.
    destruct (nth_error (seq 0 12) i) as [k |] eqn:Ek; [| discriminate].
    assert (k = i).
    { apply nth_error_In in Ek as Hin. apply in_seq in Hin.
      pose proof (nth_error_nth _ _ 0%nat Ek) as Hn.
      assert (Hi : (i < length (seq 0 12))%nat) by (apply nth_error_Some; congruence).
      rewrite length_seq in Hi. rewrite seq_nth in Hn; lia. }
    subst k. injection H as <-. repeat split.
  - intros col r H. unfold get_cell. now rewrite H.
  - intros col r v H Hv. unfold get_cell. now rewrite H, Hv.
  - intros col r v H Hv. unfold get_cell. rewrite H, Hv. split; [reflexivity |].
    destruct v; try discriminate. destruct (Num.is_integer x); [discriminate |].
    discriminate.
  - reflexivity.
Qed.

End FixedOffset.

(** ** C7: grouping and sums *)

Module Aggregation.
Import Spec Aggregator TableFacts GroupFacts Examples.

Lemma district_in_key (df : Table) :
  existsb (pyval_eqb (lbl "district")) (columns df)
  && existsb (fun v => negb (isna v)) (get_column df (lbl "district")) = true
  <-> exists v, In v (get_column df (lbl "district")) /\ isna v = false.
Proof.
  rewrite andb_true_iff, !existsb_exists. split.
  - intros [_ [v [Hv Hn]]]. exists v. split; [exact Hv |]. now apply negb_true_iff.
  - intros [v [Hv Hn]]. split.
    + rewrite get_column_eq in Hv.
      destruct (label_index (columns df) (lbl "district")) as [j |] eqn:E.
      * apply label_index_Some in E as [_ [E _]]. apply nth_error_In in E.
        exists (lbl "district"). split; [exact E | apply pyval_eqb_refl].
      * apply in_map_iff in Hv as [r [<- _]]. discriminate.
    + exists v. split; [exact Hv |]. now apply negb_true_iff.
Qed.

(** C7.  The rows are grouped by (province, district, year, month), the
    district being part of the key exactly when some row has a district
    that is not null.  Every row belongs to a group of the result, the
    group of its key, a null month or district counting as a key value
    like any other; the result has no other group; and the sums of a group
    are the sums, over the rows that have its key, of the DEN1-DEN4 flags,
    each counted as 0 or 1, and of the test count.  Two cases of HA NOI in
    May 2021 without district, one of them positive for DEN1, give one
    group with No.DEN1 = 1. *)
Theorem C7_groups_and_sums (df : Table) :
  let gcols := group_cols df in
  ((exists v, In v (get_column df (lbl "district")) /\ isna v = false) ->
     gcols = [lbl "province"; lbl "district"; lbl "year"; lbl "month"])
  /\ (~ (exists v, In v (get_column df (lbl "district")) /\ isna v = false) ->
        gcols = [lbl "province"; lbl "year"; lbl "month"])
  /\ (forall row, In row (body df) ->
        exists t, aggregate df !! row_key df gcols row = Some t
          /\ No_DEN1 t = group_sum df gcols (row_key df gcols row) (lbl "DEN1")
          /\ No_DEN2 t = group_sum df gcols (row_key df gcols row) (lbl "DEN2")
          /\ No_DEN3 t = group_sum df gcols (row_key df gcols row) (lbl "DEN3")
          /\ No_DEN4 t = group_sum df gcols (row_key df gcols row) (lbl "DEN4")
          /\ Total_test t = group_sum df gcols (row_key df gcols row) (lbl "TOTAL_TEST"))
  /\ (forall k t, aggregate df !! k = Some t ->
        exists row, In row (body df) /\ row_key df gcols row = k)
  /\ (forall b : bool, count_of (VBool b) = if b then 1%Z else 0%Z)
  /\ (forall v, key_value v = if isna v then VNone else v)
  /\ map_to_list (aggregate two_cases)
     = [([VStr (utf8 "HA NOI"); VInt 2021; VInt 5], mkTotals 1 0 0 0 2)]
  /\ size (aggregate three_cases) = 2%nat
  /\ aggregate three_cases !! [VStr (utf8 "HA NOI"); VStr (utf8 "BA DINH"); VInt 2021; VInt 5]
     = Some (mkTotals 1 0 0 0 1)
  /\ aggregate three_cases !! [VStr (utf8 "HA NOI"); VNone; VInt 2021; VNone]
     = Some (mkTotals 0 2 0 0 2).
Proof.
  cbv zeta. repeat apply conj.
  - intros H. apply district_in_key in H. unfold group_cols. now rewrite H.
  - intros H. unfold group_cols.
    destruct (existsb _ (columns df) && existsb _ (get_column df (lbl "district"))) eqn:E;
      [| reflexivity].
    apply district_in_key in E. contradiction.
  - intros row Hrow. pose proof (lookup_aggregate df (row_key df (group_cols df) row)) as H.
    cbv zeta in H.
    destruct (rows_of_group df (group_cols df) (row_key df (group_cols df) row)) eqn:E.
    + exfalso. assert (Hin : In row (rows_of_group df (group_cols df)
                                       (row_key df (group_cols df) row))).
      { apply filter_In. split; [exact Hrow | now apply bool_decide_eq_true_2]. }
      now rewrite E in Hin.
    + exact H.
  - intros k t Hk. pose proof (lookup_aggregate df k) as H. cbv zeta in H.
    destruct (rows_of_group df (group_cols df) k) as [| r l] eqn:E; [congruence |].
    exists r. assert (Hin : In r (rows_of_group df (group_cols df) k))
      by (rewrite E; now left).
    apply filter_In in Hin as [H1 H2]. apply bool_decide_eq_true_1 in H2. auto.
  - now intros [].
  - reflexivity.
  - vm_compute. reflexivity.
  - vm_compute. reflexivity.
  - vm_compute. reflexivity.
  - vm_compute. reflexivity.
Qed.

End Aggregation.

(** ** C8: coercion of the cells of a marker row *)

Module CellCoercion.
Import UCD Str Spec EdengueImport NumeralFacts NumFacts Examples.

(** C8.  Every cell [safe_get] reads for the DEN1-DEN4 and total-test
    fields is coerced as follows.  A position outside the sheet and a blank
    cell give zero.  A text that, once trimmed and with its commas removed,
    is a numeral (optional minus sign, digits, optionally a point and
    digits) gives the binary64 number nearest to it, as an integer when
    that number has no fractional part and as a float otherwise.  Any other
    text gives zero.  A cell that is neither blank nor a text is returned
    as it is.  On the July sheet of the examples, "1,234" reads 1234,
    "12.50" reads 12.5, "abc" reads 0, and so do the blank cell and a
    column outside the sheet. *)
Theorem C8_safe_get_coercion (df : DataFrame) (r c : Z) :
  (iat df r c = None -> safe_get df r c = VInt 0)
  /\ (forall v, iat df r c = Some v -> isna v = true -> safe_get df r c = VInt 0)
  /\ (forall s neg ip fp,
        iat df r c = Some (VStr s) ->
        is_numeral (remove_char 0x2C (strip s)) neg ip fp ->
        exists m,
          Num.digits_value 0 (ip ++ fp) = Some m
          /\ let x := Num.float_of_decimal neg m (- Z.of_nat (length fp)) in
             (forall z, float_is x z -> safe_get df r c = VInt z)
             /\ ((forall z, ~ float_is x z) -> safe_get df r c = VFloat x))
  /\ (forall s,
        iat df r c = Some (VStr s) ->
        (forall neg ip fp, ~ is_numeral (remove_char 0x2C (strip s)) neg ip fp) ->
        safe_get df r c = VInt 0)
  /\ (forall v,
        iat df r c = Some v -> isna v = false -> (forall s, v <> VStr s) ->
        safe_get df r c = v)
  /\ map (safe_get sheet_quan1 10) [3; 4; 5; 6; 7; 8]%Z
     = [VInt 1234; VFloat (S754_finite false 7036874417766400 (-49)); VInt 0;
        VInt 0; VInt 20; VInt 0].
Proof.
  repeat apply conj; unfold safe_get.
  - now intros ->.
  - now intros v -> ->.
  - intros s neg ip fp -> Hn. cbn [isna].
    pose proof Hn as [_ [_ [Hip Hfp]]].
    destruct (digits_value_decimal (ip ++ fp) 0) as [m Hm].
    { apply Forall_app. now split. }
    exists m. split; [exact Hm |].
    apply numeral_complete in Hn. rewrite Hn. unfold float_of_numeral. rewrite Hm.
    split.
    + intros z Hz. apply float_is_integer in Hz as [-> ->]. reflexivity.
    + intros Hz. destruct (Num.is_integer _) eqn:E; [| reflexivity].
      apply is_integer_float_is in E. now apply Hz in E.
  - intros s -> Hn. cbn [isna]. apply numeral_none in Hn. now rewrite Hn.
  - intros v -> -> Hv. destruct v; try reflexivity. now destruct (Hv s).
  - vm_compute. reflexivity.
Qed.

End CellCoercion.

(** ** C10: the serotype flags *)

Module DenFlags.
Import UCD Str Spec Processing SearchFacts TableFacts DenFacts CellFacts StageFacts Examples.

(** C10, as the code has it.  The flag DENk that [process] gives a row is
    the one [detect_den_from_cols] computes from the table as it stands
    when the flag is assigned, that is once province, district, year,
    month and the flags before DENk are assigned: it is true if and only
    if one of the resolved result columns holds in that row, then, a value
    that is not null and whose text, with every "-" removed and then
    upper-cased, contains "DENk".  When no result column bears the name of
    a column assigned before, this is the value of the row of the source.
    So "den-1" sets DEN1, and "DEN12" sets DEN1 as well (and not DEN2). *)
Theorem C10_den_flag_iff (dt_month : list pyval -> list pyval) (df : Table) (yr : Z)
    (p d m : pyval) (tokens : list pyval) (df' : Table) (rc : list pyval) (pc : pyval)
    (k : Z) (i : nat) :
  col_by_index_or_name df p = Some pc ->
  prepare dt_month df yr p d m tokens = Some (df', rc) ->
  In k [1; 2; 3; 4]%Z -> (i < length (body df))%nat ->
  let dfk := table_before_den rc
               (table_with_month dt_month df yr pc (col_by_index_or_name df d)
                  (col_by_index_or_name df m)) k in
  (forall cols_of_row row result_cols,
     detect_den_from_cols cols_of_row row result_cols (den_token k) = true
     <-> exists c val,
           In c result_cols /\ row_get cols_of_row row c = Some val /\ isna val = false
           /\ occurs_in (den_token k) (upper (remove_char 0x2D (py_str val))))
  /\ cell_of df' i (VStr (den_token k))
     = VBool (detect_den_from_cols (columns dfk) (nth i (body dfk) []) rc (den_token k))
  /\ (cell_of df' i (VStr (den_token k)) = VBool true
      <-> exists c val,
            In c rc /\ row_get (columns dfk) (nth i (body dfk) []) c = Some val
            /\ isna val = false
            /\ occurs_in (den_token k) (upper (remove_char 0x2D (py_str val))))
  /\ ((forall c, In c rc -> ~ In c (assigned_before k)) ->
      (cell_of df' i (VStr (den_token k)) = VBool true
       <-> exists c val,
             In c rc /\ row_get (columns df) (nth i (body df) []) c = Some val
             /\ isna val = false
             /\ occurs_in (den_token k) (upper (remove_char 0x2D (py_str val)))))
  /\ den_token 1 = utf8 "DEN1"
  /\ (exists t,
        prepare (fun col => col) line_list 2021 (lbl "TINH") VNone VNone [lbl "KQ"]
        = Some (t, [lbl "KQ"])
        /\ get_column line_list (lbl "KQ")
           = [VStr (utf8 "den-1"); VStr (utf8 "DEN12"); VStr (utf8 "Den2"); NaN]
        /\ get_column t (lbl "DEN1") = [VBool true; VBool true; VBool false; VBool false]
        /\ get_column t (lbl "DEN2") = [VBool false; VBool false; VBool true; VBool false]).
Proof.
  intros Hp H Hk Hi dfk.
  destruct (flag_of_stage _ _ _ _ _ _ _ _ _ _ k i Hp H Hk Hi) as [Lk Hflag].
  fold dfk in Lk, Hflag.
  assert (Hik : (i < length (body dfk))%nat) by lia.
  assert (Hiff : cell_of df' i (VStr (den_token k)) = VBool true
                 <-> exists c val,
                       In c rc /\ row_get (columns dfk) (nth i (body dfk) []) c = Some val
                       /\ isna val = false
                       /\ occurs_in (den_token k) (upper (remove_char 0x2D (py_str val)))).
  { rewrite Hflag, <- detect_den_spec. split; [now intros [= ->] | now intros ->]. }
  split; [intros cr row cs; apply detect_den_spec |].
  split; [exact Hflag |]. split; [exact Hiff |]. split.
  - intros Hrc. rewrite Hiff. split; intros (c & val & Hc & Hg & Hn & Ho);
      exists c, val; (split; [exact Hc |]).
    + assert (Hv : row_get (columns dfk) (nth i (body dfk) []) c = Some val
                   /\ isna val = false) by tauto.
      apply (row_get_notna_cell dfk i c val Hik) in Hv as [Hv _].
      subst dfk. rewrite cell_before_den in Hv by now apply Hrc.
      destruct (proj2 (row_get_notna_cell df i c val Hi) (conj Hv Hn)) as [Hg' _].
      tauto.
    + assert (Hv : row_get (columns df) (nth i (body df) []) c = Some val
                   /\ isna val = false) by tauto.
      apply (row_get_notna_cell df i c val Hi) in Hv as [Hv _].
      rewrite <- (cell_before_den dt_month df yr pc (col_by_index_or_name df d)
                    (col_by_index_or_name df m) rc k i c (Hrc c Hc)) in Hv.
      fold dfk in Hv.
      destruct (proj2 (row_get_notna_cell dfk i c val Hik) (conj Hv Hn)) as [Hg' _].
      tauto.
  - split; [reflexivity |]. eexists. repeat split; vm_compute; reflexivity.
Qed.

Lemma C10_den_flag_iff_witness :
  exists t,
    prepare (fun col => col) line_list 2021 (lbl "TINH") VNone VNone [lbl "KQ"]
    = Some (t, [lbl "KQ"])
    /\ (cell_of t 1 (VStr (den_token 1)) = VBool true
        <-> exists c val,
              In c [lbl "KQ"]
              /\ row_get (columns line_list) (nth 1 (body line_list) []) c = Some val
              /\ isna val = false
              /\ occurs_in (den_token 1) (upper (remove_char 0x2D (py_str val)))).
Proof.
  eexists. split; [vm_compute; reflexivity |].
  refine (proj1 (proj2 (proj2 (proj2
            (C10_den_flag_iff (fun col => col) line_list 2021 (lbl "TINH") VNone VNone
               [lbl "KQ"] _ [lbl "KQ"] (lbl "TINH") 1 1 _ _ _ _)))) _).
  - vm_compute. reflexivity.
  - vm_compute. reflexivity.
  - simpl. tauto.
  - simpl. lia.
  - intros c [<- | []] Hin. vm_compute in Hin.
    repeat (destruct Hin as [Hin | Hin]; [discriminate |]). exact Hin.
Defined.

(** With the columns TINH and DEN1, the row (Ha Noi, DEN2) and DEN1 as
    result column, the result column of the row holds a text that contains
    "DEN2", and yet the flag DEN2 is false: when it is computed the column
    DEN1 holds the first flag. *)
Lemma C10_flag_reads_assigned_column :
  exists t,
    prepare (fun col => col) flag_named 2021 (lbl "TINH") VNone VNone [lbl "DEN1"]
    = Some (t, [lbl "DEN1"])
    /\ cell_of t 0 (VStr (den_token 2)) = VBool false
    /\ exists c val,
         In c [lbl "DEN1"]
         /\ row_get (columns flag_named) (nth 0 (body flag_named) []) c = Some val
         /\ isna val = false
         /\ occurs_in (den_token 2) (upper (remove_char 0x2D (py_str val))).
Proof.
  eexists. split; [vm_compute; reflexivity |]. split; [vm_compute; reflexivity |].
  exists (lbl "DEN1"), (VStr (utf8 "DEN2")).
  split; [now left |]. split; [vm_compute; reflexivity |]. split; [reflexivity |].
  exists [], []. vm_compute. reflexivity.
Qed.

End DenFlags.


(** * Further properties of the code *)

(** ** Column resolution *)

Module Resolution.
Import UCD Str Spec Processing TableFacts PrepareFacts Examples.

(** Whatever the token, [col_by_index_or_name] answers with a label of
    the table or with not-found: a resolved column can always be read. *)
Theorem col_by_index_or_name_in_columns (df : Table) (token c : pyval) :
  col_by_index_or_name df token = Some c -> In c (columns df).
Proof.
  assert (Hm : forall t, match_by_name (columns df) t = Some c -> In c (columns df)).
  { intros t. unfold match_by_name. destruct t; try discriminate.
    destruct (List.find _ (columns df)) as [c' |] eqn:E.
    - intros [= <-]. now apply find_some in E.
    - intros H. now apply find_some in H. }
  unfold col_by_index_or_name.
  destruct token; try discriminate; try (apply Hm);
    (destruct (integer_like _); [| apply Hm]);
    (destruct (int_of_token _) as [idx |]; [| apply Hm]);
    (destruct (idx <? Z.of_nat (length (columns df)))%Z; [| discriminate]);
    (destruct (py_index (length (columns df)) idx) as [j |] eqn:Ej; [| apply Hm]);
    intros [= <-]; apply nth_In;
    unfold py_index in Ej;
    repeat match type of Ej with
           | (if ?b then _ else _) = _ => destruct b eqn:?; try discriminate
           end;
    injection Ej as <-; lia.
Qed.

Lemma col_by_index_or_name_in_columns_witness :
  In (lbl "KQ") (columns line_list).
Proof.
  apply (col_by_index_or_name_in_columns line_list (lbl "kq") (lbl "KQ")).
  vm_compute. reflexivity.
Defined.

End Resolution.

(** ** When the per-case processing raises *)

Module Failures.
Import UCD Str Spec Processing TableFacts PrepareFacts SearchFacts Examples.

Lemma resolve_result_cols_None (df : Table) (tokens : list pyval) :
  resolve_result_cols df tokens = None
  <-> exists t, In t tokens /\ col_by_index_or_name df t = None.
Proof.
  induction tokens as [| t tokens IH]; simpl.
  - split; [discriminate | intros [t [[] _]]].
  - destruct (col_by_index_or_name df t) as [c |] eqn:E.
    + destruct (resolve_result_cols df tokens) as [more |].
      * split; [discriminate |]. intros [t' [[<- | Ht] H]]; [congruence |].
        assert (Hx : Some more = None) by (apply IH; eauto). discriminate.
      * split; [intros _ | reflexivity].
        destruct (proj1 IH eq_refl) as [t' [Ht H]]. eauto.
    + split; [intros _ | reflexivity]. eauto.
Qed.

Lemma resolve_result_cols_Some (df : Table) (tokens rc : list pyval) :
  resolve_result_cols df tokens = Some rc ->
  map (col_by_index_or_name df) tokens = map Some rc.
Proof.
  revert rc. induction tokens as [| t tokens IH]; intros rc; simpl.
  - now intros [= <-].
  - destruct (col_by_index_or_name df t) as [c |]; [| discriminate].
    destruct (resolve_result_cols df tokens) as [more |]; [| discriminate].
    intros [= <-]. simpl. now rewrite (IH more).
Qed.

(** [process] raises exactly when the province token or one of the result
    tokens names no column; the district and month tokens never make it
    fail. *)
Theorem prepare_fails_iff (dt_month : list pyval -> list pyval) (df : Table) (yr : Z)
    (p d m : pyval) (tokens : list pyval) :
  prepare dt_month df yr p d m tokens = None
  <-> col_by_index_or_name df p = None
      \/ exists t, In t tokens /\ col_by_index_or_name df t = None.
Proof.
  unfold prepare. rewrite <- resolve_result_cols_None.
  destruct (resolve_result_cols df tokens) as [rc |].
  - destruct (col_by_index_or_name df p) as [pc |].
    + split; [discriminate | intros [H | H]; discriminate].
    + split; auto.
  - split; auto.
Qed.

End Failures.

(** ** The columns of the source *)

Module SourceColumns.
Import UCD Str Spec Processing TableFacts PrepareFacts CellFacts FlagFacts StageFacts Examples.

Lemma prepare_layers (dt_month : list pyval -> list pyval) (df : Table) (yr : Z)
    (p d m : pyval) (tokens : list pyval) (df' : Table) (rc : list pyval) :
  prepare dt_month df yr p d m tokens = Some (df', rc) ->
  exists vs1 vs2 vs3 vs4 vs5,
    let df3 := set_column (set_column (set_column df (lbl "province") vs1)
                             (lbl "district") vs2) (lbl "year") vs3 in
    df' = set_column
            (fold_left (assign_den rc) [1; 2; 3; 4]%Z (set_column df3 (lbl "month") vs4))
            (lbl "TOTAL_TEST") vs5
    /\ vs4 = match col_by_index_or_name df m with
             | Some mc =>
                 if truthy mc then dt_month (get_column df3 mc)
                 else map (fun _ => VNone) (body df3)
             | None => map (fun _ => VNone) (body df3)
             end.
Proof.
  unfold prepare.
  destruct (resolve_result_cols df tokens) as [rc0 |]; [| discriminate].
  destruct (col_by_index_or_name df p) as [pc |]; [| discriminate].
  intros H.
  set (vs1 := map normalize (get_column df pc)).
  set (df1 := set_column df (lbl "province") vs1).
  set (vs2 := match col_by_index_or_name df d with
              | Some dc => map normalize (get_column df1 dc)
              | None => map (fun _ => VNone) (body df1)
              end).
  set (df2 := set_column df1 (lbl "district") vs2).
  set (vs3 := map (fun _ => VInt yr) (body df2)).
  set (df3 := set_column df2 (lbl "year") vs3).
  set (vs4 := match col_by_index_or_name df m with
              | Some mc =>
                  if truthy mc then dt_month (get_column df3 mc)
                  else map (fun _ => VNone) (body df3)
              | None => map (fun _ => VNone) (body df3)
              end).
  set (df5 := fold_left (assign_den rc0) [1; 2; 3; 4]%Z (set_column df3 (lbl "month") vs4)).
  exists vs1, vs2, vs3, vs4,
    (match rc0 with
     | [] => map (fun _ => VInt 0) (body df5)
     | _ => any_result df5 rc0
     end).
  cbv zeta. split; [| reflexivity].
  assert (Hd : (match col_by_index_or_name df d with
                | Some dc => set_column df1 (lbl "district") (map normalize (get_column df1 dc))
                | None => set_column df1 (lbl "district") (map (fun _ => VNone) (body df1))
                end) = df2).
  { subst df2 vs2. now destruct (col_by_index_or_name df d). }
  fold vs1 df1 in H. rewrite Hd in H. fold vs3 df3 in H.
  assert (Hm : (match col_by_index_or_name df m with
                | Some mc =>
                    if truthy mc
                    then set_column df3 (lbl "month") (dt_month (get_column df3 mc))
                    else set_column df3 (lbl "month") (map (fun _ => VNone) (body df3))
                | None => set_column df3 (lbl "month") (map (fun _ => VNone) (body df3))
                end) = set_column df3 (lbl "month") vs4).
  { subst vs4. destruct (col_by_index_or_name df m) as [mc |]; [destruct (truthy mc) |];
      reflexivity. }
  rewrite Hm in H. fold df5 in H.
  destruct rc0; injection H as <- <-; reflexivity.
Qed.

Lemma not_derived (c : pyval) (s : string) :
  ~ In c derived_labels ->
  In s ["province"; "district"; "year"; "month"; "TOTAL_TEST"]%string -> lbl s <> c.
Proof.
  intros Hc Hs E. apply Hc. subst c. simpl in Hs.
  destruct Hs as [<- | [<- | [<- | [<- | [<- | []]]]]]; simpl; tauto.
Qed.

Lemma not_derived_den (c : pyval) :
  ~ In c derived_labels ->
  ~ In c (map (fun d => VStr (den_token d)) [1; 2; 3; 4]%Z).
Proof.
  intros Hc H. apply Hc. cbn [map In] in H.
  destruct H as [<- | [<- | [<- | [<- | []]]]]; vm_compute; tauto.
Qed.

Lemma get_column_fold_den_other (rc : list pyval) (ds : list Z) (X : Table) (c : pyval) :
  ~ In c (map (fun d => VStr (den_token d)) ds) ->
  get_column (fold_left (assign_den rc) ds X) c = get_column X c.
Proof.
  revert X. induction ds as [| d ds IH]; intros X H; simpl; [reflexivity |].
  rewrite IH by (intros Hin; apply H; now right).
  apply get_column_assign_den. intros E. apply H. now left.
Qed.

(** [process] keeps the rows of the source, and of its columns it changes
    none but those that bear the name of a column it assigns: province,
    district, year, month, DEN1 to DEN4 and TOTAL_TEST. *)
Theorem prepare_keeps_source_columns (dt_month : list pyval -> list pyval) (df : Table)
    (yr : Z) (p d m : pyval) (tokens : list pyval) (df' : Table) (rc : list pyval) :
  prepare dt_month df yr p d m tokens = Some (df', rc) ->
  length (body df') = length (body df)
  /\ (forall c, ~ In c derived_labels -> get_column df' c = get_column df c)
  /\ (forall c, In c (columns df') <-> In c (columns df) \/ In c derived_labels).
Proof.
  intros H.
  destruct (prepare_columns _ _ _ _ _ _ _ _ _ H) as (pc & _ & _ & L & _).
  destruct (prepare_layers _ _ _ _ _ _ _ _ _ H) as (vs1 & vs2 & vs3 & vs4 & vs5 & -> & _).
  split; [exact L |]. split.
  - intros c Hc.
    rewrite get_set_column_other by (apply not_derived; [exact Hc | simpl; tauto]).
    rewrite get_column_fold_den_other by now apply not_derived_den.
    rewrite !get_set_column_other by (apply not_derived; [exact Hc | simpl; tauto]).
    reflexivity.
  - intros c. rewrite In_columns_set_column.
    assert (Hf : forall ds X, In c (columns (fold_left (assign_den rc) ds X))
                 <-> In c (columns X) \/ In c (map (fun d => VStr (den_token d)) ds)).
    { induction ds as [| d0 ds IH]; intros X; simpl; [tauto |].
      rewrite IH, assign_den_eq, In_columns_set_column. intuition congruence. }
    rewrite Hf, !In_columns_set_column. unfold derived_labels. cbn [map In].
    change (VStr (den_token 1)) with (lbl "DEN1").
    change (VStr (den_token 2)) with (lbl "DEN2").
    change (VStr (den_token 3)) with (lbl "DEN3").
    change (VStr (den_token 4)) with (lbl "DEN4").
    intuition congruence.
Qed.

Lemma prepare_keeps_source_columns_witness :
  exists df' rc,
    prepare (fun col => col) line_list 2021 (lbl "TINH") VNone VNone [lbl "KQ"]
    = Some (df', rc)
    /\ length (body df') = length (body line_list)
    /\ (forall c, ~ In c derived_labels -> get_column df' c = get_column line_list c)
    /\ (forall c, In c (columns df') <-> In c (columns line_list) \/ In c derived_labels).
Proof.
  eexists. eexists. split; [vm_compute; reflexivity |].
  eapply (prepare_keeps_source_columns (fun col => col) line_list 2021 (lbl "TINH")
            VNone VNone [lbl "KQ"]).
  vm_compute. reflexivity.
Defined.

(** The month of the rows.  When no month column is resolved, or when the
    label of the resolved column is falsy (the number 0, the empty text),
    the month is null in every row; otherwise it is what the date parser
    makes of that column as it stands once province, district and year are
    assigned: the column of the source when it bears none of these three
    names (a source column named month is such a column), and the year
    just assigned when the column is named year. *)
Theorem month_column (dt_month : list pyval -> list pyval) (df : Table)
    (yr : Z) (p d m : pyval) (tokens : list pyval) (df' : Table) (rc : list pyval)
    (pc : pyval) :
  (forall col, length (dt_month col) = length col) ->
  col_by_index_or_name df p = Some pc ->
  prepare dt_month df yr p d m tokens = Some (df', rc) ->
  (col_by_index_or_name df m = None ->
   get_column df' (lbl "month") = map (fun _ => VNone) (body df))
  /\ (forall mc, col_by_index_or_name df m = Some mc -> truthy mc = false ->
      get_column df' (lbl "month") = map (fun _ => VNone) (body df))
  /\ (forall mc, col_by_index_or_name df m = Some mc -> truthy mc = true ->
      get_column df' (lbl "month")
      = dt_month (get_column (table_with_year df yr pc (col_by_index_or_name df d)) mc)
      /\ (~ In mc [lbl "province"; lbl "district"; lbl "year"] ->
          get_column df' (lbl "month") = dt_month (get_column df mc))
      /\ (mc = lbl "year" ->
          get_column df' (lbl "month") = dt_month (map (fun _ => VInt yr) (body df)))).
Proof.
  intros Hdt Hp H. pose proof (prepare_stages _ _ _ _ _ _ _ _ _ _ Hp H) as E.
  cbv zeta in E.
  set (df3 := table_with_year df yr pc (col_by_index_or_name df d)).
  assert (L3 : length (body df3) = length (body df)) by apply length_body_with_year.
  assert (Hm : forall vs4 df4, df4 = set_column df3 (lbl "month") vs4 ->
               length vs4 = length (body df3) ->
               get_column
                 (set_column (fold_left (assign_den rc) [1; 2; 3; 4]%Z df4)
                    (lbl "TOTAL_TEST")
                    (match rc with
                     | [] => map (fun _ => VInt 0)
                               (body (fold_left (assign_den rc) [1; 2; 3; 4]%Z df4))
                     | _ => any_result (fold_left (assign_den rc) [1; 2; 3; 4]%Z df4) rc
                     end))
                 (lbl "month") = vs4).
  { intros vs4 df4 -> Hl.
    rewrite get_set_column_other by (intros E'; vm_compute in E'; discriminate).
    rewrite get_column_fold_den_other.
    - now apply get_set_column_same.
    - cbn [map In]. intros E'.
      repeat (destruct E' as [E' | E']; [vm_compute in E'; discriminate |]). exact E'. }
  unfold table_with_month in E. cbv zeta in E. fold df3 in E.
  repeat apply conj.
  - intros Em. rewrite Em in E. rewrite E.
    rewrite (Hm (map (fun _ => VNone) (body df3)) _ eq_refl) by now rewrite length_map.
    now apply map_const_length.
  - intros mc Em Ht. rewrite Em, Ht in E. rewrite E.
    rewrite (Hm (map (fun _ => VNone) (body df3)) _ eq_refl) by now rewrite length_map.
    now apply map_const_length.
  - intros mc Em Ht. rewrite Em, Ht in E.
    assert (Hg : get_column df' (lbl "month") = dt_month (get_column df3 mc)).
    { rewrite E. apply (Hm _ _ eq_refl). now rewrite Hdt, length_get_column. }
    repeat apply conj.
    + exact Hg.
    + intros Hmc. rewrite Hg. f_equal. now apply get_column_with_year_other.
    + intros ->. rewrite Hg. f_equal. apply get_column_with_year_year.
Qed.

Lemma month_column_witness :
  exists df' rc,
    prepare (fun col => col) year_named 2021 (lbl "TINH") VNone (lbl "year") []
    = Some (df', rc)
    /\ get_column df' (lbl "month") = [VInt 2021].
Proof.
  eexists. eexists. split; [vm_compute; reflexivity |].
  destruct (month_column (fun col => col) year_named 2021 (lbl "TINH") VNone (lbl "year")
              [] _ _ (lbl "TINH") (fun col => eq_refl)
              ltac:(vm_compute; reflexivity) ltac:(vm_compute; reflexivity))
    as (_ & _ & Hm).
  destruct (Hm (lbl "year") ltac:(vm_compute; reflexivity) eq_refl) as (_ & _ & Hy).
  exact (Hy eq_refl).
Defined.

End SourceColumns.

(** ** Positives and tests *)

Module PositivesAndTests.
Import UCD Str Spec Processing Aggregator TableFacts PrepareFacts CellFacts FlagFacts
  GroupFacts Examples.

Lemma row_counts (dt_month : list pyval -> list pyval) (df : Table) (yr : Z)
    (p d m : pyval) (tokens : list pyval) (df' : Table) (rc : list pyval) (k : Z)
    (row : list pyval) :
  prepare dt_month df yr p d m tokens = Some (df', rc) ->
  In k [1; 2; 3; 4]%Z -> In row (body df') ->
  (0 <= count_of (field df' row (VStr (den_token k)))
   <= count_of (field df' row (lbl "TOTAL_TEST")))%Z
  /\ (0 <= count_of (field df' row (lbl "TOTAL_TEST")) <= 1)%Z.
Proof.
  intros H Hk Hrow. apply (In_nth _ _ []) in Hrow as [i [Hi <-]].
  destruct (prepare_flags _ _ _ _ _ _ _ _ _ k i H Hk Hi) as (b & t & Hb & Ht & Hbt).
  rewrite !field_cell by exact Hi. rewrite Hb, Ht. simpl.
  destruct b, t; simpl; try lia; now specialize (Hbt eq_refl).
Qed.

(** In every group [process] writes, each of the counts No.DEN1 to
    No.DEN4 lies between zero and the test count of the group, and the
    test count is at most the number of rows of the source. *)
Theorem positives_within_tests (dt_month : list pyval -> list pyval) (df : Table)
    (yr : Z) (p d m : pyval) (tokens : list pyval) (agg : gmap (list pyval) Totals) :
  process dt_month df yr p d m tokens = Some agg ->
  forall key t, agg !! key = Some t ->
    (0 <= No_DEN1 t <= Total_test t)%Z
    /\ (0 <= No_DEN2 t <= Total_test t)%Z
    /\ (0 <= No_DEN3 t <= Total_test t)%Z
    /\ (0 <= No_DEN4 t <= Total_test t)%Z
    /\ (Total_test t <= Z.of_nat (length (body df)))%Z.
Proof.
  unfold process. intros H key t Ht.
  destruct (prepare dt_month df yr p d m tokens) as [[df' rc] |] eqn:E; [| discriminate].
  injection H as <-.
  pose proof (lookup_aggregate df' key) as Hl. cbv zeta in Hl.
  destruct (rows_of_group df' (group_cols df') key) as [| r0 l0] eqn:Er; [congruence |].
  destruct Hl as (t' & Ht' & H1 & H2 & H3 & H4 & H5).
  assert (t' = t) by congruence. subst t'.
  assert (Hsub : forall row, In row (rows_of_group df' (group_cols df') key) ->
            In row (body df')).
  { intros row Hr. unfold rows_of_group in Hr. now apply filter_In in Hr. }
  assert (Hk : forall k, In k [1; 2; 3; 4]%Z ->
            (0 <= group_sum df' (group_cols df') key (VStr (den_token k))
             <= group_sum df' (group_cols df') key (lbl "TOTAL_TEST"))%Z).
  { intros k Hk. unfold group_sum. split.
    - apply (Zsum_bound (fun row => count_of (field df' row (VStr (den_token k))))).
      intros row Hr. destruct (row_counts _ _ _ _ _ _ _ _ _ k row E Hk (Hsub _ Hr)). lia.
    - apply Zsum_le. intros row Hr.
      destruct (row_counts _ _ _ _ _ _ _ _ _ k row E Hk (Hsub _ Hr)). lia. }
  assert (Hlen : (length (body df') = length (body df))%nat).
  { destruct (prepare_columns _ _ _ _ _ _ _ _ _ E) as (pc & _ & _ & L & _). exact L. }
  rewrite H1, H2, H3, H4, H5.
  change (lbl "DEN1") with (VStr (den_token 1)).
  change (lbl "DEN2") with (VStr (den_token 2)).
  change (lbl "DEN3") with (VStr (den_token 3)).
  change (lbl "DEN4") with (VStr (den_token 4)).
  repeat apply conj; try (apply Hk; simpl; tauto).
  unfold group_sum.
  pose proof (Zsum_bound (fun row => count_of (field df' row (lbl "TOTAL_TEST")))
                (rows_of_group df' (group_cols df') key)) as Hb.
  assert (Hf : (length (rows_of_group df' (group_cols df') key) <= length (body df'))%nat)
    by apply filter_length_le.
  rewrite Er in *.
  assert (0 <= Zsum (map (fun row => count_of (field df' row (lbl "TOTAL_TEST"))) (r0 :: l0))
          <= Z.of_nat (length (r0 :: l0)))%Z.
  { apply Hb. intros row Hr.
    destruct (row_counts _ _ _ _ _ _ _ _ _ 1%Z row E ltac:(simpl; tauto) (Hsub _ Hr)). lia. }
  lia.
Qed.

Lemma positives_within_tests_witness :
  exists agg,
    process (fun col => col) line_list 2021 (lbl "TINH") VNone VNone [lbl "KQ"] = Some agg
    /\ agg !! [VStr (utf8 "HA NOI"); VInt 2021; VNone] = Some (mkTotals 2 1 0 0 3)
    /\ forall key t, agg !! key = Some t ->
         (0 <= No_DEN1 t <= Total_test t)%Z
         /\ (0 <= No_DEN2 t <= Total_test t)%Z
         /\ (0 <= No_DEN3 t <= Total_test t)%Z
         /\ (0 <= No_DEN4 t <= Total_test t)%Z
         /\ (Total_test t <= Z.of_nat (length (body line_list)))%Z.
Proof.
  eexists. split; [reflexivity |]. split; [vm_compute; reflexivity |].
  apply (positives_within_tests (fun col => col) line_list 2021 (lbl "TINH") VNone VNone
           [lbl "KQ"]).
  reflexivity.
Defined.

End PositivesAndTests.

(** ** Totals and groups *)

Module Totalling.
Import UCD Str Spec Processing Aggregator TableFacts GroupFacts Examples.

Local Open Scope Z_scope.

Lemma Zsum_perm (l l' : list Z) : Permutation l l' -> Zsum l = Zsum l'.
Proof. induction 1; simpl; lia. Qed.

Section Additive.
Variable f : Totals -> Z.
Hypothesis f_add : forall a b, f (totals_add a b) = f a + f b.
Hypothesis f_zero : f totals_zero = 0.

Lemma total_over_insert_new (m : gmap (list pyval) Totals) (k : list pyval) (v : Totals) :
  m !! k = None -> total_over f (<[k := v]> m) = f v + total_over f m.
Proof using Type.
  intros H. unfold total_over.
  rewrite (Zsum_perm _ (map (fun kt => f (snd kt)) ((k, v) :: map_to_list m))).
  - reflexivity.
  - apply Permutation_map. now apply map_to_list_insert.
Qed.

Lemma total_over_add_to_group (m : gmap (list pyval) Totals) (kt : list pyval * Totals) :
  total_over f (add_to_group m kt) = total_over f m + f (snd kt).
Proof using f_add f_zero.
  destruct kt as [k t]. unfold add_to_group. cbn [fst snd].
  destruct (m !! k) as [x |] eqn:E; cbn [default].
  - rewrite <- insert_delete_eq.
    rewrite total_over_insert_new by apply lookup_delete_eq.
    assert (Hm : total_over f m = f x + total_over f (delete k m)).
    { rewrite <- (total_over_insert_new (delete k m) k x) by apply lookup_delete_eq.
      now rewrite insert_delete_eq, insert_id. }
    rewrite Hm, f_add. unfold id. lia.
  - rewrite total_over_insert_new by exact E. rewrite f_add, f_zero. lia.
Qed.

Lemma total_over_groupby_sum (rows : list (list pyval * Totals)) :
  total_over f (groupby_sum rows) = Zsum (map (fun kt => f (snd kt)) rows).
Proof using f_add f_zero.
  unfold groupby_sum.
  assert (H : forall m, total_over f (fold_left add_to_group rows m)
                        = total_over f m + Zsum (map (fun kt => f (snd kt)) rows)).
  { induction rows as [| kt rows IH]; intros m; simpl; [lia |].
    rewrite IH, total_over_add_to_group. lia. }
  rewrite H. unfold total_over. now rewrite map_to_list_empty.
Qed.
End Additive.

(** Grouping loses no case and counts none twice: each count, summed over
    all the groups, is that count summed over all the rows. *)
Theorem aggregate_conserves_counts (df : Table) :
  total_over No_DEN1 (aggregate df)
  = Zsum (map (fun row => count_of (field df row (lbl "DEN1"))) (body df))
  /\ total_over No_DEN2 (aggregate df)
     = Zsum (map (fun row => count_of (field df row (lbl "DEN2"))) (body df))
  /\ total_over No_DEN3 (aggregate df)
     = Zsum (map (fun row => count_of (field df row (lbl "DEN3"))) (body df))
  /\ total_over No_DEN4 (aggregate df)
     = Zsum (map (fun row => count_of (field df row (lbl "DEN4"))) (body df))
  /\ total_over Total_test (aggregate df)
     = Zsum (map (fun row => count_of (field df row (lbl "TOTAL_TEST"))) (body df)).
Proof.
  unfold aggregate.
  repeat apply conj; rewrite total_over_groupby_sum by (intros; simpl; lia);
    now rewrite map_map.
Qed.

Lemma size_add_to_group (m : gmap (list pyval) Totals) (kt : list pyval * Totals) :
  (size (add_to_group m kt) <= S (size m))%nat.
Proof.
  unfold add_to_group. rewrite map_size_insert. destruct (m !! fst kt); simpl; lia.
Qed.

Lemma size_fold_add_to_group (rows : list (list pyval * Totals))
    (m : gmap (list pyval) Totals) :
  (size (fold_left add_to_group rows m) <= size m + length rows)%nat.
Proof.
  revert m. induction rows as [| kt rows IH]; intros m; simpl; [lia |].
  specialize (IH (add_to_group m kt)). pose proof (size_add_to_group m kt). lia.
Qed.

(** The groups are the keys of the rows: a key has a group exactly when
    some row has that key, so a table without rows gives no group, and
    there are never more groups than rows. *)
Theorem aggregate_groups_are_row_keys (df : Table) :
  (forall key, is_Some (aggregate df !! key)
               <-> exists row, In row (body df)
                     /\ row_key df (group_cols df) row = key)
  /\ (size (aggregate df) <= length (body df))%nat
  /\ (aggregate df = ∅ <-> body df = []).
Proof.
  assert (H1 : forall key, is_Some (aggregate df !! key)
               <-> exists row, In row (body df) /\ row_key df (group_cols df) row = key).
  { intros key. pose proof (lookup_aggregate df key) as H. cbv zeta in H.
    destruct (rows_of_group df (group_cols df) key) as [| r l] eqn:E.
    - rewrite H. split; [intros [x Hx]; discriminate |].
      intros [row [Hr Hk]]. exfalso.
      assert (Hin : In row (rows_of_group df (group_cols df) key)).
      { apply filter_In. split; [exact Hr | now apply bool_decide_eq_true_2]. }
      now rewrite E in Hin.
    - destruct H as [t [Ht _]]. rewrite Ht. split; [intros _ | eauto].
      assert (Hin : In r (rows_of_group df (group_cols df) key)) by (rewrite E; now left).
      apply filter_In in Hin as [Hr Hk]. apply bool_decide_eq_true_1 in Hk. eauto. }
  repeat apply conj.
  - exact H1.
  - unfold aggregate, groupby_sum.
    pose proof (size_fold_add_to_group
                  (map (fun row => (row_key df (group_cols df) row, row_totals df row)) (body df))
                  ∅) as H.
    rewrite map_size_empty, length_map in H. exact H.
  - intros H. destruct (body df) as [| r l] eqn:E; [reflexivity |]. exfalso.
    assert (Hs : is_Some (aggregate df !! row_key df (group_cols df) r)).
    { apply H1. exists r. split; [now left | reflexivity]. }
    rewrite H, lookup_empty in Hs. now destruct Hs.
  - intros H. unfold aggregate. now rewrite H.
Qed.

End Totalling.

(** ** Marker rows and the records of a workbook *)

Module Markers.
Import UCD Str Spec EdengueImport StrFacts SearchFacts DistrictFacts DriverFacts NumFacts
  Examples.

Lemma tc_row_spec (df : DataFrame) (r : nat) :
  tc_row df r = true
  <-> exists c, (c < ncols df)%nat
        /\ upper (strip (py_str (cell_at df r c))) = utf8 "TC".
Proof.
  unfold tc_row. rewrite existsb_exists. split.
  - intros [c [Hc H]]. apply in_seq in Hc. apply eqb_eq in H. exists c. split; [lia | exact H].
  - intros [c [Hc H]]. exists c. split; [apply in_seq; lia | now apply eqb_eq].
Qed.

Lemma seq_sorted (lo n : nat) : StronglySorted lt (seq lo n).
Proof.
  revert lo. induction n as [| n IH]; intros lo; simpl; constructor; [apply IH |].
  apply List.Forall_forall. intros x Hx. apply in_seq in Hx. lia.
Qed.

Lemma filter_sorted (f : nat -> bool) (l : list nat) :
  StronglySorted lt l -> StronglySorted lt (List.filter f l).
Proof.
  induction 1 as [| a l Hs IH Ha]; simpl; [constructor |].
  destruct (f a); [| exact IH]. constructor; [exact IH |].
  apply List.Forall_forall. intros x Hx. apply filter_In in Hx as [Hx _].
  rewrite List.Forall_forall in Ha. now apply Ha.
Qed.

(** A row of a sheet is a marker row exactly when one of its cells,
    converted to text, trimmed and upper-cased, reads "TC".  The extractor
    returns one record per marker row, in the order of the rows, and every
    field of a record is read from its own marker row: the five counts
    are the cells of that row in the five mapped columns, the district is
    the label found above that row, and province, year and month are those
    of the call.  A sheet without rows or without columns gives none. *)
Theorem one_record_per_marker_row (df : DataFrame) (month_val : Z) (prov_name : pystr)
    (c0 c1 c2 c3 c4 : Z) (bad_keywords : option (list pystr)) :
  let rows := extract_tc_rows_from_sheet df month_val prov_name (c0, c1, c2, c3, c4)
                bad_keywords in
  let keywords := match bad_keywords with
                  | Some l => l
                  | None => default_bad_keywords
                  end in
  (forall idx, In idx (tc_indices df)
               <-> (idx < nrows df)%nat
                   /\ exists c, (c < ncols df)%nat
                        /\ upper (strip (py_str (cell_at df idx c))) = utf8 "TC")
  /\ StronglySorted lt (tc_indices df)
  /\ length rows = length (tc_indices df)
  /\ (forall i idx, nth_error (tc_indices df) i = Some idx ->
        nth_error rows i
        = Some {| province := VStr prov_name;
                  district := remove_diacritics_upper
                                (VStr (find_district df keywords idx));
                  year := VInt 2025;
                  month := VInt month_val;
                  den1 := safe_get df (Z.of_nat idx) c0;
                  den2 := safe_get df (Z.of_nat idx) c1;
                  den3 := safe_get df (Z.of_nat idx) c2;
                  den4 := safe_get df (Z.of_nat idx) c3;
                  total_test := safe_get df (Z.of_nat idx) c4 |})
  /\ (nrows df = 0%nat \/ ncols df = 0%nat -> rows = []).
Proof.
  cbv zeta. repeat apply conj.
  - intros idx. unfold tc_indices. rewrite filter_In, in_seq, tc_row_spec.
    unfold nrows. split; intros [H1 H2]; (split; [lia | exact H2]).
  - unfold tc_indices. apply filter_sorted, seq_sorted.
  - unfold extract_tc_rows_from_sheet. apply length_map.
  - intros i idx Hi. unfold extract_tc_rows_from_sheet.
    rewrite nth_error_map, Hi. reflexivity.
  - intros H. unfold extract_tc_rows_from_sheet.
    assert (Ht : tc_indices df = []).
    { destruct (tc_indices df) as [| idx l] eqn:E; [reflexivity |]. exfalso.
      assert (Hin : In idx (tc_indices df)) by (rewrite E; now left).
      unfold tc_indices in Hin. apply filter_In in Hin as [H1 H2].
      apply in_seq in H1. apply tc_row_spec in H2 as [c [Hc _]]. lia. }
    now rewrite Ht.
Qed.



Lemma int_of_digits_None (ds : pystr) :
  ds <> [] -> all_decimal ds ->
  (Num.int_of_digits ds = None <-> (Num.int_max_str_digits < length ds)%nat).
Proof.
  intros Hne Hd. unfold Num.int_of_digits. destruct ds as [| c ds]; [congruence |].
  destruct (Nat.ltb_spec Num.int_max_str_digits (length (c :: ds))) as [H | H].
  - tauto.
  - destruct (digits_value_decimal (c :: ds) 0 Hd) as [m Hm]. rewrite Hm.
    split; [discriminate | lia].
Qed.

(** The driver raises exactly when the first run of digits of some sheet
    name is longer than the 4300 digits [int] accepts, whether or not that
    sheet lies within the month bounds; it never raises otherwise. *)
Theorem driver_fails_iff (xls : Workbook) (input_path : pystr)
    (prov_name : option pystr) (month_min month_max : Z) (col_map : col_map_t) :
  process_file_to_edengue xls input_path prov_name month_min month_max col_map = None
  <-> exists sheet df ds,
        In (sheet, df) xls /\ first_digit_run sheet ds
        /\ (Num.int_max_str_digits < length ds)%nat.
Proof.
  unfold process_file_to_edengue.
  set (prov := resolve_prov_name input_path prov_name).
  induction xls as [| [sheet0 df0] rest IH]; simpl.
  - split; [discriminate | intros (s & d & ds & [] & _)].
  - assert (Hrest : collect_rows rest prov month_min month_max col_map = None ->
              exists sheet df ds,
                ((sheet0, df0) = (sheet, df) \/ In (sheet, df) rest)
                /\ first_digit_run sheet ds /\ (Num.int_max_str_digits < length ds)%nat).
    { intros H. apply IH in H as (s & d & ds & H1 & H2). exists s, d, ds. tauto. }
    unfold sheet_month.
    destruct (search_digits sheet0) as [ds0 |] eqn:Es.
    + pose proof (proj1 (search_digits_spec _ _) Es) as Hrun.
      assert (Hds : ds0 <> [] /\ all_decimal ds0).
      { destruct Hrun as (pre & post & _ & _ & H1 & H2 & _). auto. }
      destruct (Num.int_of_digits ds0) as [m0 |] eqn:Em.
      * assert (Hok : ~ (Num.int_max_str_digits < length ds0)%nat).
        { intros Hl. apply int_of_digits_None in Hl; [congruence | tauto | tauto]. }
        assert (Hback : (exists sheet df ds,
                    ((sheet0, df0) = (sheet, df) \/ In (sheet, df) rest)
                    /\ first_digit_run sheet ds /\ (Num.int_max_str_digits < length ds)%nat) ->
                  collect_rows rest prov month_min month_max col_map = None).
        { intros (s & d & ds & [[= <- <-] | Hin] & H2 & H3).
          - apply search_digits_spec in H2. assert (ds = ds0) by congruence. subst ds.
            contradiction.
          - apply IH. exists s, d, ds. auto. }
        destruct ((m0 <? month_min)%Z || (month_max <? m0)%Z).
        -- split; [apply Hrest | apply Hback].
        -- destruct (collect_rows rest prov month_min month_max col_map) as [more |] eqn:Ec.
           ++ split; [discriminate |]. intros H. apply Hback in H. discriminate.
           ++ split; [intros _; now apply Hrest | reflexivity].
      * split; [intros _ | reflexivity].
        exists sheet0, df0, ds0. split; [now left |]. split; [exact Hrun |].
        apply int_of_digits_None; tauto.
    + split; [apply Hrest |].
      intros (s & d & ds & [[= <- <-] | Hin] & H2 & H3).
      * apply search_digits_spec in H2. congruence.
      * apply IH. exists s, d, ds. auto.
Qed.

End Markers.

(** ** Normal forms *)

Module NormalForms.
Import UCD Chars Space Str Spec UCDFacts StrFacts NormFacts SearchFacts DistrictFacts.

Lemma fixed_text (t : pystr) :
  (forall u, In u t -> fixed u = true) ->
  upper t = t /\ nfkd t = t
  /\ forall c, In c t -> combining c = 0 /\ is_D_stroke c = false.
Proof.
  intros H. repeat apply conj.
  - apply flat_map_single. intros u Hu. apply fixed_toupper, H, Hu.
  - unfold nfkd.
    rewrite flat_map_single
      by (intros u Hu; apply kstable_compat, plain_kstable, fixed_plain, H, Hu).
    apply canonical_order_starters. intros u Hu. apply plain_starter, fixed_plain, H, Hu.
  - intros c Hc. split.
    + apply N.eqb_eq. apply (plain_starter c), fixed_plain, H, Hc.
    + apply plain_not_D_stroke, fixed_plain, H, Hc.
Qed.

(** [remove_diacritics_upper] returns a missing value as it is, and for
    any other value a text in normal form: trimmed, with single spaces
    only, already in upper case, already decomposed, and without combining
    mark or D with stroke. *)
Theorem remove_diacritics_upper_normal_form (v : pyval) :
  (isna v = true -> EdengueImport.remove_diacritics_upper v = v)
  /\ (isna v = false ->
      exists t, EdengueImport.remove_diacritics_upper v = VStr t
        /\ strip t = t /\ sub_ws t = t /\ upper t = t /\ nfkd t = t
        /\ forall c, In c t -> combining c = 0 /\ is_D_stroke c = false).
Proof.
  unfold EdengueImport.remove_diacritics_upper. split; intros Hv; rewrite Hv; [reflexivity |].
  eexists. split; [reflexivity |].
  destruct (rdu_result (py_str v)) as [Ht Hf].
  destruct (tidy_fixpoint _ Ht) as [H1 H2].
  destruct (fixed_text _ Hf) as (H3 & H4 & H5). auto.
Qed.

(** [normalize] returns null for a missing value and a trimmed text for
    any other value; when the combining marks of the value are all
    non-spacing marks, that text is already in upper case and decomposed
    and holds no combining mark. *)
Theorem normalize_normal_form (v : pyval) :
  (isna v = true -> Processing.normalize v = VNone)
  /\ (isna v = false ->
      exists t, Processing.normalize v = VStr t /\ strip t = t
        /\ (marks_nonspacing (py_str v) = true ->
            upper t = t /\ nfd t = t
            /\ forall c, In c t -> combining c = 0 /\ is_Mn c = false)).
Proof.
  unfold Processing.normalize. split; intros Hv; rewrite Hv; [reflexivity |].
  eexists. split; [reflexivity |]. split.
  - rewrite normalize_unfold. apply strip_strip.
  - intros Hm. pose proof (normalize_result _ Hm) as Hf. repeat apply conj.
    + apply flat_map_single. intros u Hu. apply nfixed_toupper, Hf, Hu.
    + unfold nfd.
      rewrite flat_map_single
        by (intros u Hu; apply cstable_canon, nplain_cstable, nfixed_nplain, Hf, Hu).
      apply canonical_order_starters.
      intros u Hu. apply nplain_starter, nfixed_nplain, Hf, Hu.
    + intros c Hc. split.
      * apply N.eqb_eq. apply (nplain_starter c), nfixed_nplain, Hf, Hc.
      * apply nplain_not_Mn, nfixed_nplain, Hf, Hc.
Qed.

Lemma ascii_plain_check :
  forallb (fun c => is_D_stroke c || plain c) (range_from 0 (N.to_nat 128)) = true.
Proof. vm_compute. reflexivity. Qed.

Lemma ascii_plain (c : N) : c < 128 -> plain c = true.
Proof.
  intros H. pose proof ascii_plain_check as Hc. rewrite forallb_forall in Hc.
  assert (Hin : In c (range_from 0 (N.to_nat 128))).
  { apply In_range_from. rewrite N2Nat.id. lia. }
  specialize (Hc c Hin). unfold is_D_stroke in Hc.
  destruct (N.eqb_spec c 0x110); [lia |]. destruct (N.eqb_spec c 0x111); [lia |].
  exact Hc.
Qed.

(** [remove_diacritics_ascii] returns what is not a text as it is; of a
    text it returns a text without combining mark, decomposable character
    or D with stroke, and an ASCII text is returned unchanged. *)
Theorem remove_diacritics_ascii_plain_text :
  (forall v, (forall s, v <> VStr s) -> Dmoss.remove_diacritics_ascii v = v)
  /\ (forall s, exists t,
        Dmoss.remove_diacritics_ascii (VStr s) = VStr t
        /\ diacritic_free t = true
        /\ forall c, In c t -> is_D_stroke c = false)
  /\ (forall s, (forall c, In c s -> c < 128) ->
        Dmoss.remove_diacritics_ascii (VStr s) = VStr s).
Proof.
  repeat apply conj.
  - intros v Hv. destruct v; try reflexivity. now destruct (Hv s).
  - intros s. eexists. split; [reflexivity |]. split.
    + unfold diacritic_free. apply forallb_forall. intros c Hc.
      apply rda_result in Hc.
      now rewrite (plain_kstable c Hc), (plain_starter c Hc).
    + intros c Hc. apply plain_not_D_stroke. now apply (rda_result s).
  - intros s Hs. cbn. f_equal. apply rda_fixpoint. intros u Hu. apply ascii_plain, Hs, Hu.
Qed.

Lemma search_up_label (df : DataFrame) (bad : list pystr) (col n : nat) (s : pystr) :
  EdengueImport.search_up df bad col n = Some s -> s <> [] /\ strip s = s.
Proof.
  intros H. apply search_up_some in H as (i & _ & (_ & -> & Hne & _) & _).
  split; [exact Hne | apply strip_strip].
Qed.

Lemma search_up_empty_keyword (df : DataFrame) (bad : list pystr) (col n : nat) :
  In [] bad -> EdengueImport.search_up df bad col n = None.
Proof.
  intros Hb. apply search_up_none. intros i t _ (_ & _ & _ & H).
  apply (H [] Hb). exists [], (upper t). reflexivity.
Qed.

(** The district label of a marker row is never empty and never has white
    space around it.  It is the placeholder "UNKNOWN" for a marker in the
    first row of the sheet, and for every marker row when the empty text is
    among the keywords, since every text contains it. *)
Theorem district_label_shape (df : DataFrame) (bad_keywords : list pystr) (idx : nat) :
  EdengueImport.find_district df bad_keywords idx <> []
  /\ strip (EdengueImport.find_district df bad_keywords idx)
     = EdengueImport.find_district df bad_keywords idx
  /\ (idx = 0%nat -> EdengueImport.find_district df bad_keywords idx = utf8 "UNKNOWN")
  /\ (In [] bad_keywords ->
      EdengueImport.find_district df bad_keywords idx = utf8 "UNKNOWN").
Proof.
  rewrite find_district_eq. repeat apply conj.
  - destruct (EdengueImport.search_up df bad_keywords 0 idx) as [s |] eqn:E0;
      [now apply search_up_label in E0 |].
    destruct (EdengueImport.search_up df bad_keywords 1 idx) as [s |] eqn:E1;
      [now apply search_up_label in E1 | discriminate].
  - destruct (EdengueImport.search_up df bad_keywords 0 idx) as [s |] eqn:E0;
      [now apply search_up_label in E0 |].
    destruct (EdengueImport.search_up df bad_keywords 1 idx) as [s |] eqn:E1;
      [now apply search_up_label in E1 | vm_compute; reflexivity].
  - now intros ->.
  - intros Hb. now rewrite !search_up_empty_keyword.
Qed.

End NormalForms.

(** ** The year of a file name *)

Module YearInference.
Import UCD Str Spec Dmoss UCDFacts NumFacts.

Lemma decimal_map_eq : decimal_map = map_of_list decimal_entries.
Proof. vm_compute. reflexivity. Qed.

Lemma decimal_check :
  forallb (fun kv : N * N => snd kv <? 10) decimal_entries = true.
Proof. vm_compute. reflexivity. Qed.

Lemma decimal_lt_10 (c d : N) : decimal c = Some d -> d < 10.
Proof.
  intros H. apply N.ltb_lt.
  exact (table_forall decimal_map decimal_entries (fun _ v => v <? 10) decimal_map_eq
           decimal_check c d H).
Qed.

Lemma isdecimal_decimal (c : N) : isdecimal c = true -> exists d, decimal c = Some d.
Proof.
  unfold isdecimal, decimal, mem. destruct (find decimal_map c); [eauto | discriminate].
Qed.

(** The match of the pattern at the start of [name]. *)
Lemma search_year_cons (c : N) (r : pystr) :
  search_year (c :: r)
  = match c :: r with
    | c0 :: c1 :: a :: b :: _ =>
        if (c0 =? 0x32) && (c1 =? 0x30) && isdecimal a && isdecimal b
        then Some [0x32; 0x30; a; b]
        else search_year r
    | _ => search_year r
    end.
Proof.
  destruct r as [| c1 [| a [| b rest]]].
  - destruct c as [| p]; [reflexivity |]. do 6 (destruct p as [p | p |]; try reflexivity).
  - destruct c as [| p]; [reflexivity |]. do 6 (destruct p as [p | p |]; try reflexivity).
    destruct c1 as [| q]; [reflexivity |]. do 6 (destruct q as [q | q |]; try reflexivity).
  - destruct c as [| p]; [reflexivity |]. do 6 (destruct p as [p | p |]; try reflexivity).
    destruct c1 as [| q]; [reflexivity |]. do 6 (destruct q as [q | q |]; try reflexivity).
  - destruct (N.eqb_spec c 0x32) as [-> | Hc].
    + destruct (N.eqb_spec c1 0x30) as [-> | Hc1].
      * cbn [search_year andb]. now destruct (isdecimal a && isdecimal b).
      * destruct c1 as [| q]; [reflexivity |].
        do 6 (destruct q as [q | q |]; try reflexivity). congruence.
    + destruct c as [| p]; [reflexivity |].
      do 6 (destruct p as [p | p |]; try reflexivity). congruence.
Qed.

Lemma search_year_None (name : pystr) :
  search_year name = None
  <-> forall pre post a b, name = pre ++ post -> ~ year_prefix post a b.
Proof.
  induction name as [| c r IH].
  - split; [| reflexivity]. intros _ pre post a b H [[rest ->] _].
    symmetry in H. apply app_eq_nil in H as [_ H]. discriminate.
  - rewrite search_year_cons. split.
    + intros H pre post a b Hs Hy. destruct pre as [| c' pre].
      * simpl in Hs. subst post. destruct Hy as [[rest Hr] [Ha Hb]].
        injection Hr as -> ->. simpl in H. rewrite Ha, Hb in H. discriminate.
      * injection Hs as <- ->.
        assert (Hr : search_year (pre ++ post) = None).
        { destruct (pre ++ post) as [| c1 [| a' [| b' rest]]] eqn:E; try exact H.
          destruct ((c =? 0x32) && (c1 =? 0x30) && isdecimal a' && isdecimal b');
            [discriminate | exact H]. }
        exact (proj1 IH Hr pre post a b eq_refl Hy).
    + intros H.
      assert (Hr : search_year r = None).
      { apply IH. intros pre post a b Hs. apply (H (c :: pre) post a b). now rewrite Hs. }
      destruct r as [| c1 [| a [| b rest]]]; try exact Hr.
      destruct ((c =? 0x32) && (c1 =? 0x30) && isdecimal a && isdecimal b) eqn:E;
        [| exact Hr].
      exfalso. apply andb_true_iff in E as [E Hb]. apply andb_true_iff in E as [E Ha].
      apply andb_true_iff in E as [E0 E1]. apply N.eqb_eq in E0, E1. subst c c1.
      apply (H [] (0x32 :: 0x30 :: a :: b :: rest) a b eq_refl).
      split; [now exists rest | auto].
Qed.

Lemma search_year_Some (name g : pystr) :
  search_year name = Some g ->
  exists pre post a b,
    name = pre ++ post /\ year_prefix post a b /\ g = [0x32; 0x30; a; b]
    /\ forall pre' post' a' b', name = pre' ++ post' -> year_prefix post' a' b' ->
         (length pre <= length pre')%nat.
Proof.
  induction name as [| c r IH]; [discriminate |].
  rewrite search_year_cons.
  assert (Hrest : search_year r = Some g ->
            (forall a b, ~ year_prefix (c :: r) a b) ->
            exists pre post a b,
              c :: r = pre ++ post /\ year_prefix post a b /\ g = [0x32; 0x30; a; b]
              /\ forall pre' post' a' b', c :: r = pre' ++ post' -> year_prefix post' a' b' ->
                   (length pre <= length pre')%nat).
  { intros H Hno. destruct (IH H) as (pre & post & a & b & -> & Hy & -> & Hmin).
    exists (c :: pre), post, a, b.
    split; [reflexivity | split; [exact Hy | split; [reflexivity |]]].
    intros pre' post' a' b' Hs Hy'. destruct pre' as [| c' pre'].
    - simpl in Hs. subst post'. now destruct (Hno a' b').
    - injection Hs as <- Hs. simpl. apply le_n_S. now apply (Hmin pre' post' a' b'). }
  destruct r as [| c1 [| a [| b rest]]].
  - intros H. apply Hrest; [exact H |]. intros a0 b0 [[rest0 Hr] _]. discriminate.
  - intros H. apply Hrest; [exact H |]. intros a0 b0 [[rest0 Hr] _]. discriminate.
  - intros H. apply Hrest; [exact H |]. intros a0 b0 [[rest0 Hr] _]. discriminate.
  - destruct ((c =? 0x32) && (c1 =? 0x30) && isdecimal a && isdecimal b) eqn:E.
    + intros [= <-]. apply andb_true_iff in E as [E Hb]. apply andb_true_iff in E as [E Ha].
      apply andb_true_iff in E as [E0 E1]. apply N.eqb_eq in E0, E1. subst c c1.
      exists [], (0x32 :: 0x30 :: a :: b :: rest), a, b.
      split; [reflexivity | split; [| split; [reflexivity | intros; simpl; lia]]].
      split; [now exists rest | auto].
    + intros H. apply Hrest; [exact H |].
      intros a' b' [[rest' Hr] [Ha Hb]]. injection Hr as -> -> -> -> _.
      simpl in E. now rewrite Ha, Hb in E.
Qed.

Lemma int_of_year (a b da db : N) :
  decimal a = Some da -> decimal b = Some db ->
  Num.int_of_digits [0x32; 0x30; a; b] = Some (2000 + 10 * Z.of_N da + Z.of_N db)%Z.
Proof.
  intros Ha Hb. unfold Num.int_of_digits.
  assert (H2 : decimal 0x32 = Some 2) by (vm_compute; reflexivity).
  assert (H0 : decimal 0x30 = Some 0) by (vm_compute; reflexivity).
  assert (Hl : Nat.ltb Num.int_max_str_digits (length [0x32; 0x30; a; b]) = false)
    by (vm_compute; reflexivity).
  rewrite Hl. cbn [Num.digits_value]. rewrite H2, H0, Ha, Hb. f_equal. lia.
Qed.

(** [infer_year_from_filename] returns null exactly when the name holds
    no "20" followed by two decimal digits; otherwise it returns the number
    written by the leftmost such four characters, a year from 2000 to
    2099. *)
Theorem infer_year_from_filename_spec (name : pystr) :
  (infer_year_from_filename name = VNone
   <-> forall pre post a b, name = pre ++ post -> ~ year_prefix post a b)
  /\ (forall v, infer_year_from_filename name = v -> v <> VNone ->
        exists pre post a b da db,
          name = pre ++ post /\ year_prefix post a b
          /\ (forall pre' post' a' b', name = pre' ++ post' -> year_prefix post' a' b' ->
                (length pre <= length pre')%nat)
          /\ decimal a = Some da /\ decimal b = Some db
          /\ v = VInt (2000 + 10 * Z.of_N da + Z.of_N db)
          /\ (2000 <= 2000 + 10 * Z.of_N da + Z.of_N db <= 2099)%Z).
Proof.
  unfold infer_year_from_filename.
  destruct (search_year name) as [g |] eqn:E.
  - destruct (search_year_Some _ _ E) as (pre & post & a & b & Hs & Hy & -> & Hmin).
    pose proof Hy as [_ [Ha Hb]].
    destruct (isdecimal_decimal a Ha) as [da Hda].
    destruct (isdecimal_decimal b Hb) as [db Hdb].
    rewrite (int_of_year a b da db Hda Hdb). split.
    + split; [discriminate |]. intros H. now destruct (H pre post a b Hs).
    + intros v <- _. exists pre, post, a, b, da, db.
      pose proof (decimal_lt_10 _ _ Hda). pose proof (decimal_lt_10 _ _ Hdb).
      split; [exact Hs |]. split; [exact Hy |]. split; [exact Hmin |].
      split; [exact Hda |]. split; [exact Hdb |]. split; [reflexivity | lia].
  - pose proof (proj1 (search_year_None name) E) as E'. split.
    + split; [intros _; exact E' | reflexivity].
    + intros v <- Hv. contradiction.
Qed.

End YearInference.

(** ** The records of a fixed-offset workbook *)

Module DmossRecords.
Import UCD Str Spec Dmoss CellFacts Examples.

Lemma length_sheet_records (file_name : pystr) (yr : option Z)
    (d1 d2 d3 d4 tot start : Z) (sheet : pystr * DataFrame) :
  length (sheet_records file_name yr d1 d2 d3 d4 tot start sheet) = 12%nat.
Proof. destruct sheet. reflexivity. Qed.

(** A workbook gives twelve records per sheet, sheet after sheet: the
    record of position [12 * i + j], for [j] from 0 to 11, belongs to
    sheet [i] and month [j + 1]; it carries the name of that sheet,
    stripped of diacritics and upper-cased, as province, and the cells of
    column [months_col_start + j] of that sheet. *)
Theorem twelve_records_per_sheet (xls : list (pystr * DataFrame)) (file_name : pystr)
    (yr : option Z) (d1 d2 d3 d4 tot start : Z) :
  let rows := process_dmoss_file xls file_name yr d1 d2 d3 d4 tot start in
  length rows = (12 * length xls)%nat
  /\ forall i sheet_name df j,
       nth_error xls i = Some (sheet_name, df) -> (j < 12)%nat ->
       exists r,
         nth_error rows (12 * i + j) = Some r
         /\ province r = VStr (upper (remove_diacritics_ascii_str sheet_name))
         /\ district r = VStr []
         /\ month r = VInt (Z.of_nat j + 1)
         /\ den1 r = get_cell df (start + Z.of_nat j) d1
         /\ den2 r = get_cell df (start + Z.of_nat j) d2
         /\ den3 r = get_cell df (start + Z.of_nat j) d3
         /\ den4 r = get_cell df (start + Z.of_nat j) d4
         /\ total_test r = get_cell df (start + Z.of_nat j) tot.
Proof.
  cbv zeta. unfold process_dmoss_file. split.
  - induction xls as [| sheet xls IH]; simpl; [reflexivity |].
    rewrite length_app, length_sheet_records, IH. lia.
  - induction xls as [| sheet xls IH]; intros i sheet_name df j Hi Hj.
    + now destruct i.
    + cbn [flat_map]. destruct i as [| i].
      * injection Hi as ->. rewrite Nat.mul_0_r, Nat.add_0_l.
        rewrite nth_error_app1 by (rewrite length_sheet_records; exact Hj).
        unfold sheet_records, read_dmoss_sheet. rewrite !nth_error_map.
        assert (Hs : nth_error (seq 0 12) j = Some j).
        { rewrite nth_error_nth' with (d := 0%nat) by (rewrite length_seq; exact Hj).
          now rewrite seq_nth. }
        rewrite Hs. cbn [option_map]. eexists. split; [reflexivity |]. repeat split.
      * simpl in Hi. destruct (IH i sheet_name df j Hi Hj) as [r [Hr Hrest]].
        exists r. split; [| exact Hrest].
        rewrite nth_error_app2 by (rewrite length_sheet_records; lia).
        rewrite length_sheet_records.
        replace (12 * S i + j - 12)%nat with (12 * i + j)%nat by lia. exact Hr.
Qed.

End DmossRecords.

(** ** The tokens of the result columns *)

Module Tokens.
Import UCD Str Spec Processing Aggregator StrFacts TableFacts PrepareFacts CellFacts
  FlagFacts GroupFacts.

Lemma split_on_cons (sep c : N) (s : pystr) :
  split_on sep (c :: s)
  = if c =? sep then [] :: split_on sep s
    else match split_on sep s with
         | h :: t => (c :: h) :: t
         | [] => [[c]]
         end.
Proof. reflexivity. Qed.

Lemma split_on_nonempty (sep : N) (s : pystr) : split_on sep s <> [].
Proof.
  destruct s as [| c s]; [discriminate |]. rewrite split_on_cons.
  destruct (c =? sep); [discriminate |]. destruct (split_on sep s); discriminate.
Qed.

Lemma split_on_no_sep (sep : N) (s t : pystr) :
  In t (split_on sep s) -> ~ In sep t.
Proof.
  revert t. induction s as [| c s IH]; intros t.
  - intros [<- | []] [].
  - rewrite split_on_cons. destruct (N.eqb_spec c sep) as [-> | Hne].
    + intros [<- | H]; [intros [] | now apply IH].
    + destruct (split_on sep s) as [| h l] eqn:E; [intros [<- | []] [H | []]; congruence |].
      intros [<- | H].
      * intros [Hc | Hh]; [congruence |]. apply (IH h); [now left | exact Hh].
      * apply IH. now right.
Qed.

Lemma split_on_plain (sep : N) (t : pystr) : ~ In sep t -> split_on sep t = [t].
Proof.
  induction t as [| c t IH]; intros H; [reflexivity |].
  rewrite split_on_cons. destruct (N.eqb_spec c sep) as [-> | Hne].
  - exfalso. apply H. now left.
  - rewrite IH; [reflexivity |]. intros Hin. apply H. now right.
Qed.

Lemma split_on_app (sep : N) (t rest : pystr) :
  ~ In sep t -> split_on sep (t ++ sep :: rest) = t :: split_on sep rest.
Proof.
  induction t as [| c t IH]; intros H.
  - simpl app. rewrite split_on_cons, N.eqb_refl. reflexivity.
  - change ((c :: t) ++ sep :: rest) with (c :: (t ++ sep :: rest)).
    rewrite split_on_cons. destruct (N.eqb_spec c sep) as [-> | Hne].
    + exfalso. apply H. now left.
    + rewrite IH; [reflexivity |]. intros Hin. apply H. now right.
Qed.

Lemma split_join_commas (ts : list pystr) :
  ts <> [] -> (forall t, In t ts -> ~ In 0x2C t) ->
  split_on 0x2C (join_commas ts) = ts.
Proof.
  induction ts as [| t ts IH]; intros Hne H; [congruence |].
  destruct ts as [| t' ts].
  - simpl. apply split_on_plain. apply H. now left.
  - change (join_commas (t :: t' :: ts)) with (t ++ 0x2C :: join_commas (t' :: ts)).
    rewrite split_on_app by (apply H; now left).
    rewrite IH; [reflexivity | discriminate |]. intros x Hx. apply H. now right.
Qed.

(** The tokens of the result columns.  No argument gives none, and a list
    is taken as it is.  Any other value gives none when it is falsy, and
    else the pieces of its text between commas, trimmed, the blank ones
    dropped: each token is a text that is not empty, is trimmed and holds
    no comma, and a text made of such tokens joined by commas gives these
    tokens back. *)
Theorem result_tokens_spec :
  result_tokens None = []
  /\ (forall tokens, result_tokens (Some (inl tokens)) = tokens)
  /\ (forall v, truthy v = false -> result_tokens (Some (inr v)) = [])
  /\ (forall v t, In t (result_tokens (Some (inr v))) ->
        exists s, t = VStr s /\ clean_token s)
  /\ (forall ts, ts <> [] -> Forall clean_token ts ->
        result_tokens (Some (inr (VStr (join_commas ts)))) = map VStr ts).
Proof.
  repeat apply conj; try reflexivity.
  - intros v H. unfold result_tokens. now rewrite H.
  - intros v t. unfold result_tokens. destruct (truthy v); [| intros []].
    intros H. apply in_map_iff in H as [s [<- Hs]]. exists s. split; [reflexivity |].
    apply filter_In in Hs as [Hs Hne]. apply in_map_iff in Hs as [p [<- Hp]].
    repeat split.
    + intros E. rewrite E in Hne. discriminate.
    + apply strip_strip.
    + intros Hin. apply In_strip in Hin. now apply (split_on_no_sep _ _ _ Hp).
  - intros ts Hne Hts. rewrite List.Forall_forall in Hts. unfold result_tokens.
    assert (Hj : join_commas ts <> []).
    { destruct ts as [| t ts]; [congruence |]. destruct (Hts t (or_introl eq_refl)) as [Ht _].
      destruct ts; simpl; [exact Ht |]. destruct t; [congruence | discriminate]. }
    assert (Htr : truthy (VStr (join_commas ts)) = true).
    { simpl. destruct (Str.eqb (join_commas ts) []) eqn:E; [| reflexivity].
      apply eqb_eq in E. contradiction. }
    rewrite Htr. cbn [py_str].
    rewrite split_join_commas by (auto; intros t Ht; now destruct (Hts t Ht) as (_ & _ & H)).
    f_equal.
    assert (Hs : map strip ts = ts).
    { clear Hne Hj Htr. induction ts as [| t ts IH]; [reflexivity |]. simpl.
      destruct (Hts t (or_introl eq_refl)) as (_ & -> & _).
      rewrite IH; [reflexivity |]. intros x Hx. apply Hts. now right. }
    rewrite Hs. clear Hne Hj Htr Hs. induction ts as [| t ts IH]; [reflexivity |].
    cbn [List.filter]. destruct (Hts t (or_introl eq_refl)) as [Hn _].
    destruct (Str.eqb t []) eqn:E; [apply eqb_eq in E; contradiction |].
    cbn [negb]. rewrite IH; [reflexivity |]. intros x Hx. apply Hts. now right.
Qed.

End Tokens.

(** ** No result column *)

Module NoResults.
Import UCD Str Spec Processing Aggregator TableFacts PrepareFacts CellFacts FlagFacts
  GroupFacts Examples.

Lemma Zsum_zero {A} (f : A -> Z) (l : list A) :
  (forall x, In x l -> f x = 0%Z) -> Zsum (map f l) = 0%Z.
Proof.
  induction l as [| a l IH]; intros H; simpl; [reflexivity |].
  rewrite (H a (or_introl eq_refl)), IH; [reflexivity |]. intros x Hx. apply H. now right.
Qed.

Lemma row_counts_zero (dt_month : list pyval -> list pyval) (df : Table) (yr : Z)
    (p d m : pyval) (df' : Table) (rc : list pyval) (k : Z) (row : list pyval) :
  prepare dt_month df yr p d m [] = Some (df', rc) ->
  In k [1; 2; 3; 4]%Z -> In row (body df') ->
  count_of (field df' row (VStr (den_token k))) = 0%Z
  /\ count_of (field df' row (lbl "TOTAL_TEST")) = 0%Z.
Proof.
  intros H Hk Hrow. apply (In_nth _ _ []) in Hrow as [i [Hi <-]].
  destruct (prepare_flags _ _ _ _ _ _ _ _ _ k i H Hk Hi) as (b & t & Hb & Ht & Hbt).
  assert (Hrc : rc = []).
  { destruct (prepare_columns _ _ _ _ _ _ _ _ _ H) as (pc & _ & Hr & _).
    simpl in Hr. congruence. }
  subst rc.
  assert (H0 : cell_of df' i (lbl "TOTAL_TEST") = VInt 0).
  { destruct (prepare_shape _ _ _ _ _ _ _ _ _ H) as [df4 [L4 E]].
    rewrite E in Hi |- *. rewrite length_body_set_column in Hi.
    rewrite cell_of_set_same by now rewrite length_map.
    now rewrite (nth_map_default _ _ _ []). }
  rewrite !field_cell by exact Hi. rewrite Hb, H0. split; [| reflexivity].
  rewrite H0 in Ht. destruct b; [| reflexivity].
  rewrite (Hbt eq_refl) in Ht. discriminate.
Qed.

(** Without result columns every count is zero: [process] called with no
    result token writes groups whose No.DEN1 to No.DEN4 and Total test are
    all zero. *)
Theorem no_result_columns_all_zero (dt_month : list pyval -> list pyval) (df : Table)
    (yr : Z) (p d m : pyval) (agg : gmap (list pyval) Totals) :
  process dt_month df yr p d m (result_tokens None) = Some agg ->
  forall key t, agg !! key = Some t -> t = totals_zero.
Proof.
  unfold process. cbn [result_tokens]. intros H key t Ht.
  destruct (prepare dt_month df yr p d m []) as [[df' rc] |] eqn:E; [| discriminate].
  injection H as <-.
  pose proof (lookup_aggregate df' key) as Hl. cbv zeta in Hl.
  destruct (rows_of_group df' (group_cols df') key) as [| r0 l0] eqn:Er; [congruence |].
  destruct Hl as (t' & Ht' & H1 & H2 & H3 & H4 & H5).
  assert (t' = t) by congruence. subst t'.
  assert (Hz : forall c, In c [VStr (den_token 1); VStr (den_token 2); VStr (den_token 3);
                               VStr (den_token 4); lbl "TOTAL_TEST"] ->
             group_sum df' (group_cols df') key c = 0%Z).
  { intros c Hc. unfold group_sum. apply Zsum_zero. intros row Hr.
    unfold rows_of_group in Hr. apply filter_In in Hr as [Hr _].
    cbn [In] in Hc.
    destruct Hc as [<- | [<- | [<- | [<- | [<- | []]]]]];
      try (apply (row_counts_zero _ _ _ _ _ _ _ _ _ row E); [simpl; tauto | exact Hr]).
    apply (row_counts_zero _ _ _ _ _ _ _ _ 1%Z row E); [simpl; tauto | exact Hr]. }
  change (lbl "DEN1") with (VStr (den_token 1)) in H1.
  change (lbl "DEN2") with (VStr (den_token 2)) in H2.
  change (lbl "DEN3") with (VStr (den_token 3)) in H3.
  change (lbl "DEN4") with (VStr (den_token 4)) in H4.
  rewrite Hz in H1, H2, H3, H4, H5 by (simpl; tauto).
  destruct t. simpl in *. now subst.
Qed.

Lemma no_result_columns_all_zero_witness :
  exists agg,
    process (fun col => col) line_list 2021 (lbl "TINH") VNone VNone (result_tokens None)
    = Some agg
    /\ map_to_list agg = [([VStr (utf8 "HA NOI"); VInt 2021; VNone], totals_zero)]
    /\ forall key t, agg !! key = Some t -> t = totals_zero.
Proof.
  eexists. split; [reflexivity |]. split; [vm_compute; reflexivity |].
  apply (no_result_columns_all_zero (fun col => col) line_list 2021 (lbl "TINH") VNone VNone).
  reflexivity.
Defined.

End NoResults.

(** ** Sanitized headers *)

Module ConvertFacts.
Import UCD Chars Str Spec Convert UCDFacts StrFacts NormFacts.

Lemma word_check :
  forallb (fun c => implb (is_word c)
                      (negb (isspace c) && plain c
                       && match toupper c with
                          | [u] => is_upper_word u
                          | _ => false
                          end))
          (range_from 0 (N.to_nat 128)) = true.
Proof. vm_compute. reflexivity. Qed.

Lemma upper_word_check :
  forallb (fun c => implb (is_upper_word c)
                      (is_word c && match toupper c with
                                    | [u] => u =? c
                                    | _ => false
                                    end))
          (range_from 0 (N.to_nat 128)) = true.
Proof. vm_compute. reflexivity. Qed.

Lemma is_word_ascii (c : N) : is_word c = true -> c < 128.
Proof.
  unfold is_word. rewrite !orb_true_iff, !andb_true_iff, !N.leb_le, N.eqb_eq. lia.
Qed.

Lemma is_upper_word_ascii (c : N) : is_upper_word c = true -> c < 128.
Proof.
  unfold is_upper_word. rewrite !orb_true_iff, !andb_true_iff, !N.leb_le, N.eqb_eq. lia.
Qed.

Lemma ascii_in_range (c : N) : c < 128 -> In c (range_from 0 (N.to_nat 128)).
Proof. intros H. apply In_range_from. rewrite N2Nat.id. lia. Qed.

Lemma word_facts (c : N) :
  is_word c = true ->
  isspace c = false /\ plain c = true
  /\ exists u, toupper c = [u] /\ is_upper_word u = true.
Proof.
  intros H. pose proof word_check as Hc. rewrite forallb_forall in Hc.
  specialize (Hc c (ascii_in_range c (is_word_ascii c H))). rewrite H in Hc. simpl in Hc.
  apply andb_true_iff in Hc as [Hc Hu]. apply andb_true_iff in Hc as [Hs Hp].
  apply negb_true_iff in Hs. repeat split; auto.
  destruct (toupper c) as [| u [| u' l]]; try discriminate. eauto.
Qed.

Lemma upper_word_facts (c : N) :
  is_upper_word c = true -> is_word c = true /\ toupper c = [c].
Proof.
  intros H. pose proof upper_word_check as Hc. rewrite forallb_forall in Hc.
  specialize (Hc c (ascii_in_range c (is_upper_word_ascii c H))). rewrite H in Hc.
  simpl in Hc. apply andb_true_iff in Hc as [Hw Hu]. split; [exact Hw |].
  destruct (toupper c) as [| u [| u' l]]; try discriminate.
  apply N.eqb_eq in Hu. now subst u.
Qed.

Lemma upper_of_words (s : pystr) :
  (forall c, In c s -> is_word c = true) ->
  length (upper s) = length s /\ forall u, In u (upper s) -> is_upper_word u = true.
Proof.
  induction s as [| c s IH]; intros H; simpl; [split; [reflexivity | intros u []] |].
  destruct (word_facts c (H c (or_introl eq_refl))) as (_ & _ & u & Hu & Hw).
  destruct IH as [IH1 IH2]; [intros x Hx; apply H; now right |].
  unfold upper in *. rewrite Hu. simpl. split; [now rewrite IH1 |].
  intros x [<- | Hx]; [exact Hw | now apply IH2].
Qed.

Lemma no_space_lstrip (s : pystr) :
  (forall c, In c s -> isspace c = false) -> lstrip s = s.
Proof. intros H. destruct s as [| c s]; [reflexivity |]. simpl. now rewrite (H c (or_introl eq_refl)). Qed.

Lemma no_space_rstrip (s : pystr) :
  (forall c, In c s -> isspace c = false) -> rstrip s = s.
Proof.
  induction s as [| c s IH]; intros H; [reflexivity |]. simpl.
  rewrite IH by (intros x Hx; apply H; now right).
  destruct s; [now rewrite (H c (or_introl eq_refl)) | reflexivity].
Qed.

Lemma no_space_sub_ws (b : bool) (s : pystr) :
  (forall c, In c s -> isspace c = false) -> sub_ws_underscore b s = s.
Proof.
  revert b. induction s as [| c s IH]; intros b H; [reflexivity |]. simpl.
  rewrite (H c (or_introl eq_refl)). f_equal. apply IH. intros x Hx. apply H. now right.
Qed.

Lemma filter_keep (f : N -> bool) (s : pystr) :
  (forall c, In c s -> f c = true) -> List.filter f s = s.
Proof.
  induction s as [| c s IH]; intros H; [reflexivity |]. simpl.
  rewrite (H c (or_introl eq_refl)). f_equal. apply IH. intros x Hx. apply H. now right.
Qed.

(** A name made of the letters A to Z, the digits and the underscore is
    its own sanitized header. *)
Lemma sanitize_name_fixed (t : pystr) :
  t <> [] -> (forall c, In c t -> is_upper_word c = true) ->
  sanitize_header (VStr t) = t.
Proof.
  intros Hn Hup.
  assert (Ht : forall c, In c t -> is_word c = true /\ toupper c = [c])
    by (intros c Hc; apply upper_word_facts, Hup, Hc).
  assert (Hsp : forall c, In c t -> isspace c = false).
  { intros c Hc. destruct (Ht c Hc) as [H _]. now destruct (word_facts c H). }
  unfold sanitize_header. cbn [py_str]. unfold remove_diacritics_str.
  change (List.filter (fun c => combining c =? 0) (nfkd t))
    with (List.filter starter (nfkd t)).
  rewrite (plain_fixpoint_nfkd t).
  - unfold strip. rewrite no_space_lstrip, no_space_rstrip by exact Hsp.
    rewrite no_space_sub_ws by exact Hsp.
    rewrite filter_keep by (intros c Hc; now destruct (Ht c Hc)).
    destruct (Str.eqb t []) eqn:E; [apply eqb_eq in E; contradiction |].
    apply flat_map_single. intros c Hc. now destruct (Ht c Hc).
  - intros c Hc. destruct (Ht c Hc) as [H _]. now destruct (word_facts c H) as (_ & Hp & _).
Qed.

Lemma sanitize_header_name (col : pyval) :
  sanitize_header col <> []
  /\ forall c, In c (sanitize_header col) -> is_upper_word c = true.
Proof.
  assert (Hshape : exists w, sanitize_header col = upper w /\ w <> []
                     /\ forall c, In c w -> is_word c = true).
  { unfold sanitize_header.
    set (w := List.filter is_word _).
    assert (Hw : forall c, In c w -> is_word c = true).
    { intros c Hc. subst w. now apply filter_In in Hc. }
    destruct (Str.eqb w []) eqn:E.
    - exists (utf8 "COL"). split; [reflexivity |]. split; [discriminate |].
      intros c Hc. vm_compute in Hc.
      repeat (destruct Hc as [<- | Hc]; [reflexivity |]). destruct Hc.
    - exists w. split; [reflexivity |]. split; [| exact Hw].
      intros Hn. rewrite Hn in E. discriminate. }
  destruct Hshape as (w & -> & Hne & Hw).
  destruct (upper_of_words w Hw) as [Hlen Hup].
  split; [| exact Hup].
  intros E. rewrite E in Hlen. destruct w; [congruence | discriminate].
Qed.

(** Every header [sanitize_header] returns is a name made of the letters
    A to Z, the digits and the underscore, not empty; and it is left as it
    is when sanitized again. *)
Theorem sanitize_header_is_a_name (col : pyval) :
  sanitize_header col <> []
  /\ (forall c, In c (sanitize_header col) -> is_upper_word c = true)
  /\ sanitize_header (VStr (sanitize_header col)) = sanitize_header col.
Proof.
  destruct (sanitize_header_name col) as [Hn Hup].
  repeat apply conj; [exact Hn | exact Hup | now apply sanitize_name_fixed].
Qed.

End ConvertFacts.

(** ** Unique headers and cells without diacritics *)

Module UniqueFacts.
Import UCD Chars Str Spec Convert UCDFacts StrFacts NormFacts ConvertFacts.

Lemma uint_codes_inj (d d' : Decimal.uint) : Num.uint_codes d = Num.uint_codes d' -> d = d'.
Proof.
  revert d'. induction d as [| d IH | d IH | d IH | d IH | d IH | d IH | d IH | d IH | d IH | d IH];
    intros [| e | e | e | e | e | e | e | e | e | e] H; simpl in H;
    try discriminate; try reflexivity; injection H as H; f_equal; now apply IH.
Qed.

Lemma str_of_Z_inj (i j : Z) :
  (0 <= i)%Z -> (0 <= j)%Z -> Num.str_of_Z i = Num.str_of_Z j -> i = j.
Proof.
  intros Hi Hj H.
  assert (Hs : forall z, (0 <= z)%Z -> Num.str_of_Z z = Num.str_of_N (Z.to_N z)).
  { intros z Hz. destruct z; [reflexivity | reflexivity | lia]. }
  rewrite (Hs i Hi), (Hs j Hj) in H. unfold Num.str_of_N in H.
  apply uint_codes_inj, DecimalN.Unsigned.to_uint_inj in H. lia.
Qed.

Lemma numbered_inj (base : pystr) (i j : Z) :
  (0 <= i)%Z -> (0 <= j)%Z -> numbered base i = numbered base j -> i = j.
Proof.
  intros Hi Hj H. unfold numbered in H. apply app_inv_head in H. injection H as H.
  now apply str_of_Z_inj.
Qed.

Lemma numbered_neq_base (base : pystr) (i : Z) : base <> numbered base i.
Proof.
  intros H. apply (f_equal (@length N)) in H. unfold numbered in H.
  rewrite length_app in H. simpl in H. lia.
Qed.

Lemma existsb_eqb_In (c : pystr) (seen : list pystr) :
  existsb (Str.eqb c) seen = true <-> In c seen.
Proof.
  rewrite existsb_exists. split.
  - intros [x [Hx E]]. apply eqb_eq in E. now subst x.
  - intros H. exists c. split; [exact H | now apply eqb_eq].
Qed.

(** The loop ends before its bound is reached, on a name that was not
    seen. *)
Lemma next_free_fresh (fuel : nat) (seen : list pystr) (base c : pystr) (i : Z)
    (tried : list pystr) :
  List.NoDup tried -> incl tried seen -> ~ In c tried ->
  (forall j, (i <= j)%Z -> ~ In (numbered base j) tried) ->
  (forall j, (i <= j)%Z -> c <> numbered base j) ->
  (0 <= i)%Z ->
  (length seen <= length tried + fuel)%nat ->
  ~ In (next_free fuel seen base c i) seen.
Proof.
  revert c i tried. induction fuel as [| f IH]; intros c i tried Hnd Hincl Hc Hfut Hcn Hi Hlen;
    simpl; destruct (existsb (Str.eqb c) seen) eqn:E.
  - apply existsb_eqb_In in E.
    assert (Hl : (length (c :: tried) <= length seen)%nat).
    { apply NoDup_incl_length; [now constructor |]. intros x [<- | Hx]; auto. }
    simpl in Hl. lia.
  - intros H. apply existsb_eqb_In in H. congruence.
  - apply existsb_eqb_In in E.
    apply (IH (numbered base i) (i + 1)%Z (c :: tried)).
    + now constructor.
    + intros x [<- | Hx]; auto.
    + intros [H | H]; [apply (Hcn i); [lia | exact H] | apply (Hfut i); [lia | exact H]].
    + intros j Hj [H | H]; [apply (Hcn j); [lia | exact H] | apply (Hfut j); [lia | exact H]].
    + intros j Hj H. apply numbered_inj in H; lia.
    + lia.
    + simpl. lia.
  - intros H. apply existsb_eqb_In in H. congruence.
Qed.

Lemma next_free_shape (fuel : nat) (seen : list pystr) (base c : pystr) (i : Z) :
  next_free fuel seen base c i = c
  \/ exists j, (i <= j)%Z /\ next_free fuel seen base c i = numbered base j.
Proof.
  revert c i. induction fuel as [| f IH]; intros c i; simpl;
    destruct (existsb (Str.eqb c) seen); auto.
  right. destruct (IH (numbered base i) (i + 1)%Z) as [H | [j [Hj H]]].
  - exists i. split; [lia | exact H].
  - exists j. split; [lia | exact H].
Qed.

Lemma next_free_unseen (fuel : nat) (seen : list pystr) (base c : pystr) (i : Z) :
  ~ In c seen -> next_free fuel seen base c i = c.
Proof.
  intros H. destruct fuel; simpl; destruct (existsb (Str.eqb c) seen) eqn:E;
    try reflexivity; apply existsb_eqb_In in E; contradiction.
Qed.

Lemma uniq_from_spec (seen new_cols : list pystr) :
  length (uniq_from seen new_cols) = length new_cols
  /\ List.NoDup (uniq_from seen new_cols)
  /\ (forall x, In x (uniq_from seen new_cols) -> ~ In x seen)
  /\ List.Forall2 numbered_from new_cols (uniq_from seen new_cols).
Proof.
  revert seen. induction new_cols as [| c rest IH]; intros seen; simpl.
  - repeat split; [constructor | intros x [] | constructor].
  - set (c' := next_free (length seen) seen c c 1).
    assert (Hfresh : ~ In c' seen).
    { apply (next_free_fresh _ _ _ _ _ []); try (intros; simpl; tauto); try lia.
      - constructor.
      - intros x [].
      - intros j _. apply numbered_neq_base. }
    destruct (IH (c' :: seen)) as (H1 & H2 & H3 & H4).
    repeat split.
    + now rewrite H1.
    + constructor; [| exact H2]. intros Hin. apply (H3 c' Hin). now left.
    + intros x [<- | Hx]; [exact Hfresh |]. intros Hs. apply (H3 x Hx). now right.
    + constructor; [| exact H4]. unfold numbered_from.
      destruct (next_free_shape (length seen) seen c c 1) as [H | [j [Hj H]]]; eauto.
Qed.

Lemma uniq_from_distinct (seen new_cols : list pystr) :
  List.NoDup new_cols -> (forall x, In x new_cols -> ~ In x seen) ->
  uniq_from seen new_cols = new_cols.
Proof.
  revert seen. induction new_cols as [| c rest IH]; intros seen Hnd Hs; [reflexivity |].
  simpl. inversion Hnd as [| ? ? Hc Hnd']; subst.
  rewrite next_free_unseen by (apply Hs; now left). f_equal. apply IH; [exact Hnd' |].
  intros x Hx [<- | Hin]; [contradiction |]. apply (Hs x); [now right | exact Hin].
Qed.

(** The headers [process_dataframe] gives a sheet are pairwise distinct,
    one per column; each is the sanitized header of its column, or that
    header followed by an underscore and a number from 1 on; and when the
    sanitized headers are already distinct none is changed. *)
Theorem unique_headers_spec (columns : list pyval) :
  length (unique_headers columns) = length columns
  /\ List.NoDup (unique_headers columns)
  /\ List.Forall2 numbered_from (map sanitize_header columns) (unique_headers columns)
  /\ (List.NoDup (map sanitize_header columns) ->
      unique_headers columns = map sanitize_header columns).
Proof.
  unfold unique_headers.
  destruct (uniq_from_spec [] (map sanitize_header columns)) as (H1 & H2 & _ & H4).
  repeat split; auto.
  - now rewrite H1, length_map.
  - intros H. apply uniq_from_distinct; [exact H | intros x _ []].
Qed.

Lemma stable_fixpoint_nfkd (t : pystr) :
  (forall u, In u t -> kstable u = true /\ starter u = true) ->
  List.filter starter (nfkd t) = t.
Proof.
  intros H. rewrite starters_nfkd.
  rewrite flat_map_single by (intros c Hc; apply kstable_compat, H, Hc).
  apply filter_all. intros c Hc. apply H, Hc.
Qed.

Lemma remove_diacritics_str_eq (s : pystr) :
  remove_diacritics_str s = List.filter starter (nfkd s).
Proof. reflexivity. Qed.

Lemma remove_diacritics_str_stable (s : pystr) :
  forall u, In u (remove_diacritics_str s) -> kstable u = true /\ starter u = true.
Proof.
  intros u Hu. rewrite remove_diacritics_str_eq in Hu.
  apply starters_nfkd_parts in Hu. tauto.
Qed.

(** [remove_diacritics] returns a missing value as it is and any other
    value as a text without combining mark or decomposable character; it
    changes no ASCII text, and applying it twice is applying it once.  The
    letter D with stroke is kept. *)
Theorem remove_diacritics_spec :
  (forall v, isna v = true -> remove_diacritics v = v)
  /\ (forall v, isna v = false ->
        exists t, remove_diacritics v = VStr t /\ diacritic_free t = true)
  /\ (forall s, (forall c, In c s -> c < 128) -> remove_diacritics (VStr s) = VStr s)
  /\ (forall v, remove_diacritics (remove_diacritics v) = remove_diacritics v)
  /\ remove_diacritics (VStr [0x110]) = VStr [0x110].
Proof.
  repeat apply conj.
  - intros v H. unfold remove_diacritics. now rewrite H.
  - intros v H. unfold remove_diacritics. rewrite H. eexists. split; [reflexivity |].
    unfold diacritic_free. apply forallb_forall. intros c Hc.
    destruct (remove_diacritics_str_stable _ c Hc) as [-> ->]. reflexivity.
  - intros s Hs. unfold remove_diacritics. cbn [isna py_str]. f_equal.
    rewrite remove_diacritics_str_eq. apply stable_fixpoint_nfkd. intros u Hu.
    pose proof (NormalForms.ascii_plain u (Hs u Hu)) as Hp.
    split; [now apply plain_kstable | now apply plain_starter].
  - intros v. unfold remove_diacritics. destruct (isna v) eqn:E; [now rewrite E |].
    cbn [isna py_str]. f_equal. rewrite (remove_diacritics_str_eq (remove_diacritics_str _)).
    apply stable_fixpoint_nfkd, remove_diacritics_str_stable.
  - vm_compute. reflexivity.
Qed.

Lemma uint_codes_digits (d : Decimal.uint) (c : N) :
  In c (Num.uint_codes d) -> is_upper_word c = true.
Proof.
  induction d; simpl; try tauto; intros [<- | H]; auto.
Qed.

Lemma numbered_is_name (base : pystr) (i : Z) :
  (0 <= i)%Z -> (forall c, In c base -> is_upper_word c = true) ->
  forall c, In c (numbered base i) -> is_upper_word c = true.
Proof.
  intros Hi Hb c Hc. unfold numbered in Hc. apply in_app_or in Hc as [Hc | [<- | Hc]].
  - now apply Hb.
  - reflexivity.
  - destruct i; try lia; now apply uint_codes_digits in Hc.
Qed.

Lemma unique_headers_are_names (columns : list pyval) (h : pystr) :
  In h (unique_headers columns) ->
  h <> [] /\ forall c, In c h -> is_upper_word c = true.
Proof.
  intros Hh. unfold unique_headers in Hh.
  destruct (uniq_from_spec [] (map sanitize_header columns)) as (_ & _ & _ & HF).
  assert (Hex : exists b, In b (map sanitize_header columns) /\ numbered_from b h).
  { revert Hh. induction HF as [| b h' bs hs Hbh HF IH]; [intros [] |].
    intros [<- | Hh]; [exists b; split; [now left | exact Hbh] |].
    destruct (IH Hh) as [b' [Hb' Hn]]. exists b'. split; [now right | exact Hn]. }
  destruct Hex as [b [Hb Hn]]. apply in_map_iff in Hb as [col [<- _]].
  destruct (sanitize_header_name col) as (Hne & Hup).
  destruct Hn as [-> | [i [Hi ->]]]; [auto |]. split.
  - unfold numbered. now destruct (sanitize_header col).
  - apply numbered_is_name; [lia | exact Hup].
Qed.

(** The headers given to a sheet are names: not empty and made of the
    letters A to Z, the digits and the underscore, the numbered ones
    included.  Giving headers to a sheet that already bears them changes
    none: each is sanitized to itself and they are distinct. *)
Theorem unique_headers_stable (columns : list pyval) :
  (forall h, In h (unique_headers columns) ->
     h <> [] /\ forall c, In c h -> is_upper_word c = true)
  /\ unique_headers (map VStr (unique_headers columns)) = unique_headers columns.
Proof.
  split; [intros h; apply unique_headers_are_names |].
  unfold unique_headers at 1. rewrite map_map.
  assert (Hm : map (fun h => sanitize_header (VStr h)) (unique_headers columns)
               = unique_headers columns).
  { assert (H : forall l, (forall h, In h l -> In h (unique_headers columns)) ->
                  map (fun h => sanitize_header (VStr h)) l = l).
    { induction l as [| h l IH]; intros Hl; [reflexivity |]. simpl.
      destruct (unique_headers_are_names _ h (Hl h (or_introl eq_refl))) as [Hn Hu].
      rewrite sanitize_name_fixed by assumption. f_equal.
      apply IH. intros x Hx. apply Hl. now right. }
    apply H. auto. }
  rewrite Hm. apply uniq_from_distinct; [| intros x _ []].
  unfold unique_headers.
  now destruct (uniq_from_spec [] (map sanitize_header columns)) as (_ & H & _).
Qed.

End UniqueFacts.

(** ** The order of rows and of result columns *)

Module RowOrder.
Import UCD Str Spec Processing Aggregator TableFacts GroupFacts DenFacts Totalling.

Lemma existsb_perm {A} (f : A -> bool) (l l' : list A) :
  Permutation l l' -> existsb f l = existsb f l'.
Proof.
  induction 1; simpl; try congruence.
  - now destruct (f x), (f y).
Qed.

Lemma filter_perm {A} (f : A -> bool) (l l' : list A) :
  Permutation l l' -> Permutation (List.filter f l) (List.filter f l').
Proof.
  induction 1; simpl.
  - constructor.
  - destruct (f x); [now constructor | assumption].
  - destruct (f x), (f y); try reflexivity. constructor.
  - etransitivity; eassumption.
Qed.

Lemma totals_ext (a b : Totals) :
  No_DEN1 a = No_DEN1 b -> No_DEN2 a = No_DEN2 b -> No_DEN3 a = No_DEN3 b ->
  No_DEN4 a = No_DEN4 b -> Total_test a = Total_test b -> a = b.
Proof. destruct a, b. simpl. congruence. Qed.

Lemma fold_totals_perm (l l' : list Totals) (t0 : Totals) :
  Permutation l l' -> fold_left totals_add l t0 = fold_left totals_add l' t0.
Proof.
  intros H.
  destruct (fold_totals_add l t0) as (A1 & A2 & A3 & A4 & A5).
  destruct (fold_totals_add l' t0) as (B1 & B2 & B3 & B4 & B5).
  apply totals_ext.
  - rewrite A1, B1. f_equal. apply Zsum_perm. now apply Permutation_map.
  - rewrite A2, B2. f_equal. apply Zsum_perm. now apply Permutation_map.
  - rewrite A3, B3. f_equal. apply Zsum_perm. now apply Permutation_map.
  - rewrite A4, B4. f_equal. apply Zsum_perm. now apply Permutation_map.
  - rewrite A5, B5. f_equal. apply Zsum_perm. now apply Permutation_map.
Qed.

Lemma groupby_sum_perm (rows rows' : list (list pyval * Totals)) :
  Permutation rows rows' -> groupby_sum rows = groupby_sum rows'.
Proof.
  intros H. apply map_eq. intros k. rewrite !lookup_groupby_sum.
  pose proof (filter_perm (fun kt : list pyval * Totals => bool_decide (fst kt = k)) _ _ H)
    as Hf.
  destruct (List.filter _ rows) as [| a l] eqn:E.
  - apply Permutation_nil in Hf. now rewrite Hf.
  - destruct (List.filter _ rows') as [| a' l'] eqn:E'.
    + symmetry in Hf. apply Permutation_nil in Hf. discriminate.
    + f_equal. apply fold_totals_perm. now apply Permutation_map.
Qed.

(** The result of the grouping does not depend on the order of the rows. *)
Theorem aggregate_any_row_order (cols : list pyval) (rows rows' : list (list pyval)) :
  Permutation rows rows' ->
  aggregate {| columns := cols; body := rows |}
  = aggregate {| columns := cols; body := rows' |}.
Proof.
  intros H. unfold aggregate.
  assert (Hg : group_cols {| columns := cols; body := rows |}
               = group_cols {| columns := cols; body := rows' |}).
  { pose proof (existsb_perm (fun v => negb (isna v)) _ _
                  (Permutation_map
                     (fun vals => match row_get cols vals (lbl "district") with
                                  | Some v => v
                                  | None => NaN
                                  end) H)) as He.
    unfold group_cols, get_column. cbn [columns body]. now rewrite He. }
  rewrite Hg. cbn [body]. apply groupby_sum_perm.
  unfold row_key, row_totals, field. cbn [columns].
  now apply Permutation_map.
Qed.

Lemma aggregate_any_row_order_witness :
  aggregate {| columns := columns Examples.three_cases;
               body := rev (body Examples.three_cases) |}
  = aggregate {| columns := columns Examples.three_cases;
                 body := body Examples.three_cases |}.
Proof.
  apply (aggregate_any_row_order (columns Examples.three_cases)
           (rev (body Examples.three_cases)) (body Examples.three_cases)).
  symmetry. apply Permutation_rev.
Defined.

(** The flag of a row depends on the set of result columns only, not on
    their order or repetitions, and a flag that is set stays set when
    columns are added. *)
Theorem detect_den_any_column_order (cols_of_row row cols cols' : list pyval)
    (tok : pystr) :
  ((forall c, In c cols <-> In c cols') ->
   detect_den_from_cols cols_of_row row cols tok
   = detect_den_from_cols cols_of_row row cols' tok)
  /\ (incl cols cols' ->
      detect_den_from_cols cols_of_row row cols tok = true ->
      detect_den_from_cols cols_of_row row cols' tok = true).
Proof.
  assert (Hmono : forall a b, incl a b ->
            detect_den_from_cols cols_of_row row a tok = true ->
            detect_den_from_cols cols_of_row row b tok = true).
  { intros a b Hab H. apply detect_den_spec in H as (c & v & Hc & H).
    apply detect_den_spec. exists c, v. split; [now apply Hab | exact H]. }
  split; [| apply Hmono].
  intros Heq.
  destruct (detect_den_from_cols cols_of_row row cols tok) eqn:E1,
           (detect_den_from_cols cols_of_row row cols' tok) eqn:E2; try reflexivity.
  - rewrite (Hmono cols cols') in E2; [discriminate | intros c; apply Heq | exact E1].
  - rewrite (Hmono cols' cols) in E1; [discriminate | intros c; apply Heq | exact E2].
Qed.

End RowOrder.

